(** * TouchLib: the sensor array controller of [src/TouchLib.h]

    A shallow embedding of the class [TLSensors<N_SENSORS,
    N_MEASUREMENTS_PER_SENSOR>] and of the per-sensor record [TLStruct]:
    the measurement schedule ([addChannel], [initScanOrder]), the EEPROM
    codec ([crcUpdate], [writeSettingsToEeprom], [readSettingsFromEeprom]),
    the running-average filter ([addSample], [updateAvg]), the button state
    machine ([setState], [setForceCalibratingStates], [processSample] and
    the ten [processState...] functions) and one measurement cycle
    ([sample]).

    Conventions.
    - Fixed-width integers are [Z] with the wrap-around written out
      ([to_u8], [to_u16], [to_u32], [to_i32]).  [int] is taken to be 32 bits
      wide, as on the ARM boards the header supports (Teensy 3.x, Particle).
    - A [float] is its IEEE-754 binary32 bit pattern (what [memcpy] between
      a [float] and a [uint32_t] moves); arithmetic on it goes through
      [SpecFloat] with precision 24 and [emax] 128.
    - [data] and [scanOrder] are lists indexed from 0; [N_SENSORS] is the
      length of [data].  An access at an index outside the array has no
      defined behaviour in C++; here such a write changes nothing and such
      a read yields a default.
    - The registered callback [buttonStateChangeCallback] is a notification
      sink: the model keeps whether one is registered and the list of
      calls it received, oldest first.
    - The pseudo-random generator, the clock and the sample methods of the
      sensors are collaborators outside this header; they are the
      interfaces [Random] and [SampleMethods] and the argument [now]. *)

From Stdlib Require Import ZArith List Bool Lia String.
From Stdlib Require Import Floats.SpecFloat.
From stdpp Require Import base list.
Import ListNotations.

#[local] Open Scope Z_scope.

(** ** Machine integers *)

Definition to_u8 (z : Z) : Z := z mod 256.
Definition to_u16 (z : Z) : Z := z mod 65536.
Definition to_u32 (z : Z) : Z := z mod 4294967296.
Definition to_i32 (z : Z) : Z := (z + 2147483648) mod 4294967296 - 2147483648.

(** A C condition on an integer: non-zero is true. *)
Definition nonzero (z : Z) : bool := negb (z =? 0).

(** ** [float]: IEEE-754 binary32 as its bit pattern *)

Module F32.

Definition prec : Z := 24.
Definition emax : Z := 128.

Definition sign_bit (s : bool) : Z := if s then 0x80000000 else 0.

Definition decode (b : Z) : spec_float :=
  let s := Z.testbit b 31 in
  let e := Z.land (Z.shiftr b 23) 0xFF in
  let m := Z.land b 0x7FFFFF in
  if e =? 0 then
    if m =? 0 then S754_zero s else S754_finite s (Z.to_pos m) (-149)
  else if e =? 255 then
    if m =? 0 then S754_infinity s else S754_nan
  else S754_finite s (Z.to_pos (m + 0x800000)) (e - 150).

Definition encode (f : spec_float) : Z :=
  match f with
  | S754_zero s => sign_bit s
  | S754_infinity s => sign_bit s + 0x7F800000
  | S754_nan => 0x7FC00000
  | S754_finite s m e =>
      sign_bit s +
      (if Zpos m <? 0x800000 then Zpos m
       else Z.shiftl (e + 150) 23 + (Zpos m - 0x800000))
  end.

Definition zero : Z := 0.

Definition add (a b : Z) : Z := encode (SFadd prec emax (decode a) (decode b)).
Definition sub (a b : Z) : Z := encode (SFsub prec emax (decode a) (decode b)).
Definition mul (a b : Z) : Z := encode (SFmul prec emax (decode a) (decode b)).
Definition div (a b : Z) : Z := encode (SFdiv prec emax (decode a) (decode b)).

(** [a < b], [a <= b], [a >= b] of C: false when an operand is a NaN. *)
Definition lt (a b : Z) : bool := SFltb (decode a) (decode b).
Definition le (a b : Z) : bool := SFleb (decode a) (decode b).
Definition ge (a b : Z) : bool := SFleb (decode b) (decode a).

(** Conversion of an unsigned integer to [float]. *)
Definition of_uint (n : Z) : Z := encode (binary_normalize prec emax n 0 false).

End F32.

(** The arithmetic is unfolded only on demand. *)
Arguments to_u8 : simpl never.
Arguments to_u16 : simpl never.
Arguments to_u32 : simpl never.
Arguments to_i32 : simpl never.
Arguments F32.add : simpl never.
Arguments F32.sub : simpl never.
Arguments F32.mul : simpl never.
Arguments F32.div : simpl never.
Arguments F32.lt : simpl never.
Arguments F32.le : simpl never.
Arguments F32.ge : simpl never.
Arguments F32.of_uint : simpl never.

(** ** The enumerations of [TLStruct] *)

Inductive ButtonState : Set :=
| buttonStatePreCalibrating
| buttonStateCalibrating
| buttonStateNoisePowerMeasurement
| buttonStateReleased
| buttonStateReleasedToApproached
| buttonStateApproached
| buttonStateApproachedToPressed
| buttonStateApproachedToReleased
| buttonStatePressed
| buttonStatePressedToApproached
| buttonStateMax.

Definition ButtonState_value (s : ButtonState) : Z :=
  match s with
  | buttonStatePreCalibrating => 0
  | buttonStateCalibrating => 1
  | buttonStateNoisePowerMeasurement => 2
  | buttonStateReleased => 3
  | buttonStateReleasedToApproached => 4
  | buttonStateApproached => 5
  | buttonStateApproachedToPressed => 6
  | buttonStateApproachedToReleased => 7
  | buttonStatePressed => 8
  | buttonStatePressedToApproached => 9
  | buttonStateMax => 10
  end.

Definition ButtonState_eqb (a b : ButtonState) : bool :=
  ButtonState_value a =? ButtonState_value b.

Inductive Direction : Set := directionNegative | directionPositive.

Inductive SampleType : Set :=
| sampleTypeNormal
| sampleTypeInverted
| sampleTypeDifferential.

Definition SampleType_value (t : SampleType) : Z :=
  match t with
  | sampleTypeNormal => 1
  | sampleTypeInverted => 2
  | sampleTypeDifferential => 3
  end.

Definition buttonStateLabels (s : ButtonState) : string :=
  match s with
  | buttonStatePreCalibrating => "PreCalibrating"
  | buttonStateCalibrating => "Calibrating"
  | buttonStateNoisePowerMeasurement => "NoisePowerMeasurement"
  | buttonStateReleased => "Released"
  | buttonStateReleasedToApproached => "ReleasedToApproached"
  | buttonStateApproached => "Approached"
  | buttonStateApproachedToPressed => "ApproachedToPressed"
  | buttonStateApproachedToReleased => "ApproachedToReleased"
  | buttonStatePressed => "Pressed"
  | buttonStatePressedToApproached => "PressedToApproached"
  | buttonStateMax => "Invalid"
  end%string.

(** ** [struct TLStruct]

    The members this header reads or writes.  The members only the sample
    methods use ([pin], [referenceValue], [scaleFactor], the union
    [tlStructSampleMethod], ...) and the function pointers (see
    [SampleMethods]) are left out. *)

Record TLStruct : Type := {
  direction : Direction;
  sampleType : SampleType;
  releasedToApproachedThreshold : Z;
  approachedToReleasedThreshold : Z;
  approachedToPressedThreshold : Z;
  pressedToApproachedThreshold : Z;
  releasedToApproachedTime : Z;
  approachedToReleasedTime : Z;
  approachedToPressedTime : Z;
  pressedToApproachedTime : Z;
  enableSlewrateLimiter : bool;
  preCalibrationTime : Z;
  calibrationTime : Z;
  approachedTimeout : Z;
  pressedTimeout : Z;
  filterCoeff : Z;
  forceCalibrationWhenReleasingFromApproached : Z;
  forceCalibrationWhenApproachingFromReleased : Z;
  forceCalibrationWhenApproachingFromPressed : Z;
  forceCalibrationWhenPressing : Z;
  setOffsetValueManually : bool;
  disableUpdateIfAnyButtonIsApproached : bool;
  disableUpdateIfAnyButtonIsPressed : bool;
  offsetValue : Z;
  enableTouchStateMachine : bool;
  enableNoisePowerMeasurement : bool;
  sensor_nMeasurementsPerSensor : Z;
  raw : Z;
  value : Z;
  avg : Z;
  delta : Z;
  maxDelta : Z;
  noisePower : Z;
  buttonState : ButtonState;
  buttonStateLabel : string;
  buttonIsCalibrating : bool;
  buttonIsReleased : bool;
  buttonIsApproached : bool;
  buttonIsPressed : bool;
  forcedCal : bool;
  counter : Z;
  noiseCounter : Z;
  lastSampledAtTime : Z;
  stateChangedAtTime : Z;
  slewrateFirstSample : bool;
  stateIsBeingChanged : bool
}.

Definition eta_TLStruct (d : TLStruct) : TLStruct :=
  {| direction := direction d;
     sampleType := sampleType d;
     releasedToApproachedThreshold := releasedToApproachedThreshold d;
     approachedToReleasedThreshold := approachedToReleasedThreshold d;
     approachedToPressedThreshold := approachedToPressedThreshold d;
     pressedToApproachedThreshold := pressedToApproachedThreshold d;
     releasedToApproachedTime := releasedToApproachedTime d;
     approachedToReleasedTime := approachedToReleasedTime d;
     approachedToPressedTime := approachedToPressedTime d;
     pressedToApproachedTime := pressedToApproachedTime d;
     enableSlewrateLimiter := enableSlewrateLimiter d;
     preCalibrationTime := preCalibrationTime d;
     calibrationTime := calibrationTime d;
     approachedTimeout := approachedTimeout d;
     pressedTimeout := pressedTimeout d;
     filterCoeff := filterCoeff d;
     forceCalibrationWhenReleasingFromApproached :=
       forceCalibrationWhenReleasingFromApproached d;
     forceCalibrationWhenApproachingFromReleased :=
       forceCalibrationWhenApproachingFromReleased d;
     forceCalibrationWhenApproachingFromPressed :=
       forceCalibrationWhenApproachingFromPressed d;
     forceCalibrationWhenPressing := forceCalibrationWhenPressing d;
     setOffsetValueManually := setOffsetValueManually d;
     disableUpdateIfAnyButtonIsApproached :=
       disableUpdateIfAnyButtonIsApproached d;
     disableUpdateIfAnyButtonIsPressed := disableUpdateIfAnyButtonIsPressed d;
     offsetValue := offsetValue d;
     enableTouchStateMachine := enableTouchStateMachine d;
     enableNoisePowerMeasurement := enableNoisePowerMeasurement d;
     sensor_nMeasurementsPerSensor := sensor_nMeasurementsPerSensor d;
     raw := raw d;
     value := value d;
     avg := avg d;
     delta := delta d;
     maxDelta := maxDelta d;
     noisePower := noisePower d;
     buttonState := buttonState d;
     buttonStateLabel := buttonStateLabel d;
     buttonIsCalibrating := buttonIsCalibrating d;
     buttonIsReleased := buttonIsReleased d;
     buttonIsApproached := buttonIsApproached d;
     buttonIsPressed := buttonIsPressed d;
     forcedCal := forcedCal d;
     counter := counter d;
     noiseCounter := noiseCounter d;
     lastSampledAtTime := lastSampledAtTime d;
     stateChangedAtTime := stateChangedAtTime d;
     slewrateFirstSample := slewrateFirstSample d;
     stateIsBeingChanged := stateIsBeingChanged d |}.

(** An assignment [r.member = v]: the record [eta r] rebuilt member by
    member, with [v] in the place of [member r]. *)
Ltac assign eta member r v :=
  let whole := eval cbv beta delta [eta] in (eta r) in
  match eval pattern (member r) in whole with
  | ?rebuild _ => let res := eval cbv beta in (rebuild v) in exact res
  end.

(** The assignments to the members of a sensor record. *)

Definition set_releasedToApproachedThreshold (v : Z) (d : TLStruct) : TLStruct :=
  ltac:(assign eta_TLStruct releasedToApproachedThreshold d v).

Definition set_approachedToReleasedThreshold (v : Z) (d : TLStruct) : TLStruct :=
  ltac:(assign eta_TLStruct approachedToReleasedThreshold d v).

Definition set_approachedToPressedThreshold (v : Z) (d : TLStruct) : TLStruct :=
  ltac:(assign eta_TLStruct approachedToPressedThreshold d v).

Definition set_pressedToApproachedThreshold (v : Z) (d : TLStruct) : TLStruct :=
  ltac:(assign eta_TLStruct pressedToApproachedThreshold d v).

Definition set_releasedToApproachedTime (v : Z) (d : TLStruct) : TLStruct :=
  ltac:(assign eta_TLStruct releasedToApproachedTime d v).

Definition set_approachedToReleasedTime (v : Z) (d : TLStruct) : TLStruct :=
  ltac:(assign eta_TLStruct approachedToReleasedTime d v).

Definition set_approachedToPressedTime (v : Z) (d : TLStruct) : TLStruct :=
  ltac:(assign eta_TLStruct approachedToPressedTime d v).

Definition set_pressedToApproachedTime (v : Z) (d : TLStruct) : TLStruct :=
  ltac:(assign eta_TLStruct pressedToApproachedTime d v).

Definition set_enableSlewrateLimiter (v : bool) (d : TLStruct) : TLStruct :=
  ltac:(assign eta_TLStruct enableSlewrateLimiter d v).

Definition set_preCalibrationTime (v : Z) (d : TLStruct) : TLStruct :=
  ltac:(assign eta_TLStruct preCalibrationTime d v).

Definition set_calibrationTime (v : Z) (d : TLStruct) : TLStruct :=
  ltac:(assign eta_TLStruct calibrationTime d v).

Definition set_approachedTimeout (v : Z) (d : TLStruct) : TLStruct :=
  ltac:(assign eta_TLStruct approachedTimeout d v).

Definition set_pressedTimeout (v : Z) (d : TLStruct) : TLStruct :=
  ltac:(assign eta_TLStruct pressedTimeout d v).

Definition set_filterCoeff (v : Z) (d : TLStruct) : TLStruct :=
  ltac:(assign eta_TLStruct filterCoeff d v).

Definition set_forceCalibrationWhenReleasingFromApproached (v : Z) (d : TLStruct) : TLStruct :=
  ltac:(assign eta_TLStruct forceCalibrationWhenReleasingFromApproached d v).

Definition set_forceCalibrationWhenApproachingFromReleased (v : Z) (d : TLStruct) : TLStruct :=
  ltac:(assign eta_TLStruct forceCalibrationWhenApproachingFromReleased d v).

Definition set_forceCalibrationWhenApproachingFromPressed (v : Z) (d : TLStruct) : TLStruct :=
  ltac:(assign eta_TLStruct forceCalibrationWhenApproachingFromPressed d v).

Definition set_forceCalibrationWhenPressing (v : Z) (d : TLStruct) : TLStruct :=
  ltac:(assign eta_TLStruct forceCalibrationWhenPressing d v).

Definition set_disableUpdateIfAnyButtonIsApproached (v : bool) (d : TLStruct) : TLStruct :=
  ltac:(assign eta_TLStruct disableUpdateIfAnyButtonIsApproached d v).

Definition set_disableUpdateIfAnyButtonIsPressed (v : bool) (d : TLStruct) : TLStruct :=
  ltac:(assign eta_TLStruct disableUpdateIfAnyButtonIsPressed d v).

Definition set_offsetValue (v : Z) (d : TLStruct) : TLStruct :=
  ltac:(assign eta_TLStruct offsetValue d v).

Definition set_enableTouchStateMachine (v : bool) (d : TLStruct) : TLStruct :=
  ltac:(assign eta_TLStruct enableTouchStateMachine d v).

Definition set_enableNoisePowerMeasurement (v : bool) (d : TLStruct) : TLStruct :=
  ltac:(assign eta_TLStruct enableNoisePowerMeasurement d v).

Definition set_sensor_nMeasurementsPerSensor (v : Z) (d : TLStruct) : TLStruct :=
  ltac:(assign eta_TLStruct sensor_nMeasurementsPerSensor d v).

Definition set_raw (v : Z) (d : TLStruct) : TLStruct :=
  ltac:(assign eta_TLStruct raw d v).

Definition set_value (v : Z) (d : TLStruct) : TLStruct :=
  ltac:(assign eta_TLStruct value d v).

Definition set_avg (v : Z) (d : TLStruct) : TLStruct :=
  ltac:(assign eta_TLStruct avg d v).

Definition set_delta (v : Z) (d : TLStruct) : TLStruct :=
  ltac:(assign eta_TLStruct delta d v).

Definition set_maxDelta (v : Z) (d : TLStruct) : TLStruct :=
  ltac:(assign eta_TLStruct maxDelta d v).

Definition set_noisePower (v : Z) (d : TLStruct) : TLStruct :=
  ltac:(assign eta_TLStruct noisePower d v).

Definition set_buttonState (v : ButtonState) (d : TLStruct) : TLStruct :=
  ltac:(assign eta_TLStruct buttonState d v).

Definition set_buttonStateLabel (v : string) (d : TLStruct) : TLStruct :=
  ltac:(assign eta_TLStruct buttonStateLabel d v).

Definition set_buttonIsCalibrating (v : bool) (d : TLStruct) : TLStruct :=
  ltac:(assign eta_TLStruct buttonIsCalibrating d v).

Definition set_buttonIsReleased (v : bool) (d : TLStruct) : TLStruct :=
  ltac:(assign eta_TLStruct buttonIsReleased d v).

Definition set_buttonIsApproached (v : bool) (d : TLStruct) : TLStruct :=
  ltac:(assign eta_TLStruct buttonIsApproached d v).

Definition set_buttonIsPressed (v : bool) (d : TLStruct) : TLStruct :=
  ltac:(assign eta_TLStruct buttonIsPressed d v).

Definition set_forcedCal (v : bool) (d : TLStruct) : TLStruct :=
  ltac:(assign eta_TLStruct forcedCal d v).

Definition set_counter (v : Z) (d : TLStruct) : TLStruct :=
  ltac:(assign eta_TLStruct counter d v).

Definition set_noiseCounter (v : Z) (d : TLStruct) : TLStruct :=
  ltac:(assign eta_TLStruct noiseCounter d v).

Definition set_lastSampledAtTime (v : Z) (d : TLStruct) : TLStruct :=
  ltac:(assign eta_TLStruct lastSampledAtTime d v).

Definition set_stateChangedAtTime (v : Z) (d : TLStruct) : TLStruct :=
  ltac:(assign eta_TLStruct stateChangedAtTime d v).

Definition set_slewrateFirstSample (v : bool) (d : TLStruct) : TLStruct :=
  ltac:(assign eta_TLStruct slewrateFirstSample d v).

Definition set_stateIsBeingChanged (v : bool) (d : TLStruct) : TLStruct :=
  ltac:(assign eta_TLStruct stateIsBeingChanged d v).

(** ** [class TLSensors]

    [buttonStateChangeCallback] is [true] when a callback is registered
    (the pointer is not [NULL]); [notifications] lists the calls made to
    it, oldest first, each with its arguments [(ch, oldState, newState)]. *)

Record TLSensors : Type := {
  data : list TLStruct;
  nSensors : Z;
  enableReadSettingsFromEeprom : bool;
  eepromOffset : Z;
  scanOrder : list Z;
  nMeasurementsPerSensor : Z;
  error : Z;
  buttonStateChangeCallback : bool;
  notifications : list (Z * ButtonState * ButtonState);
  useCustomScanOrder : bool;
  anyButtonIsApproached : bool;
  anyButtonIsPressed : bool
}.

Definition eta_TLSensors (c : TLSensors) : TLSensors :=
  {| data := data c;
     nSensors := nSensors c;
     enableReadSettingsFromEeprom := enableReadSettingsFromEeprom c;
     eepromOffset := eepromOffset c;
     scanOrder := scanOrder c;
     nMeasurementsPerSensor := nMeasurementsPerSensor c;
     error := error c;
     buttonStateChangeCallback := buttonStateChangeCallback c;
     notifications := notifications c;
     useCustomScanOrder := useCustomScanOrder c;
     anyButtonIsApproached := anyButtonIsApproached c;
     anyButtonIsPressed := anyButtonIsPressed c |}.

Definition set_data (v : list TLStruct) (c : TLSensors) : TLSensors :=
  ltac:(assign eta_TLSensors data c v).

Definition set_nSensors (v : Z) (c : TLSensors) : TLSensors :=
  ltac:(assign eta_TLSensors nSensors c v).

Definition set_enableReadSettingsFromEeprom (v : bool) (c : TLSensors) : TLSensors :=
  ltac:(assign eta_TLSensors enableReadSettingsFromEeprom c v).

Definition set_eepromOffset (v : Z) (c : TLSensors) : TLSensors :=
  ltac:(assign eta_TLSensors eepromOffset c v).

Definition set_scanOrder (v : list Z) (c : TLSensors) : TLSensors :=
  ltac:(assign eta_TLSensors scanOrder c v).

Definition set_nMeasurementsPerSensor (v : Z) (c : TLSensors) : TLSensors :=
  ltac:(assign eta_TLSensors nMeasurementsPerSensor c v).

Definition set_error (v : Z) (c : TLSensors) : TLSensors :=
  ltac:(assign eta_TLSensors error c v).

Definition set_buttonStateChangeCallback (v : bool) (c : TLSensors) : TLSensors :=
  ltac:(assign eta_TLSensors buttonStateChangeCallback c v).

Definition set_notifications (v : list (Z * ButtonState * ButtonState)) (c : TLSensors) : TLSensors :=
  ltac:(assign eta_TLSensors notifications c v).

Definition set_useCustomScanOrder (v : bool) (c : TLSensors) : TLSensors :=
  ltac:(assign eta_TLSensors useCustomScanOrder c v).

Definition set_anyButtonIsApproached (v : bool) (c : TLSensors) : TLSensors :=
  ltac:(assign eta_TLSensors anyButtonIsApproached c v).

Definition set_anyButtonIsPressed (v : bool) (c : TLSensors) : TLSensors :=
  ltac:(assign eta_TLSensors anyButtonIsPressed c v).

(** The template parameter [N_SENSORS]: the size of the array [data]. *)
Definition N_SENSORS (c : TLSensors) : Z := Z.of_nat (length (data c)).

(** [data[n]], and a change [f] made through a pointer to [data[n]]. *)
Definition sensor (c : TLSensors) (n : Z) : option TLStruct :=
  if n <? 0 then None else data c !! Z.to_nat n.

Definition update_sensor (n : Z) (f : TLStruct -> TLStruct) (c : TLSensors)
  : TLSensors :=
  if n <? 0 then c else set_data (alter f (Z.to_nat n) (data c)) c.

(** [for (i = 0; i < n; i++) body]: the body runs for [i = 0], ...,
    [i = n - 1] in this order ([n] given as the number of rounds). *)
Fixpoint for_upto {S : Type} (rounds : nat) (body : Z -> S -> S) (s : S) : S :=
  match rounds with
  | O => s
  | Datatypes.S k => body (Z.of_nat k) (for_upto k body s)
  end.

Definition for_loop {S : Type} (n : Z) (body : Z -> S -> S) (s : S) : S :=
  for_upto (Z.to_nat n) body s.

(** ** Constants *)

Definition TL_RELEASED_TO_APPROACHED_TIME_DEFAULT : Z := 10.
Definition TL_APPROACHED_TO_RELEASED_TIME_DEFAULT : Z := 10.
Definition TL_APPROACHED_TO_PRESSED_TIME_DEFAULT : Z := 10.
Definition TL_PRESSED_TO_APPROACHED_TIME_DEFAULT : Z := 10.
Definition TL_ENABLE_SLEWRATE_LIMITER_DEFAULT : bool := false.
Definition TL_PRE_CALIBRATION_TIME_DEFAULT : Z := 100.
Definition TL_CALIBRATION_TIME_DEFAULT : Z := 500.
Definition TL_FILTER_COEFF_DEFAULT : Z := 16.
Definition TL_APPROACHED_TIMEOUT_DEFAULT : Z := 300000.
Definition TL_PRESSED_TIMEOUT_DEFAULT : Z := TL_APPROACHED_TIMEOUT_DEFAULT.
Definition TL_FORCE_CALIBRATION_WHEN_RELEASING_FROM_APPROACHED_DEFAULT : Z := 0.
Definition TL_FORCE_CALIBRATION_WHEN_APPROACHING_FROM_RELEASED_DEFAULT : Z := 0.
Definition TL_FORCE_CALIBRATION_WHEN_APPROACHING_FROM_PRESSED_DEFAULT : Z := 0.
Definition TL_FORCE_CALIBRATION_WHEN_PRESSING_DEFAULT : Z := 0.
Definition TL_USE_CUSTOM_SCAN_ORDER_DEFAULT : bool := false.
Definition TL_ENABLE_TOUCH_STATE_MACHINE_DEFAULT : bool := true.
Definition TL_ENABLE_NOISE_POWER_MEASUREMENT_DEFAULT : bool := false.
Definition TL_DISABLE_UPDATE_IF_ANY_BUTTON_IS_APPROACHED_DEFAULT : bool := false.
Definition TL_DISABLE_UPDATE_IF_ANY_BUTTON_IS_PRESSED_DEFAULT : bool := false.
(** The header is modelled with [EEPROM_h] defined. *)
Definition TL_ENABLE_READ_SETTINGS_FROM_EEPROM_DEFAULT : bool := true.
Definition TL_EEPROM_OFFSET_DEFAULT : Z := 0.
Definition TL_EEPROM_KEY : Z := 0xC7.
Definition TL_EEPROM_FORMAT_VERSION : Z := 0.
Definition TL_EEPROM_FORMAT_MASK : Z := 0x7.
Definition TL_EEPROM_FORMAT_SHIFT : Z := 5.
Definition TL_EEPROM_N_SENSORS_MASK : Z := 0x1F.
Definition TL_EEPROM_N_SENSORS_SHIFT : Z := 0.
Definition TL_EEPROM_CONFIG_ENABLE_SLEWRATE_LIMITER : Z := 0x80.
Definition TL_EEPROM_N_BYTES_OVERHEAD : Z := 1 + 1 + 1 + 2.
Definition sizeof_float : Z := 4.

(** ** Collaborators outside the header *)

(** Arduino's [randomSeed(seed)] and [random(howsmall, howbig)], threading
    the generator's state. *)
Class Random : Type := {
  generator : Type;
  randomSeed : Z -> generator -> generator;
  random : Z -> Z -> generator -> Z * generator
}.

(** What [random] promises: a value in [[howsmall, howbig)]. *)
Definition random_in_range (R : Random) : Prop :=
  forall lo hi g, lo < hi -> lo <= fst (random lo hi g) < hi.

(** The sample method of the sensors ([TLSampleMethodCVD] and the like): the
    initialisation [sampleMethod(data, nSensors, ch)] and, for each channel,
    the function pointers it installs, [None] for [NULL].  Each of them
    receives the whole array [data] and may change it. *)
Class SampleMethods : Type := {
  sampleMethod : list TLStruct -> Z -> Z -> Z * list TLStruct;
  sampleMethodPreSample : Z -> option (list TLStruct -> Z -> list TLStruct);
  sampleMethodSample :
    Z -> option (list TLStruct -> Z -> bool -> Z * list TLStruct);
  sampleMethodPostSample : Z -> option (list TLStruct -> Z -> list TLStruct)
}.

(** ** The measurement schedule *)

(** The probing loop of [addChannel], from index [n] with [rounds] rounds
    left: the first slot [(n + r) % length] holding 255 receives [ch]. *)
Fixpoint addChannel_probe (rounds : nat) (n r length ch : Z) (so : list Z)
  : list Z * Z :=
  match rounds with
  | O => (so, -1)
  | Datatypes.S k =>
      let pos := to_u16 (Z.rem (n + r) length) in
      if default 0 (so !! Z.to_nat pos) =? 255
      then (<[Z.to_nat pos := ch]> so, 0)
      else addChannel_probe k (to_u16 (n + 1)) r length ch so
  end.

Definition addChannel `{Random} (ch : Z) (st : generator * TLSensors)
  : generator * TLSensors :=
  let '(g, c) := st in
  let length := to_u16 (nSensors c * nMeasurementsPerSensor c) in
  let '(r, g) := random 0 length g in
  let '(so, err) :=
    addChannel_probe (Z.to_nat length) 0 r length ch (scanOrder c) in
  (g, set_error err (set_scanOrder so c)).

Definition initScanOrder `{Random} (st : generator * TLSensors)
  : generator * TLSensors :=
  let '(g, c) := st in
  let length := to_u16 (nSensors c * nMeasurementsPerSensor c) in
  let c :=
    for_loop length
      (fun pos c => set_scanOrder (<[Z.to_nat pos := 255]> (scanOrder c)) c) c in
  let g := randomSeed (nMeasurementsPerSensor c) g in
  for_loop (nMeasurementsPerSensor c)
    (fun _ st => for_loop (nSensors (snd st)) (fun n st => addChannel n st) st)
    (g, c).

(** The slots [sample] visits: the first [nSensors * nMeasurementsPerSensor]
    entries of [scanOrder]. *)
Definition schedule (c : TLSensors) : list Z :=
  take (Z.to_nat (to_u16 (nSensors c * nMeasurementsPerSensor c))) (scanOrder c).

(** ** The EEPROM codec *)

Definition crcUpdate (crc c : Z) : Z :=
  let round (crc i : Z) : Z :=
    let bit := nonzero (Z.land crc 0x8000) in
    let bit := if nonzero (Z.land c i) then negb bit else bit in
    let crc := to_u16 (Z.shiftl crc 1) in
    if bit then Z.lxor crc 0x1021 else crc in
  let crc := fold_left round [0x80; 0x40; 0x20; 0x10; 0x08; 0x04; 0x02; 0x01] crc in
  let crc := Z.land crc 0xffff in
  Z.land crc 0xffff.

Arguments crcUpdate : simpl never.

(** The byte store: cell [addr] for [0 <= addr <= E2END].  A read outside
    the store yields [0xFF] and a write there is lost. *)
Definition EEPROM : Type := list Z.

Definition EEPROM_read (e : EEPROM) (addr : Z) : Z :=
  if addr <? 0 then 0xFF else default 0xFF (e !! Z.to_nat addr).

Definition EEPROM_write (e : EEPROM) (addr b : Z) : EEPROM :=
  if addr <? 0 then e else <[Z.to_nat addr := b]> e.

(** [E2END + 1], returned as a [uint16_t]. *)
Definition EEPROM_length (e : EEPROM) : Z := to_u16 (Z.of_nat (length e)).

Definition EEPROM_update (e : EEPROM) (addr b : Z) : EEPROM :=
  if negb (EEPROM_read e addr =? b) then EEPROM_write e addr b else e.

(** [readFloatFromEeprom(&addr, &crc)]: the result is the float, the new
    [addr] and the new [crc]. *)
Definition readFloatFromEeprom (e : EEPROM) (addr crc : Z) : Z * Z * Z :=
  fold_left
    (fun '(i, addr, crc) k =>
       let tmp := EEPROM_read e addr in
       let crc := crcUpdate crc tmp in
       let addr := addr + 1 in
       (Z.lor i (to_u32 (Z.shiftl tmp (Z.shiftl (k - 1) 3))), addr, crc))
    [4; 3; 2; 1] (0, addr, crc).

(** [writeFloatToEeprom(f, &addr, &crc)]. *)
Definition writeFloatToEeprom (f : Z) (st : EEPROM * Z * Z) : EEPROM * Z * Z :=
  fold_left
    (fun '(e, addr, crc) k =>
       let tmp := Z.land (Z.shiftr f (Z.shiftl (k - 1) 3)) 0xFF in
       let crc := crcUpdate crc tmp in
       let e := EEPROM_update e addr tmp in
       (e, addr + 1, crc))
    [4; 3; 2; 1] st.

(** [readSensorSettingFromEeprom(n, &addr, &crc, applySettings)]. *)
Definition readSensorSettingFromEeprom (e : EEPROM) (n : Z)
  (applySettings : bool) (st : TLSensors * Z * Z) : TLSensors * Z * Z :=
  let '(c, addr, crc) := st in
  if applySettings then
    let '(f, addr, crc) := readFloatFromEeprom e addr crc in
    let c := update_sensor n (set_releasedToApproachedThreshold f) c in
    let '(f, addr, crc) := readFloatFromEeprom e addr crc in
    let c := update_sensor n (set_approachedToReleasedThreshold f) c in
    let '(f, addr, crc) := readFloatFromEeprom e addr crc in
    let c := update_sensor n (set_approachedToPressedThreshold f) c in
    let '(f, addr, crc) := readFloatFromEeprom e addr crc in
    let c := update_sensor n (set_pressedToApproachedThreshold f) c in
    (c, addr, crc)
  else
    let '(_, addr, crc) := readFloatFromEeprom e addr crc in
    let '(_, addr, crc) := readFloatFromEeprom e addr crc in
    let '(_, addr, crc) := readFloatFromEeprom e addr crc in
    let '(_, addr, crc) := readFloatFromEeprom e addr crc in
    (c, addr, crc).

(** [writeSensorSettingToEeprom(n, &addr, &crc)]; [data[n]] read outside the
    array yields nothing to write. *)
Definition writeSensorSettingToEeprom (c : TLSensors) (n : Z)
  (st : EEPROM * Z * Z) : EEPROM * Z * Z :=
  match sensor c n with
  | None => st
  | Some d =>
      let st := writeFloatToEeprom (releasedToApproachedThreshold d) st in
      let st := writeFloatToEeprom (approachedToReleasedThreshold d) st in
      let st := writeFloatToEeprom (approachedToPressedThreshold d) st in
      writeFloatToEeprom (pressedToApproachedThreshold d) st
  end.

Definition eepromSizeRequired (c : TLSensors) : Z :=
  to_u16 (nSensors c * 4 * sizeof_float + TL_EEPROM_N_BYTES_OVERHEAD).

(** The two capacity checks that open both [writeSettingsToEeprom] and
    [readSettingsFromEeprom]. *)
Definition check_capacity (e : EEPROM) (c : TLSensors) : TLSensors :=
  let c :=
    if negb (Z.land (nSensors c - 1) TL_EEPROM_N_SENSORS_MASK =? nSensors c - 1)
    then set_error (-28) c else c in
  if eepromOffset c + eepromSizeRequired c >? EEPROM_length e
  then set_error (-28) c else c.

Definition writeSettingsToEeprom (c : TLSensors) (e : EEPROM)
  : TLSensors * EEPROM :=
  let addr := eepromOffset c in
  let crc := 0 in
  let c := check_capacity e c in
  let tmp := EEPROM_read e addr in
  let c :=
    if (error c =? 0) && negb (tmp =? TL_EEPROM_KEY) && negb (tmp =? 0xFF)
    then set_error (-5) c else c in
  if error c =? 0 then
    let tmp := TL_EEPROM_KEY in
    let e := EEPROM_update e addr tmp in
    let addr := addr + 1 in
    let crc := crcUpdate crc tmp in
    let tmp :=
      to_u8 (Z.lor (Z.shiftl TL_EEPROM_FORMAT_VERSION TL_EEPROM_FORMAT_SHIFT)
               (Z.shiftl (Z.land (nSensors c - 1) TL_EEPROM_N_SENSORS_MASK)
                  TL_EEPROM_N_SENSORS_SHIFT)) in
    let e := EEPROM_update e addr tmp in
    let addr := addr + 1 in
    let crc := crcUpdate crc tmp in
    let '(e, addr, crc) :=
      for_loop (nSensors c) (fun n st => writeSensorSettingToEeprom c n st)
        (e, addr, crc) in
    let e := EEPROM_update e addr (Z.land (Z.shiftr crc 8) 0xFF) in
    let addr := addr + 1 in
    let e := EEPROM_update e addr (Z.land crc 0xFF) in
    (c, e)
  else (c, e).

Definition readSettingsFromEeprom (e : EEPROM) (c : TLSensors) : TLSensors :=
  let addr := eepromOffset c in
  let crc := 0 in
  let c := check_capacity e c in
  let tmp := EEPROM_read e addr in
  let addr := addr + 1 in
  let crc := crcUpdate crc tmp in
  let c :=
    if (error c =? 0) && negb (tmp =? TL_EEPROM_KEY)
    then set_error (-5) c else c in
  if error c =? 0 then
    let tmp := EEPROM_read e addr in
    let addr := addr + 1 in
    let crc := crcUpdate crc tmp in
    let formatVersion :=
      Z.land (Z.shiftr tmp TL_EEPROM_FORMAT_SHIFT) TL_EEPROM_FORMAT_MASK in
    let nSensorsEeprom :=
      to_u8 (Z.land (Z.shiftr tmp TL_EEPROM_N_SENSORS_SHIFT)
               TL_EEPROM_N_SENSORS_MASK + 1) in
    let config := EEPROM_read e addr in
    let addr := addr + 1 in
    let crc := crcUpdate crc tmp in
    let c :=
      if negb (formatVersion =? TL_EEPROM_FORMAT_VERSION)
      then set_error (-5) c else c in
    let c :=
      if negb (nSensorsEeprom =? nSensors c) then set_error (-5) c else c in
    if error c =? 0 then
      let tmpAddr := addr in
      (* First do a dummy read since we haven't verified CRC yet *)
      let '(c, addr, crc) :=
        for_loop (nSensors c)
          (fun n st => readSensorSettingFromEeprom e n false st)
          (c, addr, crc) in
      let tmp := EEPROM_read e addr in
      let addr := addr + 1 in
      let crcEeprom := to_u16 (Z.shiftl tmp 8) in
      let tmp := EEPROM_read e addr in
      let crcEeprom := Z.lor crcEeprom tmp in
      let c := if negb (crc =? crcEeprom) then set_error (-5) c else c in
      if error c =? 0 then
        let addr := tmpAddr in
        (* CRC is valid; read again but now do apply settings *)
        let '(c, _, _) :=
          for_loop (nSensors c)
            (fun n st => readSensorSettingFromEeprom e n true st)
            (c, addr, crc) in
        (* Apply settings from config *)
        let b :=
          nonzero (Z.land config TL_EEPROM_CONFIG_ENABLE_SLEWRATE_LIMITER) in
        for_loop (nSensors c)
          (fun n c => update_sensor n (set_enableSlewrateLimiter b) c) c
      else c
    else c
  else c.

(** ** The running-average filter *)

Definition addSample (ch sample : Z) (c : TLSensors) : TLSensors :=
  update_sensor ch
    (fun d =>
       if enableSlewrateLimiter d then
         if slewrateFirstSample d then
           set_slewrateFirstSample false (set_raw sample d)
         else
           let d := if sample >? raw d then set_raw (to_i32 (raw d + 1)) d else d in
           if sample <? raw d then set_raw (to_i32 (raw d - 1)) d else d
       else set_raw (to_i32 (raw d + sample)) d)
    c.

Definition isCalibrating (d : TLStruct) : bool :=
  ButtonState_value (buttonState d)
  <=? ButtonState_value buttonStateNoisePowerMeasurement.

Definition isReleased (d : TLStruct) : bool :=
  F32.le (delta d) (approachedToReleasedThreshold d).

Definition isApproached (d : TLStruct) : bool :=
  F32.ge (delta d) (releasedToApproachedThreshold d).

Definition isPressed (d : TLStruct) : bool :=
  F32.ge (delta d) (approachedToPressedThreshold d).

Definition anyButtonIsCalibrating (c : TLSensors) : bool :=
  existsb isCalibrating (data c).

(** The assignments of [updateAvg] to [*d], past its two early returns. *)
Definition updateAvg_assign (d : TLStruct) : TLStruct :=
  let d :=
    set_avg
      (F32.div (F32.add (F32.mul (F32.of_uint (counter d)) (avg d)) (value d))
         (F32.of_uint (to_u32 (counter d + 1)))) d in
  (* Only perform noise measurement when not calibrating any more *)
  let d :=
    if enableNoisePowerMeasurement d
       && (ButtonState_value (buttonState d)
           >? ButtonState_value buttonStateCalibrating)
    then
      let s := F32.mul (delta d) (delta d) in
      let d :=
        set_noisePower
          (F32.div
             (F32.add (F32.mul (F32.of_uint (noiseCounter d)) (noisePower d)) s)
             (F32.of_uint (to_u32 (noiseCounter d + 1)))) d in
      if noiseCounter d <? to_u32 (filterCoeff d - 1)
      then set_noiseCounter (to_u32 (noiseCounter d + 1)) d else d
    else d in
  if counter d <? to_u32 (filterCoeff d - 1)
  then set_counter (to_u32 (counter d + 1)) d else d.

Definition updateAvg (ch : Z) (c : TLSensors) : TLSensors :=
  match sensor c ch with
  | None => c
  | Some d =>
      let pastCalibration :=
        ButtonState_value (buttonState d)
        >=? ButtonState_value buttonStateReleased in
      if negb (forcedCal d) && pastCalibration
         && (disableUpdateIfAnyButtonIsApproached d && anyButtonIsApproached c)
      then c
      else if negb (forcedCal d) && pastCalibration
              && (disableUpdateIfAnyButtonIsPressed d && anyButtonIsPressed c)
      then c
      else update_sensor ch updateAvg_assign c
  end.

(** ** The button state machine *)

Definition checkForMajorChange (oldState newState : ButtonState) : bool :=
  let majorChange := false in
  let majorChange :=
    if ButtonState_eqb newState buttonStatePreCalibrating
    then true else majorChange in
  let majorChange :=
    if ButtonState_eqb newState buttonStateCalibrating
       && negb (ButtonState_eqb oldState buttonStatePreCalibrating)
    then true else majorChange in
  let majorChange :=
    if ButtonState_eqb newState buttonStateReleased
       && negb (ButtonState_eqb oldState buttonStateReleasedToApproached)
    then true else majorChange in
  let majorChange :=
    if ButtonState_eqb newState buttonStateApproached
       && (negb (ButtonState_eqb oldState buttonStateApproachedToReleased)
           && negb (ButtonState_eqb oldState buttonStateApproachedToPressed))
    then true else majorChange in
  let majorChange :=
    if ButtonState_eqb newState buttonStatePressed
       && negb (ButtonState_eqb oldState buttonStatePressedToApproached)
    then true else majorChange in
  majorChange.

(** [mask & (1 << n)] as a condition: [1 << n] is computed in [int] and
    converted to [uint32_t] for the conjunction with [mask]. *)
Definition mask_selects (mask n : Z) : bool :=
  nonzero (Z.land mask (to_u32 (to_i32 (Z.shiftl 1 n)))).

(** [setState] and [setForceCalibratingStates] call each other.  The call
    that [setForceCalibratingStates] makes is always
    [setState(n, buttonStatePreCalibrating)], whose [switch] leaves [mask]
    at 0, so it never reaches [setForceCalibratingStates] again: the
    recursion has depth two.  Both functions are therefore written over the
    function [nested] that stands for the inner [setState]; [setState_nested]
    closes it for the inner calls and [setState] for the outer one (lemma
    [setState_with_PreCalibrating] shows that the choice of [nested] is
    immaterial for the inner call). *)
Definition setForceCalibratingStates_with
  (nested : Z -> ButtonState -> TLSensors -> TLSensors)
  (ch mask : Z) (newState : ButtonState) (c : TLSensors)
  : TLSensors * ButtonState * bool :=
  for_loop (N_SENSORS c)
    (fun n '(c, newState, chStateChanged) =>
       if mask_selects mask n then
         let '(c, newState, chStateChanged) :=
           if n =? ch then (c, buttonStatePreCalibrating, true)
           else (nested n buttonStatePreCalibrating c, newState, chStateChanged) in
         (update_sensor n (set_forcedCal true) c, newState, chStateChanged)
       else (c, newState, chStateChanged))
    (c, newState, false).

(** The assignments of the case [buttonStateCalibrating] to [*d]. *)
Definition enter_Calibrating (d : TLStruct) : TLStruct :=
  let d := set_counter 0 d in
  let d := set_noiseCounter 0 d in
  let d := set_avg F32.zero d in
  let d := set_maxDelta F32.zero d in
  let d := set_noisePower F32.zero d in
  let d := set_forcedCal false d in
  if negb (setOffsetValueManually d) then set_offsetValue F32.zero d else d.

(** The [switch] of [setState] for the sensor [d] asked to enter
    [newState]: the new [*d], [mask] and [newState]. *)
Definition setState_switch (d : TLStruct) (newState : ButtonState)
  : TLStruct * Z * ButtonState :=
  match newState with
  | buttonStatePreCalibrating => (d, 0, newState)
  | buttonStateCalibrating => (enter_Calibrating d, 0, newState)
  | buttonStateNoisePowerMeasurement => (d, 0, newState)
  | buttonStateReleased =>
      (d,
       if ButtonState_eqb (buttonState d) buttonStateApproachedToReleased
       then forceCalibrationWhenReleasingFromApproached d else 0,
       newState)
  | buttonStateReleasedToApproached => (d, 0, newState)
  | buttonStateApproached =>
      let mask := 0 in
      let mask :=
        if ButtonState_eqb (buttonState d) buttonStateReleasedToApproached
        then forceCalibrationWhenApproachingFromReleased d else mask in
      let mask :=
        if ButtonState_eqb (buttonState d) buttonStatePressedToApproached
        then forceCalibrationWhenApproachingFromPressed d else mask in
      (d, mask, newState)
  | buttonStateApproachedToPressed => (d, 0, newState)
  | buttonStateApproachedToReleased => (d, 0, newState)
  | buttonStatePressed => (d, forceCalibrationWhenPressing d, newState)
  | buttonStatePressedToApproached => (d, 0, newState)
  | buttonStateMax =>
      (* Error: illegal state *)
      (d, 0, buttonStatePreCalibrating)
  end.

Definition setState_with
  (nested : Z -> ButtonState -> TLSensors -> TLSensors)
  (ch : Z) (newState : ButtonState) (c : TLSensors) : TLSensors :=
  match sensor c ch with
  | None => c
  | Some d =>
      if stateIsBeingChanged d then c
      else
        let setStateChangedAtTime :=
          negb
            ((ButtonState_eqb (buttonState d) buttonStateApproachedToReleased
              && ButtonState_eqb newState buttonStateApproached)
             || (ButtonState_eqb (buttonState d) buttonStatePressedToApproached
                 && ButtonState_eqb newState buttonStatePressed)) in
        if negb (ButtonState_eqb (buttonState d) newState) then
          let d := set_stateIsBeingChanged true d in
          let '(d, mask, newState) := setState_switch d newState in
          let c := update_sensor ch (fun _ => d) c in
          let '(c, newState, setStateChangedAtTime) :=
            if nonzero mask then
              let '(c, newState, chStateChanged) :=
                setForceCalibratingStates_with nested ch mask newState c in
              (c, newState, setStateChangedAtTime || chStateChanged)
            else (c, newState, setStateChangedAtTime) in
          let c :=
            if setStateChangedAtTime
            then
              update_sensor ch
                (fun d => set_stateChangedAtTime (lastSampledAtTime d) d) c
            else c in
          let oldState := from_option buttonState (buttonState d) (sensor c ch) in
          let c := update_sensor ch (set_buttonState newState) c in
          let c :=
            if checkForMajorChange oldState newState
               && buttonStateChangeCallback c
            then set_notifications (notifications c ++ [(ch, oldState, newState)]) c
            else c in
          update_sensor ch (set_stateIsBeingChanged false) c
        else c
  end.

Definition setState_nested : Z -> ButtonState -> TLSensors -> TLSensors :=
  setState_with (fun _ _ c => c).

Definition setForceCalibratingStates
  : Z -> Z -> ButtonState -> TLSensors -> TLSensors * ButtonState * bool :=
  setForceCalibratingStates_with setState_nested.

Definition setState : Z -> ButtonState -> TLSensors -> TLSensors :=
  setState_with setState_nested.

(** [d->lastSampledAtTime - d->stateChangedAtTime], in [unsigned long]. *)
Definition elapsed (d : TLStruct) : Z :=
  to_u32 (lastSampledAtTime d - stateChangedAtTime d).

Definition processStatePreCalibrating (ch : Z) (c : TLSensors) : TLSensors :=
  match sensor c ch with
  | None => c
  | Some d =>
      if elapsed d >=? preCalibrationTime d
      then setState ch buttonStateCalibrating c else c
  end.

Definition processStateCalibrating (ch : Z) (c : TLSensors) : TLSensors :=
  match sensor c ch with
  | None => c
  | Some d =>
      let t := elapsed d in
      let t_max := calibrationTime d in
      if (counter d <? to_u32 (filterCoeff d - 1)) || (t <? t_max)
      then updateAvg ch c
      else
        let c := setState ch buttonStateNoisePowerMeasurement c in
        update_sensor ch
          (fun d =>
             if negb (setOffsetValueManually d)
             then set_offsetValue (avg d) d else d) c
  end.

Definition processStateNoisePowerMeasurement (ch : Z) (c : TLSensors)
  : TLSensors :=
  match sensor c ch with
  | None => c
  | Some d =>
      let t := elapsed d in
      let t_max := calibrationTime d in
      if enableNoisePowerMeasurement d && (t <? t_max)
      then updateAvg ch c
      else setState ch buttonStateReleased c
  end.

Definition processStateReleased (ch : Z) (c : TLSensors) : TLSensors :=
  match sensor c ch with
  | None => c
  | Some d =>
      if enableTouchStateMachine d && isApproached d
      then setState ch buttonStateReleasedToApproached c
      else updateAvg ch c
  end.

Definition processStateReleasedToApproached (ch : Z) (c : TLSensors)
  : TLSensors :=
  match sensor c ch with
  | None => c
  | Some d =>
      (* Do not update average in this state. *)
      if negb (enableTouchStateMachine d) then c
      else if isApproached d then
        if elapsed d >=? releasedToApproachedTime d
        then setState ch buttonStateApproached c else c
      else setState ch buttonStateReleased c
  end.

Definition processStateApproached (ch : Z) (c : TLSensors) : TLSensors :=
  match sensor c ch with
  | None => c
  | Some d =>
      if negb (enableTouchStateMachine d) then c
      else if isReleased d then setState ch buttonStateApproachedToReleased c
      else if isPressed d then setState ch buttonStateApproachedToPressed c
      else if (approachedTimeout d >? 0) && (elapsed d >? approachedTimeout d)
      then setState ch buttonStateCalibrating c
      else c
  end.

Definition processStateApproachedToPressed (ch : Z) (c : TLSensors)
  : TLSensors :=
  match sensor c ch with
  | None => c
  | Some d =>
      (* Do not update average in this state. *)
      if negb (enableTouchStateMachine d) then c
      else if isPressed d then
        if elapsed d >=? approachedToPressedTime d
        then setState ch buttonStatePressed c else c
      else setState ch buttonStateApproached c
  end.

Definition processStateApproachedToReleased (ch : Z) (c : TLSensors)
  : TLSensors :=
  match sensor c ch with
  | None => c
  | Some d =>
      if negb (enableTouchStateMachine d) then c
      else if isReleased d then
        if elapsed d >=? approachedToReleasedTime d
        then setState ch buttonStateReleased c else c
      else setState ch buttonStateApproached c
  end.

Definition processStatePressed (ch : Z) (c : TLSensors) : TLSensors :=
  match sensor c ch with
  | None => c
  | Some d =>
      if negb (enableTouchStateMachine d) then c
      else if isPressed d then
        if (pressedTimeout d >? 0) && (elapsed d >? pressedTimeout d)
        then setState ch buttonStateCalibrating c else c
      else setState ch buttonStatePressedToApproached c
  end.

Definition processStatePressedToApproached (ch : Z) (c : TLSensors)
  : TLSensors :=
  match sensor c ch with
  | None => c
  | Some d =>
      if negb (enableTouchStateMachine d) then c
      else if isPressed d then setState ch buttonStatePressed c
      else if elapsed d >=? pressedToApproachedTime d
      then setState ch buttonStateApproached c
      else c
  end.

(** The first part of [processSample]: the assignments to [d->delta] and
    [d->maxDelta]. *)
Definition processSample_delta (d : TLStruct) : TLStruct :=
  if ButtonState_value (buttonState d)
     <? ButtonState_value buttonStateNoisePowerMeasurement
  then
    (* Do not calculate delta when avg is not yet known *)
    set_delta F32.zero d
  else
    let d :=
      match direction d with
      | directionNegative => set_delta (F32.sub (avg d) (value d)) d
      | directionPositive => set_delta (F32.sub (value d) (avg d)) d
      end in
    if F32.lt (maxDelta d) (delta d) then set_maxDelta (delta d) d else d.

(** The [switch] of [processSample] on the state [s] of the sensor. *)
Definition processSample_switch (s : ButtonState) (ch : Z) (c : TLSensors)
  : TLSensors :=
  match s with
  | buttonStatePreCalibrating => processStatePreCalibrating ch c
  | buttonStateCalibrating => processStateCalibrating ch c
  | buttonStateNoisePowerMeasurement => processStateNoisePowerMeasurement ch c
  | buttonStateReleased => processStateReleased ch c
  | buttonStateReleasedToApproached => processStateReleasedToApproached ch c
  | buttonStateApproached => processStateApproached ch c
  | buttonStateApproachedToReleased => processStateApproachedToReleased ch c
  | buttonStateApproachedToPressed => processStateApproachedToPressed ch c
  | buttonStatePressed => processStatePressed ch c
  | buttonStatePressedToApproached => processStatePressedToApproached ch c
  | buttonStateMax =>
      (* Error! Illegal state! *)
      processStateCalibrating ch c
  end.

Definition processSample (ch : Z) (c : TLSensors) : TLSensors :=
  let c := update_sensor ch processSample_delta c in
  match sensor c ch with
  | None => c
  | Some d =>
      let c := processSample_switch (buttonState d) ch c in
      update_sensor ch
        (fun d => set_buttonStateLabel (buttonStateLabels (buttonState d)) d) c
  end.

Definition resetButtonStateSummaries (ch : Z) (c : TLSensors) : TLSensors :=
  update_sensor ch
    (fun d =>
       set_buttonIsPressed false
         (set_buttonIsApproached false
            (set_buttonIsReleased false (set_buttonIsCalibrating false d))))
    c.

(** ** One measurement cycle *)

(** A call through one of the function pointers of [data[ch]]. *)
Definition call_hook (hook : option (list TLStruct -> Z -> list TLStruct))
  (c : TLSensors) : TLSensors :=
  match hook with
  | None => c
  | Some f => set_data (f (data c) (nSensors c)) c
  end.

Definition call_sample `{SampleMethods} (ch : Z) (inv : bool) (c : TLSensors)
  : Z * TLSensors :=
  match sampleMethodSample ch with
  | None => (0, c)
  | Some f =>
      let '(s, ds) := f (data c) (nSensors c) inv in (s, set_data ds c)
  end.

(** The body of the loop of [sample] over the schedule, for the slot that
    holds [ch]. *)
Definition sample_slot `{SampleMethods} (ch : Z) (c : TLSensors) : TLSensors :=
  let sampleType_of c :=
    from_option (fun d => SampleType_value (sampleType d)) 0 (sensor c ch) in
  let '(sample1, c) :=
    if nonzero (Z.land (sampleType_of c) (SampleType_value sampleTypeNormal))
    then call_sample ch false c else (0, c) in
  let '(sample2, c) :=
    if nonzero (Z.land (sampleType_of c) (SampleType_value sampleTypeInverted))
    then call_sample ch true c else (0, c) in
  (* For sampleTypeNormal and sampleTypeInverted: scale by factor 2 to get
     same amplitude as with sampleTypeDifferential. *)
  let sample1 :=
    if sampleType_of c =? SampleType_value sampleTypeNormal
    then to_i32 (Z.shiftl sample1 1) else sample1 in
  let sample2 :=
    if sampleType_of c =? SampleType_value sampleTypeInverted
    then to_i32 (Z.shiftl sample2 1) else sample2 in
  let sum := to_i32 (sample1 + sample2) in
  addSample ch sum c.

(** The last loop of [sample]: the summaries of one sensor. *)
Definition sample_summaries (ch : Z) (c : TLSensors) : TLSensors :=
  let c := resetButtonStateSummaries ch c in
  match sensor c ch with
  | None => c
  | Some d =>
      let v := ButtonState_value (buttonState d) in
      let c :=
        if v <=? ButtonState_value buttonStateNoisePowerMeasurement
        then update_sensor ch (set_buttonIsCalibrating true) c else c in
      let c :=
        if (v >=? ButtonState_value buttonStateReleased)
           && (v <=? ButtonState_value buttonStateReleasedToApproached)
        then update_sensor ch (set_buttonIsReleased true) c else c in
      let c :=
        if v >=? ButtonState_value buttonStateApproached
        then
          set_anyButtonIsApproached true
            (update_sensor ch (set_buttonIsApproached true) c)
        else c in
      if v >=? ButtonState_value buttonStatePressed
      then
        set_anyButtonIsPressed true
          (update_sensor ch (set_buttonIsPressed true) c)
      else c
  end.

(** [sample()]; [now] is what [millis()] returns.  The result is the
    returned error code and the controller. *)
Definition sample `{SampleMethods} (now : Z) (c : TLSensors) : Z * TLSensors :=
  let length := to_u16 (nSensors c * nMeasurementsPerSensor c) in
  let c :=
    for_loop (nSensors c)
      (fun ch c =>
         update_sensor ch
           (fun d => set_slewrateFirstSample true (set_raw 0 d)) c) c in
  let c :=
    for_loop (nSensors c)
      (fun ch c => call_hook (sampleMethodPreSample ch) c) c in
  let c :=
    for_loop length
      (fun pos c =>
         match scanOrder c !! Z.to_nat pos with
         | None => c
         | Some ch => sample_slot ch c
         end) c in
  let c :=
    for_loop (nSensors c)
      (fun ch c =>
         let c := call_hook (sampleMethodPostSample ch) c in
         let c := update_sensor ch (set_lastSampledAtTime now) c in
         processSample ch c) c in
  let c := set_anyButtonIsApproached false c in
  let c := set_anyButtonIsPressed false c in
  let c := for_loop (nSensors c) sample_summaries c in
  (error c, c).

(** ** Initialisation *)

(** [initialize(ch, sampleMethod)] with a [sampleMethod] that is not
    [NULL]. *)
Definition initialize `{SampleMethods} (ch : Z) (c : TLSensors) : Z * TLSensors :=
  let '(ret, ds) := sampleMethod (data c) (nSensors c) ch in
  let c := set_data ds c in
  let c := setState ch buttonStatePreCalibrating c in
  let c := if nonzero ret then set_error (-1) c else c in
  (ret, c).

(** The assignments of [setDefaults] to [data[n]]. *)
Definition setDefaults_sensor (d : TLStruct) : TLStruct :=
  let d := set_releasedToApproachedTime TL_RELEASED_TO_APPROACHED_TIME_DEFAULT d in
  let d := set_approachedToReleasedTime TL_APPROACHED_TO_RELEASED_TIME_DEFAULT d in
  let d := set_approachedToPressedTime TL_APPROACHED_TO_PRESSED_TIME_DEFAULT d in
  let d := set_pressedToApproachedTime TL_PRESSED_TO_APPROACHED_TIME_DEFAULT d in
  let d := set_enableSlewrateLimiter TL_ENABLE_SLEWRATE_LIMITER_DEFAULT d in
  let d := set_preCalibrationTime TL_PRE_CALIBRATION_TIME_DEFAULT d in
  let d := set_calibrationTime TL_CALIBRATION_TIME_DEFAULT d in
  let d := set_filterCoeff TL_FILTER_COEFF_DEFAULT d in
  let d := set_approachedTimeout TL_APPROACHED_TIMEOUT_DEFAULT d in
  let d := set_pressedTimeout TL_PRESSED_TIMEOUT_DEFAULT d in
  let d :=
    set_forceCalibrationWhenReleasingFromApproached
      TL_FORCE_CALIBRATION_WHEN_RELEASING_FROM_APPROACHED_DEFAULT d in
  let d :=
    set_forceCalibrationWhenApproachingFromReleased
      TL_FORCE_CALIBRATION_WHEN_APPROACHING_FROM_RELEASED_DEFAULT d in
  let d :=
    set_forceCalibrationWhenApproachingFromPressed
      TL_FORCE_CALIBRATION_WHEN_APPROACHING_FROM_PRESSED_DEFAULT d in
  let d :=
    set_forceCalibrationWhenPressing
      TL_FORCE_CALIBRATION_WHEN_PRESSING_DEFAULT d in
  let d := set_enableTouchStateMachine TL_ENABLE_TOUCH_STATE_MACHINE_DEFAULT d in
  let d :=
    set_enableNoisePowerMeasurement
      TL_ENABLE_NOISE_POWER_MEASUREMENT_DEFAULT d in
  let d :=
    set_disableUpdateIfAnyButtonIsApproached
      TL_DISABLE_UPDATE_IF_ANY_BUTTON_IS_APPROACHED_DEFAULT d in
  let d :=
    set_disableUpdateIfAnyButtonIsPressed
      TL_DISABLE_UPDATE_IF_ANY_BUTTON_IS_PRESSED_DEFAULT d in
  let d := set_stateIsBeingChanged false d in
  if negb (setOffsetValueManually d) then set_offsetValue F32.zero d else d.

Definition setDefaults `{Random} `{SampleMethods} (st : generator * TLSensors)
  : Z * (generator * TLSensors) :=
  let '(g, c) := st in
  let c := set_error 0 c in
  let c := if nSensors c <? 1 then set_error (-1) c else c in
  let c :=
    if error c =? 0
    then set_anyButtonIsPressed false (set_anyButtonIsApproached false c)
    else c in
  let '(g, c) :=
    if error c =? 0 then
      let c := set_useCustomScanOrder TL_USE_CUSTOM_SCAN_ORDER_DEFAULT c in
      if negb (useCustomScanOrder c) then initScanOrder (g, c) else (g, c)
    else (g, c) in
  let c :=
    if error c =? 0 then
      let c :=
        set_enableReadSettingsFromEeprom
          TL_ENABLE_READ_SETTINGS_FROM_EEPROM_DEFAULT c in
      let c := set_eepromOffset TL_EEPROM_OFFSET_DEFAULT c in
      set_buttonStateChangeCallback false c
    else c in
  let c :=
    if error c =? 0 then
      for_loop (nSensors c)
        (fun n c =>
           let c := snd (initialize n c) in
           update_sensor n setDefaults_sensor c) c
    else c in
  (error c, (g, c)).

(** The assignments of the constructor to [data[n]], after its
    [resetButtonStateSummaries] and [setState]. *)
Definition construct_sensor (now nMeasurementsPerSensor : Z) (d : TLStruct)
  : TLStruct :=
  let d := set_buttonStateLabel (buttonStateLabels (buttonState d)) d in
  let d := set_counter 0 d in
  let d := set_noiseCounter 0 d in
  let d := set_forcedCal false d in
  let d := set_raw 0 d in
  let d := set_value F32.zero d in
  let d := set_avg F32.zero d in
  let d := set_noisePower F32.zero d in
  let d := set_delta F32.zero d in
  let d := set_maxDelta F32.zero d in
  let d := set_maxDelta F32.zero d in
  let d := set_stateChangedAtTime now d in
  let d := set_lastSampledAtTime 0 d in
  set_sensor_nMeasurementsPerSensor nMeasurementsPerSensor d.

(** The constructor [TLSensors()], for the template arguments [N] (the
    length of [data memory]) and [M]: [memory] is the object before any
    member is assigned, [now] is what [millis()] returns and [e] is the
    EEPROM. *)
Definition TLSensors_construct `{Random} `{SampleMethods} (M now : Z)
  (e : EEPROM) (st : generator * TLSensors) : generator * TLSensors :=
  let '(g, memory) := st in
  let c := set_error 0 memory in
  let c :=
    if N_SENSORS c <? 1 then set_error (-1) c
    else set_nSensors (N_SENSORS c) c in
  let c :=
    if (error c =? 0) && (M >=? 1) then set_nMeasurementsPerSensor M c
    else set_error (-1) c in
  let '(g, c) := if error c =? 0 then initScanOrder (g, c) else (g, c) in
  let '(g, c) := if error c =? 0 then snd (setDefaults (g, c)) else (g, c) in
  let c :=
    if error c =? 0 then
      for_loop (nSensors c)
        (fun n c =>
           let c := resetButtonStateSummaries n c in
           let c := setState n buttonStatePreCalibrating c in
           update_sensor n
             (construct_sensor now (nMeasurementsPerSensor c)) c) c
    else c in
  let c :=
    if (error c =? 0) && enableReadSettingsFromEeprom c
    then readSettingsFromEeprom e c else c in
  (g, c).

(** ** Sensor pairs and the bar display *)

From Stdlib Require Import Ascii.

(** [findSensorPair(ch, chStart)].  The records of this development leave
    out the member [pin]; [pins] holds the values [*(data[k].pin)] of the
    [N_SENSORS] sensors, in their order.  The loop of the function is
    [findSensorPair_loop], from the test [k != ch] on, with [rounds] rounds
    left; the result is [None] when [data[ch]] is outside the array or the
    rounds run out. *)
Fixpoint findSensorPair_loop (rounds : nat) (pins : list Z) (pin ch k : Z)
  : option Z :=
  match rounds with
  | O => None
  | Datatypes.S rounds =>
      if k =? ch then Some (-1)
      else
        let '(k, stop) :=
          if k >=? Z.of_nat (length pins) then (0, 0 =? ch) else (k, false) in
        if stop then Some (-1)
        else if pin =? default 0 (pins !! Z.to_nat k) then Some k
        else findSensorPair_loop rounds pins pin ch (k + 1)
  end.

Definition findSensorPair (pins : list Z) (ch chStart : Z) : option Z :=
  if ch <? 0 then None
  else
    match pins !! Z.to_nat ch with
    | None => None
    | Some pin =>
        findSensorPair_loop (Datatypes.S (Datatypes.S (length pins)))
          pins pin ch chStart
    end.

(** The two early returns of [printBar(ch_k, length)]: [s] has 201 cells. *)
Definition printBar_refuses (length : Z) : bool :=
  (length >? 201 - 1) || (length - 2 <? 0).

(** One of the loops [for (n = k - 1; n < bound; n++) { s[k++] = c; }] of
    [printBar], where [k] is the number of characters stored in [s]. *)
Definition printBar_fill (bound : Z) (c : ascii) (s : list ascii) : list ascii :=
  let k := Z.of_nat (length s) in
  s ++ replicate (Z.to_nat (bound - (k - 1))) c.

(** The characters that [printBar] stores in [s] ahead of the final
    ['\0'], from [s[0]] on, given the bar lengths [nHashes] and [nDashes]
    that it has got from the sample methods ([-1] where there is none).
    Every store is [s[k++] = ...]: [k] is the number of characters stored. *)
Definition printBar_draw (length nHashes nDashes : Z) : list ascii :=
  let k (s : list ascii) := Z.of_nat (Datatypes.length s) in
  let s := ["|"%char] in
  let s :=
    if nHashes >? k s - 1
    then printBar_fill (nHashes - 1) "="%char s ++ ["#"%char] else s in
  let s :=
    if nDashes >? k s - 1
    then printBar_fill (nDashes - 1) "-"%char s ++ ["*"%char] else s in
  let s :=
    if length - 1 >? k s - 1 then printBar_fill length " "%char s else s in
  s ++ ["|"%char].

(** * Notions used to state the properties *)

(** The classification of a transition as major, in the words of the
    specification: entering [PreCalibrating] from any state; entering
    [Calibrating] from any state other than [PreCalibrating]; entering
    [Released] from any state other than [ReleasedToApproached]; entering
    [Approached] from any state other than its two hold predecessors;
    entering [Pressed] from any state other than [PressedToApproached]. *)
Definition major_change (oldState newState : ButtonState) : Prop :=
  match newState with
  | buttonStatePreCalibrating => True
  | buttonStateCalibrating => oldState <> buttonStatePreCalibrating
  | buttonStateReleased => oldState <> buttonStateReleasedToApproached
  | buttonStateApproached =>
      oldState <> buttonStateApproachedToReleased
      /\ oldState <> buttonStateApproachedToPressed
  | buttonStatePressed => oldState <> buttonStatePressedToApproached
  | _ => False
  end.

(** The two reverting transitions. *)
Definition bounce_back (oldState newState : ButtonState) : bool :=
  match oldState, newState with
  | buttonStateApproachedToReleased, buttonStateApproached => true
  | buttonStatePressedToApproached, buttonStatePressed => true
  | _, _ => false
  end.

(** The cap on the two sample counters of a sensor whose [filterCoeff], a
    [uint16_t], is at least 1. *)
Definition counters_capped (d : TLStruct) : Prop :=
  1 <= filterCoeff d < 65536 ->
  0 <= counter d <= filterCoeff d - 1
  /\ 0 <= noiseCounter d <= filterCoeff d - 1.

(** Arrays of sensor records related member by member. *)
Definition sensors_related (R : TLStruct -> TLStruct -> Prop)
  (ds ds' : list TLStruct) : Prop :=
  Forall2 R ds ds'.

(** [P] is kept by whatever happens between [ds] and [ds']: no sensor
    appears or disappears, and a sensor that satisfied [P] still does. *)
Definition kept (P : TLStruct -> Prop) (ds ds' : list TLStruct) : Prop :=
  sensors_related (fun d d' => P d -> P d') ds ds'.

(** The function pointers of a sample method relate the sensor records
    they are given to the ones they leave by [R]; they keep [P]. *)
Definition hooks_related `{SampleMethods} (R : TLStruct -> TLStruct -> Prop)
  : Prop :=
  (forall ch f ds n,
      sampleMethodPreSample ch = Some f -> sensors_related R ds (f ds n))
  /\ (forall ch f ds n inv,
         sampleMethodSample ch = Some f ->
         sensors_related R ds (snd (f ds n inv)))
  /\ (forall ch f ds n,
         sampleMethodPostSample ch = Some f -> sensors_related R ds (f ds n)).

Definition hooks_keep `{SampleMethods} (P : TLStruct -> Prop) : Prop :=
  hooks_related (fun d d' => P d -> P d').

(** No transition of any sensor is in progress. *)
Definition quiescent (c : TLSensors) : Prop :=
  forall n d, sensor c n = Some d -> stateIsBeingChanged d = false.

(** The calls made to the callback for sensor [n], among [calls]. *)
Definition calls_for (n : Z) (calls : list (Z * ButtonState * ButtonState))
  : list (Z * ButtonState * ButtonState) :=
  List.filter (fun call => fst (fst call) =? n) calls.

(** How often the value [x] occurs in a schedule. *)
Definition occurrences (x : Z) (l : list Z) : nat := count_occ Z.eq_dec l x.

(** ** The checks of [readSettingsFromEeprom], read off the EEPROM *)

Definition stored_key (e : EEPROM) (c : TLSensors) : Z :=
  EEPROM_read e (eepromOffset c).

Definition stored_descriptor (e : EEPROM) (c : TLSensors) : Z :=
  EEPROM_read e (eepromOffset c + 1).

Definition stored_formatVersion (e : EEPROM) (c : TLSensors) : Z :=
  Z.land (Z.shiftr (stored_descriptor e c) TL_EEPROM_FORMAT_SHIFT)
    TL_EEPROM_FORMAT_MASK.

Definition stored_nSensors (e : EEPROM) (c : TLSensors) : Z :=
  to_u8 (Z.land (Z.shiftr (stored_descriptor e c) TL_EEPROM_N_SENSORS_SHIFT)
           TL_EEPROM_N_SENSORS_MASK + 1).

(** The dummy pass of [readSettingsFromEeprom]: the controller, the address
    and the CRC after it. *)
Definition dummy_pass (e : EEPROM) (c : TLSensors) : TLSensors * Z * Z :=
  for_loop (nSensors c)
    (fun n st => readSensorSettingFromEeprom e n false st)
    (c, eepromOffset c + 1 + 1 + 1,
     crcUpdate
       (crcUpdate (crcUpdate 0 (stored_key e c)) (stored_descriptor e c))
       (stored_descriptor e c)).

Definition recomputed_crc (e : EEPROM) (c : TLSensors) : Z :=
  snd (dummy_pass e c).

Definition stored_crc (e : EEPROM) (c : TLSensors) : Z :=
  let addr := snd (fst (dummy_pass e c)) in
  Z.lor (to_u16 (Z.shiftl (EEPROM_read e addr) 8)) (EEPROM_read e (addr + 1)).

(** The second pass of [readSettingsFromEeprom], with the application of
    the config byte. *)
Definition apply_pass (e : EEPROM) (c : TLSensors) : TLSensors :=
  let b :=
    nonzero
      (Z.land (EEPROM_read e (eepromOffset c + 1 + 1))
         TL_EEPROM_CONFIG_ENABLE_SLEWRATE_LIMITER) in
  let '(c1, _, _) :=
    for_loop (nSensors c)
      (fun n st => readSensorSettingFromEeprom e n true st)
      (c, eepromOffset c + 1 + 1 + 1, recomputed_crc e c) in
  for_loop (nSensors c1)
    (fun n c => update_sensor n (set_enableSlewrateLimiter b) c) c1.

(** One of the four checks of the stored record fails. *)
Definition record_rejected (e : EEPROM) (c : TLSensors) : Prop :=
  stored_key e c <> TL_EEPROM_KEY
  \/ stored_formatVersion e c <> TL_EEPROM_FORMAT_VERSION
  \/ stored_nSensors e c <> nSensors c
  \/ recomputed_crc e c <> stored_crc e c.

(** The error code is 0 or -1. *)
Definition error_0_or_minus_1 (c : TLSensors) : Prop :=
  error c = 0 \/ error c = -1.

(** Both sample counters are at zero. *)
Definition counters_zero (d : TLStruct) : Prop :=
  counter d = 0 /\ noiseCounter d = 0.

(** ** Concrete collaborators and controllers, for examples *)

(** A linear congruential generator behind [random]. *)
Definition lcg_random : Random :=
  {| generator := Z;
     randomSeed := fun seed _ => seed;
     random := fun lo hi g =>
       let g := (1103515245 * g + 12345) mod 2147483648 in
       (if lo <? hi then lo + g mod (hi - lo) else lo, g) |}.

(** A sample method without initialisation work, whose sample is a constant
    and whose post-sample hook turns [raw] into [value]. *)
Definition plain_method : SampleMethods :=
  {| sampleMethod := fun ds _ _ => (0, ds);
     sampleMethodPreSample := fun _ => None;
     sampleMethodSample := fun _ =>
       Some (fun ds _ (inv : bool) => (if inv then 3 else 5, ds));
     sampleMethodPostSample := fun ch =>
       Some (fun ds _ =>
               alter (fun d => set_value (F32.of_uint (to_u32 (raw d))) d)
                 (Z.to_nat ch) ds) |}.

(** A sensor with the defaults of [setDefaults] and the thresholds
    [10.0], [8.0], [75.0] and [60.0]. *)
Definition example_sensor : TLStruct :=
  {| direction := directionPositive;
     sampleType := sampleTypeDifferential;
     releasedToApproachedThreshold := 0x41200000;
     approachedToReleasedThreshold := 0x41000000;
     approachedToPressedThreshold := 0x42960000;
     pressedToApproachedThreshold := 0x42700000;
     releasedToApproachedTime := 10;
     approachedToReleasedTime := 10;
     approachedToPressedTime := 10;
     pressedToApproachedTime := 10;
     enableSlewrateLimiter := false;
     preCalibrationTime := 100;
     calibrationTime := 500;
     approachedTimeout := 300000;
     pressedTimeout := 300000;
     filterCoeff := 16;
     forceCalibrationWhenReleasingFromApproached := 0;
     forceCalibrationWhenApproachingFromReleased := 0;
     forceCalibrationWhenApproachingFromPressed := 0;
     forceCalibrationWhenPressing := 0;
     setOffsetValueManually := false;
     disableUpdateIfAnyButtonIsApproached := false;
     disableUpdateIfAnyButtonIsPressed := false;
     offsetValue := 0;
     enableTouchStateMachine := true;
     enableNoisePowerMeasurement := false;
     sensor_nMeasurementsPerSensor := 2;
     raw := 0;
     value := 0;
     avg := 0;
     delta := 0;
     maxDelta := 0;
     noisePower := 0;
     buttonState := buttonStatePreCalibrating;
     buttonStateLabel := "PreCalibrating";
     buttonIsCalibrating := false;
     buttonIsReleased := false;
     buttonIsApproached := false;
     buttonIsPressed := false;
     forcedCal := false;
     counter := 0;
     noiseCounter := 0;
     lastSampledAtTime := 0;
     stateChangedAtTime := 0;
     slewrateFirstSample := false;
     stateIsBeingChanged := false |}.

(** A controller over the sensor records [ds], two measurements per sensor,
    with a callback registered. *)
Definition example_controller (ds : list TLStruct) : TLSensors :=
  {| data := ds;
     nSensors := Z.of_nat (length ds);
     enableReadSettingsFromEeprom := true;
     eepromOffset := 0;
     scanOrder := replicate (2 * length ds) 255;
     nMeasurementsPerSensor := 2;
     error := 0;
     buttonStateChangeCallback := true;
     notifications := [];
     useCustomScanOrder := false;
     anyButtonIsApproached := false;
     anyButtonIsPressed := false |}.

(** An erased EEPROM of 1 KiB. *)
Definition erased_eeprom : EEPROM := replicate 1024 0xFF.

(** The members of the controller that the state machine does not assign. *)
Definition settings (c : TLSensors)
  : Z * Z * Z * Z * bool * list Z * bool * bool :=
  (nSensors c, nMeasurementsPerSensor c, error c, eepromOffset c,
   enableReadSettingsFromEeprom c, scanOrder c, buttonStateChangeCallback c,
   useCustomScanOrder c).

(** A sensor in [buttonStateNoisePowerMeasurement] whose value is [1.0] over
    an average of [0.0], and a controller with this sensor alone. *)
Definition measuring_sensor : TLStruct :=
  set_value 0x3F800000
    (set_buttonState buttonStateNoisePowerMeasurement example_sensor).

Definition measuring_controller : TLSensors :=
  example_controller [measuring_sensor].

(** A pressed sensor whose mask [forceCalibrationWhenPressing] names sensors
    0 and 1, next to a released one. *)
Definition pressed_sensor : TLStruct :=
  set_buttonState buttonStatePressed
    (set_forceCalibrationWhenPressing 3 example_sensor).

Definition released_sensor : TLStruct :=
  set_buttonState buttonStateReleased example_sensor.

Definition pressed_controller : TLSensors :=
  example_controller [pressed_sensor; released_sensor].

(** The round trip of the specification: four sensors with the thresholds
    [10.0], [8.0], [75.0] and [60.0] are written to an erased EEPROM, and
    read back into a controller of four sensors whose thresholds are
    [50.0], [40.0], [150.0] and [120.0]. *)
Definition writing_controller : TLSensors :=
  example_controller (replicate 4 example_sensor).

Definition written_eeprom : EEPROM :=
  snd (writeSettingsToEeprom writing_controller erased_eeprom).

Definition fresh_sensor : TLStruct :=
  set_releasedToApproachedThreshold 0x42480000
    (set_approachedToReleasedThreshold 0x42200000
       (set_approachedToPressedThreshold 0x43160000
          (set_pressedToApproachedThreshold 0x42F00000 example_sensor))).

Definition reading_controller : TLSensors :=
  example_controller (replicate 4 fresh_sensor).

(** The four thresholds [10.0], [8.0], [75.0] and [60.0] as big-endian
    bytes. *)
Definition example_block : list Z :=
  [0x41; 0x20; 0x00; 0x00; 0x41; 0x00; 0x00; 0x00;
   0x42; 0x96; 0x00; 0x00; 0x42; 0x70; 0x00; 0x00].

(** ** The forced recalibration, sensor by sensor *)

(** What the call [setState(n, buttonStatePreCalibrating)] of
    [setForceCalibratingStates] makes of the record of sensor [n]. *)
Definition forced_PreCalibrating (d : TLStruct) : TLStruct :=
  if stateIsBeingChanged d
     || ButtonState_eqb (buttonState d) buttonStatePreCalibrating
  then d
  else
    set_stateIsBeingChanged false
      (set_buttonState buttonStatePreCalibrating
         (set_stateChangedAtTime (lastSampledAtTime d)
            (set_stateIsBeingChanged true d))).

(** The calls to the callback that this call makes. *)
Definition forced_calls (c : TLSensors) (n : Z)
  : list (Z * ButtonState * ButtonState) :=
  match sensor c n with
  | Some d =>
      if negb (stateIsBeingChanged d)
         && negb (ButtonState_eqb (buttonState d) buttonStatePreCalibrating)
         && buttonStateChangeCallback c
      then [(n, buttonState d, buttonStatePreCalibrating)]
      else []
  | None => []
  end.

(** What [setForceCalibratingStates(ch, mask, &newState)] makes of the
    record of sensor [m]; the calls to the callback made in its first
    [rounds] rounds; whether sensor [ch] itself is selected. *)
Definition fan_out_record (ch mask m : Z) (d : TLStruct) : TLStruct :=
  if mask_selects mask m
  then set_forcedCal true (if m =? ch then d else forced_PreCalibrating d)
  else d.

Fixpoint fan_out_calls (c : TLSensors) (ch mask : Z) (rounds : nat)
  : list (Z * ButtonState * ButtonState) :=
  match rounds with
  | O => []
  | Datatypes.S k =>
      fan_out_calls c ch mask k
      ++ (if mask_selects mask (Z.of_nat k) && negb (Z.of_nat k =? ch)
          then forced_calls c (Z.of_nat k) else [])
  end.

Definition fan_out_own (ch mask : Z) (rounds : nat) : bool :=
  (0 <=? ch) && (ch <? Z.of_nat rounds) && mask_selects mask ch.

(** The sensor [ch] after the assignments of [setState] that follow the
    forced recalibration: [s2] is the state entered and [t] tells whether
    [stateChangedAtTime] is assigned. *)
Definition finish_transition (s2 : ButtonState) (t : bool) (d2 : TLStruct)
  : TLStruct :=
  set_stateIsBeingChanged false
    (set_buttonState s2
       (if t then set_stateChangedAtTime (lastSampledAtTime d2) d2 else d2)).


(** A sensor that hesitates between approached and released, last sampled
    at time 100, in its state since time 5; a sensor about to be pressed
    whose mask [forceCalibrationWhenPressing] names sensors 0 and 1, next
    to a released one. *)
Definition bouncing_sensor : TLStruct :=
  set_stateChangedAtTime 5
    (set_lastSampledAtTime 100
       (set_buttonState buttonStateApproachedToReleased example_sensor)).

Definition bouncing_controller : TLSensors :=
  example_controller [bouncing_sensor].

Definition approaching_pressed_sensor : TLStruct :=
  set_buttonState buttonStateApproachedToPressed
    (set_forceCalibrationWhenPressing 3 example_sensor).

Definition pressing_controller : TLSensors :=
  example_controller [approaching_pressed_sensor; released_sensor].

(** The state of the schedule after [rounds] complete rounds of
    [initScanOrder] and [n] further channels. *)
Definition schedule_filled (s p : Z) (len : nat) (rounds n : Z) (c : TLSensors)
  : Prop :=
  nSensors c = s /\ nMeasurementsPerSensor c = p
  /\ length (scanOrder c) = len
  /\ Z.of_nat (occurrences 255 (schedule c)) = s * p - (rounds * s + n)
  /\ (forall ch, 0 <= ch < s ->
        Z.of_nat (occurrences ch (schedule c))
        = rounds + (if ch <? n then 1 else 0))
  /\ (0 < rounds * s + n -> error c = 0).


(** ** The stored record, byte by byte *)

(** The four bytes of a [float], most significant first, and the sixteen
    bytes of the thresholds of a sensor in the order in which
    [writeSensorSettingToEeprom] takes them. *)
Definition float_bytes (f : Z) : list Z :=
  [Z.land (Z.shiftr f 24) 0xFF; Z.land (Z.shiftr f 16) 0xFF;
   Z.land (Z.shiftr f 8) 0xFF; Z.land f 0xFF].

Definition sensor_bytes (d : TLStruct) : list Z :=
  float_bytes (releasedToApproachedThreshold d)
  ++ float_bytes (approachedToReleasedThreshold d)
  ++ float_bytes (approachedToPressedThreshold d)
  ++ float_bytes (pressedToApproachedThreshold d).

(** The byte that [writeSettingsToEeprom] puts after the key. *)
Definition written_descriptor (c : TLSensors) : Z :=
  to_u8 (Z.lor (Z.shiftl TL_EEPROM_FORMAT_VERSION TL_EEPROM_FORMAT_SHIFT)
           (Z.shiftl (Z.land (nSensors c - 1) TL_EEPROM_N_SENSORS_MASK)
              TL_EEPROM_N_SENSORS_SHIFT)).

(** The bytes over which [writeSettingsToEeprom] computes its CRC, and the
    whole record with the CRC behind them, high byte first. *)
Definition record_body (c : TLSensors) : list Z :=
  [TL_EEPROM_KEY; written_descriptor c]
  ++ concat (map sensor_bytes (take (Z.to_nat (nSensors c)) (data c))).

Definition record_bytes (c : TLSensors) : list Z :=
  let crc := fold_left crcUpdate (record_body c) 0 in
  record_body c ++ [Z.land (Z.shiftr crc 8) 0xFF; Z.land crc 0xFF].

(** The store [e] with the cells from [addr] on replaced by [bs]. *)
Definition store_bytes (e : list Z) (addr : Z) (bs : list Z) : list Z :=
  take (Z.to_nat addr) e ++ bs ++ drop (Z.to_nat addr + length bs) e.

(** The [len] cells of [e] from [addr] on, as [EEPROM.read] yields them. *)
Definition bytes_at (e : EEPROM) (addr : Z) (len : nat) : list Z :=
  map (fun i => EEPROM_read e (addr + Z.of_nat i)) (seq 0 len).

(** The two capacity checks pass: the sensor count fits the descriptor and
    the record fits the EEPROM. *)
Definition capacity_ok (e : EEPROM) (c : TLSensors) : Prop :=
  1 <= nSensors c <= 32
  /\ eepromOffset c + eepromSizeRequired c <= EEPROM_length e.

(** What lets [writeSettingsToEeprom] write: no earlier error, the capacity,
    and a first cell that holds the key or is erased. *)
Definition write_accepted (e : EEPROM) (c : TLSensors) : Prop :=
  error c = 0
  /\ capacity_ok e c
  /\ (stored_key e c = TL_EEPROM_KEY \/ stored_key e c = 0xFF).

(** One round of the loop of [crcUpdate], for the bit of [c] under the
    mask [i]. *)
Definition crc_round (c crc i : Z) : Z :=
  let bit := nonzero (Z.land crc 0x8000) in
  let bit := if nonzero (Z.land c i) then negb bit else bit in
  let crc := to_u16 (Z.shiftl crc 1) in
  if bit then Z.lxor crc 0x1021 else crc.

(** The float that [readFloatFromEeprom] assembles from the four cells at
    [addr]. *)
Definition stored_float (e : EEPROM) (addr : Z) : Z :=
  fst (fst (readFloatFromEeprom e addr 0)).

(** What the second pass of [readSettingsFromEeprom] makes of the record of
    sensor [m]: the four thresholds are the floats stored from [addr] on,
    and the slew-rate limiter follows bit 7 of the config byte. *)
Definition read_thresholds (e : EEPROM) (addr : Z) (d : TLStruct) : TLStruct :=
  set_pressedToApproachedThreshold (stored_float e (addr + 12))
    (set_approachedToPressedThreshold (stored_float e (addr + 8))
       (set_approachedToReleasedThreshold (stored_float e (addr + 4))
          (set_releasedToApproachedThreshold (stored_float e addr) d))).

Definition read_sensor (e : EEPROM) (c : TLSensors) (m : Z) (d : TLStruct)
  : TLStruct :=
  if m <? nSensors c then
    set_enableSlewrateLimiter
      (nonzero
         (Z.land (EEPROM_read e (eepromOffset c + 2))
            TL_EEPROM_CONFIG_ENABLE_SLEWRATE_LIMITER))
      (read_thresholds e (eepromOffset c + 3 + 16 * m) d)
  else d.

(** The controller without its sensor records. *)
Definition without_data (c : TLSensors) : TLSensors := set_data [] c.

(** The record of a sensor without the members that the stored settings
    govern. *)
Definition without_stored_settings (d : TLStruct) : TLStruct :=
  set_enableSlewrateLimiter false
    (set_pressedToApproachedThreshold 0
       (set_approachedToPressedThreshold 0
          (set_approachedToReleasedThreshold 0
             (set_releasedToApproachedThreshold 0 d)))).

(** Every cell of the EEPROM holds a byte. *)
Definition bytes_ok (e : EEPROM) : Prop := Forall (fun b => 0 <= b < 256) e.

(** An EEPROM of 32 cells that holds, from cell 0 on, a record as
    [readSettingsFromEeprom] expects it for one sensor: the key, the
    descriptor, a config byte with the slew-rate bit, the thresholds [10.0],
    [8.0], [75.0] and [60.0], and the CRC that the read recomputes; and a
    controller of one sensor with other thresholds. *)
Definition accepted_eeprom : EEPROM :=
  let crc := fold_left crcUpdate ([0xC7; 0x00; 0x00] ++ example_block) 0 in
  [0xC7; 0x00; 0x80] ++ example_block ++ [Z.shiftr crc 8; Z.land crc 0xFF]
  ++ replicate 11 0xFF.

Definition accepting_controller : TLSensors := example_controller [fresh_sensor].

(** ** The state machine seen from outside *)

(** The four summary flags of a sensor say what its state says. *)
Definition summaries_agree (d : TLStruct) : Prop :=
  let v := ButtonState_value (buttonState d) in
  buttonIsCalibrating d = isCalibrating d
  /\ buttonIsReleased d
     = (v >=? ButtonState_value buttonStateReleased)
       && (v <=? ButtonState_value buttonStateReleasedToApproached)
  /\ buttonIsApproached d = (v >=? ButtonState_value buttonStateApproached)
  /\ buttonIsPressed d = (v >=? ButtonState_value buttonStatePressed).

(** The states that one call of [processSample] can take a sensor to from
    the state [s], apart from [s] itself: the successors of [s] in the
    [switch] of [processSample] and the functions [processState...], and
    [buttonStatePreCalibrating] where the transition made carries a mask of
    sensors to recalibrate, which can name the sensor itself. *)
Definition next_states (s : ButtonState) : list ButtonState :=
  match s with
  | buttonStatePreCalibrating => [buttonStateCalibrating]
  | buttonStateCalibrating => [buttonStateNoisePowerMeasurement]
  | buttonStateNoisePowerMeasurement => [buttonStateReleased]
  | buttonStateReleased => [buttonStateReleasedToApproached]
  | buttonStateReleasedToApproached =>
      [buttonStateApproached; buttonStateReleased; buttonStatePreCalibrating]
  | buttonStateApproached =>
      [buttonStateApproachedToReleased; buttonStateApproachedToPressed;
       buttonStateCalibrating]
  | buttonStateApproachedToPressed =>
      [buttonStatePressed; buttonStateApproached; buttonStatePreCalibrating]
  | buttonStateApproachedToReleased =>
      [buttonStateReleased; buttonStateApproached; buttonStatePreCalibrating]
  | buttonStatePressed => [buttonStateCalibrating; buttonStatePressedToApproached]
  | buttonStatePressedToApproached =>
      [buttonStatePressed; buttonStateApproached; buttonStatePreCalibrating]
  | buttonStateMax => [buttonStateNoisePowerMeasurement]
  end.

(** The state of sensor [m], if there is such a sensor. *)
Definition state_of (c : TLSensors) (m : Z) : option ButtonState :=
  buttonState <$> sensor c m.

(** From [c] to [c'] the sensor [ch], which was in state [old], has kept its
    state or entered one of the states [allowed], and every other sensor has
    kept its state or entered [buttonStatePreCalibrating]. *)
Definition moved (ch : Z) (old : ButtonState) (allowed : list ButtonState)
  (c c' : TLSensors) : Prop :=
  (state_of c' ch = Some old
   \/ exists s, In s allowed /\ state_of c' ch = Some s)
  /\ forall m, m <> ch ->
       state_of c' m = state_of c m
       \/ (state_of c m <> None
           /\ state_of c' m = Some buttonStatePreCalibrating).

(** How far a state is from [buttonStatePreCalibrating] along the state
    graph: no successor of a state in [next_states] is more than one stage
    further. *)
Definition stage (s : ButtonState) : Z :=
  match s with
  | buttonStatePreCalibrating => 0
  | buttonStateCalibrating => 1
  | buttonStateNoisePowerMeasurement => 2
  | buttonStateReleased => 3
  | buttonStateReleasedToApproached => 4
  | buttonStateApproached => 5
  | buttonStateApproachedToPressed => 6
  | buttonStateApproachedToReleased => 6
  | buttonStatePressed => 7
  | buttonStatePressedToApproached => 8
  | buttonStateMax => 9
  end.

(** The record [d'] is in the state of the record [d]. *)
Definition same_state (d d' : TLStruct) : Prop := buttonState d' = buttonState d.

(** The measurement cycles made at the times [nows], one after the other. *)
Definition cycles {SM : SampleMethods} (nows : list Z) (c : TLSensors)
  : TLSensors :=
  fold_left (fun c now => snd (sample now c)) nows c.

(** From [c] to [c'] no sensor has appeared or disappeared, and the stage of
    sensor [m] has grown by at most [extra m]. *)
Definition stage_within (extra : Z -> Z) (c c' : TLSensors) : Prop :=
  forall m,
    match state_of c m, state_of c' m with
    | Some s, Some s' => stage s' <= stage s + extra m
    | None, None => True
    | _, _ => False
    end.
(** ** Reading the slew-rate limiter and the timing of the state machine *)

(** The values of [int32_t]. *)
Definition int32_range (z : Z) : Prop := -2147483648 <= z < 2147483648.

(** The values of [unsigned long], 32 bits wide. *)
Definition uint32_range (z : Z) : Prop := 0 <= z < 4294967296.

(** A sensor with the slew-rate limiter switched on, past the first sample
    of a measurement cycle. *)
Definition limited (d : TLStruct) : Prop :=
  enableSlewrateLimiter d = true /\ slewrateFirstSample d = false.

(** The calls [addSample(ch, s)] for the samples [ss], in their order. *)
Definition addSamples (ch : Z) (ss : list Z) (c : TLSensors) : TLSensors :=
  fold_left (fun c s => addSample ch s c) ss c.

(** A sensor with the slew-rate limiter on that has taken its first sample
    of the cycle, 100. *)
Definition limited_sensor : TLStruct :=
  set_raw 100 (set_enableSlewrateLimiter true example_sensor).

Definition limited_controller : TLSensors :=
  example_controller [limited_sensor; released_sensor].

(** The states from [buttonStateReleased] to
    [buttonStatePressedToApproached]: the states of the touch state machine
    proper, past the calibration. *)
Definition touch_state (s : ButtonState) : Prop :=
  ButtonState_value buttonStateReleased <= ButtonState_value s
  /\ ButtonState_value s <= ButtonState_value buttonStatePressedToApproached.

(** An approached sensor with the touch state machine switched off, next to
    a released one. *)
Definition tuning_sensor : TLStruct :=
  set_enableTouchStateMachine false
    (set_buttonState buttonStateApproached example_sensor).

Definition tuning_controller : TLSensors :=
  example_controller [tuning_sensor; released_sensor].

(** A sensor that entered [buttonStatePreCalibrating] 40 ms before the
    millisecond clock wrapped around and was last sampled 60 ms after. *)
Definition wrapping_sensor : TLStruct :=
  set_stateChangedAtTime 4294967256 (set_lastSampledAtTime 60 example_sensor).

Definition wrapping_controller : TLSensors :=
  example_controller [wrapping_sensor].

(** ** Reading the constructor *)

(** The two template arguments as the controller holds them. *)
Definition dimensions (c : TLSensors) : Z * Z :=
  (nSensors c, nMeasurementsPerSensor c).

(** A sensor record as the constructor, run at the time [now] for [M]
    measurements per sensor, leaves it: the filter is empty, the state is
    [buttonStatePreCalibrating] unless the guard of [setState] was left set,
    the label is that of the state, the state counts from [now], and none of
    the four summary flags is raised. *)
Definition freshly_constructed (now M : Z) (d : TLStruct) : Prop :=
  (stateIsBeingChanged d = true
   \/ buttonState d = buttonStatePreCalibrating)
  /\ buttonStateLabel d = buttonStateLabels (buttonState d)
  /\ (counter d = 0 /\ noiseCounter d = 0 /\ forcedCal d = false)
  /\ (raw d = 0 /\ value d = F32.zero /\ avg d = F32.zero
      /\ noisePower d = F32.zero /\ delta d = F32.zero
      /\ maxDelta d = F32.zero)
  /\ (stateChangedAtTime d = now /\ lastSampledAtTime d = 0)
  /\ sensor_nMeasurementsPerSensor d = M
  /\ (buttonIsCalibrating d = false /\ buttonIsReleased d = false
      /\ buttonIsApproached d = false /\ buttonIsPressed d = false).

(** ** Reading [findSensorPair] and [printBar] *)

(** The pin of sensor [k]. *)
Definition pin_of (pins : list Z) (k : Z) : Z := default 0 (pins !! Z.to_nat k).

(** The sensors that [findSensorPair(ch, chStart)] looks at among [N], in
    the order in which it does: from [chStart] upwards, round the end of the
    array, and up to [ch], which it leaves out. *)
Definition candidates (N ch chStart : Z) : list Z :=
  if chStart =? ch then []
  else if chStart >=? N then seqZ 0 ch
  else if chStart <? ch then seqZ chStart (ch - chStart)
  else seqZ chStart (N - chStart) ++ seqZ 0 ch.

(** The first of the sensors [ks] on the pin [pin], or -1. *)
Definition first_with_pin (pins : list Z) (pin : Z) (ks : list Z) : Z :=
  match find (fun k => pin =? pin_of pins k) ks with
  | Some k => k
  | None => -1
  end.

(** A controller of two sensors whose schedule is full. *)
Definition scheduled_controller : TLSensors :=
  set_scanOrder [0; 1; 1; 0] (example_controller [example_sensor; example_sensor]).

(** ** Reading [updateAvg] *)

(** The record of a sensor without the four members of the filter. *)
Definition without_filter (d : TLStruct) : TLStruct :=
  set_noiseCounter 0
    (set_counter 0 (set_noisePower F32.zero (set_avg F32.zero d))).

(** The average of sensor [d] is held: the sensor is past its calibration,
    was not sent to recalibrate by another sensor, and asks for its average
    to be held while some button is approached, or pressed, and one is. *)
Definition average_held (c : TLSensors) (d : TLStruct) : Prop :=
  forcedCal d = false
  /\ ButtonState_value buttonStateReleased <= ButtonState_value (buttonState d)
  /\ ((disableUpdateIfAnyButtonIsApproached d = true
       /\ anyButtonIsApproached c = true)
      \/ (disableUpdateIfAnyButtonIsPressed d = true
          /\ anyButtonIsPressed c = true)).

(** A released sensor that holds its average while a button is pressed, in
    a controller where one is. *)
Definition holding_sensor : TLStruct :=
  set_disableUpdateIfAnyButtonIsPressed true released_sensor.

Definition holding_controller : TLSensors :=
  set_anyButtonIsPressed true
    (example_controller [holding_sensor; pressed_sensor]).

(** ** Reading the labels *)

(** The label of a sensor is the label of its state. *)
Definition label_current (d : TLStruct) : Prop :=
  buttonStateLabel d = buttonStateLabels (buttonState d).

(** [d'] is in the state of [d] and carries its label. *)
Definition same_label (d d' : TLStruct) : Prop :=
  buttonState d' = buttonState d /\ buttonStateLabel d' = buttonStateLabel d.

(** [d'] carries the label of [d], and is in its state unless it has been
    sent to [buttonStatePreCalibrating]. *)
Definition label_left (d d' : TLStruct) : Prop :=
  buttonStateLabel d' = buttonStateLabel d
  /\ (buttonState d' = buttonState d
      \/ buttonState d' = buttonStatePreCalibrating).

(** From [c] to [c'], every sensor but [ch] is related by [R] to what it
    was, and none has appeared or disappeared. *)
Definition others (ch : Z) (R : TLStruct -> TLStruct -> Prop)
  (c c' : TLSensors) : Prop :=
  forall m, m <> ch -> option_Forall2 R (sensor c m) (sensor c' m).

(** A released sensor next to a sensor that is about to be pressed and then
    sends sensor 0 to recalibrate: its average is [-100.0], under a value of
    [0.0]. *)
Definition pressing_neighbour : TLStruct :=
  set_avg 0xC2C80000
    (set_buttonState buttonStateApproachedToPressed
       (set_forceCalibrationWhenPressing 1 example_sensor)).

Definition neighbour_controller : TLSensors :=
  example_controller [released_sensor; pressing_neighbour].

(** A sample method whose initialisation fails for sensor 1. *)
Definition failing_method : SampleMethods :=
  {| sampleMethod := fun ds _ ch => (if ch =? 1 then -1 else 0, ds);
     sampleMethodPreSample := fun _ => None;
     sampleMethodSample := fun _ => None;
     sampleMethodPostSample := fun _ => None |}.

(** ** Reading the forced recalibration and the time-outs *)

(** The mask that a transition of the sensor [d] to [newState] carries, as
    the four fields are named: [forceCalibrationWhenReleasingFromApproached]
    when the sensor is released from [buttonStateApproachedToReleased],
    [forceCalibrationWhenApproachingFromReleased] and
    [forceCalibrationWhenApproachingFromPressed] when it is approached from
    [buttonStateReleasedToApproached] and from
    [buttonStatePressedToApproached], [forceCalibrationWhenPressing] when
    it is pressed, and no mask on any other transition. *)
Definition force_mask (d : TLStruct) (newState : ButtonState) : Z :=
  match buttonState d, newState with
  | buttonStateApproachedToReleased, buttonStateReleased =>
      forceCalibrationWhenReleasingFromApproached d
  | buttonStateReleasedToApproached, buttonStateApproached =>
      forceCalibrationWhenApproachingFromReleased d
  | buttonStatePressedToApproached, buttonStateApproached =>
      forceCalibrationWhenApproachingFromPressed d
  | _, buttonStatePressed => forceCalibrationWhenPressing d
  | _, _ => 0
  end.

(** What a measurement cycle at the time [now] does for sensor [ch] when
    the sample method has left it the value [v]: the body of the loop of
    [sample] over the sensors (the post-sample function, the assignment of
    [lastSampledAtTime] and [processSample]), with the assignment of [v]
    for the work of the post-sample function. *)
Definition measured (ch : Z) (now_v : Z * Z) (c : TLSensors) : TLSensors :=
  let c := update_sensor ch (set_value (snd now_v)) c in
  let c := update_sensor ch (set_lastSampledAtTime (fst now_v)) c in
  processSample ch c.

(** Such cycles for the times and values [run], one after the other. *)
Definition measurements (ch : Z) (run : list (Z * Z)) (c : TLSensors)
  : TLSensors :=
  fold_left (fun c now_v => measured ch now_v c) run c.

(** A sensor with the defaults ([approachedTimeout] is 300000 ms, the
    thresholds are [10.0], [8.0], [75.0] and [60.0], the average is [0.0])
    that has been in [buttonStateApproached] since the time 5; the values
    [9.0], at which it is neither released nor pressed, and [0.0], at which
    it is released. *)
Definition approached_sensor : TLStruct :=
  set_stateChangedAtTime 5
    (set_lastSampledAtTime 5
       (set_buttonState buttonStateApproached example_sensor)).

Definition approached_controller : TLSensors :=
  example_controller [approached_sensor].

Definition value_9 : Z := 0x41100000.
Definition value_0 : Z := 0.

(** * Properties *)

(** ** Records and arrays *)

Lemma ButtonState_eqb_eq (a b : ButtonState) :
  ButtonState_eqb a b = true <-> a = b.
Proof.
  unfold ButtonState_eqb. rewrite Z.eqb_eq.
  split; [|intros ->; reflexivity].
  destruct a, b; simpl; intros E; try reflexivity; discriminate E.
Qed.

Lemma ButtonState_eqb_refl (a : ButtonState) : ButtonState_eqb a a = true.
Proof. apply ButtonState_eqb_eq. reflexivity. Qed.

Lemma ButtonState_eqb_neq (a b : ButtonState) :
  ButtonState_eqb a b = false <-> a <> b.
Proof.
  rewrite <- ButtonState_eqb_eq. destruct (ButtonState_eqb a b); split; congruence.
Qed.

Lemma sensor_lookup (c : TLSensors) (n : Z) (d : TLStruct) :
  sensor c n = Some d <-> 0 <= n /\ data c !! Z.to_nat n = Some d.
Proof.
  unfold sensor. destruct (Z.ltb_spec n 0); split.
  - discriminate.
  - intros [? _]. lia.
  - tauto.
  - tauto.
Qed.

Lemma sensor_update_sensor (n m : Z) (f : TLStruct -> TLStruct) (c : TLSensors) :
  sensor (update_sensor n f c) m
  = if m =? n then f <$> sensor c m else sensor c m.
Proof.
  unfold sensor, update_sensor.
  destruct (Z.eqb_spec m n) as [->|Hne].
  - destruct (Z.ltb_spec n 0); [reflexivity|]. simpl.
    apply list_lookup_alter_eq.
  - destruct (Z.ltb_spec n 0); [reflexivity|].
    destruct (Z.ltb_spec m 0); [reflexivity|]. simpl.
    apply list_lookup_alter_ne. lia.
Qed.

Lemma sensor_update_sensor_eq (n : Z) (f : TLStruct -> TLStruct) (c : TLSensors) :
  sensor (update_sensor n f c) n = f <$> sensor c n.
Proof. rewrite sensor_update_sensor, Z.eqb_refl. reflexivity. Qed.

Lemma sensor_update_sensor_ne (n m : Z) (f : TLStruct -> TLStruct) (c : TLSensors) :
  m <> n -> sensor (update_sensor n f c) m = sensor c m.
Proof.
  intros Hne. rewrite sensor_update_sensor.
  destruct (Z.eqb_spec m n); [contradiction|reflexivity].
Qed.

Lemma update_sensor_absent (n : Z) (f : TLStruct -> TLStruct) (c : TLSensors) :
  sensor c n = None -> data (update_sensor n f c) = data c.
Proof.
  unfold sensor, update_sensor. destruct (Z.ltb_spec n 0); [reflexivity|].
  intros Hnone. simpl. apply list_eq. intros i.
  destruct (decide (Z.to_nat n = i)) as [<-|Hne].
  - rewrite list_lookup_alter_eq, Hnone. reflexivity.
  - apply list_lookup_alter_ne. exact Hne.
Qed.

(** The loop [for_upto] keeps what each of its rounds keeps. *)
Lemma for_upto_invariant {S : Type} (Inv : nat -> S -> Prop)
  (body : Z -> S -> S) (rounds : nat) (s : S) :
  Inv O s ->
  (forall k s, (k < rounds)%nat -> Inv k s ->
               Inv (Datatypes.S k) (body (Z.of_nat k) s)) ->
  Inv rounds (for_upto rounds body s).
Proof.
  intros H0 Hstep. induction rounds as [|k IH]; simpl.
  - exact H0.
  - apply Hstep; [lia|]. apply IH. intros j s' Hj. apply Hstep. lia.
Qed.

Lemma for_loop_invariant {S : Type} (Inv : S -> Prop)
  (body : Z -> S -> S) (n : Z) (s : S) :
  Inv s -> (forall i s, 0 <= i < n -> Inv s -> Inv (body i s)) ->
  Inv (for_loop n body s).
Proof.
  intros H0 Hstep. unfold for_loop.
  apply (for_upto_invariant (fun _ => Inv)); [exact H0|].
  intros k s' Hk. apply Hstep. lia.
Qed.

(** ** What the state machine keeps of the sensor records

    A transition relates every sensor record to what becomes of it.  For a
    reflexive and transitive relation [R] that the assignments of the state
    machine respect, every function of the state machine relates the array
    [data] before to the array [data] after, member by member. *)

Section Related.

Variable R : TLStruct -> TLStruct -> Prop.
Hypothesis R_refl : forall d, R d d.
Hypothesis R_trans : forall d1 d2 d3, R d1 d2 -> R d2 d3 -> R d1 d3.

Lemma related_refl (ds : list TLStruct) : sensors_related R ds ds.
Proof. induction ds; constructor; auto. Qed.

Lemma related_trans (ds1 ds2 ds3 : list TLStruct) :
  sensors_related R ds1 ds2 -> sensors_related R ds2 ds3 ->
  sensors_related R ds1 ds3.
Proof.
  intros H12. revert ds3.
  induction H12 as [|a b l k Hab _ IH]; intros ds3 H23; inversion H23; subst.
  - constructor.
  - constructor; [eapply R_trans; eassumption|apply IH; assumption].
Qed.

(** An assignment through a pointer to [data[n]]. *)
Lemma related_update_sensor (ds0 : list TLStruct) (c : TLSensors) (n : Z)
  (f : TLStruct -> TLStruct) :
  (forall d, sensor c n = Some d -> R d (f d)) ->
  sensors_related R ds0 (data c) ->
  sensors_related R ds0 (data (update_sensor n f c)).
Proof.
  intros Hf H0. unfold update_sensor.
  destruct (Z.ltb_spec n 0); [exact H0|]. simpl.
  apply Forall2_alter_r; [exact H0|].
  intros x y _ Hy Hxy. apply R_trans with y; [exact Hxy|].
  apply Hf. apply sensor_lookup. split; [lia|exact Hy].
Qed.

Hypothesis R_guard : forall b d, R d (set_stateIsBeingChanged b d).
Hypothesis R_enter_Calibrating : forall d, R d (enter_Calibrating d).
Hypothesis R_time : forall v d, R d (set_stateChangedAtTime v d).
Hypothesis R_state : forall s d, R d (set_buttonState s d).
Hypothesis R_forcedCal : forall b d, R d (set_forcedCal b d).

Lemma setState_switch_related (d : TLStruct) (s : ButtonState) :
  R d (fst (fst (setState_switch d s))).
Proof. destruct s; simpl; auto. Qed.

Section Nested.

Variable nested : Z -> ButtonState -> TLSensors -> TLSensors.
Hypothesis nested_related :
  forall n s c, sensors_related R (data c) (data (nested n s c)).

Lemma setForceCalibratingStates_with_related (ch mask : Z)
  (s : ButtonState) (c : TLSensors) :
  sensors_related R (data c)
    (data (fst (fst (setForceCalibratingStates_with nested ch mask s c)))).
Proof.
  unfold setForceCalibratingStates_with.
  apply (for_loop_invariant
           (fun st => sensors_related R (data c) (data (fst (fst st))))).
  - apply related_refl.
  - intros n [[c1 s1] b1] _ H1. simpl in H1.
    destruct (mask_selects mask n); [|exact H1].
    destruct (n =? ch); simpl.
    + apply related_update_sensor; auto.
    + apply related_update_sensor; auto.
      eapply related_trans; [exact H1|apply nested_related].
Qed.

Lemma setState_with_related (ch : Z) (s : ButtonState) (c : TLSensors) :
  sensors_related R (data c) (data (setState_with nested ch s c)).
Proof.
  unfold setState_with.
  destruct (sensor c ch) as [d|] eqn:Hd; [|apply related_refl].
  destruct (stateIsBeingChanged d); [apply related_refl|].
  destruct (negb (ButtonState_eqb (buttonState d) s)); [|apply related_refl].
  pose proof (setState_switch_related (set_stateIsBeingChanged true d) s) as Hsw.
  destruct (setState_switch (set_stateIsBeingChanged true d) s)
    as [[d1 mask] s1]. simpl in Hsw.
  assert (H1 : sensors_related R (data c)
                 (data (update_sensor ch (fun _ => d1) c))).
  { apply related_update_sensor; [|apply related_refl].
    intros d' Hd'. rewrite Hd in Hd'. injection Hd' as <-.
    eapply R_trans; [apply R_guard|exact Hsw]. }
  set (c1 := update_sensor ch (fun _ => d1) c) in *.
  destruct (nonzero mask).
  - pose proof (setForceCalibratingStates_with_related ch mask s1 c1) as H2.
    destruct (setForceCalibratingStates_with nested ch mask s1 c1)
      as [[c2 s2] b2]. simpl in H2.
    assert (H3 : sensors_related R (data c) (data c2))
      by (eapply related_trans; eassumption).
    apply related_update_sensor; auto.
    match goal with
    | |- context [if ?b then set_notifications _ ?x else _] =>
        destruct b; simpl
    end;
      destruct (_ || _); repeat (apply related_update_sensor; auto).
  - apply related_update_sensor; auto.
    match goal with
    | |- context [if ?b then set_notifications _ ?x else _] =>
        destruct b; simpl
    end;
      destruct (negb _); repeat (apply related_update_sensor; auto).
Qed.

End Nested.

Lemma setState_nested_related (n : Z) (s : ButtonState) (c : TLSensors) :
  sensors_related R (data c) (data (setState_nested n s c)).
Proof.
  apply setState_with_related. intros; apply related_refl.
Qed.

Lemma setState_related (ch : Z) (s : ButtonState) (c : TLSensors) :
  sensors_related R (data c) (data (setState ch s c)).
Proof. apply setState_with_related, setState_nested_related. Qed.

Hypothesis R_updateAvg : forall d, R d (updateAvg_assign d).

Lemma updateAvg_related (ch : Z) (c : TLSensors) :
  sensors_related R (data c) (data (updateAvg ch c)).
Proof.
  unfold updateAvg. destruct (sensor c ch); [|apply related_refl].
  repeat match goal with
         | |- context [if ?b then _ else _] => destruct b
         end; try apply related_refl.
  apply related_update_sensor; [auto|apply related_refl].
Qed.

Hypothesis R_offsetValue : forall v d, R d (set_offsetValue v d).
Hypothesis R_label : forall v d, R d (set_buttonStateLabel v d).

Lemma processSample_switch_related (s : ButtonState) (ch : Z) (c : TLSensors) :
  sensors_related R (data c) (data (processSample_switch s ch c)).
Proof.
  destruct s; simpl;
    unfold processStatePreCalibrating, processStateCalibrating,
      processStateNoisePowerMeasurement, processStateReleased,
      processStateReleasedToApproached, processStateApproached,
      processStateApproachedToReleased, processStateApproachedToPressed,
      processStatePressed, processStatePressedToApproached;
    (destruct (sensor c ch); [|apply related_refl]);
    repeat match goal with
           | |- context [if ?b then _ else _] => destruct b
           end;
    try apply related_refl;
    try apply setState_related;
    try apply updateAvg_related.
  all: apply related_update_sensor;
    [intros d' _; destruct (negb _); auto|apply setState_related].
Qed.

Hypothesis R_delta : forall d, R d (processSample_delta d).

Lemma processSample_related (ch : Z) (c : TLSensors) :
  sensors_related R (data c) (data (processSample ch c)).
Proof.
  unfold processSample.
  assert (H1 : sensors_related R (data c)
                 (data (update_sensor ch processSample_delta c)))
    by (apply related_update_sensor; [auto|apply related_refl]).
  destruct (sensor (update_sensor ch processSample_delta c) ch); [|exact H1].
  apply related_update_sensor; [auto|].
  eapply related_trans; [exact H1|apply processSample_switch_related].
Qed.

(** One measurement cycle. *)

Context {SM : SampleMethods}.
Hypothesis R_hooks : hooks_related R.
Hypothesis R_raw : forall v d, R d (set_raw v d).
Hypothesis R_slewrateFirstSample :
  forall b d, R d (set_slewrateFirstSample b d).
Hypothesis R_lastSampledAtTime : forall v d, R d (set_lastSampledAtTime v d).
Hypothesis R_buttonIsCalibrating :
  forall b d, R d (set_buttonIsCalibrating b d).
Hypothesis R_buttonIsReleased : forall b d, R d (set_buttonIsReleased b d).
Hypothesis R_buttonIsApproached :
  forall b d, R d (set_buttonIsApproached b d).
Hypothesis R_buttonIsPressed : forall b d, R d (set_buttonIsPressed b d).

Lemma addSample_related (ch s : Z) (c : TLSensors) :
  sensors_related R (data c) (data (addSample ch s c)).
Proof.
  apply related_update_sensor; [|apply related_refl].
  intros d _. destruct (enableSlewrateLimiter d); [|apply R_raw].
  destruct (slewrateFirstSample d).
  - apply R_trans with (set_raw s d);
      [apply R_raw|apply R_slewrateFirstSample].
  - cbv zeta.
    apply R_trans with (if s >? raw d then set_raw (to_i32 (raw d + 1)) d else d).
    + destruct (s >? raw d); [apply R_raw|apply R_refl].
    + match goal with
      | |- R ?x (if ?b then _ else _) =>
          destruct b; [apply R_raw|apply R_refl]
      end.
Qed.

Lemma call_sample_related (ch : Z) (inv : bool) (c : TLSensors) :
  sensors_related R (data c) (data (snd (call_sample ch inv c))).
Proof.
  unfold call_sample.
  destruct (sampleMethodSample ch) as [f|] eqn:Hf; [|apply related_refl].
  destruct R_hooks as (_ & Hs & _). specialize (Hs ch f (data c) (nSensors c) inv Hf).
  destruct (f (data c) (nSensors c) inv). exact Hs.
Qed.

Lemma call_hook_related (hook : option (list TLStruct -> Z -> list TLStruct))
  (c : TLSensors) :
  (forall f ds n, hook = Some f -> sensors_related R ds (f ds n)) ->
  sensors_related R (data c) (data (call_hook hook c)).
Proof.
  intros Hh. unfold call_hook. destruct hook as [f|]; [|apply related_refl].
  simpl. apply Hh. reflexivity.
Qed.

Lemma sample_slot_related (ch : Z) (c : TLSensors) :
  sensors_related R (data c) (data (sample_slot ch c)).
Proof.
  unfold sample_slot.
  assert (H1 : exists s1 c1,
             (if nonzero
                   (Z.land
                      (from_option (fun d => SampleType_value (sampleType d)) 0
                         (sensor c ch))
                      (SampleType_value sampleTypeNormal))
              then call_sample ch false c else (0, c)) = (s1, c1)
             /\ sensors_related R (data c) (data c1)).
  { destruct (nonzero _).
    - pose proof (call_sample_related ch false c) as H.
      destruct (call_sample ch false c) as [s1 c1].
      exists s1, c1. split; [reflexivity|exact H].
    - eexists _, _. split; [reflexivity|apply related_refl]. }
  destruct H1 as (s1 & c1 & -> & H1).
  assert (H2 : exists s2 c2,
             (if nonzero
                   (Z.land
                      (from_option (fun d => SampleType_value (sampleType d)) 0
                         (sensor c1 ch))
                      (SampleType_value sampleTypeInverted))
              then call_sample ch true c1 else (0, c1)) = (s2, c2)
             /\ sensors_related R (data c1) (data c2)).
  { destruct (nonzero _).
    - pose proof (call_sample_related ch true c1) as H.
      destruct (call_sample ch true c1) as [s2 c2].
      exists s2, c2. split; [reflexivity|exact H].
    - eexists _, _. split; [reflexivity|apply related_refl]. }
  destruct H2 as (s2 & c2 & -> & H2).
  eapply related_trans; [exact H1|].
  eapply related_trans; [exact H2|].
  apply addSample_related.
Qed.

Lemma sample_summaries_related (ch : Z) (c : TLSensors) :
  sensors_related R (data c) (data (sample_summaries ch c)).
Proof.
  unfold sample_summaries.
  assert (H1 : sensors_related R (data c)
                 (data (resetButtonStateSummaries ch c))).
  { apply related_update_sensor; [|apply related_refl]. intros d _.
    apply R_trans with
      (set_buttonIsApproached false
         (set_buttonIsReleased false (set_buttonIsCalibrating false d)));
      [|apply R_buttonIsPressed].
    apply R_trans with
      (set_buttonIsReleased false (set_buttonIsCalibrating false d));
      [|apply R_buttonIsApproached].
    apply R_trans with (set_buttonIsCalibrating false d);
      [apply R_buttonIsCalibrating|apply R_buttonIsReleased]. }
  destruct (sensor (resetButtonStateSummaries ch c) ch); [|exact H1].
  repeat match goal with
         | |- context [if ?b then _ else _] => destruct b
         end;
    cbn [data set_anyButtonIsApproached set_anyButtonIsPressed];
    repeat first
      [ exact H1
      | apply related_update_sensor; [solve [auto]|] ].
Qed.

Lemma sample_related (now : Z) (c : TLSensors) :
  sensors_related R (data c) (data (snd (sample now c))).
Proof.
  unfold sample. simpl.
  apply for_loop_invariant.
  2:{ intros i s _ Hs. eapply related_trans;
        [exact Hs|apply sample_summaries_related]. }
  simpl.
  apply for_loop_invariant.
  2:{ intros i s _ Hs. eapply related_trans; [exact Hs|].
      eapply related_trans; [|apply processSample_related].
      apply related_update_sensor; [auto|].
      apply call_hook_related. intros f ds n Hf.
      destruct R_hooks as (_ & _ & Hp). eapply Hp; exact Hf. }
  apply for_loop_invariant.
  2:{ intros i s _ Hs. destruct (scanOrder s !! Z.to_nat i); [|exact Hs].
      eapply related_trans; [exact Hs|apply sample_slot_related]. }
  apply for_loop_invariant.
  2:{ intros i s _ Hs. eapply related_trans; [exact Hs|].
      apply call_hook_related. intros f ds n Hf.
      destruct R_hooks as (Hp & _). eapply Hp; exact Hf. }
  apply for_loop_invariant.
  2:{ intros i s _ Hs. apply related_update_sensor; [|exact Hs].
      intros d _. apply R_trans with (set_raw 0 d); auto. }
  apply related_refl.
Qed.

End Related.

(** ** What the state machine keeps of the controller *)

Lemma settings_update_sensor (n : Z) (f : TLStruct -> TLStruct) (c : TLSensors) :
  settings (update_sensor n f c) = settings c.
Proof. unfold update_sensor. destruct (n <? 0); reflexivity. Qed.

Lemma N_SENSORS_update_sensor (n : Z) (f : TLStruct -> TLStruct) (c : TLSensors) :
  N_SENSORS (update_sensor n f c) = N_SENSORS c.
Proof.
  unfold update_sensor, N_SENSORS. destruct (n <? 0); [reflexivity|]. simpl.
  rewrite length_alter. reflexivity.
Qed.

Lemma settings_set_notifications (v : list (Z * ButtonState * ButtonState))
  (c : TLSensors) :
  settings (set_notifications v c) = settings c.
Proof. reflexivity. Qed.

Ltac split_ifs :=
  repeat match goal with
         | |- context [if ?b then _ else _] => destruct b
         end.

Section Settings.

Variable nested : Z -> ButtonState -> TLSensors -> TLSensors.
Hypothesis nested_settings : forall n s c, settings (nested n s c) = settings c.

Lemma setForceCalibratingStates_with_settings (ch mask : Z)
  (s : ButtonState) (c : TLSensors) :
  settings (fst (fst (setForceCalibratingStates_with nested ch mask s c)))
  = settings c.
Proof.
  unfold setForceCalibratingStates_with.
  apply (for_loop_invariant (fun st => settings (fst (fst st)) = settings c)).
  - reflexivity.
  - intros n [[c1 s1] b1] _ H1. simpl in H1.
    destruct (mask_selects mask n); [|exact H1].
    destruct (n =? ch); simpl; rewrite settings_update_sensor;
      [|rewrite nested_settings]; exact H1.
Qed.

Lemma setState_with_settings (ch : Z) (s : ButtonState) (c : TLSensors) :
  settings (setState_with nested ch s c) = settings c.
Proof.
  unfold setState_with.
  destruct (sensor c ch) as [d|]; [|reflexivity].
  destruct (stateIsBeingChanged d); [reflexivity|].
  destruct (negb (ButtonState_eqb (buttonState d) s)); [|reflexivity].
  destruct (setState_switch (set_stateIsBeingChanged true d) s)
    as [[d1 mask] s1].
  set (c1 := update_sensor ch (fun _ => d1) c).
  assert (H1 : settings c1 = settings c) by apply settings_update_sensor.
  destruct (nonzero mask).
  - pose proof (setForceCalibratingStates_with_settings ch mask s1 c1) as H2.
    destruct (setForceCalibratingStates_with nested ch mask s1 c1)
      as [[c2 s2] b2]. simpl in H2.
    rewrite settings_update_sensor.
    split_ifs;
      rewrite ?settings_set_notifications, ?settings_update_sensor;
      congruence.
  - rewrite settings_update_sensor.
    split_ifs;
      rewrite ?settings_set_notifications, ?settings_update_sensor;
      congruence.
Qed.

End Settings.

Lemma setState_nested_settings (n : Z) (s : ButtonState) (c : TLSensors) :
  settings (setState_nested n s c) = settings c.
Proof. apply setState_with_settings. reflexivity. Qed.

Lemma setState_settings (ch : Z) (s : ButtonState) (c : TLSensors) :
  settings (setState ch s c) = settings c.
Proof. apply setState_with_settings, setState_nested_settings. Qed.

(** ** [setState] on an unchanged state *)

(** C10.  Calling [setState] with the state the sensor already has leaves
    the controller as it is: no member of any sensor record changes (among
    them [stateChangedAtTime], [counter], [avg] and [forcedCal]), no sensor
    is forced to recalibrate whatever the masks are, and the callback is
    not called (the list [notifications] is a member of the controller). *)
Theorem setState_same_state_noop (c : TLSensors) (ch : Z) (d : TLStruct) :
  sensor c ch = Some d -> setState ch (buttonState d) c = c.
Proof.
  intros Hd. unfold setState, setState_with. rewrite Hd.
  destruct (stateIsBeingChanged d); [reflexivity|].
  rewrite ButtonState_eqb_refl. reflexivity.
Qed.

Lemma setState_same_state_noop_witness :
  sensor pressed_controller 0 = Some pressed_sensor
  /\ setState 0 buttonStatePressed pressed_controller = pressed_controller.
Proof.
  split; [reflexivity|].
  apply (setState_same_state_noop pressed_controller 0 pressed_sensor).
  reflexivity.
Defined.

(** ** The computation of [delta] *)

Lemma related_lookup (R : TLStruct -> TLStruct -> Prop) (c c' : TLSensors)
  (n : Z) (d : TLStruct) :
  sensors_related R (data c) (data c') -> sensor c n = Some d ->
  exists d', sensor c' n = Some d' /\ R d d'.
Proof.
  intros HR Hd. apply sensor_lookup in Hd as [Hn Hd].
  destruct (Forall2_lookup_l _ _ _ _ _ HR Hd) as (d' & Hd' & Hdd').
  exists d'. split; [|exact Hdd']. apply sensor_lookup. auto.
Qed.

Lemma related_lookup_r (R : TLStruct -> TLStruct -> Prop) (c c' : TLSensors)
  (n : Z) (d' : TLStruct) :
  sensors_related R (data c) (data c') -> sensor c' n = Some d' ->
  exists d, sensor c n = Some d /\ R d d'.
Proof.
  intros HR Hd. apply sensor_lookup in Hd as [Hn Hd].
  destruct (Forall2_lookup_r _ _ _ _ _ HR Hd) as (d & Hd0 & Hdd').
  exists d. split; [|exact Hdd']. apply sensor_lookup. auto.
Qed.

(** After the computation of [delta], [processSample] does not assign
    [delta] again. *)
Lemma processSample_switch_delta (s : ButtonState) (c : TLSensors) (ch : Z) :
  sensors_related (fun d d' => delta d' = delta d) (data c)
    (data (processSample_switch s ch c)).
Proof.
  apply processSample_switch_related; try reflexivity.
  - intros d1 d2 d3 H12 H23. congruence.
  - intros d. unfold enter_Calibrating. destruct (negb _); reflexivity.
  - intros d. unfold updateAvg_assign. split_ifs; reflexivity.
Qed.

(** C6, as the code has it.  [processSample] sets [delta] to zero in the
    states below [buttonStateNoisePowerMeasurement], that is in
    [buttonStatePreCalibrating] and [buttonStateCalibrating]; from
    [buttonStateNoisePowerMeasurement] on it sets [delta] to [value - avg]
    for the positive direction and to [avg - value] for the negative one,
    and its assignment to [maxDelta] makes [maxDelta] the larger of the
    former [maxDelta] and [delta].  [d] is the sensor before the call,
    [d'] after it, and [processSample_delta d] after the computation of
    [delta]. *)
Theorem processSample_delta_gating (c : TLSensors) (ch : Z) (d : TLStruct) :
  sensor c ch = Some d ->
  exists d',
    sensor (processSample ch c) ch = Some d'
    /\ delta d' = delta (processSample_delta d)
    /\ (if ButtonState_value (buttonState d)
           <? ButtonState_value buttonStateNoisePowerMeasurement
        then delta d' = F32.zero
             /\ maxDelta (processSample_delta d) = maxDelta d
        else delta d'
             = match direction d with
               | directionPositive => F32.sub (value d) (avg d)
               | directionNegative => F32.sub (avg d) (value d)
               end
             /\ maxDelta (processSample_delta d)
                = if F32.lt (maxDelta d) (delta d')
                  then delta d' else maxDelta d).
Proof.
  intros Hd. unfold processSample.
  set (c1 := update_sensor ch processSample_delta c).
  assert (H1 : sensor c1 ch = Some (processSample_delta d)).
  { unfold c1. rewrite sensor_update_sensor_eq, Hd. reflexivity. }
  rewrite H1.
  destruct (related_lookup _ _ _ _ _
              (processSample_switch_delta
                 (buttonState (processSample_delta d)) c1 ch) H1)
    as (d2 & Hd2 & Hdelta).
  eexists. split.
  { rewrite sensor_update_sensor_eq, Hd2. reflexivity. }
  assert (Hfinal : delta
            (set_buttonStateLabel (buttonStateLabels (buttonState d2)) d2)
          = delta (processSample_delta d)) by exact Hdelta.
  split; [exact Hfinal|]. rewrite Hfinal.
  unfold processSample_delta.
  destruct (ButtonState_value (buttonState d)
            <? ButtonState_value buttonStateNoisePowerMeasurement).
  - split; reflexivity.
  - destruct (direction d); cbn [delta maxDelta set_delta set_maxDelta];
      match goal with
      | |- context [F32.lt ?a ?b] => destruct (F32.lt a b) eqn:E
      end;
      cbn [delta maxDelta set_delta set_maxDelta]; rewrite ?E;
      split; reflexivity.
Qed.

Lemma processSample_delta_gating_witness :
  sensor measuring_controller 0 = Some measuring_sensor
  /\ exists d',
      sensor (processSample 0 measuring_controller) 0 = Some d'
      /\ delta d' = 0x3F800000.
Proof.
  split; [reflexivity|].
  destruct (processSample_delta_gating measuring_controller 0 measuring_sensor
              eq_refl) as (d' & Hd' & Hdelta & _).
  exists d'. split; [exact Hd'|]. rewrite Hdelta. reflexivity.
Defined.

(** C6 as stated fails: a sensor in [buttonStateNoisePowerMeasurement], a
    calibration state, with the value [1.0] over the average [0.0] leaves
    [processSample] with the delta [1.0]. *)
Lemma delta_in_NoisePowerMeasurement_not_zero :
  ~ (forall (c : TLSensors) (ch : Z) (d d' : TLStruct),
        sensor c ch = Some d -> isCalibrating d = true ->
        sensor (processSample ch c) ch = Some d' -> delta d' = F32.zero).
Proof.
  intros claim.
  specialize (claim measuring_controller 0 measuring_sensor).
  assert (H : exists d', sensor (processSample 0 measuring_controller) 0 = Some d'
                         /\ delta d' = 0x3F800000).
  { vm_compute. eexists. split; reflexivity. }
  destruct H as (d' & Hd' & Hdelta).
  specialize (claim d' eq_refl eq_refl Hd').
  rewrite Hdelta in claim. discriminate claim.
Qed.

(** ** The cap on the counters *)

Ltac capped_frame :=
  intros; unfold counters_capped in *; cbn; tauto.

Lemma counters_capped_enter_Calibrating (d : TLStruct) :
  counters_capped d -> counters_capped (enter_Calibrating d).
Proof.
  intros _. unfold enter_Calibrating, counters_capped.
  destruct (negb _); cbn; lia.
Qed.

Lemma counters_capped_count (d : TLStruct) :
  counters_capped d ->
  counters_capped
    (if counter d <? to_u32 (filterCoeff d - 1)
     then set_counter (to_u32 (counter d + 1)) d else d).
Proof.
  intros H. destruct (Z.ltb_spec (counter d) (to_u32 (filterCoeff d - 1)));
    [|exact H].
  unfold counters_capped in *. cbn. intros Hfc. specialize (H Hfc).
  unfold to_u32 in *. rewrite Z.mod_small in * by lia.
  lia.
Qed.

Lemma counters_capped_noise_count (d : TLStruct) :
  counters_capped d ->
  counters_capped
    (if noiseCounter d <? to_u32 (filterCoeff d - 1)
     then set_noiseCounter (to_u32 (noiseCounter d + 1)) d else d).
Proof.
  intros H. destruct (Z.ltb_spec (noiseCounter d) (to_u32 (filterCoeff d - 1)));
    [|exact H].
  unfold counters_capped in *. cbn. intros Hfc. specialize (H Hfc).
  unfold to_u32 in *. rewrite Z.mod_small in * by lia.
  lia.
Qed.

Lemma counters_capped_updateAvg_assign (d : TLStruct) :
  counters_capped d -> counters_capped (updateAvg_assign d).
Proof.
  intros H. unfold updateAvg_assign.
  apply counters_capped_count.
  destruct (_ && _); [|revert H; capped_frame].
  apply (counters_capped_noise_count (set_noisePower _ (set_avg _ d))).
  revert H. capped_frame.
Qed.

Lemma kept_trans (P : TLStruct -> Prop) (d1 d2 d3 : TLStruct) :
  (P d1 -> P d2) -> (P d2 -> P d3) -> P d1 -> P d3.
Proof. tauto. Qed.

Lemma updateAvg_keeps_cap (c : TLSensors) (ch : Z) :
  kept counters_capped (data c) (data (updateAvg ch c)).
Proof.
  apply updateAvg_related; [tauto|apply kept_trans|].
  apply counters_capped_updateAvg_assign.
Qed.

Lemma setState_keeps_cap (c : TLSensors) (ch : Z) (s : ButtonState) :
  kept counters_capped (data c) (data (setState ch s c)).
Proof.
  apply setState_related; [tauto|apply kept_trans|..]; try capped_frame.
  apply counters_capped_enter_Calibrating.
Qed.

Lemma sample_keeps_cap {SM : SampleMethods} (now : Z) (c : TLSensors) :
  hooks_keep counters_capped ->
  kept counters_capped (data c) (data (snd (sample now c))).
Proof.
  intros Hhooks.
  apply sample_related; [tauto|apply kept_trans|..]; try capped_frame.
  - apply counters_capped_enter_Calibrating.
  - apply counters_capped_updateAvg_assign.
  - intros d. unfold processSample_delta.
    destruct (_ <? _); [capped_frame|].
    destruct (direction d); cbn [delta maxDelta set_delta set_maxDelta];
      match goal with
      | |- context [F32.lt ?a ?b] => destruct (F32.lt a b)
      end; capped_frame.
Qed.

(** ** The error code through the initialisation *)

Lemma settings_error (c c' : TLSensors) :
  settings c' = settings c -> error c' = error c.
Proof. unfold settings. intros H. injection H. auto. Qed.

Lemma settings_nSensors (c c' : TLSensors) :
  settings c' = settings c -> nSensors c' = nSensors c.
Proof. unfold settings. intros H. injection H. auto. Qed.

Lemma settings_nMeasurementsPerSensor (c c' : TLSensors) :
  settings c' = settings c ->
  nMeasurementsPerSensor c' = nMeasurementsPerSensor c.
Proof. unfold settings. intros H. injection H. auto. Qed.

Lemma settings_buttonStateChangeCallback (c c' : TLSensors) :
  settings c' = settings c ->
  buttonStateChangeCallback c' = buttonStateChangeCallback c.
Proof. unfold settings. intros H. injection H. auto. Qed.

Lemma addChannel_probe_error (rounds : nat) (n r length ch : Z) (so : list Z) :
  snd (addChannel_probe rounds n r length ch so) = 0
  \/ snd (addChannel_probe rounds n r length ch so) = -1.
Proof.
  revert n. induction rounds as [|k IH]; intros n; simpl.
  - right. reflexivity.
  - destruct (_ =? 255); [left; reflexivity|apply IH].
Qed.

Lemma addChannel_error {RG : Random} (ch : Z) (st : generator * TLSensors) :
  error_0_or_minus_1 (snd (addChannel ch st)).
Proof.
  destruct st as [g c]. unfold addChannel.
  destruct (random _ _ g) as [r g'].
  pose proof (addChannel_probe_error
                (Z.to_nat (to_u16 (nSensors c * nMeasurementsPerSensor c))) 0 r
                (to_u16 (nSensors c * nMeasurementsPerSensor c)) ch
                (scanOrder c)) as H.
  destruct (addChannel_probe _ _ _ _ _ _) as [so err]. exact H.
Qed.

Lemma initScanOrder_error {RG : Random} (st : generator * TLSensors) :
  error_0_or_minus_1 (snd st) -> error_0_or_minus_1 (snd (initScanOrder st)).
Proof.
  destruct st as [g c]. intros H. unfold initScanOrder.
  apply (for_loop_invariant (fun st => error_0_or_minus_1 (snd st))).
  - simpl.
    apply (for_loop_invariant error_0_or_minus_1); [exact H|].
    intros i s _ Hs. exact Hs.
  - intros _ st _ Hst.
    apply (for_loop_invariant (fun st => error_0_or_minus_1 (snd st)));
      [exact Hst|].
    intros n st' _ _. apply addChannel_error.
Qed.

Lemma initialize_error {SM : SampleMethods} (n : Z) (c : TLSensors) :
  error_0_or_minus_1 c -> error_0_or_minus_1 (snd (initialize n c)).
Proof.
  intros H. unfold initialize.
  destruct (sampleMethod (data c) (nSensors c) n) as [ret ds].
  destruct (nonzero ret); simpl; [right; reflexivity|].
  unfold error_0_or_minus_1.
  rewrite (settings_error _ _ (setState_settings n _ (set_data ds c))).
  exact H.
Qed.

Lemma setDefaults_error {RG : Random} {SM : SampleMethods}
  (st : generator * TLSensors) :
  error_0_or_minus_1 (snd (snd (setDefaults st))).
Proof.
  destruct st as [g c]. unfold setDefaults.
  set (c1 := if nSensors (set_error 0 c) <? 1 then _ else _).
  assert (H1 : error_0_or_minus_1 c1).
  { unfold c1. destruct (_ <? 1); [right|left]; reflexivity. }
  set (c2 := if error c1 =? 0 then _ else c1).
  assert (H2 : error_0_or_minus_1 c2).
  { unfold c2. destruct (error c1 =? 0); exact H1. }
  clearbody c2.
  match goal with
  | |- context [let '(_, _) := ?X in _] =>
      assert (H3 : error_0_or_minus_1 (snd X));
      [|destruct X as [g3 c3]]
  end.
  { destruct (error c2 =? 0); [|exact H2].
    change (negb (useCustomScanOrder
                    (set_useCustomScanOrder TL_USE_CUSTOM_SCAN_ORDER_DEFAULT c2)))
      with true. cbv iota.
    apply initScanOrder_error. exact H2. }
  cbn [snd] in *.
  set (c4 := if error c3 =? 0 then _ else c3).
  assert (H4 : error_0_or_minus_1 c4).
  { unfold c4. destruct (error c3 =? 0); exact H3. }
  clearbody c4.
  destruct (error c4 =? 0); [|exact H4].
  apply for_loop_invariant; [exact H4|].
  intros n s _ Hs. unfold error_0_or_minus_1.
  rewrite (settings_error _ _ (settings_update_sensor n _ _)).
  apply initialize_error. exact Hs.
Qed.

(** ** The counters after the constructor *)

Lemma setState_keeps_counters_zero (c : TLSensors) (ch : Z) (s : ButtonState) :
  kept counters_zero (data c) (data (setState ch s c)).
Proof.
  apply setState_related; [tauto|apply kept_trans|..];
    try (intros; unfold counters_zero in *; cbn; tauto).
  intros d _. unfold enter_Calibrating, counters_zero.
  destruct (negb _); cbn; auto.
Qed.

(** ** The read path of the EEPROM codec *)

Lemma check_capacity_cases (e : EEPROM) (c : TLSensors) :
  check_capacity e c = c \/ check_capacity e c = set_error (-28) c.
Proof.
  unfold check_capacity.
  destruct (negb _); destruct (_ >? _); auto.
Qed.

Lemma dummy_read_fst (e : EEPROM) (n : Z) (st : TLSensors * Z * Z) :
  fst (fst (readSensorSettingFromEeprom e n false st)) = fst (fst st).
Proof.
  destruct st as [[c addr] crc]. unfold readSensorSettingFromEeprom.
  repeat match goal with
         | |- context [readFloatFromEeprom ?e ?a ?c] =>
             destruct (readFloatFromEeprom e a c) as [[? ?] ?]
         end.
  reflexivity.
Qed.

Lemma dummy_pass_fst (e : EEPROM) (c : TLSensors) :
  fst (fst (dummy_pass e c)) = c.
Proof.
  unfold dummy_pass.
  apply (for_loop_invariant (fun st => fst (fst st) = c)); [reflexivity|].
  intros n st _ Hst. rewrite dummy_read_fst. exact Hst.
Qed.


Ltac norm_read :=
  cbn [andb negb error set_error data nSensors eepromOffset fst snd].

Lemma readSettingsFromEeprom_cases (e : EEPROM) (c : TLSensors) :
  (data (readSettingsFromEeprom e c) = data c
   /\ nSensors (readSettingsFromEeprom e c) = nSensors c)
  \/ (~ record_rejected e c /\ error c = 0
      /\ readSettingsFromEeprom e c = apply_pass e c).
Proof.
  unfold readSettingsFromEeprom. cbv zeta.
  fold (stored_key e c).
  destruct (check_capacity_cases e c) as [-> | ->].
  2:{ left. norm_read. change (-28 =? 0) with false. norm_read.
      split; reflexivity. }
  destruct (error c =? 0) eqn:Herr; norm_read; rewrite ?Herr.
  2:{ left. split; reflexivity. }
  destruct (stored_key e c =? TL_EEPROM_KEY) eqn:Hkey; norm_read; rewrite ?Herr.
  2:{ left. change (-5 =? 0) with false. norm_read. split; reflexivity. }
  fold (stored_descriptor e c). fold (stored_formatVersion e c).
  fold (stored_nSensors e c).
  destruct (stored_formatVersion e c =? TL_EEPROM_FORMAT_VERSION) eqn:Hver;
    norm_read.
  2:{ left.
      destruct (stored_nSensors e c =? nSensors c); norm_read;
        change (-5 =? 0) with false; norm_read; split; reflexivity. }
  destruct (stored_nSensors e c =? nSensors c) eqn:Hcnt; norm_read;
    rewrite ?Herr.
  2:{ left. change (-5 =? 0) with false. norm_read. split; reflexivity. }
  fold (dummy_pass e c).
  assert (Hrec : recomputed_crc e c = snd (dummy_pass e c)) by reflexivity.
  assert (Hsto : stored_crc e c
                 = Z.lor (to_u16 (Z.shiftl (EEPROM_read e (snd (fst (dummy_pass e c)))) 8))
                     (EEPROM_read e (snd (fst (dummy_pass e c)) + 1)))
    by reflexivity.
  assert (Happ : apply_pass e c
                 = let '(c1, _, _) :=
                     for_loop (nSensors c)
                       (fun n st => readSensorSettingFromEeprom e n true st)
                       (c, eepromOffset c + 1 + 1 + 1, snd (dummy_pass e c)) in
                   for_loop (nSensors c1)
                     (fun n c2 =>
                        update_sensor n
                          (set_enableSlewrateLimiter
                             (nonzero
                                (Z.land (EEPROM_read e (eepromOffset c + 1 + 1))
                                   TL_EEPROM_CONFIG_ENABLE_SLEWRATE_LIMITER)))
                          c2) c1)
    by reflexivity.
  pose proof (dummy_pass_fst e c) as Hfst.
  destruct (dummy_pass e c) as [[c0 addr] crc]. cbn [fst snd] in *. subst c0.
  destruct (crc =? _) eqn:Hcrc; norm_read; rewrite ?Herr.
  2:{ left. change (-5 =? 0) with false. norm_read. split; reflexivity. }
  right. split; [|split].
  - unfold record_rejected. rewrite Hrec, Hsto.
    apply Z.eqb_eq in Hkey, Hver, Hcnt, Hcrc. tauto.
  - apply Z.eqb_eq. exact Herr.
  - rewrite Happ. reflexivity.
Qed.

Section ReadRelated.

Variable R : TLStruct -> TLStruct -> Prop.
Hypothesis R_refl : forall d, R d d.
Hypothesis R_trans : forall d1 d2 d3, R d1 d2 -> R d2 d3 -> R d1 d3.
Hypothesis R_releasedToApproachedThreshold :
  forall v d, R d (set_releasedToApproachedThreshold v d).
Hypothesis R_approachedToReleasedThreshold :
  forall v d, R d (set_approachedToReleasedThreshold v d).
Hypothesis R_approachedToPressedThreshold :
  forall v d, R d (set_approachedToPressedThreshold v d).
Hypothesis R_pressedToApproachedThreshold :
  forall v d, R d (set_pressedToApproachedThreshold v d).
Hypothesis R_enableSlewrateLimiter :
  forall b d, R d (set_enableSlewrateLimiter b d).

Lemma readSensorSettingFromEeprom_related (e : EEPROM) (n : Z) (apply : bool)
  (ds0 : list TLStruct) (st : TLSensors * Z * Z) :
  sensors_related R ds0 (data (fst (fst st))) ->
  sensors_related R ds0
    (data (fst (fst (readSensorSettingFromEeprom e n apply st)))).
Proof.
  destruct st as [[c addr] crc]. intros H. unfold readSensorSettingFromEeprom.
  destruct apply.
  - repeat match goal with
           | |- context [readFloatFromEeprom ?e ?a ?c] =>
               destruct (readFloatFromEeprom e a c) as [[? ?] ?]
           end.
    cbn [fst snd] in *.
    repeat (apply related_update_sensor; [auto|auto|]). exact H.
  - repeat match goal with
           | |- context [readFloatFromEeprom ?e ?a ?c] =>
               destruct (readFloatFromEeprom e a c) as [[? ?] ?]
           end.
    exact H.
Qed.

Lemma apply_pass_related (e : EEPROM) (c : TLSensors) :
  sensors_related R (data c) (data (apply_pass e c)).
Proof.
  unfold apply_pass. cbv zeta.
  set (X := for_loop (nSensors c) _ _).
  assert (H : sensors_related R (data c) (data (fst (fst X))));
    [|clearbody X; destruct X as [[c1 a1] crc1]].
  { apply (for_loop_invariant
             (fun st => sensors_related R (data c) (data (fst (fst st))))).
    - apply related_refl. exact R_refl.
    - intros n st _ Hst. apply readSensorSettingFromEeprom_related. exact Hst. }
  cbn [fst] in H.
  apply for_loop_invariant; [exact H|].
  intros n s _ Hs. apply related_update_sensor; auto.
Qed.

Lemma readSettingsFromEeprom_related (e : EEPROM) (c : TLSensors) :
  sensors_related R (data c) (data (readSettingsFromEeprom e c)).
Proof.
  destruct (readSettingsFromEeprom_cases e c) as [[-> _]|(_ & _ & ->)].
  - apply related_refl. exact R_refl.
  - apply apply_pass_related.
Qed.

End ReadRelated.

Lemma readSensorSettingFromEeprom_nSensors (e : EEPROM) (n : Z) (apply : bool)
  (st : TLSensors * Z * Z) :
  nSensors (fst (fst (readSensorSettingFromEeprom e n apply st)))
  = nSensors (fst (fst st)).
Proof.
  destruct st as [[c addr] crc]. unfold readSensorSettingFromEeprom.
  destruct apply;
    repeat match goal with
           | |- context [readFloatFromEeprom ?e ?a ?c] =>
               destruct (readFloatFromEeprom e a c) as [[? ?] ?]
           end; cbn [fst snd]; [|reflexivity].
  repeat rewrite (settings_nSensors _ _ (settings_update_sensor _ _ _)).
  reflexivity.
Qed.

Lemma readSettingsFromEeprom_nSensors (e : EEPROM) (c : TLSensors) :
  nSensors (readSettingsFromEeprom e c) = nSensors c.
Proof.
  destruct (readSettingsFromEeprom_cases e c) as [[_ H]|(_ & _ & ->)];
    [exact H|].
  unfold apply_pass. cbv zeta.
  set (X := for_loop (nSensors c) _ _).
  assert (H : nSensors (fst (fst X)) = nSensors c);
    [|clearbody X; destruct X as [[c1 a1] crc1]].
  { apply (for_loop_invariant (fun st => nSensors (fst (fst st)) = nSensors c));
      [reflexivity|].
    intros n st _ Hst. rewrite readSensorSettingFromEeprom_nSensors. exact Hst. }
  cbn [fst] in H.
  apply (for_loop_invariant (fun s => nSensors s = nSensors c)); [exact H|].
  intros n s _ Hs.
  rewrite (settings_nSensors _ _ (settings_update_sensor _ _ _)). exact Hs.
Qed.

(** ** The counters after the constructor, continued *)

Lemma construct_loop_counters (now : Z) (c : TLSensors) (rounds : nat) :
  let c' :=
    for_upto rounds
      (fun n c =>
         let c := resetButtonStateSummaries n c in
         let c := setState n buttonStatePreCalibrating c in
         update_sensor n (construct_sensor now (nMeasurementsPerSensor c)) c) c in
  settings c' = settings c
  /\ forall n d, 0 <= n < Z.of_nat rounds -> sensor c' n = Some d ->
                 counters_zero d.
Proof.
  apply (for_upto_invariant
           (fun k c' =>
              settings c' = settings c
              /\ forall n d, 0 <= n < Z.of_nat k -> sensor c' n = Some d ->
                             counters_zero d)).
  - split; [reflexivity|]. intros n d Hn. lia.
  - intros k s Hk [Hset IH]. cbv zeta. split.
    + rewrite settings_update_sensor, setState_settings.
      unfold resetButtonStateSummaries. rewrite settings_update_sensor.
      exact Hset.
    + intros n d Hn Hd.
      rewrite sensor_update_sensor in Hd.
      destruct (Z.eqb_spec n (Z.of_nat k)) as [->|Hne].
      * destruct (sensor _ (Z.of_nat k)) as [d0|]; [|discriminate Hd].
        injection Hd as <-. split; reflexivity.
      * destruct (related_lookup_r _ _ _ _ _
                    (setState_keeps_counters_zero
                       (resetButtonStateSummaries (Z.of_nat k) s)
                       (Z.of_nat k) buttonStatePreCalibrating) Hd)
          as (d0 & Hd0 & Hkeep).
        unfold resetButtonStateSummaries in Hd0.
        rewrite sensor_update_sensor_ne in Hd0 by exact Hne.
        apply Hkeep. apply (IH n); [lia|exact Hd0].
Qed.

Lemma counters_zero_capped (d : TLStruct) : counters_zero d -> counters_capped d.
Proof. intros [Hc Hn]. unfold counters_capped. rewrite Hc, Hn. lia. Qed.

Lemma readSettingsFromEeprom_keeps_counters_zero (e : EEPROM) (c : TLSensors) :
  kept counters_zero (data c) (data (readSettingsFromEeprom e c)).
Proof.
  apply readSettingsFromEeprom_related; [tauto|apply kept_trans|..];
    intros; unfold counters_zero in *; cbn; tauto.
Qed.

Lemma construct_counters {RG : Random} {SM : SampleMethods} (M now : Z)
  (e : EEPROM) (g : generator) (memory : TLSensors) :
  let c := snd (TLSensors_construct M now e (g, memory)) in
  error c <> -1 ->
  forall n d, sensor c n = Some d -> n < nSensors c -> counters_capped d.
Proof.
  unfold TLSensors_construct. cbv zeta.
  set (c1 := if N_SENSORS (set_error 0 memory) <? 1 then _ else _).
  assert (H1 : error_0_or_minus_1 c1).
  { unfold c1. destruct (_ <? 1); [right|left]; reflexivity. }
  clearbody c1.
  set (c2 := if (error c1 =? 0) && (M >=? 1) then _ else _).
  assert (H2 : error_0_or_minus_1 c2).
  { unfold c2. destruct (_ && _); [exact H1|right; reflexivity]. }
  clearbody c2.
  set (X3 := if error c2 =? 0 then initScanOrder (g, c2) else (g, c2)).
  assert (H3 : error_0_or_minus_1 (snd X3)).
  { unfold X3. destruct (error c2 =? 0); [|exact H2].
    apply initScanOrder_error. exact H2. }
  clearbody X3. destruct X3 as [g3 c3]. cbn [snd] in H3.
  set (X4 := if error c3 =? 0 then snd (setDefaults (g3, c3)) else (g3, c3)).
  assert (H4 : error_0_or_minus_1 (snd X4)).
  { unfold X4. destruct (error c3 =? 0); [|exact H3].
    apply setDefaults_error. }
  clearbody X4. destruct X4 as [g4 c4]. cbn [snd] in *.
  destruct (Z.eqb_spec (error c4) 0) as [Herr|Herr].
  - set (c5 := for_loop (nSensors c4) _ c4).
    assert (H5 : settings c5 = settings c4
                 /\ forall n d, 0 <= n < Z.of_nat (Z.to_nat (nSensors c4)) ->
                                sensor c5 n = Some d -> counters_zero d)
      by exact (construct_loop_counters now c4 (Z.to_nat (nSensors c4))).
    destruct H5 as [Hset Hzero]. clearbody c5.
    intros _ n d Hd Hn.
    apply counters_zero_capped.
    destruct (_ && _).
    + rewrite readSettingsFromEeprom_nSensors in Hn.
      destruct (related_lookup_r _ _ _ _ _
                  (readSettingsFromEeprom_keeps_counters_zero e c5) Hd)
        as (d5 & Hd5 & Hkeep).
      apply Hkeep. apply (Hzero n); [|exact Hd5].
      apply sensor_lookup in Hd5 as [Hn0 _].
      rewrite (settings_nSensors _ _ Hset) in Hn. lia.
    + apply (Hzero n); [|exact Hd].
      apply sensor_lookup in Hd as [Hn0 _].
      rewrite (settings_nSensors _ _ Hset) in Hn. lia.
  - assert (Hm1 : error c4 = -1) by (destruct H4; [contradiction|assumption]).
    rewrite (proj2 (Z.eqb_neq _ _) Herr). cbn [andb].
    intros Hne. contradiction.
Qed.

(** C5.  The cap [counter <= filterCoeff - 1] and
    [noiseCounter <= filterCoeff - 1] of a sensor whose [filterCoeff] is at
    least 1 (see [counters_capped]) holds for every sensor after the
    constructor, unless it gave up with the error -1 before it reached the
    sensor records, and it is kept, sensor by sensor, by every call of
    [updateAvg], of [setState] and of [sample]; for [sample], provided that
    the function pointers of the sample method, which are outside the
    header and receive the array [data], keep it. *)
Theorem counters_never_exceed_cap :
  (forall (RG : Random) (SM : SampleMethods) (M now : Z) (e : EEPROM)
          (g : generator) (memory : TLSensors),
      let c := snd (TLSensors_construct M now e (g, memory)) in
      error c <> -1 ->
      forall n d, sensor c n = Some d -> n < nSensors c -> counters_capped d)
  /\ (forall c ch, kept counters_capped (data c) (data (updateAvg ch c)))
  /\ (forall c ch s, kept counters_capped (data c) (data (setState ch s c)))
  /\ (forall (SM : SampleMethods),
         hooks_keep counters_capped ->
         forall now c,
           kept counters_capped (data c) (data (snd (sample now c)))).
Proof.
  split; [|split; [|split]].
  - intros RG SM M now e g memory. apply construct_counters.
  - apply updateAvg_keeps_cap.
  - apply setState_keeps_cap.
  - intros SM Hhooks now c. apply sample_keeps_cap. exact Hhooks.
Qed.

Lemma plain_method_keeps_cap : hooks_keep (H := plain_method) counters_capped.
Proof.
  unfold hooks_keep, hooks_related. split; [|split].
  - intros ch f ds n Hf. discriminate Hf.
  - intros ch f ds n inv Hf. injection Hf as <-. cbn [snd].
    apply related_refl. tauto.
  - intros ch f ds n Hf. injection Hf as <-.
    apply Forall2_alter_r; [apply related_refl; tauto|].
    intros x y _ _ Hxy Hx. specialize (Hxy Hx). revert Hxy. capped_frame.
Qed.

Lemma counters_never_exceed_cap_witness :
  (let c :=
     snd (TLSensors_construct (H := lcg_random) (H0 := plain_method) 2 0
            erased_eeprom
            (1, example_controller [example_sensor; example_sensor])) in
   error c = -5 /\ forall d, sensor c 0 = Some d -> counters_capped d)
  /\ kept counters_capped (data pressed_controller)
       (data (snd (sample (H := plain_method) 100 pressed_controller))).
Proof.
  destruct counters_never_exceed_cap as (Hconstruct & _ & _ & Hsample).
  split; [split|].
  - vm_compute. reflexivity.
  - intros d Hd.
    apply (Hconstruct lcg_random plain_method 2 0 erased_eeprom 1
             (example_controller [example_sensor; example_sensor]))
      with (n := 0).
    + vm_compute. discriminate.
    + exact Hd.
    + vm_compute. reflexivity.
  - apply (Hsample plain_method plain_method_keeps_cap 100 pressed_controller).
Defined.

(** ** The EEPROM codec *)

(** C3.  The dummy pass of [readSettingsFromEeprom] changes no sensor
    record (each call of [readSensorSettingFromEeprom] without
    [applySettings] returns the controller it was given, and so does the
    whole pass).  When the key, the format version, the stored sensor count
    or the CRC check fails, the array [data] after the call is the array
    before it: every member of every sensor record, the four thresholds and
    the slew-rate-limiter flag among them, is as it was.  And when the call
    does change [data], the recomputed CRC equals the stored one and the
    result is that of the second pass. *)
Theorem readSettingsFromEeprom_atomic (e : EEPROM) (c : TLSensors) :
  (forall n st,
      fst (fst (readSensorSettingFromEeprom e n false st)) = fst (fst st))
  /\ fst (fst (dummy_pass e c)) = c
  /\ (record_rejected e c -> data (readSettingsFromEeprom e c) = data c)
  /\ (data (readSettingsFromEeprom e c) <> data c ->
      recomputed_crc e c = stored_crc e c
      /\ readSettingsFromEeprom e c = apply_pass e c).
Proof.
  split; [|split; [|split]].
  - apply dummy_read_fst.
  - apply dummy_pass_fst.
  - intros Hrej.
    destruct (readSettingsFromEeprom_cases e c) as [[H _]|(Hok & _)];
      [exact H|contradiction].
  - intros Hchanged.
    destruct (readSettingsFromEeprom_cases e c) as [[H _]|(Hok & _ & Happ)];
      [contradiction|].
    split; [|exact Happ].
    destruct (Z.eq_dec (recomputed_crc e c) (stored_crc e c)) as [Heq|Hne];
      [exact Heq|].
    exfalso. apply Hok. unfold record_rejected. tauto.
Qed.

Lemma readSettingsFromEeprom_atomic_witness :
  record_rejected erased_eeprom reading_controller
  /\ data (readSettingsFromEeprom erased_eeprom reading_controller)
     = replicate 4 fresh_sensor.
Proof.
  assert (Hrej : record_rejected erased_eeprom reading_controller).
  { left. vm_compute. intros H. discriminate H. }
  split; [exact Hrej|].
  destruct (readSettingsFromEeprom_atomic erased_eeprom reading_controller)
    as (_ & _ & Hframe & _).
  rewrite (Hframe Hrej). reflexivity.
Defined.

(** C1, on the code.  The four sensors with the thresholds [10.0], [8.0],
    [75.0] and [60.0] are written without error, and the read into a
    controller of four sensors is rejected with the error -5 and leaves the
    thresholds of that controller as they were: the CRC recomputed by the
    read differs from the one it finds stored. *)
Theorem roundtrip_is_rejected :
  error (fst (writeSettingsToEeprom writing_controller erased_eeprom)) = 0
  /\ error (readSettingsFromEeprom written_eeprom reading_controller) = -5
  /\ data (readSettingsFromEeprom written_eeprom reading_controller)
     = replicate 4 fresh_sensor
  /\ recomputed_crc written_eeprom reading_controller = 0xBD59
  /\ stored_crc written_eeprom reading_controller = 0x93FF.
Proof. vm_compute. repeat split; reflexivity. Qed.

(** C2, on the code.  The record written for the four sensors is the key,
    the descriptor, the four blocks of sixteen bytes and the two CRC bytes,
    68 bytes in all: there is no config byte between the descriptor and the
    first block, and the byte after the 68 is still erased.  The CRC
    written covers the 66 bytes before it.  The CRC recomputed by the read
    covers the key, the descriptor, the descriptor a second time in the
    place of the byte it takes for the config byte, and the 64 bytes from
    offset 3 on. *)
Theorem written_record_layout :
  take 69 written_eeprom
  = [0xC7; 0x03]
    ++ example_block ++ example_block ++ example_block ++ example_block
    ++ [0xBC; 0x93] ++ [0xFF]
  /\ fold_left crcUpdate (take 66 written_eeprom) 0 = 0xBC93
  /\ recomputed_crc written_eeprom reading_controller
     = fold_left crcUpdate
         ([0xC7; 0x03; 0x03] ++ take 64 (drop 3 written_eeprom)) 0.
Proof. vm_compute. repeat split; reflexivity. Qed.

(** ** The transitions that [setState] performs *)

Lemma notifications_update_sensor (n : Z) (f : TLStruct -> TLStruct)
  (c : TLSensors) :
  notifications (update_sensor n f c) = notifications c.
Proof. unfold update_sensor. destruct (n <? 0); reflexivity. Qed.

Lemma setState_with_PreCalibrating
  (nested : Z -> ButtonState -> TLSensors -> TLSensors) (n : Z) (c : TLSensors) :
  setState_with nested n buttonStatePreCalibrating c
  = setState_nested n buttonStatePreCalibrating c.
Proof.
  unfold setState_nested, setState_with.
  destruct (sensor c n) as [d|]; [|reflexivity].
  destruct (stateIsBeingChanged d); [reflexivity|].
  destruct (negb _); reflexivity.
Qed.

Lemma sensor_set_notifications (v : list (Z * ButtonState * ButtonState))
  (c : TLSensors) (m : Z) :
  sensor (set_notifications v c) m = sensor c m.
Proof. reflexivity. Qed.

Lemma bounce_back_code (st s : ButtonState) :
  negb
    ((ButtonState_eqb st buttonStateApproachedToReleased
      && ButtonState_eqb s buttonStateApproached)
     || (ButtonState_eqb st buttonStatePressedToApproached
         && ButtonState_eqb s buttonStatePressed))
  = negb (bounce_back st s).
Proof. destruct st, s; reflexivity. Qed.

Lemma setState_with_performed
  (nested : Z -> ButtonState -> TLSensors -> TLSensors) (ch : Z)
  (s : ButtonState) (c : TLSensors) (d d2 : TLStruct) (mask : Z)
  (s1 s2 : ButtonState) (c2 : TLSensors) (b : bool) :
  sensor c ch = Some d -> stateIsBeingChanged d = false -> buttonState d <> s ->
  setState_switch (set_stateIsBeingChanged true d) s = (d2, mask, s1) ->
  (if nonzero mask
   then setForceCalibratingStates_with nested ch mask s1
          (update_sensor ch (fun _ => d2) c)
   else (update_sensor ch (fun _ => d2) c, s1, false)) = (c2, s2, b) ->
  let t := negb (bounce_back (buttonState d) s) || b in
  let oldState := from_option buttonState (buttonState d2) (sensor c2 ch) in
  let c' := setState_with nested ch s c in
  (forall m,
      sensor c' m
      = if m =? ch then finish_transition s2 t <$> sensor c2 m else sensor c2 m)
  /\ notifications c'
     = notifications c2
       ++ (if checkForMajorChange oldState s2 && buttonStateChangeCallback c2
           then [(ch, oldState, s2)] else [])
  /\ settings c' = settings c2.
Proof.
  intros Hd Hg Hs Hsw Hfan t oldState c'.
  assert (Hc' : c'
    = let c3 :=
        if t
        then update_sensor ch
               (fun d => set_stateChangedAtTime (lastSampledAtTime d) d) c2
        else c2 in
      let old := from_option buttonState (buttonState d2) (sensor c3 ch) in
      let c4 := update_sensor ch (set_buttonState s2) c3 in
      let c5 :=
        if checkForMajorChange old s2 && buttonStateChangeCallback c4
        then set_notifications (notifications c4 ++ [(ch, old, s2)]) c4
        else c4 in
      update_sensor ch (set_stateIsBeingChanged false) c5).
  { unfold c', setState_with. rewrite Hd, Hg.
    rewrite (proj2 (ButtonState_eqb_neq _ _) Hs). cbn [negb].
    rewrite bounce_back_code. rewrite Hsw.
    destruct (nonzero mask).
    - rewrite Hfan. reflexivity.
    - injection Hfan as <- <- <-. unfold t. rewrite orb_false_r. reflexivity. }
  clearbody c'. subst c'. cbv zeta.
  set (c3 := if t then _ else c2).
  assert (H3 : forall m,
             sensor c3 m
             = if m =? ch
               then (fun d2 => if t then set_stateChangedAtTime
                                          (lastSampledAtTime d2) d2 else d2)
                      <$> sensor c2 m
               else sensor c2 m).
  { intros m. unfold c3. destruct t.
    - apply sensor_update_sensor.
    - destruct (m =? ch); [|reflexivity].
      destruct (sensor c2 m); reflexivity. }
  assert (Hold : from_option buttonState (buttonState d2) (sensor c3 ch)
                 = oldState).
  { unfold oldState. rewrite H3, Z.eqb_refl.
    destruct (sensor c2 ch) as [dx|]; [|reflexivity].
    destruct t; reflexivity. }
  assert (Hset3 : settings c3 = settings c2).
  { unfold c3. destruct t; [apply settings_update_sensor|reflexivity]. }
  assert (Hnot3 : notifications c3 = notifications c2).
  { unfold c3. destruct t; [apply notifications_update_sensor|reflexivity]. }
  rewrite Hold. clearbody c3.
  set (c4 := update_sensor ch (set_buttonState s2) c3).
  assert (Hcb : buttonStateChangeCallback c4 = buttonStateChangeCallback c2).
  { rewrite <- (settings_buttonStateChangeCallback _ _ Hset3).
    apply settings_buttonStateChangeCallback, settings_update_sensor. }
  rewrite Hcb.
  split; [|split].
  - intros m. rewrite sensor_update_sensor.
    assert (H5 : forall (x : bool) (v : list (Z * ButtonState * ButtonState)),
               sensor (if x then set_notifications v c4 else c4) m = sensor c4 m)
      by (intros [] v; reflexivity).
    rewrite H5. unfold c4. rewrite sensor_update_sensor, H3.
    destruct (m =? ch); [|reflexivity].
    destruct (sensor c2 m); reflexivity.
  - rewrite notifications_update_sensor.
    destruct (_ && _); cbn [notifications set_notifications];
      unfold c4; rewrite notifications_update_sensor, Hnot3;
      [reflexivity|symmetry; apply app_nil_r].
  - rewrite settings_update_sensor.
    destruct (_ && _); rewrite ?settings_set_notifications; unfold c4;
      rewrite settings_update_sensor; exact Hset3.
Qed.

Lemma checkForMajorChange_PreCalibrating (old : ButtonState) :
  checkForMajorChange old buttonStatePreCalibrating = true.
Proof. destruct old; reflexivity. Qed.

Lemma bounce_back_PreCalibrating (old : ButtonState) :
  bounce_back old buttonStatePreCalibrating = false.
Proof. destruct old; reflexivity. Qed.

Lemma setState_nested_spec (n : Z) (c : TLSensors) :
  let c' := setState_nested n buttonStatePreCalibrating c in
  (forall m,
      sensor c' m
      = if m =? n then forced_PreCalibrating <$> sensor c m else sensor c m)
  /\ notifications c' = notifications c ++ forced_calls c n
  /\ settings c' = settings c.
Proof.
  intros c'.
  assert (Hsame : c' = c ->
            forced_PreCalibrating <$> sensor c n = sensor c n ->
            forced_calls c n = [] ->
            (forall m,
                sensor c' m
                = if m =? n then forced_PreCalibrating <$> sensor c m
                  else sensor c m)
            /\ notifications c' = notifications c ++ forced_calls c n
            /\ settings c' = settings c).
  { intros -> Hrec Hcalls. rewrite Hcalls, app_nil_r.
    split; [|split; reflexivity].
    intros m. destruct (Z.eqb_spec m n) as [->|]; [|reflexivity].
    symmetry. exact Hrec. }
  destruct (sensor c n) as [d|] eqn:Hd.
  2:{ apply Hsame; [|reflexivity|unfold forced_calls; rewrite Hd; reflexivity].
      unfold c', setState_nested, setState_with. rewrite Hd. reflexivity. }
  destruct (stateIsBeingChanged d) eqn:Hg.
  { apply Hsame.
    - unfold c', setState_nested, setState_with. rewrite Hd, Hg. reflexivity.
    - cbn [fmap option_fmap option_map]. unfold forced_PreCalibrating.
      rewrite Hg. reflexivity.
    - unfold forced_calls. rewrite Hd, Hg. reflexivity. }
  destruct (ButtonState_eqb (buttonState d) buttonStatePreCalibrating) eqn:Hs.
  { apply Hsame.
    - unfold c', setState_nested, setState_with. rewrite Hd, Hg, Hs. reflexivity.
    - cbn [fmap option_fmap option_map]. unfold forced_PreCalibrating.
      rewrite Hg, Hs. reflexivity.
    - unfold forced_calls. rewrite Hd, Hg, Hs. reflexivity. }
  clear Hsame. apply ButtonState_eqb_neq in Hs.
  destruct (setState_with_performed (fun _ _ c => c) n
              buttonStatePreCalibrating c d (set_stateIsBeingChanged true d) 0
              buttonStatePreCalibrating buttonStatePreCalibrating
              (update_sensor n (fun _ => set_stateIsBeingChanged true d) c)
              false Hd Hg Hs eq_refl eq_refl) as (Hsen & Hnot & Hset).
  fold (setState_nested n buttonStatePreCalibrating c) in Hsen, Hnot, Hset.
  fold c' in Hsen, Hnot, Hset.
  rewrite bounce_back_PreCalibrating in Hsen. cbn [negb orb] in Hsen.
  rewrite sensor_update_sensor_eq, Hd in Hnot.
  cbn [from_option fmap option_fmap option_map] in Hnot.
  rewrite checkForMajorChange_PreCalibrating in Hnot.
  rewrite notifications_update_sensor in Hnot.
  rewrite (settings_buttonStateChangeCallback _ _ (settings_update_sensor _ _ _))
    in Hnot.
  rewrite settings_update_sensor in Hset.
  split; [|split; [|exact Hset]].
  - intros m. rewrite Hsen, sensor_update_sensor.
    destruct (Z.eqb_spec m n) as [->|]; [|reflexivity].
    rewrite Hd. cbn [fmap option_fmap option_map].
    unfold forced_PreCalibrating.
    rewrite Hg, (proj2 (ButtonState_eqb_neq _ _) Hs). reflexivity.
  - rewrite Hnot. unfold forced_calls.
    rewrite Hd, Hg, (proj2 (ButtonState_eqb_neq _ _) Hs). reflexivity.
Qed.

Lemma forced_calls_same (c c' : TLSensors) (n : Z) :
  sensor c' n = sensor c n -> settings c' = settings c ->
  forced_calls c' n = forced_calls c n.
Proof.
  intros Hs Hset. unfold forced_calls.
  rewrite Hs, (settings_buttonStateChangeCallback _ _ Hset). reflexivity.
Qed.

Lemma fmap_fmap_option {A B C : Type} (f : A -> B) (g : B -> C) (o : option A) :
  g <$> (f <$> o) = (fun x => g (f x)) <$> o.
Proof. destruct o; reflexivity. Qed.

Lemma fmap_ext_option {A B : Type} (f g : A -> B) (o : option A) :
  (forall x, f x = g x) -> f <$> o = g <$> o.
Proof. intros H. destruct o; cbn; [rewrite H|]; reflexivity. Qed.

Lemma fmap_id_option {A : Type} (f : A -> A) (o : option A) :
  (forall x, f x = x) -> f <$> o = o.
Proof. intros H. destruct o; cbn; [rewrite H|]; reflexivity. Qed.

Lemma fan_out_upto (ch mask : Z) (s : ButtonState) (c : TLSensors)
  (rounds : nat) :
  let res :=
    for_upto rounds
      (fun n '(c, newState, chStateChanged) =>
         if mask_selects mask n then
           let '(c, newState, chStateChanged) :=
             if n =? ch then (c, buttonStatePreCalibrating, true)
             else (setState_nested n buttonStatePreCalibrating c, newState,
                   chStateChanged) in
           (update_sensor n (set_forcedCal true) c, newState, chStateChanged)
         else (c, newState, chStateChanged))
      (c, s, false) in
  (forall m,
      sensor (fst (fst res)) m
      = if m <? Z.of_nat rounds
        then fan_out_record ch mask m <$> sensor c m else sensor c m)
  /\ notifications (fst (fst res))
     = notifications c ++ fan_out_calls c ch mask rounds
  /\ settings (fst (fst res)) = settings c
  /\ snd (fst res)
     = (if fan_out_own ch mask rounds then buttonStatePreCalibrating else s)
  /\ snd res = fan_out_own ch mask rounds.
Proof.
  induction rounds as [|k IH].
  - cbn [for_upto fst snd fan_out_calls]. rewrite app_nil_r.
    split; [|split; [reflexivity|split; [reflexivity|]]].
    + intros m. destruct (Z.ltb_spec m (Z.of_nat 0)); [|reflexivity].
      unfold sensor. destruct (Z.ltb_spec m 0); [reflexivity|lia].
    + assert (H : fan_out_own ch mask 0 = false).
      { unfold fan_out_own.
        destruct (Z.leb_spec 0 ch); [|reflexivity].
        destruct (Z.ltb_spec ch (Z.of_nat 0)); [lia|reflexivity]. }
      rewrite H. split; reflexivity.
  - cbn zeta in IH. cbn [for_upto].
    destruct (for_upto k _ (c, s, false)) as [[ck sk] bk].
    cbn [fst snd] in IH. destruct IH as (Hsen & Hnot & Hset & Hsk & Hbk).
    assert (Hk : sensor ck (Z.of_nat k) = sensor c (Z.of_nat k)).
    { rewrite Hsen. rewrite Z.ltb_irrefl. reflexivity. }
    assert (Hown : fan_out_own ch mask (S k)
                   = if Z.of_nat k =? ch then mask_selects mask ch
                     else fan_out_own ch mask k).
    { unfold fan_out_own.
      destruct (Z.eqb_spec (Z.of_nat k) ch) as [<-|Hne].
      - destruct (Z.leb_spec 0 (Z.of_nat k)); [|lia].
        destruct (Z.ltb_spec (Z.of_nat k) (Z.of_nat (S k))); [|lia].
        reflexivity.
      - destruct (Z.leb_spec 0 ch); [|reflexivity]. cbn [andb].
        destruct (Z.ltb_spec ch (Z.of_nat (S k)));
          destruct (Z.ltb_spec ch (Z.of_nat k)); try lia; reflexivity. }
    assert (Hownk : Z.of_nat k = ch -> fan_out_own ch mask k = false).
    { intros <-. unfold fan_out_own. rewrite Z.ltb_irrefl.
      destruct (0 <=? Z.of_nat k); reflexivity. }
    cbn [fan_out_calls]. rewrite Hown.
    destruct (mask_selects mask (Z.of_nat k)) eqn:Hsel.
    + destruct (Z.eqb_spec (Z.of_nat k) ch) as [Heq|Hne]; cbn [fst snd andb negb].
      * rewrite app_nil_r. subst ch. rewrite ?Hsel.
        split; [|split; [|split; [|split; reflexivity]]].
        -- intros m. rewrite sensor_update_sensor.
           destruct (Z.eqb_spec m (Z.of_nat k)) as [->|Hm].
           ++ rewrite Hk.
              destruct (Z.ltb_spec (Z.of_nat k) (Z.of_nat (S k))); [|lia].
              apply fmap_ext_option. intros x. unfold fan_out_record.
              rewrite Hsel, Z.eqb_refl. reflexivity.
           ++ rewrite Hsen.
              destruct (Z.ltb_spec m (Z.of_nat k));
                destruct (Z.ltb_spec m (Z.of_nat (S k))); try lia; reflexivity.
        -- rewrite notifications_update_sensor. exact Hnot.
        -- rewrite settings_update_sensor. exact Hset.
      * destruct (setState_nested_spec (Z.of_nat k) ck) as (Hn1 & Hn2 & Hn3).
        cbn zeta in Hn1, Hn2, Hn3.
        split; [|split; [|split; [|split; assumption]]].
        -- intros m. rewrite sensor_update_sensor, Hn1.
           destruct (Z.eqb_spec m (Z.of_nat k)) as [->|Hm].
           ++ rewrite Hk.
              destruct (Z.ltb_spec (Z.of_nat k) (Z.of_nat (S k))); [|lia].
              rewrite fmap_fmap_option.
              apply fmap_ext_option. intros x. unfold fan_out_record.
              rewrite Hsel. destruct (Z.eqb_spec (Z.of_nat k) ch); [lia|].
              reflexivity.
           ++ rewrite Hsen.
              destruct (Z.ltb_spec m (Z.of_nat k));
                destruct (Z.ltb_spec m (Z.of_nat (S k))); try lia; reflexivity.
        -- rewrite notifications_update_sensor, Hn2, Hnot.
           rewrite (forced_calls_same c ck _ Hk Hset).
           symmetry. apply app_assoc.
        -- rewrite settings_update_sensor, Hn3. exact Hset.
    + cbn [andb fst snd]. rewrite app_nil_r.
      split; [|split; [exact Hnot|split; [exact Hset|]]].
      * intros m. rewrite Hsen.
        destruct (Z.ltb_spec m (Z.of_nat k));
          destruct (Z.ltb_spec m (Z.of_nat (S k))); try lia; try reflexivity.
        assert (m = Z.of_nat k) as -> by lia.
        symmetry. apply fmap_id_option. intros x. unfold fan_out_record.
        rewrite Hsel. reflexivity.
      * destruct (Z.eqb_spec (Z.of_nat k) ch) as [Heq|Hne].
        -- rewrite (Hownk Heq) in Hsk, Hbk. subst ch. rewrite Hsel.
           split; assumption.
        -- split; assumption.
Qed.

Lemma setState_switch_buttonState (d : TLStruct) (s : ButtonState) :
  buttonState (fst (fst (setState_switch d s))) = buttonState d.
Proof.
  destruct s; cbn [setState_switch fst]; try reflexivity.
  unfold enter_Calibrating. destruct (negb _); reflexivity.
Qed.

Lemma setState_switch_times (d : TLStruct) (s : ButtonState) :
  lastSampledAtTime (fst (fst (setState_switch d s))) = lastSampledAtTime d
  /\ stateChangedAtTime (fst (fst (setState_switch d s))) = stateChangedAtTime d.
Proof.
  destruct s; cbn [setState_switch fst]; try (split; reflexivity).
  unfold enter_Calibrating. destruct (negb _); split; reflexivity.
Qed.

Lemma setState_switch_guard (d : TLStruct) (s : ButtonState) (b : bool) :
  snd (fst (setState_switch (set_stateIsBeingChanged b d) s))
  = snd (fst (setState_switch d s))
  /\ snd (setState_switch (set_stateIsBeingChanged b d) s)
     = snd (setState_switch d s).
Proof. destruct s; split; reflexivity. Qed.

Lemma mask_selects_nonzero (mask n : Z) :
  mask_selects mask n = true -> nonzero mask = true.
Proof.
  unfold mask_selects, nonzero. destruct (Z.eqb_spec mask 0) as [->|]; [|reflexivity].
  rewrite Z.land_0_l. discriminate.
Qed.

Lemma N_SENSORS_sensor (c : TLSensors) (n : Z) (d : TLStruct) :
  sensor c n = Some d -> 0 <= n < N_SENSORS c.
Proof.
  intros H. apply sensor_lookup in H as [H0 H].
  apply lookup_lt_Some in H. unfold N_SENSORS. lia.
Qed.

Lemma sensor_beyond (c : TLSensors) (n : Z) :
  N_SENSORS c <= n -> sensor c n = None.
Proof.
  intros H. unfold sensor. destruct (Z.ltb_spec n 0); [reflexivity|].
  apply lookup_ge_None. unfold N_SENSORS in H. lia.
Qed.

(** The sensor [ch], the other sensors and the calls to the callback after
    a transition of [ch] that [setState] performs. *)
Lemma setState_performed (ch : Z) (s : ButtonState) (c : TLSensors)
  (d : TLStruct) :
  sensor c ch = Some d -> stateIsBeingChanged d = false -> buttonState d <> s ->
  let d2 := fst (fst (setState_switch (set_stateIsBeingChanged true d) s)) in
  let mask := snd (fst (setState_switch d s)) in
  let s1 := snd (setState_switch d s) in
  let own := mask_selects mask ch in
  let s2 := if own then buttonStatePreCalibrating else s1 in
  let t := negb (bounce_back (buttonState d) s) || own in
  let c1 := update_sensor ch (fun _ => d2) c in
  let c' := setState ch s c in
  sensor c' ch
  = Some (finish_transition s2 t (if own then set_forcedCal true d2 else d2))
  /\ (forall m, m <> ch ->
        sensor c' m
        = if nonzero mask then fan_out_record ch mask m <$> sensor c m
          else sensor c m)
  /\ notifications c'
     = notifications c
       ++ (if nonzero mask
           then fan_out_calls c1 ch mask (Z.to_nat (N_SENSORS c)) else [])
       ++ (if checkForMajorChange (buttonState d) s2
              && buttonStateChangeCallback c
           then [(ch, buttonState d, s2)] else [])
  /\ settings c' = settings c.
Proof.
  intros Hd Hg Hs d2 mask s1 own s2 t c1 c'.
  pose proof (N_SENSORS_sensor _ _ _ Hd) as Hch.
  destruct (setState_switch_guard d s true) as [Hmask Hs1].
  assert (Hsw : setState_switch (set_stateIsBeingChanged true d) s
                = (d2, mask, s1)).
  { unfold d2, mask, s1. rewrite <- Hmask, <- Hs1.
    destruct (setState_switch _ s) as [[? ?] ?]. reflexivity. }
  assert (Hd2 : buttonState d2 = buttonState d).
  { unfold d2. rewrite setState_switch_buttonState. reflexivity. }
  assert (Hc1 : forall m, sensor c1 m = if m =? ch then Some d2 else sensor c m).
  { intros m. unfold c1. rewrite sensor_update_sensor.
    destruct (Z.eqb_spec m ch) as [->|]; [rewrite Hd|]; reflexivity. }
  assert (HN1 : N_SENSORS c1 = N_SENSORS c) by apply N_SENSORS_update_sensor.
  assert (Hset1 : settings c1 = settings c) by apply settings_update_sensor.
  assert (Hfo : fan_out_own ch mask (Z.to_nat (N_SENSORS c)) = own).
  { unfold fan_out_own, own.
    destruct (Z.leb_spec 0 ch); [|lia].
    destruct (Z.ltb_spec ch (Z.of_nat (Z.to_nat (N_SENSORS c)))); [|lia].
    reflexivity. }
  destruct (nonzero mask) eqn:Hnz.
  - pose proof (fan_out_upto ch mask s1 c1 (Z.to_nat (N_SENSORS c1))) as Hfan.
    cbv zeta in Hfan.
    change (for_upto (Z.to_nat (N_SENSORS c1)) _ (c1, s1, false))
      with (setForceCalibratingStates_with setState_nested ch mask s1 c1) in Hfan.
    destruct (setForceCalibratingStates_with setState_nested ch mask s1 c1)
      as [[c2 s2'] b] eqn:Hloop.
    cbn [fst snd] in Hfan. rewrite HN1, Hfo in Hfan.
    destruct Hfan as (Hsen2 & Hnot2 & Hset2 & -> & ->).
    destruct (setState_with_performed setState_nested ch s c d d2 mask s1
                (if own then buttonStatePreCalibrating else s1) c2 own
                Hd Hg Hs Hsw) as (Hsen & Hnot & Hset).
    { rewrite Hnz. exact Hloop. }
    fold (setState ch s c) in Hsen, Hnot, Hset. fold c' in Hsen, Hnot, Hset.
    fold s2 t in Hsen, Hnot.
    assert (H2ch : sensor c2 ch = Some (if own then set_forcedCal true d2 else d2)).
    { rewrite Hsen2, Hc1, Z.eqb_refl.
      destruct (Z.ltb_spec ch (Z.of_nat (Z.to_nat (N_SENSORS c)))); [|lia].
      cbn [fmap option_fmap option_map]. unfold fan_out_record. fold own.
      rewrite Z.eqb_refl. destruct own; reflexivity. }
    split; [|split; [|split]].
    + rewrite Hsen, Z.eqb_refl, H2ch. reflexivity.
    + intros m Hm. rewrite Hsen.
      destruct (Z.eqb_spec m ch); [contradiction|].
      rewrite Hsen2, Hc1.
      destruct (Z.eqb_spec m ch); [contradiction|].
      destruct (Z.ltb_spec m (Z.of_nat (Z.to_nat (N_SENSORS c)))); [reflexivity|].
      rewrite sensor_beyond by lia. reflexivity.
    + rewrite Hnot, Hnot2, H2ch.
      rewrite (settings_buttonStateChangeCallback _ _ Hset2).
      rewrite (settings_buttonStateChangeCallback _ _ Hset1).
      rewrite (notifications_update_sensor ch (fun _ => d2) c : notifications c1 = _).
      cbn [from_option].
      assert (Hst : buttonState (if own then set_forcedCal true d2 else d2)
                    = buttonState d)
        by (destruct own; exact Hd2).
      rewrite Hst, <- app_assoc. reflexivity.
    + rewrite Hset, Hset2. exact Hset1.
  - assert (Hown : own = false).
    { unfold own. destruct (mask_selects mask ch) eqn:E; [|reflexivity].
      apply mask_selects_nonzero in E. congruence. }
    destruct (setState_with_performed setState_nested ch s c d d2 mask s1
                s1 c1 false Hd Hg Hs Hsw) as (Hsen & Hnot & Hset).
    { rewrite Hnz. reflexivity. }
    fold (setState ch s c) in Hsen, Hnot, Hset. fold c' in Hsen, Hnot, Hset.
    unfold s2, t. rewrite Hown in *.
    split; [|split; [|split]].
    + rewrite Hsen, Z.eqb_refl, Hc1, Z.eqb_refl. reflexivity.
    + intros m Hm. rewrite Hsen.
      destruct (Z.eqb_spec m ch); [contradiction|].
      rewrite Hc1. destruct (Z.eqb_spec m ch); [contradiction|reflexivity].
    + rewrite Hnot, Hc1, Z.eqb_refl. cbn [from_option app].
      rewrite (settings_buttonStateChangeCallback _ _ Hset1).
      rewrite (notifications_update_sensor ch (fun _ => d2) c : notifications c1 = _).
      rewrite Hd2. reflexivity.
    + rewrite Hset. exact Hset1.
Qed.

(** ** Timestamps, forced recalibration and notifications *)

Lemma setState_not_performed (ch : Z) (s : ButtonState) (c : TLSensors) :
  (forall d, sensor c ch = Some d ->
             stateIsBeingChanged d = true \/ buttonState d = s) ->
  setState ch s c = c.
Proof.
  intros H. unfold setState, setState_with.
  destruct (sensor c ch) as [d|]; [|reflexivity].
  destruct (H d eq_refl) as [Hg| <-].
  - rewrite Hg. reflexivity.
  - destruct (stateIsBeingChanged d); [reflexivity|].
    rewrite ButtonState_eqb_refl. reflexivity.
Qed.

(** Either [setState] leaves the controller as it is, or it performs a
    transition of sensor [ch]. *)
Lemma setState_cases (ch : Z) (s : ButtonState) (c : TLSensors) :
  setState ch s c = c
  \/ exists d, sensor c ch = Some d /\ stateIsBeingChanged d = false
               /\ buttonState d <> s.
Proof.
  destruct (sensor c ch) as [d|] eqn:Hd.
  2:{ left. apply setState_not_performed. intros d. rewrite Hd. discriminate. }
  destruct (stateIsBeingChanged d) eqn:Hg.
  { left. apply setState_not_performed. intros d0. rewrite Hd.
    intros [= <-]. left. exact Hg. }
  destruct (ButtonState_eqb (buttonState d) s) eqn:Hs.
  { left. apply setState_not_performed. intros d0. rewrite Hd.
    intros [= <-]. right. apply ButtonState_eqb_eq. exact Hs. }
  right. exists d. split; [reflexivity|]. split; [exact Hg|].
  apply ButtonState_eqb_neq. exact Hs.
Qed.

Lemma setState_switch_target (d : TLStruct) (s : ButtonState) :
  snd (setState_switch d s)
  = match s with buttonStateMax => buttonStatePreCalibrating | _ => s end.
Proof. destruct s; reflexivity. Qed.

Lemma setState_switch_mask_Max (d : TLStruct) :
  snd (fst (setState_switch d buttonStateMax)) = 0.
Proof. reflexivity. Qed.

(** X30.  For every sensor whose state a call of [setState] changes (the
    sensor [ch] itself or a sensor forced to recalibrate), the call sets
    [stateChangedAtTime] to [lastSampledAtTime], except that for the two
    reverting transitions [ApproachedToReleased -> Approached] and
    [PressedToApproached -> Pressed] it leaves [stateChangedAtTime] as it
    was. *)
Theorem bounce_back_keeps_timestamp (c : TLSensors) (ch : Z) (s : ButtonState)
  (n : Z) (d d' : TLStruct) :
  sensor c n = Some d -> sensor (setState ch s c) n = Some d' ->
  buttonState d <> buttonState d' ->
  stateChangedAtTime d'
  = if bounce_back (buttonState d) (buttonState d')
    then stateChangedAtTime d else lastSampledAtTime d.
Proof.
  intros Hd Hd' Hchanged.
  destruct (setState_cases ch s c) as [Hsame|(dch & Hch & Hg & Hs)].
  { rewrite Hsame, Hd in Hd'. injection Hd' as <-. contradiction. }
  destruct (setState_performed ch s c dch Hch Hg Hs) as (Hown & Hother & _).
  cbv zeta in Hown, Hother.
  destruct (Z.eq_dec n ch) as [->|Hne].
  - rewrite Hch in Hd. injection Hd as ->.
    rewrite Hown in Hd'. injection Hd' as <-.
    destruct (setState_switch_times (set_stateIsBeingChanged true d) s)
      as [Hlast Htime].
    set (d2 := fst (fst (setState_switch (set_stateIsBeingChanged true d) s)))
      in *.
    rewrite setState_switch_target.
    set (own := mask_selects (snd (fst (setState_switch d s))) ch).
    assert (Hmax : s = buttonStateMax -> own = false).
    { intros ->. reflexivity. }
    unfold finish_transition.
    cbn [buttonState stateChangedAtTime set_stateIsBeingChanged set_buttonState].
    destruct own.
    + cbn [orb]. rewrite orb_true_r.
      rewrite bounce_back_PreCalibrating. exact Hlast.
    + rewrite orb_false_r.
      assert (Hbb : bounce_back (buttonState d)
                      match s with
                      | buttonStateMax => buttonStatePreCalibrating
                      | _ => s
                      end = bounce_back (buttonState d) s).
      { destruct s; reflexivity. }
      rewrite Hbb.
      destruct (bounce_back (buttonState d) s); cbn [negb];
        [exact Htime|exact Hlast].
  - rewrite (Hother n Hne), Hd in Hd'.
    assert (Hd'' : d' = fan_out_record ch (snd (fst (setState_switch dch s))) n d
                   /\ nonzero (snd (fst (setState_switch dch s))) = true
                   \/ d' = d).
    { destruct (nonzero _); injection Hd' as <-; [left; split|right]; reflexivity. }
    destruct Hd'' as [[-> _]| ->]; [|contradiction].
    unfold fan_out_record in *.
    destruct (mask_selects _ n); [|contradiction].
    destruct (Z.eqb_spec n ch); [contradiction|].
    unfold forced_PreCalibrating in *.
    destruct (_ || _); [contradiction|].
    cbn [buttonState stateChangedAtTime set_forcedCal set_stateIsBeingChanged
           set_buttonState set_stateChangedAtTime].
    rewrite bounce_back_PreCalibrating. reflexivity.
Qed.

Lemma bounce_back_keeps_timestamp_witness :
  sensor bouncing_controller 0 = Some bouncing_sensor
  /\ sensor (setState 0 buttonStateApproached bouncing_controller) 0
     = Some (set_buttonState buttonStateApproached bouncing_sensor)
  /\ stateChangedAtTime (set_buttonState buttonStateApproached bouncing_sensor)
     = 5.
Proof.
  split; [reflexivity|]. split; [vm_compute; reflexivity|].
  rewrite (bounce_back_keeps_timestamp bouncing_controller 0
             buttonStateApproached 0 bouncing_sensor
             (set_buttonState buttonStateApproached bouncing_sensor)).
  - reflexivity.
  - reflexivity.
  - vm_compute. reflexivity.
  - cbn. discriminate.
Defined.

(** C7.  The two reverting transitions keep [stateChangedAtTime], and yet a
    sensor that hesitates at the threshold does not meet its time-out at
    the time first scheduled, because the transition that takes it from
    [buttonStateApproached] to [buttonStateApproachedToReleased] has set
    [stateChangedAtTime] before.  A sensor approached since the time 5 with
    an [approachedTimeout] of 300000 ms recalibrates at the sample of the
    time 300006 when its value is steady.  When its value dips once, at the
    time 100, and is back at the time 101, it is approached again with
    [stateChangedAtTime] 100: it is still approached at the time 300006, and
    recalibrates at the time 300101 only. *)
Theorem oscillation_postpones_timeout :
  let steady := [(100, value_9); (101, value_9); (300006, value_9)] in
  let dipping := [(100, value_0); (101, value_9); (300006, value_9)] in
  state_of (measurements 0 steady approached_controller) 0
  = Some buttonStateCalibrating
  /\ state_of (measurements 0 [(100, value_0)] approached_controller) 0
     = Some buttonStateApproachedToReleased
  /\ (fun d => (buttonState d, stateChangedAtTime d))
       <$> sensor
             (measurements 0 [(100, value_0); (101, value_9)]
                approached_controller) 0
     = Some (buttonStateApproached, 100)
  /\ state_of (measurements 0 dipping approached_controller) 0
     = Some buttonStateApproached
  /\ state_of
       (measurements 0 (dipping ++ [(300101, value_9)]) approached_controller)
       0
     = Some buttonStateCalibrating.
Proof.
  cbv zeta. split; [|split; [|split; [|split]]]; vm_compute; reflexivity.
Qed.

Lemma land_pow2_testbit (a n : Z) :
  0 <= n -> nonzero (Z.land a (2 ^ n)) = Z.testbit a n.
Proof.
  intros Hn. unfold nonzero.
  destruct (Z.testbit a n) eqn:Hbit.
  - destruct (Z.eqb_spec (Z.land a (2 ^ n)) 0) as [H0|]; [|reflexivity].
    assert (Hb : Z.testbit (Z.land a (2 ^ n)) n = true).
    { rewrite Z.land_spec, Hbit, Z.pow2_bits_true by lia. reflexivity. }
    rewrite H0, Z.bits_0 in Hb. discriminate Hb.
  - assert (H0 : Z.land a (2 ^ n) = 0).
    { apply Z.bits_inj'. intros m Hm.
      rewrite Z.land_spec, Z.bits_0.
      destruct (Z.eq_dec n m) as [<-|Hne].
      - rewrite Hbit. reflexivity.
      - rewrite Z.pow2_bits_false by lia. apply andb_false_r. }
    rewrite H0. reflexivity.
Qed.

(** For a mask that is a [uint32_t], [mask & (1 << n)] tests bit [n]. *)
Lemma mask_selects_testbit (mask n : Z) :
  0 <= mask < 4294967296 -> 0 <= n ->
  mask_selects mask n = Z.testbit mask n.
Proof.
  intros Hmask Hn. unfold mask_selects. rewrite Z.shiftl_1_l.
  destruct (Z.lt_ge_cases n 32) as [Hlt|Hge].
  - assert (Hpow : to_u32 (to_i32 (2 ^ n)) = 2 ^ n).
    { assert (Hn32 : n = 31 \/ n <= 30) by lia.
      destruct Hn32 as [->|Hle]; [reflexivity|].
      assert (H31 : 2 ^ n < 2 ^ 31) by (apply Z.pow_lt_mono_r; lia).
      assert (H0 : 0 < 2 ^ n) by (apply Z.pow_pos_nonneg; lia).
      change (2 ^ 31) with 2147483648 in H31.
      unfold to_u32, to_i32.
      rewrite (Z.mod_small (2 ^ n + 2147483648)) by lia.
      rewrite Z.mod_small by lia. lia. }
    rewrite Hpow. apply land_pow2_testbit. exact Hn.
  - assert (Hpow : to_u32 (to_i32 (2 ^ n)) = 0).
    { replace n with (32 + (n - 32)) by lia.
      rewrite Z.pow_add_r by lia. change (2 ^ 32) with 4294967296.
      unfold to_u32, to_i32.
      replace (4294967296 * 2 ^ (n - 32) + 2147483648)
        with (2147483648 + 2 ^ (n - 32) * 4294967296) by lia.
      rewrite Z.mod_add by lia. reflexivity. }
    rewrite Hpow, Z.land_0_r.
    symmetry. destruct (Z.eq_dec mask 0) as [->|Hnz]; [apply Z.bits_0|].
    apply Z.bits_above_log2; [lia|].
    apply Z.log2_lt_pow2; [lia|].
    apply Z.lt_le_trans with (2 ^ 32); [change (2 ^ 32) with 4294967296; lia|].
    apply Z.pow_le_mono_r; lia.
Qed.

Lemma quiescent_sensor (c : TLSensors) (n : Z) (d : TLStruct) :
  quiescent c -> sensor c n = Some d -> stateIsBeingChanged d = false.
Proof. intros H. apply H. Qed.

(** The [switch] of [setState] selects the mask of the transition. *)
Lemma setState_switch_mask (d : TLStruct) (s : ButtonState) :
  snd (fst (setState_switch d s)) = force_mask d s.
Proof.
  unfold force_mask. destruct s; cbn [setState_switch fst snd];
    destruct (buttonState d); reflexivity.
Qed.

(** C8.  When [setState] performs a transition of sensor [ch] that carries
    a mask that is not zero (see [force_mask]: the sensor is released from
    [buttonStateApproachedToReleased], approached from
    [buttonStateReleasedToApproached] or from
    [buttonStatePressedToApproached], or pressed, and the field of that
    transition, a [uint32_t], is not zero), and no transition of any sensor
    is in progress, then every other sensor whose bit is set in the mask is
    in [buttonStatePreCalibrating] with [forcedCal] set after the call, and
    the state of [ch] after the call is [buttonStatePreCalibrating] if its
    own bit is set, with [forcedCal] set, and the state asked for
    otherwise. *)
Theorem forced_recalibration_fan_out (c : TLSensors) (ch : Z)
  (s : ButtonState) (d : TLStruct) :
  sensor c ch = Some d -> quiescent c -> buttonState d <> s ->
  let mask := force_mask d s in
  0 <= mask < 4294967296 -> mask <> 0 ->
  (forall n dn, n <> ch -> sensor c n = Some dn -> Z.testbit mask n = true ->
     exists dn', sensor (setState ch s c) n = Some dn'
                 /\ buttonState dn' = buttonStatePreCalibrating
                 /\ forcedCal dn' = true)
  /\ exists d', sensor (setState ch s c) ch = Some d'
                /\ buttonState d'
                   = (if Z.testbit mask ch then buttonStatePreCalibrating else s)
                /\ (Z.testbit mask ch = true -> forcedCal d' = true).
Proof.
  intros Hd Hq Hs mask Hrange Hnz.
  pose proof (quiescent_sensor _ _ _ Hq Hd) as Hg.
  destruct (setState_performed ch s c d Hd Hg Hs) as (Hown & Hother & _).
  cbv zeta in Hown, Hother.
  rewrite (setState_switch_mask d s) in Hown, Hother.
  fold mask in Hown, Hother.
  assert (Hnonzero : nonzero mask = true).
  { unfold nonzero. destruct (Z.eqb_spec mask 0); [contradiction|reflexivity]. }
  rewrite Hnonzero in Hother.
  split.
  - intros n dn Hne Hdn Hbit.
    pose proof (N_SENSORS_sensor _ _ _ Hdn) as Hn.
    rewrite <- mask_selects_testbit in Hbit by lia.
    rewrite (Hother n Hne), Hdn. cbn [fmap option_fmap option_map].
    eexists. split; [reflexivity|].
    unfold fan_out_record. rewrite Hbit.
    destruct (Z.eqb_spec n ch); [contradiction|].
    unfold forced_PreCalibrating.
    rewrite (quiescent_sensor _ _ _ Hq Hdn). cbn [orb].
    destruct (ButtonState_eqb (buttonState dn) buttonStatePreCalibrating) eqn:E.
    + split; [|reflexivity]. apply ButtonState_eqb_eq in E. exact E.
    + split; reflexivity.
  - pose proof (N_SENSORS_sensor _ _ _ Hd) as Hch.
    rewrite <- mask_selects_testbit by lia.
    eexists. split; [exact Hown|].
    unfold finish_transition.
    cbn [buttonState forcedCal set_stateIsBeingChanged set_buttonState].
    destruct (mask_selects mask ch) eqn:Hsel.
    + split; [reflexivity|]. intros _. rewrite orb_true_r. reflexivity.
    + split; [|discriminate].
      rewrite setState_switch_target.
      destruct s; try reflexivity. contradiction Hnz.
      unfold mask, force_mask. destruct (buttonState d); reflexivity.
Qed.

Lemma quiescent_Forall (c : TLSensors) :
  Forall (fun d => stateIsBeingChanged d = false) (data c) -> quiescent c.
Proof.
  intros H n d Hd. apply sensor_lookup in Hd as [_ Hd].
  rewrite Forall_lookup in H. apply (H _ _ Hd).
Qed.

Lemma forced_recalibration_fan_out_witness :
  quiescent pressing_controller
  /\ exists dn',
      sensor (setState 0 buttonStatePressed pressing_controller) 1 = Some dn'
      /\ buttonState dn' = buttonStatePreCalibrating
      /\ forcedCal dn' = true.
Proof.
  assert (Hq : quiescent pressing_controller).
  { apply quiescent_Forall. repeat constructor. }
  split; [exact Hq|].
  destruct (forced_recalibration_fan_out pressing_controller 0
              buttonStatePressed approaching_pressed_sensor) as [Hothers _].
  - reflexivity.
  - exact Hq.
  - cbn. discriminate.
  - cbn. lia.
  - cbn. discriminate.
  - apply (Hothers 1 released_sensor).
    + discriminate.
    + reflexivity.
    + reflexivity.
Defined.

(** [checkForMajorChange] decides the classification of the specification. *)
Lemma checkForMajorChange_spec (oldState newState : ButtonState) :
  checkForMajorChange oldState newState = true
  <-> major_change oldState newState.
Proof.
  destruct oldState, newState; cbn; split; intros H;
    try reflexivity; try discriminate H; try exact I; try tauto;
    try (intros E; discriminate E); try (split; intros E; discriminate E);
    try (exfalso; apply H; reflexivity);
    try (exfalso; destruct H as [H1 H2]; (apply H1 || apply H2); reflexivity).
Qed.

Lemma calls_for_app (n : Z) (l1 l2 : list (Z * ButtonState * ButtonState)) :
  calls_for n (l1 ++ l2) = calls_for n l1 ++ calls_for n l2.
Proof. apply List.filter_app. Qed.

Lemma calls_for_forced_calls (n m : Z) (c : TLSensors) :
  calls_for n (forced_calls c m) = if n =? m then forced_calls c m else [].
Proof.
  unfold forced_calls.
  destruct (sensor c m) as [d|]; [|destruct (n =? m); reflexivity].
  destruct (_ && _); [|destruct (n =? m); reflexivity].
  cbn [calls_for List.filter fst]. rewrite (Z.eqb_sym m n).
  destruct (n =? m); reflexivity.
Qed.

Lemma calls_for_fan_out_calls (n ch mask : Z) (c : TLSensors) (rounds : nat) :
  calls_for n (fan_out_calls c ch mask rounds)
  = if (0 <=? n) && (n <? Z.of_nat rounds) && mask_selects mask n
       && negb (n =? ch)
    then forced_calls c n else [].
Proof.
  induction rounds as [|k IH].
  - cbn [fan_out_calls calls_for List.filter].
    destruct (Z.leb_spec 0 n); [|reflexivity].
    destruct (Z.ltb_spec n (Z.of_nat 0)); [lia|reflexivity].
  - cbn [fan_out_calls]. rewrite calls_for_app, IH.
    assert (Hlast : calls_for n
              (if mask_selects mask (Z.of_nat k) && negb (Z.of_nat k =? ch)
               then forced_calls c (Z.of_nat k) else [])
            = if (n =? Z.of_nat k) && mask_selects mask n && negb (n =? ch)
              then forced_calls c n else []).
    { destruct (Z.eqb_spec n (Z.of_nat k)) as [Heq|Hne]; cbn [andb].
      - subst n.
        destruct (mask_selects mask (Z.of_nat k) && negb (Z.of_nat k =? ch));
          [|reflexivity].
        rewrite calls_for_forced_calls, Z.eqb_refl. reflexivity.
      - destruct (mask_selects mask (Z.of_nat k) && negb (Z.of_nat k =? ch));
          [|reflexivity].
        rewrite calls_for_forced_calls.
        destruct (Z.eqb_spec n (Z.of_nat k)); [contradiction|reflexivity]. }
    rewrite Hlast.
    destruct (Z.leb_spec 0 n); cbn [andb].
    2:{ destruct (Z.eqb_spec n (Z.of_nat k)); [lia|]. reflexivity. }
    destruct (Z.ltb_spec n (Z.of_nat k));
      destruct (Z.eqb_spec n (Z.of_nat k));
      destruct (Z.ltb_spec n (Z.of_nat (S k))); try lia; cbn [andb];
      rewrite ?app_nil_r; reflexivity.
Qed.

Lemma calls_for_own (n ch : Z) (b : bool) (o s : ButtonState) :
  calls_for n (if b then [(ch, o, s)] else [])
  = if b && (n =? ch) then [(ch, o, s)] else [].
Proof.
  destruct b; [|reflexivity]. cbn [calls_for List.filter fst andb].
  rewrite (Z.eqb_sym ch n). destruct (n =? ch); reflexivity.
Qed.

(** C9.  With a callback registered, the calls that one call of [setState]
    makes to it are, for every sensor [n]: exactly one call, with the
    sensor, its former state and its new state, when the call performs a
    transition of [n] (of [ch] itself, or of a sensor whose state it
    changes by forcing it to recalibrate) that is classified major; and no
    call otherwise. *)
Theorem major_change_notification (c : TLSensors) (ch : Z) (s : ButtonState) :
  buttonStateChangeCallback c = true ->
  exists calls,
    notifications (setState ch s c) = notifications c ++ calls
    /\ forall n d d',
        sensor c n = Some d -> sensor (setState ch s c) n = Some d' ->
        let performed :=
          (n = ch /\ stateIsBeingChanged d = false /\ buttonState d <> s)
          \/ buttonState d <> buttonState d' in
        (performed -> major_change (buttonState d) (buttonState d') ->
         calls_for n calls = [(n, buttonState d, buttonState d')])
        /\ (performed -> ~ major_change (buttonState d) (buttonState d') ->
            calls_for n calls = [])
        /\ (~ performed -> calls_for n calls = []).
Proof.
  intros Hcb.
  destruct (setState_cases ch s c) as [Hsame|(dch & Hch & Hg & Hs)].
  - destruct (sensor c ch) as [dch|] eqn:Hch.
    2:{ exists []. rewrite Hsame, app_nil_r. split; [reflexivity|].
        intros n d d' Hd Hd' performed. repeat split; reflexivity || idtac.
        all: intros [(-> & _)|Hne] _; [congruence|].
        all: rewrite Hd in Hd'; congruence. }
    destruct (stateIsBeingChanged dch) eqn:Hg.
    { exists []. rewrite Hsame, app_nil_r. split; [reflexivity|].
      intros n d d' Hd Hd' performed. repeat split; reflexivity || idtac.
      all: intros [(-> & Hg' & _)|Hne] _; [congruence|].
      all: rewrite Hd in Hd'; congruence. }
    destruct (ButtonState_eqb (buttonState dch) s) eqn:Hs.
    { apply ButtonState_eqb_eq in Hs.
      exists []. rewrite Hsame, app_nil_r. split; [reflexivity|].
      intros n d d' Hd Hd' performed. repeat split; reflexivity || idtac.
      all: intros [(-> & _ & Hs')|Hne] _; [congruence|].
      all: rewrite Hd in Hd'; congruence. }
    apply ButtonState_eqb_neq in Hs.
    (* the call performs a transition, so it cannot leave the list of
       calls as it is when the transition is major; handled below *)
    destruct (setState_performed ch s c dch Hch Hg Hs) as (Hown & _ & Hnot & _).
    cbv zeta in Hown, Hnot. rewrite Hsame, Hcb, andb_true_r in Hnot.
    rewrite Hsame, Hch in Hown. injection Hown as Hown.
    assert (Hst : buttonState dch
                  = if mask_selects (snd (fst (setState_switch dch s))) ch
                    then buttonStatePreCalibrating
                    else snd (setState_switch dch s)).
    { rewrite Hown at 1. reflexivity. }
    exfalso.
    assert (Hlen : length (notifications c) = length (notifications c))
      by reflexivity.
    rewrite Hnot in Hlen at 1. rewrite !length_app in Hlen.
    destruct (mask_selects _ ch) eqn:Hsel.
    + rewrite Hst in Hlen at 1. cbn in Hlen. lia.
    + rewrite setState_switch_target in Hst.
      destruct s; try (apply Hs; exact Hst).
      rewrite Hst in Hlen at 1. cbn in Hlen. lia.
  - destruct (setState_performed ch s c dch Hch Hg Hs) as (Hown & Hother & Hnot & _).
    cbv zeta in Hown, Hother, Hnot.
    set (mask := snd (fst (setState_switch dch s))) in *.
    set (s2 := if mask_selects mask ch then buttonStatePreCalibrating
               else snd (setState_switch dch s)) in *.
    set (c1 := update_sensor ch _ c) in *.
    rewrite Hcb, andb_true_r in Hnot.
    eexists. split; [exact Hnot|].
    intros n d d' Hd Hd' performed. subst performed.
    rewrite calls_for_app, calls_for_own.
    destruct (Z.eqb_spec n ch) as [->|Hne].
    + rewrite Hch in Hd. injection Hd as ->.
      rewrite Hown in Hd'. injection Hd' as <-.
      change (buttonState (finish_transition s2 _ _)) with s2.
      assert (Hfan : calls_for ch
                (if nonzero mask
                 then fan_out_calls c1 ch mask (Z.to_nat (N_SENSORS c)) else [])
              = []).
      { destruct (nonzero mask); [|reflexivity].
        rewrite calls_for_fan_out_calls, Z.eqb_refl.
        cbn [negb]. rewrite andb_false_r. reflexivity. }
      rewrite Hfan, andb_true_r. cbn [app].
      split; [|split].
      * intros _ Hmaj. apply checkForMajorChange_spec in Hmaj.
        rewrite Hmaj. reflexivity.
      * intros _ Hmaj.
        destruct (checkForMajorChange (buttonState d) s2) eqn:E; [|reflexivity].
        apply checkForMajorChange_spec in E. contradiction.
      * intros Hnp. exfalso. apply Hnp. left. repeat split; assumption.
    + rewrite andb_false_r, app_nil_r.
      pose proof (N_SENSORS_sensor _ _ _ Hd) as Hn.
      rewrite (Hother n Hne), Hd in Hd'.
      assert (Hcalls : forced_calls c1 n = forced_calls c n).
      { apply forced_calls_same.
        - unfold c1. apply sensor_update_sensor_ne. exact Hne.
        - apply settings_update_sensor. }
      destruct (nonzero mask).
      2:{ injection Hd' as <-. cbn [calls_for List.filter].
          repeat split; try reflexivity.
          all: intros [(-> & _)|Hc] _; contradiction. }
      cbn [fmap option_fmap option_map] in Hd'. injection Hd' as <-.
      rewrite calls_for_fan_out_calls, Hcalls.
      destruct (Z.leb_spec 0 n); [|lia].
      destruct (Z.ltb_spec n (Z.of_nat (Z.to_nat (N_SENSORS c)))); [|lia].
      destruct (Z.eqb_spec n ch); [contradiction|]. cbn [andb negb].
      rewrite andb_true_r.
      unfold fan_out_record, forced_calls, forced_PreCalibrating.
      rewrite Hd, Hcb, andb_true_r.
      destruct (Z.eqb_spec n ch); [contradiction|].
      destruct (mask_selects mask n).
      2:{ repeat split; try reflexivity.
          all: intros [(-> & _)|Hc] _; contradiction. }
      destruct (stateIsBeingChanged d); cbn [orb negb andb].
      { cbn [buttonState set_forcedCal].
        repeat split; try reflexivity.
        all: intros [(-> & _)|Hc] _; contradiction. }
      destruct (ButtonState_eqb (buttonState d) buttonStatePreCalibrating) eqn:E;
        cbn [negb].
      { cbn [buttonState set_forcedCal].
        repeat split; try reflexivity.
        all: intros [(-> & _)|Hc] _; contradiction. }
      cbn [buttonState set_forcedCal set_stateIsBeingChanged set_buttonState].
      apply ButtonState_eqb_neq in E.
      split; [|split].
      * reflexivity.
      * intros _ Hmaj. exfalso. apply Hmaj. exact I.
      * intros Hnp. exfalso. apply Hnp. right. exact E.
Qed.

Lemma major_change_notification_witness :
  buttonStateChangeCallback pressing_controller = true
  /\ exists calls,
      notifications (setState 0 buttonStatePressed pressing_controller)
      = notifications pressing_controller ++ calls
      /\ calls_for 1 calls
         = [(1, buttonStateReleased, buttonStatePreCalibrating)].
Proof.
  split; [reflexivity|].
  destruct (major_change_notification pressing_controller 0 buttonStatePressed
              eq_refl) as (calls & Hcalls & Hfor).
  exists calls. split; [exact Hcalls|].
  destruct (Hfor 1 released_sensor
              (set_forcedCal true
                 (set_buttonState buttonStatePreCalibrating released_sensor)))
    as (Hmajor & _ & _).
  - reflexivity.
  - vm_compute. reflexivity.
  - apply Hmajor.
    + right. cbn. discriminate.
    + exact I.
Defined.

(** ** The measurement schedule *)

Lemma occurrences_cons (x a : Z) (l : list Z) :
  occurrences x (a :: l)
  = ((if Z.eq_dec a x then 1 else 0) + occurrences x l)%nat.
Proof.
  unfold occurrences. destruct (Z.eq_dec a x) as [e|n].
  - rewrite (count_occ_cons_eq Z.eq_dec l e). reflexivity.
  - rewrite (count_occ_cons_neq Z.eq_dec l n). reflexivity.
Qed.

Lemma occurrences_insert (x y old : Z) (l : list Z) (i : nat) :
  l !! i = Some old ->
  (occurrences x (<[i:=y]> l) + (if Z.eq_dec old x then 1 else 0)
   = occurrences x l + (if Z.eq_dec y x then 1 else 0))%nat.
Proof.
  revert i. induction l as [|a l IH]; intros i Hi; [destruct i; discriminate|].
  destruct i as [|i].
  - injection Hi as ->.
    change (<[0%nat:=y]> (old :: l)) with (y :: l).
    rewrite !occurrences_cons.
    destruct (Z.eq_dec old x); destruct (Z.eq_dec y x); lia.
  - change (<[S i:=y]> (a :: l)) with (a :: <[i:=y]> l).
    specialize (IH i Hi). rewrite !occurrences_cons.
    destruct (Z.eq_dec a x); lia.
Qed.

Lemma occurrences_all_empty (l : list Z) :
  (forall i x, l !! i = Some x -> x = 255) ->
  occurrences 255 l = length l
  /\ forall x, x <> 255 -> occurrences x l = O.
Proof.
  induction l as [|a l IH]; intros H; [split; reflexivity|].
  assert (Ha : a = 255) by (apply (H O); reflexivity). subst a.
  destruct IH as [IH1 IH2]; [intros i x Hx; apply (H (S i)); exact Hx|].
  split.
  - rewrite occurrences_cons, IH1.
    destruct (Z.eq_dec 255 255); [reflexivity|contradiction].
  - intros x Hx. rewrite occurrences_cons, (IH2 x Hx).
    destruct (Z.eq_dec 255 x); [congruence|reflexivity].
Qed.

Lemma occurrences_positive (x : Z) (l : list Z) :
  (0 < occurrences x l)%nat -> exists i, l !! i = Some x.
Proof.
  intros H. apply (count_occ_In Z.eq_dec) in H.
  apply list_elem_of_In in H. apply list_elem_of_lookup in H. exact H.
Qed.

Section Probe.

Variables (r length ch : Z) (so : list Z).
Hypothesis r_nonneg : 0 <= r.
Hypothesis length_range : 0 < length <= 65535.

Lemma probe_position (n : Z) :
  0 <= n -> to_u16 (Z.rem (n + r) length) = (n + r) mod length.
Proof.
  intros Hn. rewrite Z.rem_mod_nonneg by lia.
  unfold to_u16. apply Z.mod_small.
  pose proof (Z.mod_pos_bound (n + r) length). lia.
Qed.

Lemma addChannel_probe_spec (rounds : nat) (n : Z) :
  0 <= n -> n + Z.of_nat rounds = length ->
  (forall m, 0 <= m < n -> so !! Z.to_nat ((m + r) mod length) <> Some 255) ->
  (exists pos, (pos < Z.to_nat length)%nat /\ so !! pos = Some 255
               /\ addChannel_probe rounds n r length ch so
                  = (<[pos := ch]> so, 0))
  \/ ((forall m, 0 <= m < length ->
                 so !! Z.to_nat ((m + r) mod length) <> Some 255)
      /\ addChannel_probe rounds n r length ch so = (so, -1)).
Proof.
  revert n. induction rounds as [|k IH]; intros n Hn Hsum Hbefore.
  - right. split; [|reflexivity]. intros m Hm. apply Hbefore. lia.
  - cbn [addChannel_probe]. rewrite probe_position by exact Hn.
    assert (Hpos : 0 <= (n + r) mod length < length)
      by (apply Z.mod_pos_bound; lia).
    destruct (so !! Z.to_nat ((n + r) mod length)) as [v|] eqn:Hv;
      cbn [default from_option id].
    + destruct (Z.eqb_spec v 255) as [->|Hne].
      * left. exists (Z.to_nat ((n + r) mod length)).
        split; [lia|]. split; [exact Hv|reflexivity].
      * assert (Hn1 : to_u16 (n + 1) = n + 1)
          by (unfold to_u16; apply Z.mod_small; lia).
        rewrite Hn1. apply IH; [lia|lia|].
        intros m Hm. destruct (Z.eq_dec m n) as [->|];
          [rewrite Hv; congruence|apply Hbefore; lia].
    + change (0 =? 255) with false. cbn iota.
      assert (Hn1 : to_u16 (n + 1) = n + 1)
        by (unfold to_u16; apply Z.mod_small; lia).
      rewrite Hn1. apply IH; [lia|lia|].
      intros m Hm. destruct (Z.eq_dec m n) as [->|];
        [rewrite Hv; discriminate|apply Hbefore; lia].
Qed.

(** The probes visit every slot below [length]. *)
Lemma probe_visits_all :
  (forall m, 0 <= m < length ->
             so !! Z.to_nat ((m + r) mod length) <> Some 255) ->
  forall pos, (pos < Z.to_nat length)%nat -> so !! pos <> Some 255.
Proof.
  intros H pos Hpos.
  assert (Hm : 0 <= (Z.of_nat pos - r) mod length < length)
    by (apply Z.mod_pos_bound; lia).
  specialize (H _ Hm).
  rewrite Zplus_mod_idemp_l in H.
  replace (Z.of_nat pos - r + r) with (Z.of_nat pos) in H by lia.
  rewrite Z.mod_small, Nat2Z.id in H by lia. exact H.
Qed.

End Probe.

Lemma addChannel_step {RG : Random} (ch : Z) (g : generator) (c : TLSensors) :
  random_in_range RG ->
  0 < nSensors c * nMeasurementsPerSensor c <= 65535 ->
  nSensors c * nMeasurementsPerSensor c <= Z.of_nat (length (scanOrder c)) ->
  ch <> 255 ->
  (0 < occurrences 255 (schedule c))%nat ->
  let c' := snd (addChannel ch (g, c)) in
  error c' = 0
  /\ nSensors c' = nSensors c
  /\ nMeasurementsPerSensor c' = nMeasurementsPerSensor c
  /\ length (scanOrder c') = length (scanOrder c)
  /\ (occurrences 255 (schedule c') + 1 = occurrences 255 (schedule c))%nat
  /\ occurrences ch (schedule c') = S (occurrences ch (schedule c))
  /\ forall x, x <> 255 -> x <> ch ->
               occurrences x (schedule c') = occurrences x (schedule c).
Proof.
  intros Hrand HL Hbound Hch Hfree.
  unfold addChannel. cbv zeta.
  assert (Hu : to_u16 (nSensors c * nMeasurementsPerSensor c)
               = nSensors c * nMeasurementsPerSensor c)
    by (unfold to_u16; apply Z.mod_small; lia).
  unfold schedule in *. rewrite Hu in *.
  set (L := nSensors c * nMeasurementsPerSensor c) in *.
  pose proof (Hrand 0 L g ltac:(lia)) as Hr.
  destruct (random 0 L g) as [r g']. cbn [fst] in Hr.
  assert (Hr0 : 0 <= r) by lia.
  assert (HL' : 0 < L <= 65535) by exact HL.
  assert (Hsum : 0 + Z.of_nat (Z.to_nat L) = L) by lia.
  destruct (addChannel_probe_spec r L ch (scanOrder c) Hr0 HL'
              (Z.to_nat L) 0 (Z.le_refl 0) Hsum)
    as [(pos & Hpos & Hslot & ->)|[Hnone _]].
  { intros m Hm. lia. }
  - cbn [snd error set_error nSensors nMeasurementsPerSensor scanOrder
           set_scanOrder].
    fold L. rewrite Hu.
    split; [reflexivity|]. split; [reflexivity|]. split; [reflexivity|].
    split; [apply length_insert|].
    rewrite take_insert_lt by exact Hpos.
    assert (Hslot' : take (Z.to_nat L) (scanOrder c) !! pos = Some 255).
    { rewrite lookup_take_lt by exact Hpos. exact Hslot. }
    pose proof (occurrences_insert 255 ch 255 _ _ Hslot') as H255.
    pose proof (occurrences_insert ch ch 255 _ _ Hslot') as Hc.
    destruct (Z.eq_dec 255 255); [|contradiction].
    destruct (Z.eq_dec ch 255); [contradiction|].
    destruct (Z.eq_dec 255 ch); [congruence|].
    destruct (Z.eq_dec ch ch); [|contradiction].
    split; [lia|]. split; [lia|].
    intros x Hx Hxc.
    pose proof (occurrences_insert x ch 255 _ _ Hslot') as Hxx.
    destruct (Z.eq_dec 255 x); [congruence|].
    destruct (Z.eq_dec ch x); [congruence|]. lia.
  - exfalso.
    destruct (occurrences_positive _ _ Hfree) as [i Hi].
    pose proof (lookup_lt_Some _ _ _ Hi) as Hlt.
    rewrite length_take in Hlt.
    assert (Hi' : (i < Z.to_nat L)%nat) by lia.
    rewrite lookup_take_lt in Hi by exact Hi'.
    exact (probe_visits_all r L (scanOrder c) HL' Hnone i Hi' Hi).
Qed.

Lemma fill_scanOrder (c : TLSensors) (rounds : nat) :
  (rounds <= length (scanOrder c))%nat ->
  let c' :=
    for_upto rounds
      (fun pos c => set_scanOrder (<[Z.to_nat pos := 255]> (scanOrder c)) c) c in
  nSensors c' = nSensors c
  /\ nMeasurementsPerSensor c' = nMeasurementsPerSensor c
  /\ length (scanOrder c') = length (scanOrder c)
  /\ forall i x, (i < rounds)%nat -> scanOrder c' !! i = Some x -> x = 255.
Proof.
  intros Hrounds.
  apply (for_upto_invariant
           (fun k c' =>
              nSensors c' = nSensors c
              /\ nMeasurementsPerSensor c' = nMeasurementsPerSensor c
              /\ length (scanOrder c') = length (scanOrder c)
              /\ forall i x, (i < k)%nat -> scanOrder c' !! i = Some x ->
                             x = 255)).
  - repeat split; try reflexivity. intros i x Hi. lia.
  - intros k s Hk (HnS & HnM & Hlen & Hfilled).
    cbn [nSensors nMeasurementsPerSensor scanOrder set_scanOrder].
    rewrite Nat2Z.id, length_insert.
    repeat split; try assumption.
    intros i x Hi Hx.
    destruct (decide (i = k)) as [->|Hne].
    + rewrite list_lookup_insert_eq in Hx by lia. congruence.
    + rewrite list_lookup_insert_ne in Hx by congruence.
      apply (Hfilled i); [lia|exact Hx].
Qed.

Lemma schedule_filled_channel {RG : Random} (s p : Z) (len : nat)
  (rounds n : Z) (st : generator * TLSensors) :
  random_in_range RG ->
  1 <= s <= 255 -> 1 <= p <= 255 -> s * p <= Z.of_nat len ->
  0 <= rounds < p -> 0 <= n < s ->
  schedule_filled s p len rounds n (snd st) ->
  schedule_filled s p len rounds (n + 1) (snd (addChannel n st)).
Proof.
  intros Hrand Hs Hp Hlen Hrounds Hn (HnS & HnM & Hl & H255 & Hocc & Herr).
  destruct st as [g c]. cbn [snd] in *.
  assert (HL : 0 < s * p <= 65535) by nia.
  assert (Hfree : (0 < occurrences 255 (schedule c))%nat) by nia.
  destruct (addChannel_step n g c Hrand) as (E & ES & EM & EL & E255 & En & Ex).
  { rewrite HnS, HnM. exact HL. }
  { rewrite HnS, HnM, Hl. exact Hlen. }
  { lia. }
  { exact Hfree. }
  cbv zeta in *.
  split; [congruence|]. split; [congruence|]. split; [congruence|].
  split; [lia|]. split; [|intros _; exact E].
  intros ch Hch. destruct (Z.eq_dec ch n) as [->|Hne].
  - rewrite En. specialize (Hocc n Hn).
    destruct (Z.ltb_spec n n); [lia|].
    destruct (Z.ltb_spec n (n + 1)); [|lia]. lia.
  - rewrite (Ex ch ltac:(lia) Hne), (Hocc ch Hch).
    destruct (Z.ltb_spec ch n); destruct (Z.ltb_spec ch (n + 1)); lia.
Qed.

Lemma lcg_random_in_range : random_in_range lcg_random.
Proof.
  intros lo hi g Hlt. cbn [random lcg_random fst].
  destruct (Z.ltb_spec lo hi); [|lia].
  pose proof (Z.mod_pos_bound ((1103515245 * g + 12345) mod 2147483648)
                (hi - lo)).
  lia.
Qed.

(** C4.  For a sensor count and a number of measurements per sensor between
    1 and 255 whose product is within the array [scanOrder], and a [random]
    that returns values in the range it is asked for, [initScanOrder] ends
    with the error code 0, and the schedule, the first
    [nSensors * nMeasurementsPerSensor] entries of [scanOrder], has that
    length, holds every sensor index below [nSensors] exactly
    [nMeasurementsPerSensor] times and holds the sentinel 255 nowhere. *)
Theorem schedule_coverage {RG : Random} (g : generator) (c : TLSensors) :
  random_in_range RG ->
  1 <= nSensors c <= 255 -> 1 <= nMeasurementsPerSensor c <= 255 ->
  nSensors c * nMeasurementsPerSensor c <= Z.of_nat (length (scanOrder c)) ->
  let c' := snd (initScanOrder (g, c)) in
  error c' = 0
  /\ nSensors c' = nSensors c
  /\ nMeasurementsPerSensor c' = nMeasurementsPerSensor c
  /\ length (schedule c')
     = Z.to_nat (nSensors c * nMeasurementsPerSensor c)
  /\ (forall ch, 0 <= ch < nSensors c ->
        occurrences ch (schedule c') = Z.to_nat (nMeasurementsPerSensor c))
  /\ occurrences 255 (schedule c') = O.
Proof.
  intros Hrand Hs Hp Hlen.
  set (s := nSensors c) in *. set (p := nMeasurementsPerSensor c) in *.
  assert (HL : 0 < s * p <= 65535) by nia.
  assert (Hu : to_u16 (s * p) = s * p)
    by (unfold to_u16; apply Z.mod_small; lia).
  unfold initScanOrder. cbv zeta. fold s p. rewrite Hu.
  destruct (fill_scanOrder c (Z.to_nat (s * p)) ltac:(lia))
    as (FS & FM & FL & Ffill).
  fold (for_loop (s * p)
          (fun pos c => set_scanOrder (<[Z.to_nat pos := 255]> (scanOrder c)) c) c)
    in FS, FM, FL, Ffill.
  set (c0 := for_loop (s * p) _ c) in *. clearbody c0.
  fold s in FS. fold p in FM. rewrite FM.
  set (g0 := randomSeed p g). clearbody g0.
  assert (H0 : schedule_filled s p (length (scanOrder c)) 0 0 (snd (g0, c0))).
  { cbn [snd]. split; [exact FS|]. split; [exact FM|]. split; [exact FL|].
    assert (Hsched : schedule c0 = take (Z.to_nat (s * p)) (scanOrder c0)).
    { unfold schedule. rewrite FS, FM, Hu. reflexivity. }
    destruct (occurrences_all_empty (schedule c0)) as [Hall Hnone].
    { intros i x Hx. rewrite Hsched in Hx.
      pose proof (lookup_lt_Some _ _ _ Hx) as Hi. rewrite length_take in Hi.
      rewrite lookup_take_lt in Hx by lia. apply (Ffill i x); [lia|exact Hx]. }
    split; [|split; [|lia]].
    - rewrite Hall, Hsched, length_take. lia.
    - intros ch Hch. rewrite (Hnone ch) by lia.
      destruct (Z.ltb_spec ch 0); lia. }
  assert (Hfinal : schedule_filled s p (length (scanOrder c)) p 0
                     (snd (for_loop p
                             (fun _ st =>
                                for_loop (nSensors (snd st))
                                  (fun n st => addChannel n st) st)
                             (g0, c0)))).
  { unfold for_loop at 1.
    rewrite <- (Z2Nat.id p) at 2 by lia.
    apply (for_upto_invariant
             (fun k st =>
                schedule_filled s p (length (scanOrder c)) (Z.of_nat k) 0
                  (snd st))).
    - exact H0.
    - intros k st Hk Hst.
      assert (HnS : nSensors (snd st) = s) by apply Hst.
      rewrite HnS.
      assert (Hin : schedule_filled s p (length (scanOrder c)) (Z.of_nat k)
                      (Z.of_nat (Z.to_nat s))
                      (snd (for_upto (Z.to_nat s)
                              (fun n st => addChannel n st) st))).
      { apply (for_upto_invariant
                 (fun n st' =>
                    schedule_filled s p (length (scanOrder c)) (Z.of_nat k)
                      (Z.of_nat n) (snd st'))).
        - exact Hst.
        - intros n st' Hn Hst'.
          replace (Z.of_nat (S n)) with (Z.of_nat n + 1) by lia.
          apply schedule_filled_channel; try assumption; lia. }
      rewrite Z2Nat.id in Hin by lia.
      fold (for_loop s (fun n st => addChannel n st) st) in Hin.
      destruct Hin as (I1 & I2 & I3 & I4 & I5 & I6).
      split; [exact I1|]. split; [exact I2|]. split; [exact I3|].
      split; [lia|]. split; [|intros _; apply I6; nia].
      intros ch Hch. rewrite (I5 ch Hch).
      destruct (Z.ltb_spec ch s); destruct (Z.ltb_spec ch 0); lia. }
  destruct Hfinal as (R1 & R2 & R3 & R4 & R5 & R6).
  set (c' := snd (for_loop p _ (g0, c0))) in *.
  split; [apply R6; nia|]. split; [exact R1|]. split; [exact R2|].
  split.
  { unfold schedule. rewrite R1, R2, Hu, length_take, R3. lia. }
  split; [|lia].
  intros ch Hch. specialize (R5 ch Hch).
  destruct (Z.ltb_spec ch 0); lia.
Qed.

Lemma schedule_coverage_witness :
  random_in_range lcg_random
  /\ (let c' := snd (initScanOrder (H := lcg_random) (1, pressing_controller)) in
      error c' = 0
      /\ occurrences 0 (schedule c') = 2%nat
      /\ occurrences 1 (schedule c') = 2%nat
      /\ occurrences 255 (schedule c') = 0%nat).
Proof.
  split; [exact lcg_random_in_range|].
  destruct (schedule_coverage (RG := lcg_random) 1 pressing_controller
              lcg_random_in_range)
    as (Herr & _ & _ & _ & Hocc & Hnone).
  - cbn. lia.
  - cbn. lia.
  - cbn. lia.
  - cbv zeta. split; [exact Herr|].
    split; [apply (Hocc 0); cbn; lia|].
    split; [apply (Hocc 1); cbn; lia|exact Hnone].
Defined.

(** ** The write path of the EEPROM codec *)
Lemma EEPROM_update_insert (e : EEPROM) (addr b : Z) :
  0 <= addr -> EEPROM_update e addr b = <[Z.to_nat addr := b]> e.
Proof.
  intros Ha. unfold EEPROM_update, EEPROM_read, EEPROM_write.
  destruct (Z.ltb_spec addr 0); [lia|].
  destruct (Z.eqb_spec (default 255 (e !! Z.to_nat addr)) b) as [Heq|Hne];
    cbn [negb]; [|reflexivity].
  destruct (e !! Z.to_nat addr) as [x|] eqn:Hx; cbn in Heq.
  - subst x. symmetry. apply list_insert_id. exact Hx.
  - symmetry. apply list_insert_ge. apply lookup_ge_None. exact Hx.
Qed.

Lemma store_bytes_nil (e : list Z) (addr : Z) : store_bytes e addr [] = e.
Proof. unfold store_bytes. cbn. rewrite Nat.add_0_r. apply take_drop. Qed.

Lemma store_bytes_snoc (e : list Z) (addr : Z) (bs : list Z) (b : Z) :
  0 <= addr -> (Z.to_nat addr + length bs < length e)%nat ->
  <[Z.to_nat (addr + Z.of_nat (length bs)) := b]> (store_bytes e addr bs)
  = store_bytes e addr (bs ++ [b]).
Proof.
  intros Ha Hlen. unfold store_bytes.
  assert (Ht : length (take (Z.to_nat addr) e) = Z.to_nat addr)
    by (rewrite length_take; lia).
  rewrite insert_app_r_alt by lia.
  rewrite insert_app_r_alt by lia.
  replace (Z.to_nat (addr + Z.of_nat (length bs))
           - length (take (Z.to_nat addr) e) - length bs)%nat with 0%nat by lia.
  rewrite <- app_assoc. f_equal. f_equal.
  rewrite length_app. cbn [length].
  destruct (drop (Z.to_nat addr + length bs) e) as [|x l] eqn:Hd.
  { apply (f_equal length) in Hd. rewrite length_drop in Hd. cbn in Hd. lia. }
  cbn. f_equal.
  replace (Z.to_nat addr + (length bs + 1))%nat
    with ((Z.to_nat addr + length bs) + 1)%nat by lia.
  rewrite <- drop_drop. rewrite Hd. reflexivity.
Qed.

Lemma length_store_bytes (e : list Z) (addr : Z) (bs : list Z) :
  (Z.to_nat addr + length bs <= length e)%nat ->
  length (store_bytes e addr bs) = length e.
Proof.
  intros H. unfold store_bytes.
  rewrite !length_app, length_take, length_drop. lia.
Qed.

Lemma EEPROM_update_store (e0 : list Z) (a0 : Z) (bs : list Z) (b : Z) :
  0 <= a0 -> (Z.to_nat a0 + length bs < length e0)%nat ->
  EEPROM_update (store_bytes e0 a0 bs) (a0 + Z.of_nat (length bs)) b
  = store_bytes e0 a0 (bs ++ [b]).
Proof.
  intros Ha H. rewrite EEPROM_update_insert by lia.
  apply store_bytes_snoc; assumption.
Qed.

Lemma writeFloatToEeprom_store (e0 : list Z) (a0 : Z) (bs : list Z)
  (f addr crc : Z) :
  0 <= a0 -> addr = a0 + Z.of_nat (length bs) ->
  (Z.to_nat a0 + length bs + 4 <= length e0)%nat ->
  writeFloatToEeprom f (store_bytes e0 a0 bs, addr, crc)
  = (store_bytes e0 a0 (bs ++ float_bytes f), addr + 4,
     fold_left crcUpdate (float_bytes f) crc).
Proof.
  intros Ha -> Hlen. unfold writeFloatToEeprom, float_bytes.
  cbn [fold_left].
  change (Z.shiftl (4 - 1) 3) with 24. change (Z.shiftl (3 - 1) 3) with 16.
  change (Z.shiftl (2 - 1) 3) with 8. change (Z.shiftl (1 - 1) 3) with 0.
  rewrite Z.shiftr_0_r.
  rewrite EEPROM_update_store by lia.
  replace (a0 + Z.of_nat (length bs) + 1)
    with (a0 + Z.of_nat (length (bs ++ [Z.land (Z.shiftr f 24) 255])))
    by (rewrite length_app; cbn [length]; lia).
  rewrite EEPROM_update_store by (try rewrite length_app; cbn [length]; lia).
  match goal with
  | |- context [EEPROM_update (store_bytes e0 a0 ?l) ?a _] =>
      replace a with (a0 + Z.of_nat (length l))
        by (rewrite !length_app; cbn [length]; lia)
  end.
  rewrite EEPROM_update_store by (rewrite ?length_app; cbn [length]; lia).
  match goal with
  | |- context [EEPROM_update (store_bytes e0 a0 ?l) ?a _] =>
      replace a with (a0 + Z.of_nat (length l))
        by (rewrite !length_app; cbn [length]; lia)
  end.
  rewrite EEPROM_update_store by (rewrite ?length_app; cbn [length]; lia).
  rewrite <- !app_assoc. cbn [app].
  f_equal. f_equal. rewrite !length_app. cbn [length]. lia.
Qed.

Lemma length_float_bytes (f : Z) : length (float_bytes f) = 4%nat.
Proof. reflexivity. Qed.

Lemma length_sensor_bytes (d : TLStruct) : length (sensor_bytes d) = 16%nat.
Proof. reflexivity. Qed.

Lemma length_concat_sensor_bytes (ds : list TLStruct) :
  length (concat (map sensor_bytes ds)) = (16 * length ds)%nat.
Proof.
  induction ds as [|d ds IH]; [reflexivity|].
  cbn [map concat]. rewrite length_app, IH, length_sensor_bytes.
  cbn [length]. lia.
Qed.

Lemma writeSensorSettingToEeprom_store (c : TLSensors) (n : Z) (d : TLStruct)
  (e0 : list Z) (a0 : Z) (bs : list Z) (addr crc : Z) :
  sensor c n = Some d ->
  0 <= a0 -> addr = a0 + Z.of_nat (length bs) ->
  (Z.to_nat a0 + length bs + 16 <= length e0)%nat ->
  writeSensorSettingToEeprom c n (store_bytes e0 a0 bs, addr, crc)
  = (store_bytes e0 a0 (bs ++ sensor_bytes d), addr + 16,
     fold_left crcUpdate (sensor_bytes d) crc).
Proof.
  intros Hd Ha Haddr Hlen. unfold writeSensorSettingToEeprom. rewrite Hd.
  cbv zeta. unfold sensor_bytes.
  rewrite (writeFloatToEeprom_store e0 a0 bs) by (try assumption; lia).
  rewrite (writeFloatToEeprom_store e0 a0)
    by (rewrite ?length_app, ?length_float_bytes; try assumption; lia).
  rewrite (writeFloatToEeprom_store e0 a0)
    by (rewrite ?length_app, ?length_float_bytes; try assumption; lia).
  rewrite (writeFloatToEeprom_store e0 a0)
    by (rewrite ?length_app, ?length_float_bytes; try assumption; lia).
  rewrite !fold_left_app, <- !app_assoc.
  f_equal. f_equal. lia.
Qed.

Lemma write_loop_store (c : TLSensors) (e0 : list Z) (a0 : Z) (bs : list Z)
  (crc : Z) (k : nat) :
  0 <= a0 -> (k <= length (data c))%nat ->
  (Z.to_nat a0 + length bs + 16 * k <= length e0)%nat ->
  for_upto k (fun n st => writeSensorSettingToEeprom c n st)
    (store_bytes e0 a0 bs, a0 + Z.of_nat (length bs), crc)
  = (store_bytes e0 a0 (bs ++ concat (map sensor_bytes (take k (data c)))),
     a0 + Z.of_nat (length bs) + 16 * Z.of_nat k,
     fold_left crcUpdate (concat (map sensor_bytes (take k (data c)))) crc).
Proof.
  intros Ha. induction k as [|k IH]; intros Hk Hlen.
  - cbn [for_upto]. rewrite take_0. cbn [map concat fold_left].
    rewrite app_nil_r. f_equal. f_equal. lia.
  - cbn [for_upto]. rewrite IH by lia.
    destruct (data c !! k) as [d|] eqn:Hd.
    2:{ apply lookup_ge_None in Hd. lia. }
    rewrite (take_S_r _ _ _ Hd), map_app, concat_app.
    cbn [map concat]. rewrite app_nil_r.
    rewrite (writeSensorSettingToEeprom_store c (Z.of_nat k) d e0 a0).
    + rewrite fold_left_app, app_assoc. f_equal. f_equal. lia.
    + apply sensor_lookup. split; [lia|]. rewrite Nat2Z.id. exact Hd.
    + exact Ha.
    + rewrite length_app, length_concat_sensor_bytes, length_take. lia.
    + rewrite length_app, length_concat_sensor_bytes, length_take. lia.
Qed.

Lemma land_mask_range (x : Z) :
  Z.land x TL_EEPROM_N_SENSORS_MASK = x <-> 0 <= x <= 31.
Proof.
  change TL_EEPROM_N_SENSORS_MASK with (Z.ones 5).
  rewrite Z.land_ones by lia. change (2 ^ 5) with 32. split.
  - intros H. pose proof (Z.mod_pos_bound x 32). lia.
  - intros H. apply Z.mod_small. lia.
Qed.

Lemma check_capacity_ok (e : EEPROM) (c : TLSensors) :
  capacity_ok e c -> check_capacity e c = c.
Proof.
  intros [Hn Hcap]. unfold check_capacity.
  destruct (Z.eqb_spec (Z.land (nSensors c - 1) TL_EEPROM_N_SENSORS_MASK)
              (nSensors c - 1)) as [_|Hne].
  2:{ exfalso. apply Hne. apply land_mask_range. lia. }
  cbn [negb]. destruct (Z.gtb_spec (eepromOffset c + eepromSizeRequired c)
                          (EEPROM_length e)); [lia|reflexivity].
Qed.

Lemma check_capacity_fails (e : EEPROM) (c : TLSensors) :
  ~ capacity_ok e c -> check_capacity e c = set_error (-28) c.
Proof.
  intros H. unfold capacity_ok in H. unfold check_capacity.
  destruct (Z.eqb_spec (Z.land (nSensors c - 1) TL_EEPROM_N_SENSORS_MASK)
              (nSensors c - 1)) as [Heq|Hne]; cbn [negb].
  - apply land_mask_range in Heq.
    destruct (Z.gtb_spec (eepromOffset c + eepromSizeRequired c)
                (EEPROM_length e)); [reflexivity|]. exfalso. apply H. lia.
  - destruct (_ >? _); reflexivity.
Qed.

Lemma capacity_ok_dec (e : EEPROM) (c : TLSensors) :
  capacity_ok e c \/ ~ capacity_ok e c.
Proof. unfold capacity_ok. lia. Qed.

Lemma write_accepted_dec (e : EEPROM) (c : TLSensors) :
  write_accepted e c \/ ~ write_accepted e c.
Proof. unfold write_accepted, capacity_ok. lia. Qed.

Lemma writeSettingsToEeprom_refused (c : TLSensors) (e : EEPROM) :
  ~ write_accepted e c ->
  snd (writeSettingsToEeprom c e) = e
  /\ error (fst (writeSettingsToEeprom c e)) <> 0
  /\ data (fst (writeSettingsToEeprom c e)) = data c.
Proof.
  intros H. unfold writeSettingsToEeprom. cbv zeta.
  fold (stored_key e c).
  destruct (capacity_ok_dec e c) as [Hcap|Hcap].
  2:{ rewrite (check_capacity_fails e c Hcap).
      cbn [error set_error]. change (-28 =? 0) with false. cbn [andb].
      cbn [error set_error fst snd data]. change (-28 =? 0) with false.
      cbn [fst snd error set_error data]. repeat split. lia. }
  rewrite (check_capacity_ok e c Hcap).
  destruct (Z.eqb_spec (error c) 0) as [Herr|Herr]; cbn [andb].
  2:{ apply Z.eqb_neq in Herr. rewrite Herr. cbn [fst snd].
      apply Z.eqb_neq in Herr. repeat split. exact Herr. }
  destruct (Z.eqb_spec (stored_key e c) TL_EEPROM_KEY) as [Hk|Hk]; cbn [negb andb].
  { exfalso. apply H. unfold write_accepted. tauto. }
  destruct (Z.eqb_spec (stored_key e c) 255) as [Hf|Hf]; cbn [negb andb].
  { exfalso. apply H. unfold write_accepted. tauto. }
  cbn [error set_error]. change (-5 =? 0) with false.
  cbn [fst snd error set_error data]. repeat split. lia.
Qed.

Lemma eepromSizeRequired_small (c : TLSensors) :
  1 <= nSensors c <= 32 -> eepromSizeRequired c = 16 * nSensors c + 5.
Proof.
  intros H. unfold eepromSizeRequired, to_u16, sizeof_float,
    TL_EEPROM_N_BYTES_OVERHEAD.
  rewrite Z.mod_small; lia.
Qed.

Lemma EEPROM_length_le (e : EEPROM) : EEPROM_length e <= Z.of_nat (length e).
Proof.
  unfold EEPROM_length, to_u16. apply Z.mod_le; lia.
Qed.

Lemma length_record_body (c : TLSensors) :
  0 <= nSensors c <= N_SENSORS c ->
  length (record_body c) = (2 + 16 * Z.to_nat (nSensors c))%nat.
Proof.
  intros H. unfold record_body, N_SENSORS in *.
  rewrite length_app, length_concat_sensor_bytes, length_take.
  cbn [length]. lia.
Qed.

Lemma length_record_bytes (c : TLSensors) :
  0 <= nSensors c <= N_SENSORS c ->
  length (record_bytes c) = (2 + 16 * Z.to_nat (nSensors c) + 2)%nat.
Proof.
  intros H. unfold record_bytes. cbv zeta.
  rewrite length_app, length_record_body by exact H. reflexivity.
Qed.

Lemma writeSettingsToEeprom_accepted (c : TLSensors) (e : EEPROM) :
  write_accepted e c -> 0 <= eepromOffset c -> nSensors c <= N_SENSORS c ->
  writeSettingsToEeprom c e
  = (c, store_bytes e (eepromOffset c) (record_bytes c)).
Proof.
  intros (Herr & Hcap0 & Hkey) Hoff Hdata.
  pose proof Hcap0 as [Hn Hcap].
  pose proof (EEPROM_length_le e) as Hlen.
  rewrite eepromSizeRequired_small in Hcap by exact Hn.
  unfold writeSettingsToEeprom. cbv zeta. fold (stored_key e c).
  rewrite check_capacity_ok by exact Hcap0.
  rewrite Herr. cbn [andb Z.eqb].
  replace (negb (stored_key e c =? TL_EEPROM_KEY) && negb (stored_key e c =? 255))
    with false.
  2:{ destruct Hkey as [-> | ->]; reflexivity. }
  rewrite Herr. cbn [Z.eqb]. fold (written_descriptor c).
  unfold for_loop.
  pose proof (EEPROM_update_store e (eepromOffset c) [] TL_EEPROM_KEY) as H1.
  rewrite store_bytes_nil in H1. cbn [length app] in H1.
  rewrite Z.add_0_r in H1. rewrite H1 by lia. clear H1.
  pose proof (EEPROM_update_store e (eepromOffset c) [TL_EEPROM_KEY]
                (written_descriptor c)) as H2.
  cbn [length app] in H2. change (Z.of_nat 1) with 1 in H2.
  rewrite H2 by lia. clear H2.
  pose proof (write_loop_store c e (eepromOffset c)
                [TL_EEPROM_KEY; written_descriptor c]
                (crcUpdate (crcUpdate 0 TL_EEPROM_KEY) (written_descriptor c))
                (Z.to_nat (nSensors c))) as H3.
  cbn [length app] in H3. change (Z.of_nat 2) with 2 in H3.
  replace (eepromOffset c + 1 + 1) with (eepromOffset c + 2) by lia.
  unfold N_SENSORS in Hdata.
  unfold EEPROM in *. rewrite H3 by lia. clear H3.
  fold (record_body c).
  assert (Hbody : length (record_body c) = (2 + 16 * Z.to_nat (nSensors c))%nat)
    by (apply length_record_body; unfold N_SENSORS; lia).
  replace (eepromOffset c + 2 + 16 * Z.of_nat (Z.to_nat (nSensors c)))
    with (eepromOffset c + Z.of_nat (length (record_body c))) by lia.
  change (TL_EEPROM_KEY :: written_descriptor c :: concat
            (map sensor_bytes (take (Z.to_nat (nSensors c)) (data c))))
    with (record_body c).
  change (fold_left crcUpdate
            (concat (map sensor_bytes (take (Z.to_nat (nSensors c)) (data c))))
            (crcUpdate (crcUpdate 0 TL_EEPROM_KEY) (written_descriptor c)))
    with (fold_left crcUpdate (record_body c) 0).
  set (crc := fold_left crcUpdate (record_body c) 0).
  rewrite EEPROM_update_store by lia.
  replace (eepromOffset c + Z.of_nat (length (record_body c)) + 1)
    with (eepromOffset c
          + Z.of_nat (length (record_body c ++ [Z.land (Z.shiftr crc 8) 255])))
    by (rewrite length_app; cbn [length]; lia).
  rewrite EEPROM_update_store by (rewrite ?length_app; cbn [length]; lia).
  rewrite <- app_assoc. reflexivity.
Qed.


(** ** The CRC as a linear map *)
Lemma crcUpdate_rounds (crc c : Z) :
  crcUpdate crc c
  = Z.land (fold_left (crc_round c) [0x80; 0x40; 0x20; 0x10; 0x08; 0x04; 0x02; 0x01] crc)
      0xffff.
Proof.
  unfold crcUpdate. cbv zeta. fold (crc_round c).
  rewrite <- Z.land_assoc. reflexivity.
Qed.

Lemma to_u16_lxor (a b : Z) : to_u16 (Z.lxor a b) = Z.lxor (to_u16 a) (to_u16 b).
Proof.
  unfold to_u16. change 65536 with (2 ^ 16).
  rewrite <- !Z.land_ones by lia.
  apply Z.bits_inj'. intros n Hn.
  rewrite !Z.land_spec, !Z.lxor_spec, !Z.land_spec.
  destruct (Z.testbit (Z.ones 16) n), (Z.testbit a n), (Z.testbit b n); reflexivity.
Qed.

Lemma land_lxor (a b m : Z) :
  Z.land (Z.lxor a b) m = Z.lxor (Z.land a m) (Z.land b m).
Proof.
  apply Z.bits_inj'. intros n Hn.
  rewrite !Z.land_spec, !Z.lxor_spec, !Z.land_spec.
  destruct (Z.testbit m n), (Z.testbit a n), (Z.testbit b n); reflexivity.
Qed.

Lemma crc_round_lxor (c d a b k : Z) :
  0 <= k ->
  crc_round (Z.lxor c d) (Z.lxor a b) (2 ^ k)
  = Z.lxor (crc_round c a (2 ^ k)) (crc_round d b (2 ^ k)).
Proof.
  intros Hk. unfold crc_round. cbv zeta.
  change 32768 with (2 ^ 15).
  rewrite !land_pow2_testbit by lia.
  rewrite !Z.lxor_spec, Z.shiftl_lxor, to_u16_lxor.
  set (x := to_u16 (Z.shiftl a 1)). set (y := to_u16 (Z.shiftl b 1)).
  destruct (Z.testbit c k), (Z.testbit d k), (Z.testbit a 15), (Z.testbit b 15);
    cbn [xorb negb];
    rewrite ?Z.lxor_assoc, ?Z.lxor_nilpotent, ?Z.lxor_0_r; try reflexivity;
    try (rewrite (Z.lxor_comm 4129 y); reflexivity);
    try (rewrite <- (Z.lxor_assoc 4129 y 4129), (Z.lxor_comm 4129 y),
           Z.lxor_assoc, Z.lxor_nilpotent, Z.lxor_0_r; reflexivity).
Qed.

Lemma crc_rounds_lxor (c d : Z) (ks : list Z) :
  Forall (fun k => 0 <= k) ks ->
  forall a b,
    fold_left (crc_round (Z.lxor c d)) (map (fun k => 2 ^ k) ks) (Z.lxor a b)
    = Z.lxor (fold_left (crc_round c) (map (fun k => 2 ^ k) ks) a)
        (fold_left (crc_round d) (map (fun k => 2 ^ k) ks) b).
Proof.
  induction 1 as [|k ks Hk _ IH]; intros a b; [reflexivity|].
  cbn [map fold_left]. rewrite crc_round_lxor by exact Hk. apply IH.
Qed.

Lemma crcUpdate_lxor (a b c d : Z) :
  crcUpdate (Z.lxor a b) (Z.lxor c d)
  = Z.lxor (crcUpdate a c) (crcUpdate b d).
Proof.
  rewrite !crcUpdate_rounds.
  change [128; 64; 32; 16; 8; 4; 2; 1]
    with (map (fun k => 2 ^ k) [7; 6; 5; 4; 3; 2; 1; 0]).
  rewrite crc_rounds_lxor by (repeat constructor; lia).
  apply land_lxor.
Qed.

Lemma crc_fold_lxor (l l' : list Z) :
  length l = length l' ->
  forall x x',
    fold_left crcUpdate (zip_with Z.lxor l l') (Z.lxor x x')
    = Z.lxor (fold_left crcUpdate l x) (fold_left crcUpdate l' x').
Proof.
  revert l'. induction l as [|a l IH]; intros [|a' l'] Hlen x x';
    try discriminate Hlen; [reflexivity|].
  cbn [zip_with fold_left]. rewrite crcUpdate_lxor.
  apply IH. cbn in Hlen. lia.
Qed.

Lemma crcUpdate_range (crc c : Z) : 0 <= crcUpdate crc c < 65536.
Proof.
  rewrite crcUpdate_rounds. change 65535 with (Z.ones 16).
  rewrite Z.land_ones by lia. apply Z.mod_pos_bound. reflexivity.
Qed.

Lemma lxor_u16 (a b : Z) :
  0 <= a < 65536 -> 0 <= b < 65536 -> 0 <= Z.lxor a b < 65536.
Proof.
  intros Ha Hb. split; [apply Z.lxor_nonneg; lia|].
  destruct (Z.eq_dec (Z.lxor a b) 0) as [->|Hnz]; [lia|].
  assert (H0 : 0 <= Z.lxor a b) by (apply Z.lxor_nonneg; lia).
  change 65536 with (2 ^ 16). apply Z.log2_lt_pow2; [lia|].
  pose proof (Z.log2_lxor a b ltac:(lia) ltac:(lia)) as Hl.
  assert (Hla : Z.log2 a < 16).
  { destruct (Z.eq_dec a 0) as [->|]; [reflexivity|].
    apply Z.log2_lt_pow2; lia. }
  assert (Hlb : Z.log2 b < 16).
  { destruct (Z.eq_dec b 0) as [->|]; [reflexivity|].
    apply Z.log2_lt_pow2; lia. }
  lia.
Qed.

Lemma crc_round_zero_keeps (x i : Z) :
  0 < x < 65536 -> 0 < crc_round 0 x i < 65536.
Proof.
  intros Hx. unfold crc_round. cbv zeta.
  rewrite Z.land_0_l. cbn [nonzero Z.eqb negb].
  change 32768 with (2 ^ 15). rewrite land_pow2_testbit by lia.
  assert (Hs : to_u16 (Z.shiftl x 1) = (2 * x) mod 65536).
  { unfold to_u16. rewrite Z.shiftl_mul_pow2 by lia. f_equal. lia. }
  pose proof (Z.mod_pos_bound (2 * x) 65536 ltac:(lia)) as Hm.
  pose proof (Z.div_mod (2 * x) 65536 ltac:(lia)) as Hd.
  destruct (Z.testbit x 15) eqn:Hbit.
  - pose proof (lxor_u16 (to_u16 (Z.shiftl x 1)) 4129 ltac:(rewrite Hs; lia)
                  ltac:(lia)) as Hr.
    split; [|lia].
    destruct (Z.eq_dec (Z.lxor (to_u16 (Z.shiftl x 1)) 4129) 0) as [H0|]; [|lia].
    apply Z.lxor_eq in H0. rewrite Hs in H0. lia.
  - rewrite Hs.
    apply Z.testbit_false in Hbit; [|lia]. change (2 ^ 15) with 32768 in Hbit.
    pose proof (Z.div_mod x 32768 ltac:(lia)) as Hx1.
    pose proof (Z.mod_pos_bound x 32768 ltac:(lia)) as Hx2.
    assert (Hq : x / 32768 = 0).
    { assert (0 <= x / 32768 < 2) by
        (split; [apply Z.div_pos; lia|apply Z.div_lt_upper_bound; lia]).
      assert (Hc : x / 32768 = 0 \/ x / 32768 = 1) by lia.
      destruct Hc as [Hc|Hc]; [exact Hc|]. rewrite Hc in Hbit. discriminate Hbit. }
    rewrite Z.mod_small by lia. lia.
Qed.

Lemma crcUpdate_zero_byte (y : Z) :
  0 < y < 65536 -> 0 < crcUpdate y 0 < 65536.
Proof.
  intros Hy. rewrite crcUpdate_rounds.
  assert (H : 0 < fold_left (crc_round 0) [128; 64; 32; 16; 8; 4; 2; 1] y < 65536).
  { cbn [fold_left]. repeat apply crc_round_zero_keeps. exact Hy. }
  change 65535 with (Z.ones 16). rewrite Z.land_ones by lia.
  change (2 ^ 16) with 65536. rewrite Z.mod_small; lia.
Qed.

Lemma crc_fold_zeros (n : nat) (y : Z) :
  0 < y < 65536 -> 0 < fold_left crcUpdate (replicate n 0) y < 65536.
Proof.
  revert y. induction n as [|n IH]; intros y Hy; [exact Hy|].
  cbn [replicate fold_left]. apply IH. apply crcUpdate_zero_byte. exact Hy.
Qed.

Lemma crc_fold_zeros_0 (n : nat) : fold_left crcUpdate (replicate n 0) 0 = 0.
Proof. induction n as [|n IH]; [reflexivity|exact IH]. Qed.

Lemma crcUpdate_bit (i : Z) : 0 <= i < 8 -> 0 < crcUpdate 0 (2 ^ i) < 65536.
Proof.
  intros Hi.
  assert (H : i = 0 \/ i = 1 \/ i = 2 \/ i = 3 \/ i = 4 \/ i = 5 \/ i = 6 \/ i = 7)
    by lia.
  destruct H as [->|[->|[->|[->|[->|[->|[->| ->]]]]]]]; vm_compute; split; reflexivity.
Qed.

Lemma zip_with_lxor_zeros (l : list Z) :
  zip_with Z.lxor l (replicate (length l) 0) = l.
Proof.
  induction l as [|a l IH]; [reflexivity|].
  cbn [length replicate zip_with]. rewrite Z.lxor_0_r, IH. reflexivity.
Qed.

Lemma crc_single_bit (l1 l2 : list Z) (b x i : Z) :
  0 <= i < 8 ->
  fold_left crcUpdate (l1 ++ Z.lxor b (2 ^ i) :: l2) x
  <> fold_left crcUpdate (l1 ++ b :: l2) x.
Proof.
  intros Hi.
  set (l := l1 ++ b :: l2).
  set (l' := replicate (length l1) 0 ++ 2 ^ i :: replicate (length l2) 0).
  assert (Hzip : l1 ++ Z.lxor b (2 ^ i) :: l2 = zip_with Z.lxor l l').
  { unfold l, l'. rewrite zip_with_app by (rewrite length_replicate; reflexivity).
    cbn [zip_with]. rewrite !zip_with_lxor_zeros. reflexivity. }
  rewrite Hzip. rewrite <- (Z.lxor_0_r x) at 1.
  rewrite (crc_fold_lxor l l')
    by (unfold l, l'; rewrite !length_app; cbn [length];
        rewrite !length_replicate; reflexivity).
  assert (Hnz : 0 < fold_left crcUpdate l' 0 < 65536).
  { unfold l'. rewrite fold_left_app, crc_fold_zeros_0. cbn [fold_left].
    apply crc_fold_zeros. apply crcUpdate_bit. exact Hi. }
  intros Heq.
  apply (f_equal (Z.lxor (fold_left crcUpdate l x))) in Heq.
  rewrite <- Z.lxor_assoc, Z.lxor_nilpotent, Z.lxor_0_l in Heq.
  lia.
Qed.


(** ** The read path of the EEPROM codec, byte by byte *)
Lemma bytes_at_S (e : EEPROM) (addr : Z) (m : nat) :
  bytes_at e addr (S m) = EEPROM_read e addr :: bytes_at e (addr + 1) m.
Proof.
  unfold bytes_at. cbn [seq map]. rewrite Z.add_0_r. f_equal.
  rewrite <- seq_shift, map_map. apply map_ext. intros i. f_equal. lia.
Qed.

Lemma bytes_at_app (e : EEPROM) (addr : Z) (m n : nat) :
  bytes_at e addr (m + n)
  = bytes_at e addr m ++ bytes_at e (addr + Z.of_nat m) n.
Proof.
  revert addr. induction m as [|m IH]; intros addr.
  - cbn [Nat.add]. rewrite Z.add_0_r. reflexivity.
  - cbn [Nat.add]. rewrite !bytes_at_S, IH. cbn [app]. f_equal. f_equal.
    f_equal. lia.
Qed.

Lemma readFloatFromEeprom_bytes (e : EEPROM) (addr crc : Z) :
  readFloatFromEeprom e addr crc
  = (stored_float e addr, addr + 4, fold_left crcUpdate (bytes_at e addr 4) crc).
Proof.
  unfold stored_float, readFloatFromEeprom, bytes_at.
  cbn [fold_left fst snd map seq].
  rewrite Z.add_0_r.
  replace (addr + 1 + 1) with (addr + Z.of_nat 2) by lia.
  replace (addr + Z.of_nat 2 + 1) with (addr + Z.of_nat 3) by lia.
  change (Z.of_nat 1) with 1.
  f_equal. f_equal. lia.
Qed.

Lemma dummy_read_bytes (e : EEPROM) (n : Z) (c : TLSensors) (addr crc : Z) :
  readSensorSettingFromEeprom e n false (c, addr, crc)
  = (c, addr + 16, fold_left crcUpdate (bytes_at e addr 16) crc).
Proof.
  unfold readSensorSettingFromEeprom.
  rewrite !readFloatFromEeprom_bytes.
  change 16%nat with (4 + (4 + (4 + 4)))%nat.
  rewrite !bytes_at_app, !fold_left_app.
  change (Z.of_nat 4) with 4.
  f_equal. f_equal. lia.
Qed.

Lemma dummy_loop_bytes (e : EEPROM) (c : TLSensors) (addr crc : Z) (k : nat) :
  for_upto k (fun n st => readSensorSettingFromEeprom e n false st)
    (c, addr, crc)
  = (c, addr + 16 * Z.of_nat k,
     fold_left crcUpdate (bytes_at e addr (16 * k)) crc).
Proof.
  induction k as [|k IH].
  - cbn [for_upto]. f_equal. f_equal. lia.
  - cbn [for_upto]. rewrite IH, dummy_read_bytes.
    replace (16 * S k)%nat with (16 * k + 16)%nat by lia.
    rewrite bytes_at_app, fold_left_app.
    f_equal; [f_equal; lia|]. f_equal. f_equal. lia.
Qed.

Lemma without_data_update_sensor (n : Z) (f : TLStruct -> TLStruct)
  (c : TLSensors) :
  without_data (update_sensor n f c) = without_data c.
Proof. unfold update_sensor. destruct (n <? 0); reflexivity. Qed.

Lemma without_data_nSensors (c c' : TLSensors) :
  without_data c' = without_data c -> nSensors c' = nSensors c.
Proof. intros H. apply (f_equal nSensors) in H. exact H. Qed.

Lemma without_data_error (c c' : TLSensors) :
  without_data c' = without_data c -> error c' = error c.
Proof. intros H. apply (f_equal error) in H. exact H. Qed.

Lemma update_sensor_compose (n : Z) (f g : TLStruct -> TLStruct) (c : TLSensors) :
  update_sensor n f (update_sensor n g c) = update_sensor n (fun d => f (g d)) c.
Proof.
  unfold update_sensor. destruct (n <? 0); [reflexivity|].
  cbn [data set_data].
  rewrite list_alter_alter_eq. reflexivity.
Qed.

Lemma apply_read_bytes (e : EEPROM) (n : Z) (c : TLSensors) (addr crc : Z) :
  readSensorSettingFromEeprom e n true (c, addr, crc)
  = (update_sensor n (read_thresholds e addr) c, addr + 16,
     fold_left crcUpdate (bytes_at e addr 16) crc).
Proof.
  unfold readSensorSettingFromEeprom.
  rewrite !readFloatFromEeprom_bytes.
  rewrite !update_sensor_compose.
  change 16%nat with (4 + (4 + (4 + 4)))%nat.
  rewrite !bytes_at_app, !fold_left_app.
  change (Z.of_nat 4) with 4.
  unfold read_thresholds.
  replace (addr + 4 + 4 + 4) with (addr + 12) by lia.
  replace (addr + 4 + 4) with (addr + 8) by lia.
  f_equal. f_equal. lia.
Qed.

Lemma apply_loop_bytes (e : EEPROM) (c : TLSensors) (addr crc : Z) (k : nat) :
  let st :=
    for_upto k (fun n st => readSensorSettingFromEeprom e n true st)
      (c, addr, crc) in
  snd (fst st) = addr + 16 * Z.of_nat k
  /\ without_data (fst (fst st)) = without_data c
  /\ forall m,
       sensor (fst (fst st)) m
       = (fun d =>
            if m <? Z.of_nat k then read_thresholds e (addr + 16 * m) d else d)
         <$> sensor c m.
Proof.
  induction k as [|k IH]; cbn zeta.
  - cbn [for_upto fst snd]. split; [lia|]. split; [reflexivity|].
    intros m. destruct (sensor c m) as [d|] eqn:Hd; [|reflexivity].
    apply N_SENSORS_sensor in Hd. cbn.
    destruct (Z.ltb_spec m (Z.of_nat 0)); [lia|reflexivity].
  - cbn [for_upto]. cbn zeta in IH.
    destruct (for_upto k _ _) as [[ck ak] crck].
    cbn [fst snd] in IH. destruct IH as (-> & Hset & Hsens).
    rewrite apply_read_bytes. cbn [fst snd].
    split; [lia|]. split; [rewrite without_data_update_sensor; exact Hset|].
    intros m. rewrite sensor_update_sensor, Hsens.
    destruct (Z.eqb_spec m (Z.of_nat k)) as [->|Hne].
    + rewrite fmap_fmap_option. apply fmap_ext_option. intros d.
      destruct (Z.ltb_spec (Z.of_nat k) (Z.of_nat k)); [lia|].
      destruct (Z.ltb_spec (Z.of_nat k) (Z.of_nat (S k))); [|lia].
      reflexivity.
    + apply fmap_ext_option. intros d.
      destruct (Z.ltb_spec m (Z.of_nat k));
        destruct (Z.ltb_spec m (Z.of_nat (S k))); try lia; reflexivity.
Qed.

Lemma slewrate_loop (b : bool) (c : TLSensors) (k : nat) :
  let c' :=
    for_upto k (fun n c => update_sensor n (set_enableSlewrateLimiter b) c) c in
  without_data c' = without_data c
  /\ forall m,
       sensor c' m
       = (fun d => if m <? Z.of_nat k then set_enableSlewrateLimiter b d else d)
         <$> sensor c m.
Proof.
  induction k as [|k IH]; cbn zeta.
  - cbn [for_upto]. split; [reflexivity|].
    intros m. destruct (sensor c m) as [d|] eqn:Hd; [|reflexivity].
    apply N_SENSORS_sensor in Hd. cbn.
    destruct (Z.ltb_spec m (Z.of_nat 0)); [lia|reflexivity].
  - cbn [for_upto]. cbn zeta in IH. destruct IH as (Hset & Hsens).
    split; [rewrite without_data_update_sensor; exact Hset|].
    intros m. rewrite sensor_update_sensor, Hsens.
    destruct (Z.eqb_spec m (Z.of_nat k)) as [->|Hne].
    + rewrite fmap_fmap_option. apply fmap_ext_option. intros d.
      destruct (Z.ltb_spec (Z.of_nat k) (Z.of_nat k)); [lia|].
      destruct (Z.ltb_spec (Z.of_nat k) (Z.of_nat (S k))); [|lia].
      reflexivity.
    + apply fmap_ext_option. intros d.
      destruct (Z.ltb_spec m (Z.of_nat k));
        destruct (Z.ltb_spec m (Z.of_nat (S k))); try lia; reflexivity.
Qed.

Lemma apply_pass_sensor (e : EEPROM) (c : TLSensors) :
  without_data (apply_pass e c) = without_data c
  /\ forall m, sensor (apply_pass e c) m = read_sensor e c m <$> sensor c m.
Proof.
  unfold apply_pass. cbv zeta. unfold for_loop.
  pose proof (apply_loop_bytes e c (eepromOffset c + 1 + 1 + 1)
                (recomputed_crc e c) (Z.to_nat (nSensors c))) as H.
  cbn zeta in H.
  destruct (for_upto (Z.to_nat (nSensors c)) _ _) as [[c1 a1] crc1].
  cbn [fst snd] in H. destruct H as (_ & Hset & Hsens).
  rewrite (without_data_nSensors _ _ Hset).
  pose proof (slewrate_loop
                (nonzero
                   (Z.land (EEPROM_read e (eepromOffset c + 1 + 1))
                      TL_EEPROM_CONFIG_ENABLE_SLEWRATE_LIMITER))
                c1 (Z.to_nat (nSensors c))) as H2.
  cbn zeta in H2. destruct H2 as (Hset2 & Hsens2).
  split; [rewrite Hset2; exact Hset|].
  intros m. rewrite Hsens2, Hsens, fmap_fmap_option.
  destruct (sensor c m) as [d|] eqn:Hd; [|reflexivity].
  apply N_SENSORS_sensor in Hd. cbn. f_equal. unfold read_sensor.
  replace (eepromOffset c + 1 + 1) with (eepromOffset c + 2) by lia.
  replace (eepromOffset c + 2 + 1) with (eepromOffset c + 3) by lia.
  destruct (Z.ltb_spec m (Z.of_nat (Z.to_nat (nSensors c))));
    destruct (Z.ltb_spec m (nSensors c)); try lia; reflexivity.
Qed.

Lemma readSettingsFromEeprom_spec (e : EEPROM) (c : TLSensors) :
  (~ capacity_ok e c -> readSettingsFromEeprom e c = set_error (-28) c)
  /\ (capacity_ok e c -> error c <> 0 -> readSettingsFromEeprom e c = c)
  /\ (capacity_ok e c -> error c = 0 -> record_rejected e c ->
      readSettingsFromEeprom e c = set_error (-5) c)
  /\ (capacity_ok e c -> error c = 0 -> ~ record_rejected e c ->
      readSettingsFromEeprom e c = apply_pass e c).
Proof.
  split.
  { intros Hcap. unfold readSettingsFromEeprom. cbv zeta.
    rewrite (check_capacity_fails e c Hcap).
    norm_read. change (-28 =? 0) with false. norm_read. reflexivity. }
  assert (Hgen : capacity_ok e c ->
                 readSettingsFromEeprom e c
                 = if error c =? 0 then
                     if (stored_key e c =? TL_EEPROM_KEY)
                        && (stored_formatVersion e c =? TL_EEPROM_FORMAT_VERSION)
                        && (stored_nSensors e c =? nSensors c)
                        && (recomputed_crc e c =? stored_crc e c)
                     then apply_pass e c else set_error (-5) c
                   else c).
  { intros Hcap. unfold readSettingsFromEeprom. cbv zeta.
    fold (stored_key e c). rewrite (check_capacity_ok e c Hcap).
    destruct (error c =? 0) eqn:Herr; norm_read; rewrite ?Herr; [|reflexivity].
    destruct (stored_key e c =? TL_EEPROM_KEY) eqn:Hkey; norm_read;
      rewrite ?Herr.
    2:{ change (-5 =? 0) with false. reflexivity. }
    fold (stored_descriptor e c). fold (stored_formatVersion e c).
    fold (stored_nSensors e c).
    destruct (stored_formatVersion e c =? TL_EEPROM_FORMAT_VERSION) eqn:Hver;
      norm_read.
    2:{ destruct (stored_nSensors e c =? nSensors c); norm_read;
          change (-5 =? 0) with false; reflexivity. }
    destruct (stored_nSensors e c =? nSensors c) eqn:Hcnt; norm_read;
      rewrite ?Herr.
    2:{ change (-5 =? 0) with false. reflexivity. }
    fold (dummy_pass e c).
    assert (Hrec : recomputed_crc e c = snd (dummy_pass e c)) by reflexivity.
    assert (Hsto : stored_crc e c
                   = Z.lor (to_u16 (Z.shiftl (EEPROM_read e (snd (fst (dummy_pass e c)))) 8))
                       (EEPROM_read e (snd (fst (dummy_pass e c)) + 1)))
      by reflexivity.
    assert (Happ : apply_pass e c
                   = let '(c1, _, _) :=
                       for_loop (nSensors c)
                         (fun n st => readSensorSettingFromEeprom e n true st)
                         (c, eepromOffset c + 1 + 1 + 1, snd (dummy_pass e c)) in
                     for_loop (nSensors c1)
                       (fun n c2 =>
                          update_sensor n
                            (set_enableSlewrateLimiter
                               (nonzero
                                  (Z.land (EEPROM_read e (eepromOffset c + 1 + 1))
                                     TL_EEPROM_CONFIG_ENABLE_SLEWRATE_LIMITER)))
                            c2) c1)
      by reflexivity.
    rewrite Hrec, Hsto, Happ.
    pose proof (dummy_pass_fst e c) as Hfst.
    destruct (dummy_pass e c) as [[c0 addr] crc]. cbn [fst snd] in *. subst c0.
    destruct (crc =? _) eqn:Hcrc; norm_read; rewrite ?Herr.
    2:{ change (-5 =? 0) with false. reflexivity. }
    reflexivity. }
  split; [|split].
  - intros Hcap Herr. rewrite (Hgen Hcap).
    apply Z.eqb_neq in Herr. rewrite Herr. reflexivity.
  - intros Hcap Herr Hrej. rewrite (Hgen Hcap), Herr. cbn [Z.eqb].
    unfold record_rejected in Hrej.
    destruct (Z.eqb_spec (stored_key e c) TL_EEPROM_KEY); [|reflexivity].
    destruct (Z.eqb_spec (stored_formatVersion e c) TL_EEPROM_FORMAT_VERSION);
      [|reflexivity].
    destruct (Z.eqb_spec (stored_nSensors e c) (nSensors c)); [|reflexivity].
    destruct (Z.eqb_spec (recomputed_crc e c) (stored_crc e c)); [|reflexivity].
    exfalso. tauto.
  - intros Hcap Herr Hrej. rewrite (Hgen Hcap), Herr. cbn [Z.eqb].
    unfold record_rejected in Hrej.
    destruct (Z.eqb_spec (stored_key e c) TL_EEPROM_KEY); [|tauto].
    destruct (Z.eqb_spec (stored_formatVersion e c) TL_EEPROM_FORMAT_VERSION);
      [|tauto].
    destruct (Z.eqb_spec (stored_nSensors e c) (nSensors c)); [|tauto].
    destruct (Z.eqb_spec (recomputed_crc e c) (stored_crc e c)); [|tauto].
    reflexivity.
Qed.


(** ** A flipped bit, and the bytes of a float *)

Lemma dummy_pass_bytes (e : EEPROM) (c : TLSensors) :
  dummy_pass e c
  = (c, eepromOffset c + 3 + 16 * Z.of_nat (Z.to_nat (nSensors c)),
     fold_left crcUpdate
       ([stored_key e c; stored_descriptor e c; stored_descriptor e c]
        ++ bytes_at e (eepromOffset c + 3) (16 * Z.to_nat (nSensors c)))
       0).
Proof.
  unfold dummy_pass, for_loop. rewrite dummy_loop_bytes.
  replace (eepromOffset c + 1 + 1 + 1) with (eepromOffset c + 3) by lia.
  reflexivity.
Qed.

Lemma EEPROM_read_write_ne (e : EEPROM) (a x b : Z) :
  x <> a -> EEPROM_read (EEPROM_write e a b) x = EEPROM_read e x.
Proof.
  intros Hne. unfold EEPROM_read, EEPROM_write.
  destruct (Z.ltb_spec x 0); [reflexivity|].
  destruct (Z.ltb_spec a 0); [reflexivity|].
  unfold EEPROM in *. rewrite list_lookup_insert_ne by lia. reflexivity.
Qed.

Lemma EEPROM_read_write_eq (e : EEPROM) (a b : Z) :
  0 <= a < Z.of_nat (length e) -> EEPROM_read (EEPROM_write e a b) a = b.
Proof.
  intros Ha. unfold EEPROM_read, EEPROM_write.
  destruct (Z.ltb_spec a 0); [lia|].
  unfold EEPROM in *. rewrite list_lookup_insert_eq by lia. reflexivity.
Qed.

Lemma bytes_at_write_outside (e : EEPROM) (a b addr : Z) (len : nat) :
  a < addr \/ addr + Z.of_nat len <= a ->
  bytes_at (EEPROM_write e a b) addr len = bytes_at e addr len.
Proof.
  intros H. unfold bytes_at. apply map_ext_in. intros i Hi.
  apply in_seq in Hi. apply EEPROM_read_write_ne. lia.
Qed.

Lemma bytes_at_write_inside (e : EEPROM) (a b addr : Z) (len : nat) :
  0 <= addr <= a -> a < addr + Z.of_nat len -> a < Z.of_nat (length e) ->
  exists l1 l2,
    bytes_at e addr len = l1 ++ EEPROM_read e a :: l2
    /\ bytes_at (EEPROM_write e a b) addr len = l1 ++ b :: l2.
Proof.
  intros Ha Hlen He.
  exists (bytes_at e addr (Z.to_nat (a - addr))),
    (bytes_at e (a + 1) (len - Z.to_nat (a - addr) - 1)).
  replace len
    with (Z.to_nat (a - addr) + S (len - Z.to_nat (a - addr) - 1))%nat at 1 3
    by lia.
  rewrite !bytes_at_app, !bytes_at_S.
  replace (addr + Z.of_nat (Z.to_nat (a - addr))) with a by lia.
  rewrite EEPROM_read_write_eq by lia.
  rewrite !bytes_at_write_outside by lia.
  split; reflexivity.
Qed.

Lemma record_rejected_dec (e : EEPROM) (c : TLSensors) :
  record_rejected e c \/ ~ record_rejected e c.
Proof. unfold record_rejected. lia. Qed.

Lemma readSettingsFromEeprom_error_0 (e : EEPROM) (c : TLSensors) :
  error (readSettingsFromEeprom e c) = 0 ->
  capacity_ok e c /\ error c = 0 /\ ~ record_rejected e c
  /\ readSettingsFromEeprom e c = apply_pass e c.
Proof.
  intros H0.
  destruct (readSettingsFromEeprom_spec e c) as (H1 & H2 & H3 & H4).
  destruct (capacity_ok_dec e c) as [Hcap|Hcap].
  2:{ rewrite (H1 Hcap) in H0. discriminate H0. }
  destruct (Z.eq_dec (error c) 0) as [Herr|Herr].
  2:{ rewrite (H2 Hcap Herr) in H0. contradiction. }
  destruct (record_rejected_dec e c) as [Hrej|Hrej].
  { rewrite (H3 Hcap Herr Hrej) in H0. discriminate H0. }
  auto.
Qed.

Lemma capacity_ok_write (e : EEPROM) (c : TLSensors) (a b : Z) :
  capacity_ok (EEPROM_write e a b) c <-> capacity_ok e c.
Proof.
  unfold capacity_ok, EEPROM_length, EEPROM_write.
  destruct (a <? 0); [reflexivity|].
  unfold EEPROM in *. rewrite length_insert. reflexivity.
Qed.


Lemma byte_bits (f k n : Z) :
  0 <= k -> 0 <= n ->
  Z.testbit (to_u32 (Z.shiftl (Z.land (Z.shiftr f k) 255) k)) n
  = (k <=? n) && (n <? k + 8) && (n <? 32) && Z.testbit f n.
Proof.
  intros Hk Hn. unfold to_u32. change 4294967296 with (2 ^ 32).
  destruct (Z.ltb_spec n 32) as [H32|H32].
  2:{ rewrite Z.mod_pow2_bits_high by lia. rewrite andb_false_r. reflexivity. }
  rewrite Z.mod_pow2_bits_low by lia.
  rewrite Z.shiftl_spec by lia.
  destruct (Z.leb_spec k n) as [Hkn|Hkn].
  2:{ rewrite Z.testbit_neg_r by lia. reflexivity. }
  rewrite Z.land_spec, Z.shiftr_spec by lia.
  replace (n - k + k) with n by lia.
  change 255 with (Z.ones 8).
  destruct (Z.ltb_spec n (k + 8)) as [H8|H8].
  - rewrite Z.ones_spec_low by lia. cbn [andb]. apply andb_true_r.
  - rewrite Z.ones_spec_high by lia. cbn [andb]. apply andb_false_r.
Qed.

Lemma float_of_bytes (f : Z) :
  0 <= f < 4294967296 ->
  Z.lor
    (Z.lor
       (Z.lor
          (Z.lor 0 (to_u32 (Z.shiftl (Z.land (Z.shiftr f 24) 255) 24)))
          (to_u32 (Z.shiftl (Z.land (Z.shiftr f 16) 255) 16)))
       (to_u32 (Z.shiftl (Z.land (Z.shiftr f 8) 255) 8)))
    (to_u32 (Z.shiftl (Z.land (Z.shiftr f 0) 255) 0))
  = f.
Proof.
  intros Hf. apply Z.bits_inj'. intros n Hn.
  rewrite !Z.lor_spec, !byte_bits, Z.bits_0 by lia.
  destruct (Z.ltb_spec n 32) as [H32|H32].
  - destruct (Z.leb_spec 24 n), (Z.leb_spec 16 n), (Z.leb_spec 8 n),
      (Z.leb_spec 0 n), (Z.ltb_spec n (24 + 8)), (Z.ltb_spec n (16 + 8)),
      (Z.ltb_spec n (8 + 8)), (Z.ltb_spec n (0 + 8)); try lia;
      cbn [andb orb]; rewrite ?orb_false_r; reflexivity.
  - rewrite !andb_false_r. cbn [andb orb].
    symmetry. destruct (Z.eq_dec f 0) as [->|Hnz]; [apply Z.bits_0|].
    apply Z.bits_above_log2; [lia|].
    apply Z.lt_le_trans with 32; [|lia].
    apply Z.log2_lt_pow2; [lia|]. change (2 ^ 32) with 4294967296. lia.
Qed.

Lemma bytes_at_store (e : list Z) (addr : Z) (bs : list Z) :
  0 <= addr -> (Z.to_nat addr + length bs <= length e)%nat ->
  bytes_at (store_bytes e addr bs) addr (length bs) = bs.
Proof.
  intros Ha Hlen. unfold bytes_at. apply list_eq. intros i.
  rewrite list_lookup_fmap.
  destruct (decide (i < length bs)%nat) as [Hi|Hi].
  - rewrite lookup_seq_lt by exact Hi. cbn.
    unfold EEPROM_read. destruct (Z.ltb_spec (addr + Z.of_nat i) 0); [lia|].
    unfold store_bytes, EEPROM.
    rewrite lookup_app_r by (rewrite length_take; lia).
    rewrite length_take.
    replace (Z.to_nat (addr + Z.of_nat i) - Z.to_nat addr `min` length e)%nat
      with i by lia.
    rewrite lookup_app_l by exact Hi.
    destruct (bs !! i) as [b|] eqn:Hb; [reflexivity|].
    apply lookup_ge_None in Hb. lia.
  - rewrite lookup_seq_ge by lia. cbn. symmetry. apply lookup_ge_None. lia.
Qed.


(** ** The EEPROM codec: layout, refusals and round trips *)
Lemma store_bytes_idem (e : list Z) (addr : Z) (bs : list Z) :
  (Z.to_nat addr + length bs <= length e)%nat ->
  store_bytes (store_bytes e addr bs) addr bs = store_bytes e addr bs.
Proof.
  intros H.
  assert (Ht : length (take (Z.to_nat addr) e) = Z.to_nat addr)
    by (rewrite length_take; lia).
  unfold store_bytes.
  rewrite take_app_le by (rewrite Ht; lia).
  rewrite take_take, Nat.min_id.
  rewrite drop_app_ge by (rewrite Ht; lia). rewrite Ht.
  rewrite drop_app_ge by lia.
  replace (Z.to_nat addr + length bs - Z.to_nat addr - length bs)%nat
    with 0%nat by lia.
  reflexivity.
Qed.

Lemma stored_key_store (e : EEPROM) (c : TLSensors) (b : Z) (bs : list Z) :
  0 <= eepromOffset c ->
  (Z.to_nat (eepromOffset c) + S (length bs) <= length e)%nat ->
  stored_key (store_bytes e (eepromOffset c) (b :: bs)) c = b.
Proof.
  intros Hoff Hlen.
  pose proof (bytes_at_store e (eepromOffset c) (b :: bs) Hoff Hlen) as H.
  cbn [length] in H. rewrite bytes_at_S in H. injection H as H _. exact H.
Qed.

Lemma capacity_ok_length (e e' : EEPROM) (c : TLSensors) :
  length e' = length e -> capacity_ok e' c <-> capacity_ok e c.
Proof. intros H. unfold capacity_ok, EEPROM_length. rewrite H. reflexivity. Qed.

(** X1.  When [writeSettingsToEeprom] is let to write (no earlier error,
    between 1 and 32 sensors, room for [eepromSizeRequired()] bytes from
    [eepromOffset] on, and a first cell that holds the key or is erased),
    it leaves the controller as it is and replaces the cells from
    [eepromOffset] on by the key, the descriptor, the sixteen threshold bytes
    of each sensor and the two bytes of the CRC over all of these, high byte
    first; every other cell keeps its content.  These are [16 * nSensors + 4]
    bytes, so that the last cell that [eepromSizeRequired()] reserves is not
    written. *)
Theorem writeSettingsToEeprom_layout (c : TLSensors) (e : EEPROM) :
  write_accepted e c -> 0 <= eepromOffset c -> nSensors c <= N_SENSORS c ->
  writeSettingsToEeprom c e
  = (c, store_bytes e (eepromOffset c) (record_bytes c))
  /\ Z.of_nat (length (record_bytes c)) = 16 * nSensors c + 4
  /\ eepromOffset c + Z.of_nat (length (record_bytes c)) < Z.of_nat (length e).
Proof.
  intros Hacc Hoff Hdata. split; [|split].
  - apply writeSettingsToEeprom_accepted; assumption.
  - destruct Hacc as (_ & [Hn _] & _).
    rewrite length_record_bytes by lia. lia.
  - destruct Hacc as (_ & [Hn Hcap] & _).
    rewrite eepromSizeRequired_small in Hcap by exact Hn.
    pose proof (EEPROM_length_le e).
    rewrite length_record_bytes by lia. lia.
Qed.

Lemma writeSettingsToEeprom_layout_witness :
  writeSettingsToEeprom writing_controller erased_eeprom
  = (writing_controller,
     store_bytes erased_eeprom 0 (record_bytes writing_controller))
  /\ Z.of_nat (length (record_bytes writing_controller)) = 68.
Proof.
  destruct (writeSettingsToEeprom_layout writing_controller erased_eeprom)
    as (H1 & H2 & _).
  - unfold write_accepted, capacity_ok. vm_compute. intuition congruence.
  - vm_compute. discriminate.
  - vm_compute. discriminate.
  - split; [exact H1|exact H2].
Defined.

(** X2.  When [writeSettingsToEeprom] is not let to write, no cell of the
    EEPROM and no sensor record changes and the error code is not 0
    afterwards: it is -28 when a capacity check fails (whatever the error code
    was), the earlier error code when there was one, and -5 when the first
    cell holds neither the key nor [0xFF]. *)
Theorem writeSettingsToEeprom_refusal (c : TLSensors) (e : EEPROM) :
  ~ write_accepted e c ->
  snd (writeSettingsToEeprom c e) = e
  /\ data (fst (writeSettingsToEeprom c e)) = data c
  /\ error (fst (writeSettingsToEeprom c e)) <> 0
  /\ (~ capacity_ok e c -> error (fst (writeSettingsToEeprom c e)) = -28)
  /\ (capacity_ok e c -> error c <> 0 ->
      error (fst (writeSettingsToEeprom c e)) = error c)
  /\ (capacity_ok e c -> error c = 0 ->
      error (fst (writeSettingsToEeprom c e)) = -5).
Proof.
  intros H.
  destruct (writeSettingsToEeprom_refused c e H) as (He & Herr & Hdata).
  split; [exact He|]. split; [exact Hdata|]. split; [exact Herr|].
  unfold writeSettingsToEeprom. cbv zeta. fold (stored_key e c).
  split; [|split].
  - intros Hcap. rewrite (check_capacity_fails e c Hcap).
    cbn [error set_error]. change (-28 =? 0) with false. cbn [andb].
    cbn [error set_error fst]. change (-28 =? 0) with false. reflexivity.
  - intros Hcap Hne. rewrite (check_capacity_ok e c Hcap).
    apply Z.eqb_neq in Hne. rewrite Hne. cbn [andb]. rewrite Hne. reflexivity.
  - intros Hcap H0. rewrite (check_capacity_ok e c Hcap). rewrite H0.
    cbn [Z.eqb andb].
    destruct (Z.eqb_spec (stored_key e c) TL_EEPROM_KEY) as [Hk|Hk].
    { exfalso. apply H. unfold write_accepted. tauto. }
    destruct (Z.eqb_spec (stored_key e c) 255) as [Hf|Hf].
    { exfalso. apply H. unfold write_accepted. tauto. }
    cbn [negb andb error set_error]. change (-5 =? 0) with false. reflexivity.
Qed.

Lemma writeSettingsToEeprom_refusal_witness :
  snd (writeSettingsToEeprom writing_controller (replicate 1024 0))
  = replicate 1024 0
  /\ error (fst (writeSettingsToEeprom writing_controller (replicate 1024 0)))
     = -5.
Proof.
  assert (Hno : ~ write_accepted (replicate 1024 0) writing_controller).
  { unfold write_accepted. intros (_ & _ & [H|H]); vm_compute in H; discriminate H. }
  destruct (writeSettingsToEeprom_refusal writing_controller (replicate 1024 0) Hno)
    as (He & _ & _ & _ & _ & H5).
  split; [exact He|]. apply H5; [|reflexivity].
  unfold capacity_ok. vm_compute. intuition congruence.
Defined.

(** X3.  Writing the same settings a second time leaves the EEPROM as the
    first writing left it. *)
Theorem writeSettingsToEeprom_idempotent (c : TLSensors) (e : EEPROM) :
  0 <= eepromOffset c -> nSensors c <= N_SENSORS c ->
  snd (writeSettingsToEeprom c (snd (writeSettingsToEeprom c e)))
  = snd (writeSettingsToEeprom c e).
Proof.
  intros Hoff Hdata.
  destruct (write_accepted_dec e c) as [Hacc|Hno].
  - rewrite (writeSettingsToEeprom_accepted c e Hacc Hoff Hdata). cbn [snd].
    pose proof Hacc as (Herr & [Hn Hcap] & _).
    assert (Hlen : (Z.to_nat (eepromOffset c) + length (record_bytes c)
                    <= length e)%nat).
    { rewrite eepromSizeRequired_small in Hcap by exact Hn.
      pose proof (EEPROM_length_le e).
      rewrite length_record_bytes by lia. lia. }
    rewrite writeSettingsToEeprom_accepted; [|
      |exact Hoff|exact Hdata].
    + cbn [snd]. apply store_bytes_idem. exact Hlen.
    + split; [exact Herr|]. split.
      * apply (capacity_ok_length e); [|split; assumption].
        apply length_store_bytes. exact Hlen.
      * left. unfold record_bytes, record_body in *. cbv zeta in *.
        cbn [app] in *. apply stored_key_store; [exact Hoff|].
        cbn [length] in Hlen. exact Hlen.
  - destruct (writeSettingsToEeprom_refused c e Hno) as (-> & _).
    apply (writeSettingsToEeprom_refused c e Hno).
Qed.

Lemma writeSettingsToEeprom_idempotent_witness :
  snd (writeSettingsToEeprom writing_controller written_eeprom) = written_eeprom.
Proof.
  apply (writeSettingsToEeprom_idempotent writing_controller erased_eeprom).
  - vm_compute. discriminate.
  - vm_compute. discriminate.
Defined.

(** X4.  What [writeFloatToEeprom] stores in four cells inside the EEPROM,
    [readFloatFromEeprom] reads back from the same address bit for bit; both
    advance the address by 4 and, started from the same CRC, end with the
    same CRC; the writing keeps the size of the EEPROM. *)
Theorem float_roundtrip (e : EEPROM) (f addr crc : Z) :
  0 <= f < 4294967296 -> 0 <= addr -> addr + 4 <= Z.of_nat (length e) ->
  let '(e', addr', crc') := writeFloatToEeprom f (e, addr, crc) in
  readFloatFromEeprom e' addr crc = (f, addr', crc')
  /\ addr' = addr + 4
  /\ length e' = length e.
Proof.
  intros Hf Ha Hlen.
  pose proof (writeFloatToEeprom_store e addr [] f addr crc Ha) as Hw.
  rewrite store_bytes_nil in Hw. cbn [length app] in Hw.
  unfold EEPROM in *. rewrite Hw by lia. clear Hw.
  split; [|split; [reflexivity|]].
  - rewrite readFloatFromEeprom_bytes.
    pose proof (bytes_at_store e addr (float_bytes f) Ha) as Hb.
    rewrite length_float_bytes in Hb. rewrite Hb by lia.
    f_equal. f_equal.
    unfold stored_float, readFloatFromEeprom. cbn [fold_left fst].
    assert (H4 : bytes_at (store_bytes e addr (float_bytes f)) addr 4
                 = float_bytes f) by (apply Hb; lia).
    unfold bytes_at in H4. cbn [map seq] in H4.
    unfold float_bytes in H4 at 5.
    rewrite Z.add_0_r in H4. change (Z.of_nat 1) with 1 in H4.
    change (Z.of_nat 2) with 2 in H4. change (Z.of_nat 3) with 3 in H4.
    injection H4 as H0 H1 H2 H3.
    replace (addr + 1 + 1) with (addr + 2) by lia.
    replace (addr + 2 + 1) with (addr + 3) by lia.
    rewrite H0, H1, H2, H3.
    change (Z.shiftl (4 - 1) 3) with 24. change (Z.shiftl (3 - 1) 3) with 16.
    change (Z.shiftl (2 - 1) 3) with 8. change (Z.shiftl (1 - 1) 3) with 0.
    rewrite <- (Z.shiftr_0_r f) at 4.
    apply float_of_bytes. exact Hf.
  - apply length_store_bytes. rewrite length_float_bytes. lia.
Qed.

Lemma float_roundtrip_witness :
  readFloatFromEeprom
    (fst (fst (writeFloatToEeprom 0x42960000 (erased_eeprom, 7, 0)))) 7 0
  = (0x42960000, 11, snd (writeFloatToEeprom 0x42960000 (erased_eeprom, 7, 0))).
Proof.
  pose proof (float_roundtrip erased_eeprom 0x42960000 7 0) as H.
  destruct (writeFloatToEeprom 0x42960000 (erased_eeprom, 7, 0))
    as [[e' addr'] crc'].
  destruct H as (H1 & H2 & _).
  - lia.
  - lia.
  - vm_compute. discriminate.
  - cbn [fst snd]. rewrite H1, H2. reflexivity.
Defined.

Lemma EEPROM_read_byte (e : EEPROM) (a : Z) :
  bytes_ok e -> 0 <= EEPROM_read e a < 256.
Proof.
  intros He. unfold EEPROM_read. destruct (a <? 0); [lia|].
  destruct (e !! Z.to_nat a) as [b|] eqn:Hb; cbn; [|lia].
  unfold bytes_ok in He. rewrite Forall_forall in He. apply He.
  eapply list_elem_of_lookup_2. exact Hb.
Qed.

Lemma lor_disjoint_add (q lo k : Z) :
  0 <= k -> 0 <= lo < 2 ^ k -> Z.lor (q * 2 ^ k) lo = q * 2 ^ k + lo.
Proof.
  intros Hk Hlo. symmetry. apply Z.add_nocarry_lor.
  apply Z.bits_inj'. intros n Hn. rewrite Z.land_spec, Z.bits_0.
  destruct (Z.lt_ge_cases n k) as [Hlt|Hge].
  - rewrite Z.mul_pow2_bits_low by lia. reflexivity.
  - destruct (Z.eq_dec lo 0) as [->|Hnz].
    + rewrite Z.bits_0. apply andb_false_r.
    + rewrite (Z.bits_above_log2 lo n); [apply andb_false_r|lia|].
      apply Z.lt_le_trans with k; [|exact Hge].
      apply Z.log2_lt_pow2; lia.
Qed.

(** X5.  [readFloatFromEeprom] assembles the four cells from [addr] on as a
    big-endian 32-bit pattern, advances the address by 4 and feeds the four
    bytes to the CRC in the order of their addresses. *)
Theorem readFloatFromEeprom_big_endian (e : EEPROM) (addr crc : Z) :
  bytes_ok e ->
  readFloatFromEeprom e addr crc
  = (16777216 * EEPROM_read e addr + 65536 * EEPROM_read e (addr + 1)
     + 256 * EEPROM_read e (addr + 2) + EEPROM_read e (addr + 3),
     addr + 4,
     fold_left crcUpdate
       [EEPROM_read e addr; EEPROM_read e (addr + 1);
        EEPROM_read e (addr + 2); EEPROM_read e (addr + 3)] crc).
Proof.
  intros He. rewrite readFloatFromEeprom_bytes.
  unfold bytes_at. cbn [map seq]. rewrite Z.add_0_r.
  change (Z.of_nat 1) with 1. change (Z.of_nat 2) with 2.
  change (Z.of_nat 3) with 3.
  f_equal. f_equal.
  unfold stored_float, readFloatFromEeprom. cbn [fold_left fst].
  replace (addr + 1 + 1) with (addr + 2) by lia.
  replace (addr + 2 + 1) with (addr + 3) by lia.
  change (Z.shiftl (4 - 1) 3) with 24. change (Z.shiftl (3 - 1) 3) with 16.
  change (Z.shiftl (2 - 1) 3) with 8. change (Z.shiftl (1 - 1) 3) with 0.
  pose proof (EEPROM_read_byte e addr He) as H0.
  pose proof (EEPROM_read_byte e (addr + 1) He) as H1.
  pose proof (EEPROM_read_byte e (addr + 2) He) as H2.
  pose proof (EEPROM_read_byte e (addr + 3) He) as H3.
  set (b0 := EEPROM_read e addr) in *.
  set (b1 := EEPROM_read e (addr + 1)) in *.
  set (b2 := EEPROM_read e (addr + 2)) in *.
  set (b3 := EEPROM_read e (addr + 3)) in *.
  rewrite !Z.shiftl_mul_pow2 by lia. unfold to_u32.
  change (2 ^ 24) with 16777216. change (2 ^ 16) with 65536.
  change (2 ^ 8) with 256. change (2 ^ 0) with 1.
  rewrite !Z.mod_small by lia. rewrite Z.lor_0_l, Z.mul_1_r.
  assert (L24 : Z.lor (b0 * 16777216) (b1 * 65536)
                = b0 * 16777216 + b1 * 65536).
  { apply (lor_disjoint_add b0 (b1 * 65536) 24); [lia|].
    change (2 ^ 24) with 16777216. lia. }
  rewrite L24.
  assert (L16 : Z.lor (b0 * 16777216 + b1 * 65536) (b2 * 256)
                = b0 * 16777216 + b1 * 65536 + b2 * 256).
  { replace (b0 * 16777216 + b1 * 65536) with ((b0 * 256 + b1) * 2 ^ 16) by lia.
    apply lor_disjoint_add; [lia|]. change (2 ^ 16) with 65536. lia. }
  rewrite L16.
  assert (L8 : Z.lor (b0 * 16777216 + b1 * 65536 + b2 * 256) b3
               = b0 * 16777216 + b1 * 65536 + b2 * 256 + b3).
  { replace (b0 * 16777216 + b1 * 65536 + b2 * 256)
      with ((b0 * 65536 + b1 * 256 + b2) * 2 ^ 8) by lia.
    apply lor_disjoint_add; [lia|]. change (2 ^ 8) with 256. lia. }
  rewrite L8. lia.
Qed.

Lemma readFloatFromEeprom_big_endian_witness :
  fst (fst (readFloatFromEeprom [0xC7; 0x42; 0x96; 0x00; 0x00] 1 0))
  = 0x42960000.
Proof.
  rewrite (readFloatFromEeprom_big_endian [0xC7; 0x42; 0x96; 0x00; 0x00] 1 0).
  - reflexivity.
  - unfold bytes_ok. repeat constructor; lia.
Defined.

(** X6.  The CRC of [crcUpdate] detects every flip of a single bit: a byte
    sequence and the sequence with one bit of one of its bytes flipped have
    different CRCs, whatever the CRC they start from. *)
Theorem crc_detects_flipped_bit (l : list Z) (p : nat) (b crc i : Z) :
  l !! p = Some b -> 0 <= i < 8 ->
  fold_left crcUpdate (<[p := Z.lxor b (2 ^ i)]> l) crc
  <> fold_left crcUpdate l crc.
Proof.
  intros Hp Hi.
  pose proof (lookup_lt_Some _ _ _ Hp) as Hlt.
  rewrite insert_take_drop by exact Hlt.
  rewrite <- (take_drop_middle l p b Hp) at 3.
  apply crc_single_bit. exact Hi.
Qed.

Lemma crc_detects_flipped_bit_witness :
  fold_left crcUpdate [0xC7; 0x83; 0x41; 0x20] 0
  <> fold_left crcUpdate [0xC7; 0x03; 0x41; 0x20] 0.
Proof.
  apply (crc_detects_flipped_bit [0xC7; 0x03; 0x41; 0x20] 1 0x03 0 7).
  - reflexivity.
  - lia.
Defined.

(** X7.  The four outcomes of [readSettingsFromEeprom]: error -28 and
    nothing else changed when a capacity check fails; nothing changed at all
    when there was an earlier error; error -5 and nothing else changed when
    the key, the format version, the sensor count or the CRC of the stored
    record is not as expected; and otherwise the result of the second pass,
    with the error code still 0. *)
Theorem readSettingsFromEeprom_outcomes (e : EEPROM) (c : TLSensors) :
  (~ capacity_ok e c -> readSettingsFromEeprom e c = set_error (-28) c)
  /\ (capacity_ok e c -> error c <> 0 -> readSettingsFromEeprom e c = c)
  /\ (capacity_ok e c -> error c = 0 -> record_rejected e c ->
      readSettingsFromEeprom e c = set_error (-5) c)
  /\ (capacity_ok e c -> error c = 0 -> ~ record_rejected e c ->
      readSettingsFromEeprom e c = apply_pass e c
      /\ error (readSettingsFromEeprom e c) = 0).
Proof.
  destruct (readSettingsFromEeprom_spec e c) as (H1 & H2 & H3 & H4).
  split; [exact H1|]. split; [exact H2|]. split; [exact H3|].
  intros Hcap Herr Hrej. split; [apply H4; assumption|].
  rewrite (H4 Hcap Herr Hrej).
  destruct (apply_pass_sensor e c) as [Hw _].
  rewrite (without_data_error _ _ Hw). exact Herr.
Qed.

Lemma readSettingsFromEeprom_outcomes_witness :
  readSettingsFromEeprom [0xC7; 0x00] accepting_controller
  = set_error (-28) accepting_controller
  /\ readSettingsFromEeprom accepted_eeprom (set_error (-1) accepting_controller)
     = set_error (-1) accepting_controller
  /\ readSettingsFromEeprom erased_eeprom accepting_controller
     = set_error (-5) accepting_controller
  /\ error (readSettingsFromEeprom accepted_eeprom accepting_controller) = 0.
Proof.
  assert (Hcap : forall e c, nSensors c = 1 -> eepromOffset c = 0 ->
                             21 <= Z.of_nat (length e) < 65536 -> capacity_ok e c).
  { intros e c Hn Ho He. unfold capacity_ok.
    rewrite eepromSizeRequired_small by lia.
    unfold EEPROM_length, to_u16. rewrite Z.mod_small by lia. lia. }
  split; [|split; [|split]].
  - apply (readSettingsFromEeprom_outcomes [0xC7; 0x00] accepting_controller).
    unfold capacity_ok. vm_compute. intros [_ H]. apply H. reflexivity.
  - apply (readSettingsFromEeprom_outcomes accepted_eeprom
             (set_error (-1) accepting_controller)).
    + apply Hcap; [reflexivity|reflexivity|]. vm_compute. split; [discriminate|reflexivity].
    + discriminate.
  - apply (readSettingsFromEeprom_outcomes erased_eeprom accepting_controller).
    + apply Hcap; [reflexivity|reflexivity|]. vm_compute. split; [discriminate|reflexivity].
    + reflexivity.
    + left. vm_compute. discriminate.
  - apply (readSettingsFromEeprom_outcomes accepted_eeprom accepting_controller).
    + apply Hcap; [reflexivity|reflexivity|]. vm_compute. split; [discriminate|reflexivity].
    + reflexivity.
    + unfold record_rejected. vm_compute. intuition congruence.
Defined.

(** X8.  When [readSettingsFromEeprom] ends without error, each of the first
    [nSensors] sensor records has received the four floats stored at
    [eepromOffset + 3 + 16 * m] and the three following multiples of 4 as its
    thresholds, and bit 7 of the cell at [eepromOffset + 2] as
    [enableSlewrateLimiter]; the further sensor records and the other members
    of the controller are as before; and the stored record carries the key,
    the sensor count of the controller and the CRC that the read recomputes. *)
Theorem readSettingsFromEeprom_accepted (e : EEPROM) (c : TLSensors) :
  error (readSettingsFromEeprom e c) = 0 ->
  (forall m, sensor (readSettingsFromEeprom e c) m
             = read_sensor e c m <$> sensor c m)
  /\ without_data (readSettingsFromEeprom e c) = without_data c
  /\ stored_key e c = TL_EEPROM_KEY
  /\ stored_nSensors e c = nSensors c
  /\ recomputed_crc e c = stored_crc e c.
Proof.
  intros H0.
  destruct (readSettingsFromEeprom_error_0 e c H0) as (_ & _ & Hrej & ->).
  destruct (apply_pass_sensor e c) as [Hw Hs].
  split; [exact Hs|]. split; [exact Hw|].
  unfold record_rejected in Hrej. lia.
Qed.

Lemma readSettingsFromEeprom_accepted_witness :
  sensor (readSettingsFromEeprom accepted_eeprom accepting_controller) 0
  = Some (set_enableSlewrateLimiter true example_sensor).
Proof.
  destruct (readSettingsFromEeprom_accepted accepted_eeprom accepting_controller)
    as (Hs & _).
  - vm_compute. reflexivity.
  - rewrite Hs. vm_compute. reflexivity.
Defined.

Lemma without_stored_settings_refl_setters (d : TLStruct) :
  (forall v, without_stored_settings d
             = without_stored_settings (set_releasedToApproachedThreshold v d))
  /\ (forall v, without_stored_settings d
                = without_stored_settings (set_approachedToReleasedThreshold v d))
  /\ (forall v, without_stored_settings d
                = without_stored_settings (set_approachedToPressedThreshold v d))
  /\ (forall v, without_stored_settings d
                = without_stored_settings (set_pressedToApproachedThreshold v d))
  /\ (forall b, without_stored_settings d
                = without_stored_settings (set_enableSlewrateLimiter b d)).
Proof. repeat split; intros; reflexivity. Qed.

(** X9.  Whatever the EEPROM holds, [readSettingsFromEeprom] changes nothing
    but the four thresholds and [enableSlewrateLimiter] of the sensor records,
    and the error code of the controller. *)
Theorem readSettingsFromEeprom_frame (e : EEPROM) (c : TLSensors) :
  Forall2 (fun d d' => without_stored_settings d = without_stored_settings d')
    (data c) (data (readSettingsFromEeprom e c))
  /\ set_error 0 (without_data (readSettingsFromEeprom e c))
     = set_error 0 (without_data c).
Proof.
  split.
  - apply (readSettingsFromEeprom_related
             (fun d d' => without_stored_settings d = without_stored_settings d')).
    + reflexivity.
    + intros d1 d2 d3 H12 H23. rewrite H12. exact H23.
    + intros v d. apply without_stored_settings_refl_setters.
    + intros v d. apply without_stored_settings_refl_setters.
    + intros v d. apply without_stored_settings_refl_setters.
    + intros v d. apply without_stored_settings_refl_setters.
    + intros b d. apply without_stored_settings_refl_setters.
  - destruct (readSettingsFromEeprom_spec e c) as (H1 & H2 & H3 & H4).
    destruct (capacity_ok_dec e c) as [Hcap|Hcap]; [|rewrite (H1 Hcap); reflexivity].
    destruct (Z.eq_dec (error c) 0) as [Herr|Herr];
      [|rewrite (H2 Hcap Herr); reflexivity].
    destruct (record_rejected_dec e c) as [Hrej|Hrej];
      [rewrite (H3 Hcap Herr Hrej); reflexivity|].
    rewrite (H4 Hcap Herr Hrej).
    destruct (apply_pass_sensor e c) as [Hw _]. rewrite Hw. reflexivity.
Qed.

(** X10.  A stored record that [readSettingsFromEeprom] accepts is rejected
    once a single bit of one of its threshold bytes is flipped: the read ends
    with error -5 and changes nothing else. *)
Theorem flipped_bit_is_rejected (e : EEPROM) (c : TLSensors) (a i : Z) :
  error (readSettingsFromEeprom e c) = 0 ->
  0 <= eepromOffset c ->
  eepromOffset c + 3 <= a < eepromOffset c + 3 + 16 * nSensors c ->
  0 <= i < 8 ->
  readSettingsFromEeprom
    (EEPROM_write e a (Z.lxor (EEPROM_read e a) (2 ^ i))) c
  = set_error (-5) c.
Proof.
  intros H0 Hoff Ha Hi.
  destruct (readSettingsFromEeprom_error_0 e c H0) as (Hcap & Herr & Hrej & _).
  set (e' := EEPROM_write e a (Z.lxor (EEPROM_read e a) (2 ^ i))).
  destruct (readSettingsFromEeprom_spec e' c) as (_ & _ & H3 & _).
  apply H3; [apply capacity_ok_write; exact Hcap|exact Herr|].
  unfold record_rejected in *. right. right. right.
  assert (Hcrc : recomputed_crc e c = stored_crc e c) by lia.
  pose proof Hcap as [Hn Hsize].
  rewrite eepromSizeRequired_small in Hsize by exact Hn.
  pose proof (EEPROM_length_le e) as Hlen.
  assert (Hsto : stored_crc e' c = stored_crc e c).
  { unfold stored_crc. rewrite !dummy_pass_bytes. cbn [fst snd].
    unfold e'. rewrite !EEPROM_read_write_ne by lia. reflexivity. }
  rewrite Hsto, <- Hcrc. unfold recomputed_crc.
  rewrite !dummy_pass_bytes. cbn [snd].
  assert (Hk : stored_key e' c = stored_key e c)
    by (unfold stored_key, e'; apply EEPROM_read_write_ne; lia).
  assert (Hd : stored_descriptor e' c = stored_descriptor e c)
    by (unfold stored_descriptor, e'; apply EEPROM_read_write_ne; lia).
  rewrite Hk, Hd.
  destruct (bytes_at_write_inside e a (Z.lxor (EEPROM_read e a) (2 ^ i))
              (eepromOffset c + 3) (16 * Z.to_nat (nSensors c)))
    as (l1 & l2 & -> & Hb); [lia|lia|lia|].
  fold e' in Hb. rewrite Hb.
  rewrite !app_assoc. apply crc_single_bit. exact Hi.
Qed.

Lemma flipped_bit_is_rejected_witness :
  readSettingsFromEeprom
    (EEPROM_write accepted_eeprom 9 (Z.lxor (EEPROM_read accepted_eeprom 9) (2 ^ 4)))
    accepting_controller
  = set_error (-5) accepting_controller.
Proof.
  apply (flipped_bit_is_rejected accepted_eeprom accepting_controller 9 4).
  - vm_compute. reflexivity.
  - vm_compute. discriminate.
  - vm_compute. split; [discriminate|reflexivity].
  - lia.
Defined.


(** ** Invariants of a measurement cycle

    A property [Inv] of the controller that is kept by [setState], by the
    calls through the function pointers of the sample method and by every
    assignment to a member of a sensor record that the cycle makes outside
    [setState] (these are related by [P]) is kept by [sample]. *)

Section Invariant.

Context {SM : SampleMethods}.
Variable Inv : TLSensors -> Prop.
Variable P : TLStruct -> TLStruct -> Prop.

Hypothesis P_refl : forall d, P d d.
Hypothesis P_trans : forall d1 d2 d3, P d1 d2 -> P d2 d3 -> P d1 d3.
Hypothesis P_raw : forall v d, P d (set_raw v d).
Hypothesis P_slewrateFirstSample : forall b d, P d (set_slewrateFirstSample b d).
Hypothesis P_lastSampledAtTime : forall v d, P d (set_lastSampledAtTime v d).
Hypothesis P_delta : forall v d, P d (set_delta v d).
Hypothesis P_maxDelta : forall v d, P d (set_maxDelta v d).
Hypothesis P_avg : forall v d, P d (set_avg v d).
Hypothesis P_noisePower : forall v d, P d (set_noisePower v d).
Hypothesis P_counter : forall v d, P d (set_counter v d).
Hypothesis P_noiseCounter : forall v d, P d (set_noiseCounter v d).
Hypothesis P_offsetValue : forall v d, P d (set_offsetValue v d).
Hypothesis P_buttonStateLabel : forall v d, P d (set_buttonStateLabel v d).
Hypothesis P_buttonIsCalibrating : forall b d, P d (set_buttonIsCalibrating b d).
Hypothesis P_buttonIsReleased : forall b d, P d (set_buttonIsReleased b d).
Hypothesis P_buttonIsApproached : forall b d, P d (set_buttonIsApproached b d).
Hypothesis P_buttonIsPressed : forall b d, P d (set_buttonIsPressed b d).

Hypothesis Inv_update :
  forall n f c, (forall d, P d (f d)) -> Inv c -> Inv (update_sensor n f c).
Hypothesis Inv_setState : forall ch s c, Inv c -> Inv (setState ch s c).
Hypothesis Inv_anyButtonIsApproached :
  forall b c, Inv c -> Inv (set_anyButtonIsApproached b c).
Hypothesis Inv_anyButtonIsPressed :
  forall b c, Inv c -> Inv (set_anyButtonIsPressed b c).
Hypothesis Inv_PreSample :
  forall ch f c, sampleMethodPreSample ch = Some f -> Inv c ->
                 Inv (set_data (f (data c) (nSensors c)) c).
Hypothesis Inv_Sample :
  forall ch f inv c, sampleMethodSample ch = Some f -> Inv c ->
                     Inv (set_data (snd (f (data c) (nSensors c) inv)) c).
Hypothesis Inv_PostSample :
  forall ch f c, sampleMethodPostSample ch = Some f -> Inv c ->
                 Inv (set_data (f (data c) (nSensors c)) c).

Ltac assigned :=
  lazymatch goal with
  | |- P ?d ?d => apply P_refl
  | |- P ?d (if ?b then _ else _) => destruct b; assigned
  | |- P ?d (match ?x with directionNegative => _ | directionPositive => _ end) =>
      destruct x; assigned
  | |- P ?d (?set ?v ?d') =>
      apply (P_trans d d');
      [assigned
      |first [apply P_raw | apply P_slewrateFirstSample
             | apply P_lastSampledAtTime | apply P_delta | apply P_maxDelta
             | apply P_avg | apply P_noisePower | apply P_counter
             | apply P_noiseCounter | apply P_offsetValue
             | apply P_buttonStateLabel | apply P_buttonIsCalibrating
             | apply P_buttonIsReleased | apply P_buttonIsApproached
             | apply P_buttonIsPressed]]
  end.

Lemma P_updateAvg_assign (d : TLStruct) : P d (updateAvg_assign d).
Proof. unfold updateAvg_assign. cbv zeta. assigned. Qed.

Lemma P_processSample_delta (d : TLStruct) : P d (processSample_delta d).
Proof. unfold processSample_delta. cbv zeta. assigned. Qed.

Lemma Inv_updateAvg (ch : Z) (c : TLSensors) : Inv c -> Inv (updateAvg ch c).
Proof.
  intros H. unfold updateAvg. destruct (sensor c ch); [|exact H].
  repeat match goal with |- Inv (if ?b then _ else _) => destruct b end;
    try exact H.
  apply Inv_update; [apply P_updateAvg_assign|exact H].
Qed.

Lemma Inv_processSample_switch (s : ButtonState) (ch : Z) (c : TLSensors) :
  Inv c -> Inv (processSample_switch s ch c).
Proof.
  intros H.
  assert (Hcal : Inv (processStateCalibrating ch c)).
  { unfold processStateCalibrating. destruct (sensor c ch); [|exact H].
    destruct (_ || _); [apply Inv_updateAvg; exact H|].
    apply Inv_update; [|apply Inv_setState; exact H].
    intros d. assigned. }
  destruct s; cbn [processSample_switch]; try exact Hcal;
    unfold processStatePreCalibrating, processStateNoisePowerMeasurement,
      processStateReleased, processStateReleasedToApproached,
      processStateApproached, processStateApproachedToPressed,
      processStateApproachedToReleased, processStatePressed,
      processStatePressedToApproached;
    (destruct (sensor c ch); [|exact H]);
    repeat match goal with |- Inv (if ?b then _ else _) => destruct b end;
    first [exact H|apply Inv_setState; exact H|apply Inv_updateAvg; exact H].
Qed.

Lemma Inv_processSample (ch : Z) (c : TLSensors) :
  Inv c -> Inv (processSample ch c).
Proof.
  intros H. unfold processSample. cbv zeta.
  assert (H1 : Inv (update_sensor ch processSample_delta c))
    by (apply Inv_update; [apply P_processSample_delta|exact H]).
  destruct (sensor (update_sensor ch processSample_delta c) ch); [|exact H1].
  apply Inv_update; [intros d; assigned|].
  apply Inv_processSample_switch. exact H1.
Qed.

Lemma Inv_addSample (ch s : Z) (c : TLSensors) : Inv c -> Inv (addSample ch s c).
Proof.
  intros H. unfold addSample. apply Inv_update; [|exact H].
  intros d. cbv zeta. assigned.
Qed.

Lemma Inv_call_sample (ch : Z) (inv : bool) (c : TLSensors) :
  Inv c -> Inv (snd (call_sample ch inv c)).
Proof.
  intros H. unfold call_sample.
  destruct (sampleMethodSample ch) as [f|] eqn:Hf; [|exact H].
  pose proof (Inv_Sample ch f inv c Hf H) as H1.
  destruct (f (data c) (nSensors c) inv). exact H1.
Qed.

Lemma Inv_sample_slot (ch : Z) (c : TLSensors) : Inv c -> Inv (sample_slot ch c).
Proof.
  intros H. unfold sample_slot. cbv zeta.
  set (X1 := if nonzero _ then call_sample ch false c else (0, c)).
  assert (H1 : Inv (snd X1)).
  { unfold X1. destruct (nonzero _); [apply Inv_call_sample|]; exact H. }
  clearbody X1. destruct X1 as [s1 c1]. cbn [snd] in H1.
  set (X2 := if nonzero _ then call_sample ch true c1 else (0, c1)).
  assert (H2 : Inv (snd X2)).
  { unfold X2. destruct (nonzero _); [apply Inv_call_sample|]; exact H1. }
  clearbody X2. destruct X2 as [s2 c2]. cbn [snd] in H2.
  apply Inv_addSample. exact H2.
Qed.

Lemma Inv_sample_summaries (ch : Z) (c : TLSensors) :
  Inv c -> Inv (sample_summaries ch c).
Proof.
  intros H. unfold sample_summaries. cbv zeta.
  assert (H1 : Inv (resetButtonStateSummaries ch c)).
  { unfold resetButtonStateSummaries. apply Inv_update; [|exact H].
    intros d. assigned. }
  destruct (sensor (resetButtonStateSummaries ch c) ch); [|exact H1].
  repeat match goal with
         | |- Inv (if ?b then _ else _) => destruct b
         | |- Inv (set_anyButtonIsApproached _ _) =>
             apply Inv_anyButtonIsApproached
         | |- Inv (set_anyButtonIsPressed _ _) => apply Inv_anyButtonIsPressed
         | |- Inv (update_sensor _ _ _) =>
             apply Inv_update; [intros ?; assigned|]
         end; exact H1.
Qed.

Lemma Inv_call_hook_Pre (ch : Z) (c : TLSensors) :
  Inv c -> Inv (call_hook (sampleMethodPreSample ch) c).
Proof.
  intros H. unfold call_hook.
  destruct (sampleMethodPreSample ch) as [f|] eqn:Hf; [|exact H].
  apply (Inv_PreSample ch f c Hf H).
Qed.

Lemma Inv_call_hook_Post (ch : Z) (c : TLSensors) :
  Inv c -> Inv (call_hook (sampleMethodPostSample ch) c).
Proof.
  intros H. unfold call_hook.
  destruct (sampleMethodPostSample ch) as [f|] eqn:Hf; [|exact H].
  apply (Inv_PostSample ch f c Hf H).
Qed.

Lemma Inv_sample (now : Z) (c : TLSensors) : Inv c -> Inv (snd (sample now c)).
Proof.
  intros H. unfold sample. cbv zeta. cbn [snd].
  apply for_loop_invariant; [|intros; apply Inv_sample_summaries; assumption].
  apply Inv_anyButtonIsPressed, Inv_anyButtonIsApproached.
  apply for_loop_invariant.
  2:{ intros i s _ Hs. apply Inv_processSample. apply Inv_update.
      - intros d. assigned.
      - apply Inv_call_hook_Post. exact Hs. }
  apply for_loop_invariant.
  2:{ intros i s _ Hs. destruct (scanOrder s !! Z.to_nat i); [|exact Hs].
      apply Inv_sample_slot. exact Hs. }
  apply for_loop_invariant; [|intros; apply Inv_call_hook_Pre; assumption].
  apply for_loop_invariant; [exact H|].
  intros i s _ Hs. apply Inv_update; [|exact Hs]. intros d. assigned.
Qed.

End Invariant.


(** ** The summaries and the settings after a measurement cycle *)
Lemma anyButtonIsApproached_update_sensor (n : Z) (f : TLStruct -> TLStruct)
  (c : TLSensors) :
  anyButtonIsApproached (update_sensor n f c) = anyButtonIsApproached c.
Proof. unfold update_sensor. destruct (n <? 0); reflexivity. Qed.

Lemma anyButtonIsPressed_update_sensor (n : Z) (f : TLStruct -> TLStruct)
  (c : TLSensors) :
  anyButtonIsPressed (update_sensor n f c) = anyButtonIsPressed c.
Proof. unfold update_sensor. destruct (n <? 0); reflexivity. Qed.

Lemma sample_summaries_other (ch m : Z) (c : TLSensors) :
  m <> ch -> sensor (sample_summaries ch c) m = sensor c m.
Proof.
  intros Hne. unfold sample_summaries. cbv zeta.
  assert (H1 : sensor (resetButtonStateSummaries ch c) m = sensor c m)
    by (apply sensor_update_sensor_ne; exact Hne).
  destruct (sensor (resetButtonStateSummaries ch c) ch); [|exact H1].
  assert (Hflag : forall b c0, sensor (set_anyButtonIsApproached b c0) m = sensor c0 m)
    by reflexivity.
  assert (Hflag2 : forall b c0, sensor (set_anyButtonIsPressed b c0) m = sensor c0 m)
    by reflexivity.
  repeat match goal with |- context [if ?b then _ else _] => destruct b end;
    rewrite ?Hflag, ?Hflag2, ?sensor_update_sensor_ne by exact Hne;
    rewrite ?Hflag, ?Hflag2, ?sensor_update_sensor_ne by exact Hne;
    rewrite ?Hflag, ?Hflag2, ?sensor_update_sensor_ne by exact Hne;
    exact H1.
Qed.

Lemma sample_summaries_own (ch : Z) (c : TLSensors) (d : TLStruct) :
  sensor c ch = Some d ->
  exists d',
    sensor (sample_summaries ch c) ch = Some d'
    /\ summaries_agree d'
    /\ buttonState d' = buttonState d
    /\ anyButtonIsApproached (sample_summaries ch c)
       = anyButtonIsApproached c || buttonIsApproached d'
    /\ anyButtonIsPressed (sample_summaries ch c)
       = anyButtonIsPressed c || buttonIsPressed d'.
Proof.
  intros Hd. unfold sample_summaries. cbv zeta.
  assert (H1 : sensor (resetButtonStateSummaries ch c) ch
               = Some (set_buttonIsPressed false
                         (set_buttonIsApproached false
                            (set_buttonIsReleased false
                               (set_buttonIsCalibrating false d))))).
  { unfold resetButtonStateSummaries. rewrite sensor_update_sensor_eq, Hd.
    reflexivity. }
  rewrite H1.
  assert (Hflag : forall b c0, sensor (set_anyButtonIsApproached b c0) ch = sensor c0 ch)
    by reflexivity.
  assert (Hflag2 : forall b c0, sensor (set_anyButtonIsPressed b c0) ch = sensor c0 ch)
    by reflexivity.
  cbn [buttonState set_buttonIsPressed set_buttonIsApproached
         set_buttonIsReleased set_buttonIsCalibrating].
  destruct (buttonState d) eqn:Hs; cbn [ButtonState_value Z.leb Z.geb Z.compare andb Pos.compare Pos.compare_cont];
    rewrite ?Hflag, ?Hflag2, ?sensor_update_sensor_eq, ?H1;
    rewrite ?Hflag, ?Hflag2, ?sensor_update_sensor_eq, ?H1;
    rewrite ?Hflag, ?Hflag2, ?sensor_update_sensor_eq, ?H1;
    cbn [fmap option_fmap option_map];
    eexists; (split; [reflexivity|]);
    unfold summaries_agree, isCalibrating;
    cbn [buttonState buttonIsCalibrating buttonIsReleased buttonIsApproached
           buttonIsPressed set_buttonIsPressed set_buttonIsApproached
           set_buttonIsReleased set_buttonIsCalibrating];
    rewrite Hs; cbn;
    cbn [anyButtonIsApproached anyButtonIsPressed set_anyButtonIsApproached
           set_anyButtonIsPressed];
    unfold resetButtonStateSummaries;
    rewrite ?anyButtonIsApproached_update_sensor,
      ?anyButtonIsPressed_update_sensor, ?orb_false_r, ?orb_true_r;
    repeat split; reflexivity.
Qed.

Lemma sample_summaries_absent (ch : Z) (c : TLSensors) :
  sensor c ch = None ->
  sensor (sample_summaries ch c) ch = None
  /\ anyButtonIsApproached (sample_summaries ch c) = anyButtonIsApproached c
  /\ anyButtonIsPressed (sample_summaries ch c) = anyButtonIsPressed c.
Proof.
  intros Hd. unfold sample_summaries. cbv zeta.
  assert (H1 : sensor (resetButtonStateSummaries ch c) ch = None).
  { unfold resetButtonStateSummaries. rewrite sensor_update_sensor_eq, Hd.
    reflexivity. }
  rewrite H1. split; [exact H1|]. unfold resetButtonStateSummaries.
  rewrite anyButtonIsApproached_update_sensor, anyButtonIsPressed_update_sensor.
  split; reflexivity.
Qed.

Lemma sample_settings {SM : SampleMethods} (now : Z) (c : TLSensors) :
  settings (snd (sample now c)) = settings c.
Proof.
  apply (Inv_sample (fun c' => settings c' = settings c) (fun _ _ => True));
    try (intros; exact I); try reflexivity.
  - intros n f c0 _ H. rewrite settings_update_sensor. exact H.
  - intros ch s c0 H. rewrite setState_settings. exact H.
  - intros b c0 H. exact H.
  - intros b c0 H. exact H.
  - intros ch f c0 _ H. exact H.
  - intros ch f inv c0 _ H. exact H.
  - intros ch f c0 _ H. exact H.
Qed.

Lemma sample_summaries_settings (ch : Z) (c : TLSensors) :
  settings (sample_summaries ch c) = settings c.
Proof.
  apply (Inv_sample_summaries
           (fun c' => settings c' = settings c) (fun _ _ => True));
    try (intros; exact I); try reflexivity.
  - intros n f c0 _ H. rewrite settings_update_sensor. exact H.
  - intros b c0 H. exact H.
  - intros b c0 H. exact H.
Qed.

Lemma summaries_loop (c1 : TLSensors) (k : nat) :
  anyButtonIsApproached c1 = false -> anyButtonIsPressed c1 = false ->
  let c' := for_upto k sample_summaries c1 in
  (forall ch d, 0 <= ch < Z.of_nat k -> sensor c' ch = Some d ->
                summaries_agree d)
  /\ (anyButtonIsApproached c' = true <->
      exists ch d, 0 <= ch < Z.of_nat k /\ sensor c' ch = Some d
                   /\ buttonIsApproached d = true)
  /\ (anyButtonIsPressed c' = true <->
      exists ch d, 0 <= ch < Z.of_nat k /\ sensor c' ch = Some d
                   /\ buttonIsPressed d = true)
  /\ (forall ch, buttonState <$> sensor c' ch = buttonState <$> sensor c1 ch).
Proof.
  intros HA HP. induction k as [|k IH]; cbn zeta.
  - cbn [for_upto]. split; [intros; lia|].
    split; [|split; [|reflexivity]].
    + rewrite HA. split; [discriminate|]. intros (ch & _ & H & _). lia.
    + rewrite HP. split; [discriminate|]. intros (ch & _ & H & _). lia.
  - cbn [for_upto]. cbn zeta in IH.
    set (ck := for_upto k sample_summaries c1) in *.
    destruct IH as (Hagree & HanyA & HanyP & Hstate).
    pose proof (sample_summaries_other (Z.of_nat k)) as Hother.
    destruct (sensor ck (Z.of_nat k)) as [d|] eqn:Hd.
    + destruct (sample_summaries_own (Z.of_nat k) ck d Hd)
        as (d' & Hd' & Hag & Hst & HA' & HP').
      split; [|split; [|split]].
      * intros ch d0 Hch Hd0.
        destruct (Z.eq_dec ch (Z.of_nat k)) as [->|Hne].
        -- rewrite Hd' in Hd0. injection Hd0 as <-. exact Hag.
        -- rewrite Hother in Hd0 by exact Hne. apply (Hagree ch); [lia|exact Hd0].
      * rewrite HA', orb_true_iff, HanyA. split.
        -- intros [(ch & d0 & Hch & Hd0 & Hb)|Hb].
           ++ exists ch, d0. split; [lia|]. split; [|exact Hb].
              rewrite Hother by lia. exact Hd0.
           ++ exists (Z.of_nat k), d'. split; [lia|]. split; assumption.
        -- intros (ch & d0 & Hch & Hd0 & Hb).
           destruct (Z.eq_dec ch (Z.of_nat k)) as [->|Hne].
           ++ right. rewrite Hd' in Hd0. injection Hd0 as <-. exact Hb.
           ++ left. exists ch, d0. split; [lia|]. split; [|exact Hb].
              rewrite Hother in Hd0 by exact Hne. exact Hd0.
      * rewrite HP', orb_true_iff, HanyP. split.
        -- intros [(ch & d0 & Hch & Hd0 & Hb)|Hb].
           ++ exists ch, d0. split; [lia|]. split; [|exact Hb].
              rewrite Hother by lia. exact Hd0.
           ++ exists (Z.of_nat k), d'. split; [lia|]. split; assumption.
        -- intros (ch & d0 & Hch & Hd0 & Hb).
           destruct (Z.eq_dec ch (Z.of_nat k)) as [->|Hne].
           ++ right. rewrite Hd' in Hd0. injection Hd0 as <-. exact Hb.
           ++ left. exists ch, d0. split; [lia|]. split; [|exact Hb].
              rewrite Hother in Hd0 by exact Hne. exact Hd0.
      * intros ch. destruct (Z.eq_dec ch (Z.of_nat k)) as [->|Hne].
        -- rewrite Hd', <- Hstate, Hd. cbn. rewrite Hst. reflexivity.
        -- rewrite Hother by exact Hne. apply Hstate.
    + destruct (sample_summaries_absent (Z.of_nat k) ck Hd) as (Hd' & HA' & HP').
      split; [|split; [|split]].
      * intros ch d0 Hch Hd0.
        destruct (Z.eq_dec ch (Z.of_nat k)) as [->|Hne].
        -- rewrite Hd' in Hd0. discriminate Hd0.
        -- rewrite Hother in Hd0 by exact Hne. apply (Hagree ch); [lia|exact Hd0].
      * rewrite HA', HanyA. split.
        -- intros (ch & d0 & Hch & Hd0 & Hb).
           exists ch, d0. split; [lia|]. split; [|exact Hb].
           rewrite Hother by lia. exact Hd0.
        -- intros (ch & d0 & Hch & Hd0 & Hb).
           destruct (Z.eq_dec ch (Z.of_nat k)) as [->|Hne].
           ++ rewrite Hd' in Hd0. discriminate Hd0.
           ++ exists ch, d0. split; [lia|]. split; [|exact Hb].
              rewrite Hother in Hd0 by exact Hne. exact Hd0.
      * rewrite HP', HanyP. split.
        -- intros (ch & d0 & Hch & Hd0 & Hb).
           exists ch, d0. split; [lia|]. split; [|exact Hb].
           rewrite Hother by lia. exact Hd0.
        -- intros (ch & d0 & Hch & Hd0 & Hb).
           destruct (Z.eq_dec ch (Z.of_nat k)) as [->|Hne].
           ++ rewrite Hd' in Hd0. discriminate Hd0.
           ++ exists ch, d0. split; [lia|]. split; [|exact Hb].
              rewrite Hother in Hd0 by exact Hne. exact Hd0.
      * intros ch. destruct (Z.eq_dec ch (Z.of_nat k)) as [->|Hne].
        -- rewrite Hd', <- Hstate, Hd. reflexivity.
        -- rewrite Hother by exact Hne. apply Hstate.
Qed.

(** X11.  After every measurement cycle the summary flags of each of the
    first [nSensors] sensors say what its state says: [buttonIsCalibrating]
    is [isCalibrating], [buttonIsReleased] holds in the states [Released] and
    [ReleasedToApproached], [buttonIsApproached] from [Approached] on and
    [buttonIsPressed] from [Pressed] on; and [anyButtonIsApproached] and
    [anyButtonIsPressed] hold exactly when one of these sensors has the
    flag. *)
Theorem sample_summaries_agree {SM : SampleMethods} (now : Z) (c : TLSensors) :
  let c' := snd (sample now c) in
  (forall ch d, 0 <= ch < nSensors c -> sensor c' ch = Some d ->
                summaries_agree d)
  /\ (anyButtonIsApproached c' = true <->
      exists ch d, 0 <= ch < nSensors c /\ sensor c' ch = Some d
                   /\ buttonIsApproached d = true)
  /\ (anyButtonIsPressed c' = true <->
      exists ch d, 0 <= ch < nSensors c /\ sensor c' ch = Some d
                   /\ buttonIsPressed d = true).
Proof.
  cbv zeta. pose proof (sample_settings now c) as Hset.
  unfold sample in *. cbv zeta in *. cbn [snd] in *.
  set (c1 := set_anyButtonIsPressed false _) in *.
  assert (Hn : nSensors c1 = nSensors c).
  { apply settings_nSensors. rewrite <- Hset. symmetry.
    apply for_loop_invariant; [reflexivity|].
    intros i s _ Hs. rewrite sample_summaries_settings. exact Hs. }
  unfold for_loop in *. rewrite Hn in *.
  destruct (summaries_loop c1 (Z.to_nat (nSensors c)))
    as (Hagree & HanyA & HanyP & _); [reflexivity|reflexivity|].
  cbv zeta in Hagree, HanyA, HanyP.
  split; [|split].
  - intros ch d Hch. apply Hagree. lia.
  - rewrite HanyA. split; intros (ch & d & Hch & H); exists ch, d;
      (split; [lia|exact H]).
  - rewrite HanyP. split; intros (ch & d & Hch & H); exists ch, d;
      (split; [lia|exact H]).
Qed.


(** ** The guard of [setState] *)

Lemma forced_PreCalibrating_guard (d : TLStruct) :
  stateIsBeingChanged d = false ->
  stateIsBeingChanged (forced_PreCalibrating d) = false.
Proof.
  intros H. unfold forced_PreCalibrating.
  destruct (_ || _); [exact H|reflexivity].
Qed.

Lemma fan_out_record_guard (ch mask m : Z) (d : TLStruct) :
  stateIsBeingChanged d = false ->
  stateIsBeingChanged (fan_out_record ch mask m d) = false.
Proof.
  intros H. unfold fan_out_record.
  destruct (mask_selects mask m); [|exact H].
  destruct (m =? ch); cbn; [exact H|].
  apply forced_PreCalibrating_guard. exact H.
Qed.

Lemma quiescent_setState (ch : Z) (s : ButtonState) (c : TLSensors) :
  quiescent c -> quiescent (setState ch s c).
Proof.
  intros Hq.
  destruct (setState_cases ch s c) as [->|(d & Hd & Hg & Hs)]; [exact Hq|].
  destruct (setState_performed ch s c d Hd Hg Hs) as (Hown & Hother & _).
  cbv zeta in Hown, Hother.
  intros m dm Hm.
  destruct (Z.eq_dec m ch) as [->|Hne].
  - rewrite Hown in Hm. injection Hm as <-. reflexivity.
  - rewrite (Hother m Hne) in Hm.
    destruct (nonzero _); [|apply (Hq m); exact Hm].
    destruct (sensor c m) as [d0|] eqn:Hd0; [|discriminate Hm].
    cbn in Hm. injection Hm as <-.
    apply fan_out_record_guard. apply (Hq m). exact Hd0.
Qed.

Lemma quiescent_update_sensor (n : Z) (f : TLStruct -> TLStruct) (c : TLSensors) :
  (forall d, stateIsBeingChanged (f d) = stateIsBeingChanged d) ->
  quiescent c -> quiescent (update_sensor n f c).
Proof.
  intros Hf Hq m d Hm. rewrite sensor_update_sensor in Hm.
  destruct (m =? n); [|apply (Hq m); exact Hm].
  destruct (sensor c m) as [d0|] eqn:Hd0; [|discriminate Hm].
  cbn in Hm. injection Hm as <-. rewrite Hf. apply (Hq m). exact Hd0.
Qed.

Lemma quiescent_set_data (ds : list TLStruct) (c : TLSensors) :
  kept (fun d => stateIsBeingChanged d = false) (data c) ds ->
  quiescent c -> quiescent (set_data ds c).
Proof.
  intros Hk Hq m d Hm.
  apply sensor_lookup in Hm as [H0 Hm]. cbn [data set_data] in Hm.
  unfold kept, sensors_related in Hk.
  destruct (Forall2_lookup_r _ _ _ _ _ Hk Hm) as (d0 & Hd0 & Hkeep).
  apply Hkeep. apply (Hq m). apply sensor_lookup. split; assumption.
Qed.

Lemma quiescent_sample {SM : SampleMethods} (now : Z) (c : TLSensors) :
  hooks_keep (fun d => stateIsBeingChanged d = false) ->
  quiescent c -> quiescent (snd (sample now c)).
Proof.
  intros (Hpre & Hsam & Hpost).
  apply (Inv_sample quiescent
           (fun d d' => stateIsBeingChanged d' = stateIsBeingChanged d));
    try reflexivity.
  - intros d1 d2 d3 H12 H23. rewrite H23. exact H12.
  - intros n f c0 Hf. apply quiescent_update_sensor. exact Hf.
  - apply quiescent_setState.
  - intros b c0 H. exact H.
  - intros b c0 H. exact H.
  - intros ch f c0 Hf. apply quiescent_set_data. apply (Hpre ch). exact Hf.
  - intros ch f inv c0 Hf. apply quiescent_set_data. apply (Hsam ch). exact Hf.
  - intros ch f c0 Hf. apply quiescent_set_data. apply (Hpost ch). exact Hf.
Qed.

(** X12.  The guard [stateIsBeingChanged] is released by the end of every
    call: when no sensor carries it, no sensor carries it after a [setState]
    or a [processSample], nor after a measurement cycle whose sample method
    does not set it. *)
Theorem guard_is_released {SM : SampleMethods} (c : TLSensors) :
  quiescent c ->
  (forall ch s, quiescent (setState ch s c))
  /\ (forall ch, quiescent (processSample ch c))
  /\ (hooks_keep (fun d => stateIsBeingChanged d = false) ->
      forall now, quiescent (snd (sample now c))).
Proof.
  intros Hq. split; [|split].
  - intros ch s. apply quiescent_setState. exact Hq.
  - intros ch.
    apply (Inv_processSample quiescent
             (fun d d' => stateIsBeingChanged d' = stateIsBeingChanged d));
      try reflexivity; try exact Hq.
    + intros d1 d2 d3 H12 H23. rewrite H23. exact H12.
    + intros n f c0 Hf. apply quiescent_update_sensor. exact Hf.
    + apply quiescent_setState.
  - intros Hhooks now. apply quiescent_sample; assumption.
Qed.

Lemma plain_method_keeps_guard :
  hooks_keep (H := plain_method) (fun d => stateIsBeingChanged d = false).
Proof.
  unfold hooks_keep, hooks_related. cbn. split; [|split].
  - intros ch f ds n H. discriminate H.
  - intros ch f ds n inv [= <-]. cbn.
    apply Forall2_same_length_lookup_2; [reflexivity|].
    intros i x y Hx Hy. rewrite Hx in Hy. injection Hy as <-. auto.
  - intros ch f ds n [= <-].
    apply Forall2_alter_r.
    + apply Forall2_same_length_lookup_2; [reflexivity|].
      intros i x y Hx Hy. rewrite Hx in Hy. injection Hy as <-. auto.
    + intros x y _ _ H. exact H.
Qed.

Lemma guard_is_released_witness :
  quiescent (setState 0 buttonStatePressed pressing_controller)
  /\ quiescent (snd (sample (H := plain_method) 100 pressing_controller)).
Proof.
  assert (Hq : quiescent pressing_controller).
  { intros n d Hd. apply sensor_lookup in Hd as [Hn Hd].
    destruct (Z.to_nat n) as [|[|k]]; cbn in Hd; try discriminate Hd;
      injection Hd as <-; reflexivity. }
  destruct (guard_is_released (SM := plain_method) pressing_controller Hq)
    as (H1 & _ & H3).
  split; [apply H1|]. apply H3. exact plain_method_keeps_guard.
Defined.

(** X13.  A measurement cycle changes none of the sensor count, the number
    of measurements per sensor, the error code, the EEPROM offset and flag,
    the schedule, the callback and the choice of a custom scan order; it
    runs whatever the error code is, and returns the error code it found. *)
Theorem sample_keeps_settings {SM : SampleMethods} (now : Z) (c : TLSensors) :
  settings (snd (sample now c)) = settings c
  /\ fst (sample now c) = error c.
Proof.
  assert (H : settings (snd (sample now c)) = settings c).
  { apply (Inv_sample (fun c' => settings c' = settings c) (fun _ _ => True));
      try (intros; exact I); try reflexivity.
    - intros n f c0 _ H. rewrite settings_update_sensor. exact H.
    - intros ch s c0 H. rewrite setState_settings. exact H.
    - intros b c0 H. exact H.
    - intros b c0 H. exact H.
    - intros ch f c0 _ H. exact H.
    - intros ch f inv c0 _ H. exact H.
    - intros ch f c0 _ H. exact H. }
  split; [exact H|].
  apply settings_error in H. rewrite <- H. reflexivity.
Qed.


(** ** The state graph *)
Lemma state_of_update_sensor (n : Z) (f : TLStruct -> TLStruct) (c : TLSensors) :
  (forall d, buttonState (f d) = buttonState d) ->
  forall m, state_of (update_sensor n f c) m = state_of c m.
Proof.
  intros Hf m. unfold state_of. rewrite sensor_update_sensor.
  destruct (m =? n); [|reflexivity].
  destruct (sensor c m); [|reflexivity]. cbn. rewrite Hf. reflexivity.
Qed.

Lemma updateAvg_assign_buttonState (d : TLStruct) :
  buttonState (updateAvg_assign d) = buttonState d.
Proof.
  unfold updateAvg_assign. cbv zeta.
  repeat match goal with
         | |- context [if ?b then _ else _] => destruct b
         end; reflexivity.
Qed.

Lemma state_of_updateAvg (ch : Z) (c : TLSensors) :
  forall m, state_of (updateAvg ch c) m = state_of c m.
Proof.
  intros m. unfold updateAvg. destruct (sensor c ch); [|reflexivity].
  repeat match goal with
         | |- context [if ?b then _ else _] => destruct b
         end; try reflexivity.
  apply state_of_update_sensor. apply updateAvg_assign_buttonState.
Qed.

Lemma moved_same (ch : Z) (old : ButtonState) (allowed : list ButtonState)
  (c c' : TLSensors) :
  state_of c ch = Some old -> (forall m, state_of c' m = state_of c m) ->
  moved ch old allowed c c'.
Proof.
  intros Hold Hsame. split; [left; rewrite Hsame; exact Hold|].
  intros m _. left. apply Hsame.
Qed.

Lemma moved_then (ch : Z) (old : ButtonState) (allowed : list ButtonState)
  (c c' c'' : TLSensors) :
  moved ch old allowed c c' -> (forall m, state_of c'' m = state_of c' m) ->
  moved ch old allowed c c''.
Proof.
  intros [Hown Hother] Hsame. split.
  - rewrite Hsame. exact Hown.
  - intros m Hm. rewrite Hsame. apply Hother. exact Hm.
Qed.

Lemma moved_setState (ch : Z) (s : ButtonState) (allowed : list ButtonState)
  (c : TLSensors) (d : TLStruct) :
  sensor c ch = Some d ->
  In (snd (setState_switch d s)) allowed ->
  (nonzero (snd (fst (setState_switch d s))) = true ->
   In buttonStatePreCalibrating allowed) ->
  moved ch (buttonState d) allowed c (setState ch s c).
Proof.
  intros Hd Htarget Hforced.
  assert (Hold : state_of c ch = Some (buttonState d))
    by (unfold state_of; rewrite Hd; reflexivity).
  destruct (setState_cases ch s c) as [->|(d0 & Hd0 & Hg & Hs)];
    [apply moved_same; [exact Hold|reflexivity]|].
  rewrite Hd in Hd0. injection Hd0 as <-.
  destruct (setState_performed ch s c d Hd Hg Hs) as (Hown & Hother & _).
  cbv zeta in Hown, Hother. split.
  - right. unfold state_of. rewrite Hown. cbn.
    destruct (mask_selects _ ch) eqn:Hsel.
    + exists buttonStatePreCalibrating. split; [|reflexivity].
      apply Hforced. apply (mask_selects_nonzero _ ch). exact Hsel.
    + exists (snd (setState_switch d s)). split; [exact Htarget|reflexivity].
  - intros m Hm. unfold state_of. rewrite (Hother m Hm).
    destruct (nonzero _); [|left; reflexivity].
    destruct (sensor c m) as [dm|] eqn:Hdm; [|left; reflexivity].
    cbn. unfold fan_out_record.
    destruct (mask_selects _ m); [|left; reflexivity].
    destruct (Z.eqb_spec m ch); [contradiction|]. cbn.
    unfold forced_PreCalibrating.
    destruct (stateIsBeingChanged dm
              || ButtonState_eqb (buttonState dm) buttonStatePreCalibrating);
      [left; reflexivity|].
    right. split; [discriminate|reflexivity].
Qed.

Lemma moved_setState_from (ch : Z) (s old : ButtonState)
  (allowed : list ButtonState) (c : TLSensors) (d : TLStruct) :
  sensor c ch = Some d -> buttonState d = old ->
  In (snd (setState_switch d s)) allowed ->
  (nonzero (snd (fst (setState_switch d s))) = true ->
   In buttonStatePreCalibrating allowed) ->
  moved ch old allowed c (setState ch s c).
Proof. intros Hd <-. apply moved_setState. exact Hd. Qed.

Ltac moved_step d Hd Hs :=
  first
    [ apply moved_same;
      [unfold state_of; rewrite Hd; cbn; rewrite Hs; reflexivity|reflexivity]
    | apply moved_same;
      [unfold state_of; rewrite Hd; cbn; rewrite Hs; reflexivity
      |apply state_of_updateAvg]
    | apply moved_setState_from with (d := d);
      [exact Hd
      |exact Hs
      |cbn; tauto
      |cbn [setState_switch fst snd]; rewrite ?Hs; cbn;
       first [discriminate|intros _; tauto]] ].

Lemma moved_processSample_switch (ch : Z) (c : TLSensors) (d : TLStruct) :
  sensor c ch = Some d ->
  moved ch (buttonState d) (next_states (buttonState d)) c
    (processSample_switch (buttonState d) ch c).
Proof.
  intros Hd.
  assert (Hcal : forall allowed,
             In buttonStateNoisePowerMeasurement allowed ->
             moved ch (buttonState d) allowed c (processStateCalibrating ch c)).
  { intros allowed Hin. unfold processStateCalibrating. rewrite Hd.
    destruct (_ || _).
    - apply moved_same;
        [unfold state_of; rewrite Hd; reflexivity|apply state_of_updateAvg].
    - eapply moved_then.
      + apply moved_setState
          with (d := d) (s := buttonStateNoisePowerMeasurement);
          [exact Hd|exact Hin|cbn; discriminate].
      + apply state_of_update_sensor. intros d0.
        destruct (negb _); reflexivity. }
  destruct (buttonState d) eqn:Hs; cbn [processSample_switch next_states];
    try (apply Hcal; cbn; tauto);
    unfold processStatePreCalibrating, processStateNoisePowerMeasurement,
      processStateReleased, processStateReleasedToApproached,
      processStateApproached, processStateApproachedToPressed,
      processStateApproachedToReleased, processStatePressed,
      processStatePressedToApproached;
    rewrite Hd;
    repeat match goal with
           | |- moved _ _ _ _ (if ?b then _ else _) => destruct b
           end;
    moved_step d Hd Hs.
Qed.

Lemma moved_from (ch : Z) (old : ButtonState) (allowed : list ButtonState)
  (c0 c c' : TLSensors) :
  (forall m, state_of c m = state_of c0 m) ->
  moved ch old allowed c c' -> moved ch old allowed c0 c'.
Proof.
  intros Hsame [Hown Hother]. split; [exact Hown|].
  intros m Hm. rewrite <- Hsame. apply Hother. exact Hm.
Qed.

Lemma processSample_delta_buttonState (d : TLStruct) :
  buttonState (processSample_delta d) = buttonState d.
Proof.
  unfold processSample_delta. cbv zeta.
  repeat match goal with
         | |- context [if ?b then _ else _] => destruct b
         | |- context [match ?x with directionNegative => _ | _ => _ end] =>
             destruct x
         end; reflexivity.
Qed.

Lemma moved_processSample (ch : Z) (c : TLSensors) (d : TLStruct) :
  sensor c ch = Some d ->
  moved ch (buttonState d) (next_states (buttonState d)) c (processSample ch c).
Proof.
  intros Hd. unfold processSample. cbv zeta.
  assert (H1 : sensor (update_sensor ch processSample_delta c) ch
               = Some (processSample_delta d))
    by (rewrite sensor_update_sensor_eq, Hd; reflexivity).
  rewrite H1.
  apply moved_from with (c := update_sensor ch processSample_delta c).
  { apply state_of_update_sensor. apply processSample_delta_buttonState. }
  eapply moved_then.
  - rewrite <- (processSample_delta_buttonState d).
    apply moved_processSample_switch. exact H1.
  - apply state_of_update_sensor. reflexivity.
Qed.

Lemma state_of_Some (c : TLSensors) (m : Z) (s : ButtonState) :
  state_of c m = Some s <-> exists d, sensor c m = Some d /\ buttonState d = s.
Proof.
  unfold state_of. destruct (sensor c m) as [d|]; cbn; split.
  - intros [= <-]. exists d. auto.
  - intros (d0 & [= <-] & <-). reflexivity.
  - discriminate.
  - intros (d0 & H & _). discriminate H.
Qed.

(** X14.  One call of [processSample] moves the sensor along the state graph
    only: its state afterwards is the state before or one of [next_states];
    every other sensor keeps its state or enters
    [buttonStatePreCalibrating]; no sensor appears or disappears. *)
Theorem processSample_state_graph (c : TLSensors) (ch : Z) (d : TLStruct) :
  sensor c ch = Some d ->
  (exists d', sensor (processSample ch c) ch = Some d'
              /\ (buttonState d' = buttonState d
                  \/ In (buttonState d') (next_states (buttonState d))))
  /\ (forall m dm, m <> ch -> sensor c m = Some dm ->
        exists dm', sensor (processSample ch c) m = Some dm'
                    /\ (buttonState dm' = buttonState dm
                        \/ buttonState dm' = buttonStatePreCalibrating)).
Proof.
  intros Hd. destruct (moved_processSample ch c d Hd) as [Hown Hother]. split.
  - destruct Hown as [H|(s & Hin & H)]; apply state_of_Some in H as (d' & H & Hs);
      exists d'; (split; [exact H|]).
    + left. exact Hs.
    + right. rewrite Hs. exact Hin.
  - intros m dm Hm Hdm.
    assert (Hsm : state_of c m = Some (buttonState dm))
      by (unfold state_of; rewrite Hdm; reflexivity).
    destruct (Hother m Hm) as [H|[_ H]].
    + rewrite Hsm in H. apply state_of_Some in H as (d' & H & Hs).
      exists d'. split; [exact H|left; exact Hs].
    + apply state_of_Some in H as (d' & H & Hs).
      exists d'. split; [exact H|right; exact Hs].
Qed.

Lemma processSample_state_graph_witness :
  exists d', sensor (processSample 0 measuring_controller) 0 = Some d'
             /\ (buttonState d' = buttonStateNoisePowerMeasurement
                 \/ In (buttonState d') [buttonStateReleased]).
Proof.
  exact (proj1 (processSample_state_graph measuring_controller 0
                  measuring_sensor eq_refl)).
Defined.


(** ** The pace of the state machine *)
Lemma stage_nonneg (s : ButtonState) : 0 <= stage s.
Proof. destruct s; cbn; lia. Qed.

Lemma stage_next (s s' : ButtonState) :
  In s' (next_states s) -> stage s' <= stage s + 1.
Proof.
  destruct s; cbn; intros H;
    repeat match type of H with
           | _ \/ _ => destruct H as [<-|H]
           | False => contradiction
           end; cbn; lia.
Qed.

Lemma related_state_of (c c' : TLSensors) :
  sensors_related same_state (data c) (data c') ->
  forall m, state_of c' m = state_of c m.
Proof.
  intros HR m. unfold state_of.
  destruct (sensor c m) as [d|] eqn:Hd.
  - destruct (related_lookup _ c c' m d HR Hd) as (d' & -> & Hs). cbn.
    rewrite Hs. reflexivity.
  - destruct (sensor c' m) as [d'|] eqn:Hd'; [|reflexivity].
    destruct (related_lookup_r _ c c' m d' HR Hd') as (d & Hd0 & _).
    rewrite Hd in Hd0. discriminate Hd0.
Qed.

Lemma same_state_refl (d : TLStruct) : same_state d d.
Proof. reflexivity. Qed.

Lemma same_state_trans (d1 d2 d3 : TLStruct) :
  same_state d1 d2 -> same_state d2 d3 -> same_state d1 d3.
Proof. unfold same_state. intros H12 H23. rewrite H23. exact H12. Qed.

Lemma stage_within_same (extra : Z -> Z) (c0 c c' : TLSensors) :
  stage_within extra c0 c -> (forall m, state_of c' m = state_of c m) ->
  stage_within extra c0 c'.
Proof. intros H Hs m. rewrite Hs. apply H. Qed.

Lemma stage_within_from (extra : Z -> Z) (c0 c c' : TLSensors) :
  (forall m, state_of c m = state_of c0 m) -> stage_within extra c c' ->
  stage_within extra c0 c'.
Proof. intros Hs H m. rewrite <- Hs. apply H. Qed.

Lemma stage_within_moved (k : Z) (c0 c c' : TLSensors) (old : ButtonState) :
  stage_within (fun m => if m <? k then 1 else 0) c0 c ->
  state_of c k = Some old ->
  moved k old (next_states old) c c' ->
  stage_within (fun m => if m <? k + 1 then 1 else 0) c0 c'.
Proof.
  intros Hw Hold [Hown Hother] m. specialize (Hw m).
  destruct (Z.eq_dec m k) as [->|Hne].
  - rewrite Hold in Hw.
    destruct (Z.ltb_spec k k); [lia|].
    destruct (Z.ltb_spec k (k + 1)); [|lia].
    destruct (state_of c0 k) as [s0|]; [|contradiction].
    destruct Hown as [->|(s & Hin & ->)]; [lia|].
    apply stage_next in Hin. lia.
  - destruct (Hother m Hne) as [->|[Hsome ->]].
    + destruct (state_of c0 m), (state_of c m); try exact Hw.
      destruct (Z.ltb_spec m k), (Z.ltb_spec m (k + 1)); lia.
    + destruct (state_of c0 m) as [s0|], (state_of c m); try contradiction.
      pose proof (stage_nonneg s0). cbn.
      destruct (m <? k + 1); lia.
Qed.

Lemma stage_within_weaken (extra extra' : Z -> Z) (c c' : TLSensors) :
  (forall m, extra m <= extra' m) -> stage_within extra c c' ->
  stage_within extra' c c'.
Proof.
  intros Hle H m. specialize (H m). specialize (Hle m).
  destruct (state_of c m), (state_of c' m); try exact H. lia.
Qed.

Lemma stage_within_refl (c : TLSensors) : stage_within (fun _ => 0) c c.
Proof. intros m. destruct (state_of c m); [lia|exact I]. Qed.

Lemma state_of_processSample_absent (ch : Z) (c : TLSensors) :
  sensor c ch = None -> forall m, state_of (processSample ch c) m = state_of c m.
Proof.
  intros Hd m. unfold processSample. cbv zeta.
  rewrite sensor_update_sensor_eq, Hd. cbn.
  apply state_of_update_sensor. apply processSample_delta_buttonState.
Qed.

Section Stage.

Context {SM : SampleMethods}.
Hypothesis hooks_same_state : hooks_related same_state.

Lemma state_of_call_hook_Post (ch : Z) (c : TLSensors) :
  forall m, state_of (call_hook (sampleMethodPostSample ch) c) m = state_of c m.
Proof.
  apply related_state_of. apply call_hook_related; [exact same_state_refl|].
  intros f ds n Hf. destruct hooks_same_state as (_ & _ & Hpost).
  apply (Hpost ch). exact Hf.
Qed.

Lemma state_of_call_hook_Pre (ch : Z) (c : TLSensors) :
  forall m, state_of (call_hook (sampleMethodPreSample ch) c) m = state_of c m.
Proof.
  apply related_state_of. apply call_hook_related; [exact same_state_refl|].
  intros f ds n Hf. destruct hooks_same_state as (Hpre & _).
  apply (Hpre ch). exact Hf.
Qed.

Lemma state_of_sample_slot (ch : Z) (c : TLSensors) :
  forall m, state_of (sample_slot ch c) m = state_of c m.
Proof.
  apply related_state_of.
  apply sample_slot_related;
    [exact same_state_refl|exact same_state_trans|exact hooks_same_state
    |reflexivity|reflexivity].
Qed.

Lemma state_of_sample_summaries (ch : Z) (c : TLSensors) :
  forall m, state_of (sample_summaries ch c) m = state_of c m.
Proof.
  apply related_state_of.
  apply sample_summaries_related;
    [exact same_state_refl|exact same_state_trans|reflexivity|reflexivity
    |reflexivity|reflexivity].
Qed.

Lemma stage_process_loop (now : Z) (c : TLSensors) (k : nat) :
  stage_within (fun m => if m <? Z.of_nat k then 1 else 0) c
    (for_upto k
       (fun ch c =>
          let c := call_hook (sampleMethodPostSample ch) c in
          let c := update_sensor ch (set_lastSampledAtTime now) c in
          processSample ch c) c).
Proof.
  induction k as [|k IH].
  - cbn [for_upto]. eapply stage_within_weaken; [|apply stage_within_refl].
    intros m. destruct (_ <? _); lia.
  - cbn [for_upto]. cbv zeta.
    set (ck := for_upto k _ c) in *.
    set (c1 := update_sensor (Z.of_nat k) (set_lastSampledAtTime now)
                 (call_hook (sampleMethodPostSample (Z.of_nat k)) ck)).
    assert (H1 : forall m, state_of c1 m = state_of ck m).
    { intros m. unfold c1. rewrite state_of_update_sensor by reflexivity.
      apply state_of_call_hook_Post. }
    replace (Z.of_nat (S k)) with (Z.of_nat k + 1) by lia.
    destruct (sensor c1 (Z.of_nat k)) as [d|] eqn:Hd.
    + apply stage_within_moved with (c := c1) (old := buttonState d).
      * eapply stage_within_same; [exact IH|exact H1].
      * unfold state_of. rewrite Hd. reflexivity.
      * apply moved_processSample. exact Hd.
    + eapply stage_within_same.
      * eapply stage_within_weaken; [|eapply stage_within_same; [exact IH|exact H1]].
        intros m. cbn.
        destruct (Z.ltb_spec m (Z.of_nat k)), (Z.ltb_spec m (Z.of_nat k + 1)); lia.
      * apply state_of_processSample_absent. exact Hd.
Qed.

Lemma stage_sample (now : Z) (c : TLSensors) :
  stage_within (fun _ => 1) c (snd (sample now c)).
Proof.
  unfold sample. cbv zeta. cbn [snd].
  set (c1 := for_loop (nSensors c) _ c).
  assert (H1 : forall m, state_of c1 m = state_of c m).
  { unfold c1. apply (for_loop_invariant
                        (fun s => forall m, state_of s m = state_of c m));
      [reflexivity|].
    intros i s _ Hs m. rewrite state_of_update_sensor by reflexivity. apply Hs. }
  set (c2 := for_loop (nSensors c1) _ c1).
  assert (H2 : forall m, state_of c2 m = state_of c m).
  { unfold c2. apply (for_loop_invariant
                        (fun s => forall m, state_of s m = state_of c m));
      [exact H1|].
    intros i s _ Hs m. rewrite state_of_call_hook_Pre. apply Hs. }
  set (c3 := for_loop (to_u16 _) _ c2).
  assert (H3 : forall m, state_of c3 m = state_of c m).
  { unfold c3. apply (for_loop_invariant
                        (fun s => forall m, state_of s m = state_of c m));
      [exact H2|].
    intros i s _ Hs m. destruct (scanOrder s !! Z.to_nat i); [|apply Hs].
    rewrite state_of_sample_slot. apply Hs. }
  set (c4 := for_loop (nSensors c3) _ c3).
  assert (H4 : stage_within (fun _ => 1) c c4).
  { apply stage_within_from with (c := c3); [exact H3|].
    eapply stage_within_weaken; [|apply stage_process_loop].
    intros m. cbn. destruct (m <? _); lia. }
  eapply stage_within_same; [exact H4|].
  apply (for_loop_invariant (fun s => forall m, state_of s m = state_of c4 m));
    [reflexivity|].
  intros i s _ Hs m. rewrite state_of_sample_summaries. apply Hs.
Qed.

Lemma stage_cycles (nows : list Z) (c : TLSensors) :
  stage_within (fun _ => Z.of_nat (length nows)) c (cycles nows c).
Proof.
  revert c. induction nows as [|now nows IH]; intros c.
  - apply stage_within_refl.
  - cbn [cycles fold_left length]. intros m.
    pose proof (stage_sample now c m) as H1.
    pose proof (IH (snd (sample now c)) m) as H2.
    unfold cycles in H2.
    destruct (state_of c m), (state_of (snd (sample now c)) m),
      (state_of (fold_left _ nows _) m); try contradiction; try exact I.
    lia.
Qed.

End Stage.

(** X15.  A sensor advances by at most one stage of the state graph in a
    measurement cycle, whatever the samples and the clock are, when the
    sample method leaves the states alone: after the cycles at the times
    [nows] its stage has grown by at most their number.  So a released
    sensor is not pressed before the fourth cycle, and a sensor in
    [buttonStatePreCalibrating], as after power-on, not before the
    seventh. *)
Theorem stage_per_cycle {SM : SampleMethods} (nows : list Z) (c : TLSensors)
  (m : Z) (d : TLStruct) :
  hooks_related same_state -> sensor c m = Some d ->
  exists d',
    sensor (cycles nows c) m = Some d'
    /\ stage (buttonState d')
       <= stage (buttonState d) + Z.of_nat (length nows)
    /\ (buttonState d = buttonStateReleased ->
        buttonState d' = buttonStatePressed -> (4 <= length nows)%nat)
    /\ (buttonState d = buttonStatePreCalibrating ->
        buttonState d' = buttonStatePressed -> (7 <= length nows)%nat).
Proof.
  intros Hhooks Hd. pose proof (stage_cycles Hhooks nows c m) as H.
  unfold state_of in H. rewrite Hd in H. cbn in H.
  destruct (sensor (cycles nows c) m) as [d'|]; [|contradiction]. cbn in H.
  exists d'. split; [reflexivity|]. split; [exact H|]. split.
  - intros Hs Hs'. rewrite Hs, Hs' in H. cbn in H. lia.
  - intros Hs Hs'. rewrite Hs, Hs' in H. cbn in H. lia.
Qed.

Lemma plain_method_same_state : hooks_related (H := plain_method) same_state.
Proof.
  unfold hooks_related. cbn. split; [|split].
  - intros ch f ds n H. discriminate H.
  - intros ch f ds n inv [= <-]. cbn.
    apply Forall2_same_length_lookup_2; [reflexivity|].
    intros i x y Hx Hy. rewrite Hx in Hy. injection Hy as <-. reflexivity.
  - intros ch f ds n [= <-].
    apply Forall2_alter_r.
    + apply Forall2_same_length_lookup_2; [reflexivity|].
      intros i x y Hx Hy. rewrite Hx in Hy. injection Hy as <-. reflexivity.
    + intros x y _ _ H. exact H.
Qed.

Lemma stage_per_cycle_witness :
  exists d',
    sensor (cycles (SM := plain_method) [100; 200; 300] pressing_controller) 1
    = Some d'
    /\ buttonState d' <> buttonStatePressed.
Proof.
  destruct (stage_per_cycle (SM := plain_method) [100; 200; 300]
              pressing_controller 1 released_sensor plain_method_same_state
              eq_refl)
    as (d' & Hd' & _ & H4 & _).
  exists d'. split; [exact Hd'|].
  intros Hp. specialize (H4 eq_refl Hp). cbn in H4. lia.
Defined.


(** ** Two transitions of [setState] *)

Lemma mask_selects_0 (n : Z) : mask_selects 0 n = false.
Proof. unfold mask_selects. rewrite Z.land_0_l. reflexivity. Qed.


Lemma switch_Calibrating (d : TLStruct) :
  setState_switch d buttonStateCalibrating
  = (enter_Calibrating d, 0, buttonStateCalibrating).
Proof. reflexivity. Qed.

Lemma switch_illegal (d : TLStruct) :
  setState_switch d buttonStateMax = (d, 0, buttonStatePreCalibrating).
Proof. reflexivity. Qed.

Lemma guard_cleared (d : TLStruct) :
  stateIsBeingChanged d = false -> set_stateIsBeingChanged false d = d.
Proof. intros H. destruct d. cbn in H. subst. reflexivity. Qed.

Lemma enter_Calibrating_guard (b : bool) (d : TLStruct) :
  enter_Calibrating (set_stateIsBeingChanged b d)
  = set_stateIsBeingChanged b (enter_Calibrating d).
Proof.
  unfold enter_Calibrating. cbv zeta.
  cbn [setOffsetValueManually set_stateIsBeingChanged set_counter
         set_noiseCounter set_avg set_maxDelta set_noisePower set_forcedCal].
  destruct (setOffsetValueManually d); reflexivity.
Qed.

Lemma lastSampledAtTime_guard (b : bool) (d : TLStruct) :
  lastSampledAtTime (set_stateIsBeingChanged b d) = lastSampledAtTime d.
Proof. reflexivity. Qed.

Lemma enter_Calibrating_lastSampledAtTime (d : TLStruct) :
  lastSampledAtTime (enter_Calibrating d) = lastSampledAtTime d.
Proof.
  unfold enter_Calibrating. cbv zeta.
  match goal with |- context [negb ?b] => destruct b end; reflexivity.
Qed.

Lemma transition_guard (s : ButtonState) (t : Z) (d : TLStruct) :
  stateIsBeingChanged d = false ->
  set_stateIsBeingChanged false
    (set_buttonState s (set_stateChangedAtTime t (set_stateIsBeingChanged true d)))
  = set_buttonState s (set_stateChangedAtTime t d).
Proof.
  intros H.
  change (set_stateIsBeingChanged false
            (set_buttonState s
               (set_stateChangedAtTime t (set_stateIsBeingChanged true d))))
    with (set_buttonState s
            (set_stateChangedAtTime t (set_stateIsBeingChanged false d))).
  rewrite guard_cleared by exact H. reflexivity.
Qed.

(** A transition whose switch raises no bit of the forced-recalibration mask:
    the sensor gets its new record, and nothing else happens but the call to
    the callback. *)
Lemma setState_without_fan_out (ch : Z) (s s1 : ButtonState) (c : TLSensors)
  (d e e2 : TLStruct) :
  sensor c ch = Some d -> stateIsBeingChanged d = false -> buttonState d <> s ->
  setState_switch d s = (e, 0, s1) ->
  setState_switch (set_stateIsBeingChanged true d) s = (e2, 0, s1) ->
  sensor (setState ch s c) ch
  = Some (finish_transition s1 (negb (bounce_back (buttonState d) s)) e2)
  /\ (forall m, m <> ch -> sensor (setState ch s c) m = sensor c m)
  /\ notifications (setState ch s c)
     = notifications c
       ++ (if checkForMajorChange (buttonState d) s1
              && buttonStateChangeCallback c
           then [(ch, buttonState d, s1)] else [])
  /\ settings (setState ch s c) = settings c.
Proof.
  intros Hd Hg Hs He He2.
  destruct (setState_performed ch s c d Hd Hg Hs)
    as (Hown & Hother & Hnot & Hset).
  rewrite He in Hown, Hother, Hnot. rewrite He2 in Hown.
  cbn [fst snd] in Hown, Hother, Hnot.
  rewrite mask_selects_0 in Hown, Hnot.
  change (nonzero 0) with false in Hother, Hnot.
  rewrite orb_false_r in Hown.
  repeat split; assumption.
Qed.

(** X16.  A transition to [buttonStateCalibrating] that [setState] performs
    restarts the filter of the sensor: both counters, the average, the
    largest delta and the noise power are 0 afterwards, [forcedCal] is
    cleared and [offsetValue] is 0 unless it is set manually; the state is
    [buttonStateCalibrating], entered at the time of the last sample, and
    nothing else in the record has changed.  No other sensor is touched, and
    the callback is called, once, exactly when one is registered and the
    sensor does not come from [buttonStatePreCalibrating]. *)
Theorem setState_enters_Calibrating (c : TLSensors) (ch : Z) (d : TLStruct) :
  sensor c ch = Some d -> stateIsBeingChanged d = false ->
  buttonState d <> buttonStateCalibrating ->
  let c' := setState ch buttonStateCalibrating c in
  let d' :=
    set_buttonState buttonStateCalibrating
      (set_stateChangedAtTime (lastSampledAtTime d) (enter_Calibrating d)) in
  sensor c' ch = Some d'
  /\ (counter d' = 0 /\ noiseCounter d' = 0 /\ avg d' = F32.zero
      /\ maxDelta d' = F32.zero /\ noisePower d' = F32.zero
      /\ forcedCal d' = false
      /\ offsetValue d'
         = (if setOffsetValueManually d then offsetValue d else F32.zero))
  /\ (forall m, m <> ch -> sensor c' m = sensor c m)
  /\ notifications c'
     = notifications c
       ++ (if negb (ButtonState_eqb (buttonState d) buttonStatePreCalibrating)
              && buttonStateChangeCallback c
           then [(ch, buttonState d, buttonStateCalibrating)] else [])
  /\ settings c' = settings c.
Proof.
  intros Hd Hg Hs c' d'.
  destruct (setState_without_fan_out ch _ _ c d _ _ Hd Hg Hs
              (switch_Calibrating d)
              (switch_Calibrating (set_stateIsBeingChanged true d)))
    as (Hown & Hother & Hnot & Hset).
  fold c' in Hown, Hother, Hnot, Hset.
  split; [|split; [|split; [|split]]].
  - rewrite Hown. f_equal. unfold finish_transition, d'.
    assert (Hb : bounce_back (buttonState d) buttonStateCalibrating = false)
      by (destruct (buttonState d); reflexivity).
    rewrite Hb. cbn [negb].
    rewrite enter_Calibrating_guard.
    rewrite lastSampledAtTime_guard, enter_Calibrating_lastSampledAtTime.
    apply transition_guard.
    unfold enter_Calibrating. cbv zeta.
    match goal with |- context [negb ?b] => destruct b end; exact Hg.
  - subst d'. unfold enter_Calibrating. cbv zeta.
    cbn [setOffsetValueManually set_stateIsBeingChanged set_counter
           set_noiseCounter set_avg set_maxDelta set_noisePower set_forcedCal].
    destruct (setOffsetValueManually d); repeat split.
  - exact Hother.
  - rewrite Hnot. cbn [app]. f_equal.
    destruct (buttonState d); reflexivity.
  - exact Hset.
Qed.

Lemma setState_enters_Calibrating_witness :
  sensor (setState 0 buttonStateCalibrating pressed_controller) 0
  = Some (set_buttonState buttonStateCalibrating
            (set_stateChangedAtTime (lastSampledAtTime pressed_sensor)
               (enter_Calibrating pressed_sensor)))
  /\ notifications (setState 0 buttonStateCalibrating pressed_controller)
     = [(0, buttonStatePressed, buttonStateCalibrating)].
Proof.
  destruct (setState_enters_Calibrating pressed_controller 0 pressed_sensor)
    as (H1 & _ & _ & H4 & _).
  - reflexivity.
  - reflexivity.
  - discriminate.
  - split; [exact H1|exact H4].
Defined.

(** X17.  Asked for a state that is none of the ten states of the machine,
    [setState] takes the sensor to [buttonStatePreCalibrating]: the record
    changes in its state and in the time at which the state was entered
    only, no other sensor is touched, and a registered callback is told of
    the transition to [buttonStatePreCalibrating]. *)
Theorem setState_illegal_state (c : TLSensors) (ch : Z) (d : TLStruct) :
  sensor c ch = Some d -> stateIsBeingChanged d = false ->
  buttonState d <> buttonStateMax ->
  let c' := setState ch buttonStateMax c in
  sensor c' ch
  = Some (set_buttonState buttonStatePreCalibrating
            (set_stateChangedAtTime (lastSampledAtTime d) d))
  /\ (forall m, m <> ch -> sensor c' m = sensor c m)
  /\ notifications c'
     = notifications c
       ++ (if buttonStateChangeCallback c
           then [(ch, buttonState d, buttonStatePreCalibrating)] else [])
  /\ settings c' = settings c.
Proof.
  intros Hd Hg Hs c'.
  destruct (setState_without_fan_out ch _ _ c d _ _ Hd Hg Hs
              (switch_illegal d)
              (switch_illegal (set_stateIsBeingChanged true d)))
    as (Hown & Hother & Hnot & Hset).
  fold c' in Hown, Hother, Hnot, Hset.
  split; [|split; [|split]].
  - rewrite Hown. f_equal. unfold finish_transition.
    assert (Hb : bounce_back (buttonState d) buttonStateMax = false)
      by (destruct (buttonState d); reflexivity).
    rewrite Hb. cbn [negb].
    apply transition_guard. exact Hg.
  - exact Hother.
  - rewrite Hnot, checkForMajorChange_PreCalibrating. reflexivity.
  - exact Hset.
Qed.

Lemma setState_illegal_state_witness :
  sensor (setState 0 buttonStateMax pressed_controller) 0
  = Some (set_buttonState buttonStatePreCalibrating
            (set_stateChangedAtTime (lastSampledAtTime pressed_sensor)
               pressed_sensor))
  /\ notifications (setState 0 buttonStateMax pressed_controller)
     = [(0, buttonStatePressed, buttonStatePreCalibrating)].
Proof.
  destruct (setState_illegal_state pressed_controller 0 pressed_sensor)
    as (H1 & _ & H3 & _).
  - reflexivity.
  - reflexivity.
  - discriminate.
  - split; [exact H1|exact H3].
Defined.

(** ** The slew-rate limiter of [addSample] *)

Lemma to_i32_id (z : Z) : int32_range z -> to_i32 z = z.
Proof.
  unfold int32_range, to_i32. intros H.
  rewrite Z.mod_small by lia. lia.
Qed.

Lemma set_raw_same (d : TLStruct) : set_raw (raw d) d = d.
Proof. destruct d. reflexivity. Qed.

Lemma raw_set_raw (v : Z) (d : TLStruct) : raw (set_raw v d) = v.
Proof. reflexivity. Qed.

Lemma set_raw_set_raw (v w : Z) (d : TLStruct) :
  set_raw v (set_raw w d) = set_raw v d.
Proof. reflexivity. Qed.

(** The record of a limited sensor after one more sample. *)
Lemma addSample_limited (c : TLSensors) (ch s : Z) (d : TLStruct) :
  sensor c ch = Some d -> limited d ->
  int32_range (raw d) -> int32_range s ->
  exists r,
    sensor (addSample ch s c) ch = Some (set_raw r d)
    /\ r = raw d + Z.sgn (s - raw d).
Proof.
  intros Hd [Hon Hfirst] Hraw Hs. eexists. split; [|reflexivity].
  unfold addSample. rewrite sensor_update_sensor_eq, Hd.
  cbn [fmap option_fmap option_map]. rewrite Hon, Hfirst. cbv zeta. f_equal.
  unfold int32_range in *.
  destruct (Z.gtb_spec s (raw d)) as [Hgt|Hle].
  - rewrite raw_set_raw, to_i32_id by (unfold int32_range; lia).
    destruct (Z.ltb_spec s (raw d + 1)); [lia|].
    rewrite Z.sgn_pos by lia. reflexivity.
  - destruct (Z.ltb_spec s (raw d)) as [Hlt|Hge].
    + rewrite to_i32_id by (unfold int32_range; lia).
      rewrite Z.sgn_neg by lia. reflexivity.
    + replace s with (raw d) by lia.
      rewrite Z.sub_diag. cbn [Z.sgn]. rewrite Z.add_0_r.
      symmetry. apply set_raw_same.
Qed.

(** X18.  With the slew-rate limiter on and the first sample of the cycle
    taken, [addSample] moves [raw] by one count towards the sample and leaves
    it where it is when it equals the sample: [raw] never passes the sample,
    it does not wrap around, and the two tests of the code never both fire.
    Nothing else in the record and no other sensor changes. *)
Theorem addSample_limited_step (c : TLSensors) (ch s : Z) (d : TLStruct) :
  sensor c ch = Some d -> limited d ->
  int32_range (raw d) -> int32_range s ->
  let c' := addSample ch s c in
  sensor c' ch = Some (set_raw (raw d + Z.sgn (s - raw d)) d)
  /\ (forall m, m <> ch -> sensor c' m = sensor c m).
Proof.
  intros Hd Hl Hraw Hs c'. subst c'.
  destruct (addSample_limited c ch s d Hd Hl Hraw Hs) as (r & Hr & ->).
  split; [exact Hr|].
  intros m Hm. unfold addSample. apply sensor_update_sensor_ne. exact Hm.
Qed.

Lemma addSample_limited_step_witness :
  sensor (addSample 0 250 limited_controller) 0
  = Some (set_raw 101 limited_sensor)
  /\ sensor (addSample 0 (-7) limited_controller) 0
     = Some (set_raw 99 limited_sensor).
Proof.
  split.
  - apply (addSample_limited_step limited_controller 0 250 limited_sensor).
    + reflexivity.
    + split; reflexivity.
    + unfold int32_range. cbn. lia.
    + unfold int32_range. lia.
  - apply (addSample_limited_step limited_controller 0 (-7) limited_sensor).
    + reflexivity.
    + split; reflexivity.
    + unfold int32_range. cbn. lia.
    + unfold int32_range. lia.
Defined.

Lemma limited_set_raw (v : Z) (d : TLStruct) : limited d -> limited (set_raw v d).
Proof. intros H. exact H. Qed.

Lemma addSamples_other (ch m : Z) (ss : list Z) (c : TLSensors) :
  m <> ch -> sensor (addSamples ch ss c) m = sensor c m.
Proof.
  intros Hm. revert c. unfold addSamples.
  induction ss as [|s ss IH]; intros c; [reflexivity|].
  cbn [fold_left]. rewrite IH. unfold addSample.
  apply sensor_update_sensor_ne. exact Hm.
Qed.

(** X19.  The limiter bounds the slew of [raw] over any run of samples: after
    [n] samples [raw] is at most [n] counts from where it was, and it stays
    within every interval that holds it and the samples.  When the samples
    are all the same value [s], [raw] walks to [s] one count per sample and
    stays there. *)
Theorem addSamples_limited (c : TLSensors) (ch : Z) (ss : list Z) (d : TLStruct) :
  sensor c ch = Some d -> limited d ->
  int32_range (raw d) -> Forall int32_range ss ->
  exists r,
    sensor (addSamples ch ss c) ch = Some (set_raw r d)
    /\ Z.abs (r - raw d) <= Z.of_nat (length ss)
    /\ (forall lo hi, lo <= raw d <= hi -> Forall (fun s => lo <= s <= hi) ss ->
                      lo <= r <= hi)
    /\ (forall s, Forall (eq s) ss ->
          r = if Z.of_nat (length ss) <? Z.abs (s - raw d)
              then raw d + Z.sgn (s - raw d) * Z.of_nat (length ss)
              else match ss with [] => raw d | _ => s end).
Proof.
  intros Hd Hl Hraw Hss. revert c d Hd Hl Hraw.
  induction Hss as [|s ss Hs Hss IH]; intros c d Hd Hl Hraw.
  - exists (raw d). cbn [addSamples fold_left length].
    rewrite set_raw_same. split; [exact Hd|]. split; [lia|].
    split; [intros lo hi H _; exact H|].
    intros s _. destruct (Z.ltb_spec (Z.of_nat 0) (Z.abs (s - raw d))); lia.
  - destruct (addSample_limited c ch s d Hd Hl Hraw Hs) as (r1 & H1 & Hr1).
    assert (Hrange1 : int32_range r1).
    { unfold int32_range in *. subst r1.
      destruct (Z.sgn_spec (s - raw d)) as [[? ->]|[[? ->]|[? ->]]]; lia. }
    destruct (IH (addSample ch s c) (set_raw r1 d) H1
                (limited_set_raw r1 d Hl) Hrange1)
      as (r & Hr & Hslew & Hhull & Hsame).
    rewrite raw_set_raw in Hslew, Hhull, Hsame.
    rewrite set_raw_set_raw in Hr.
    exists r. split; [exact Hr|].
    assert (Hstep : Z.abs (r1 - raw d) <= 1
                    /\ (raw d <= r1 <= s \/ s <= r1 <= raw d)).
    { subst r1.
      destruct (Z.sgn_spec (s - raw d)) as [[? ->]|[[? ->]|[? ->]]]; lia. }
    split; [|split].
    + cbn [length]. lia.
    + intros lo hi Hlo Hall. apply Forall_cons in Hall as [Hs' Hall].
      apply Hhull; [lia|exact Hall].
    + intros s' Hall. apply Forall_cons in Hall as [<- Hall].
      rewrite (Hsame s' Hall). cbn [length]. subst r1.
      destruct (Z.sgn_spec (s' - raw d)) as [[? E]|[[? E]|[? E]]];
        rewrite E;
        repeat match goal with
               | |- context [Z.ltb ?a ?b] => destruct (Z.ltb_spec a b)
               end;
        destruct ss; cbn [length] in *;
        try rewrite Z.sgn_pos by lia; try rewrite Z.sgn_neg by lia;
        try lia.
Qed.

Lemma addSamples_limited_witness :
  exists r,
    sensor (addSamples 0 [103; 103; 103; 103; 103] limited_controller) 0
    = Some (set_raw r limited_sensor)
    /\ r = 103.
Proof.
  destruct (addSamples_limited limited_controller 0 [103; 103; 103; 103; 103]
              limited_sensor) as (r & Hr & _ & _ & Hsame).
  - reflexivity.
  - split; reflexivity.
  - unfold int32_range. cbn. lia.
  - repeat constructor; unfold int32_range; lia.
  - exists r. split; [exact Hr|].
    rewrite (Hsame 103) by (repeat constructor). reflexivity.
Defined.
(** ** The touch state machine switched off, and the clock wrapping around *)

Lemma enableTouchStateMachine_delta (d : TLStruct) :
  enableTouchStateMachine (processSample_delta d) = enableTouchStateMachine d.
Proof.
  unfold processSample_delta. cbv zeta.
  repeat match goal with
         | |- context [if ?b then _ else _] => destruct b
         | |- context [match ?x with directionNegative => _ | _ => _ end] =>
             destruct x
         end; reflexivity.
Qed.

Lemma sensor_updateAvg_ne (ch m : Z) (c : TLSensors) :
  m <> ch -> sensor (updateAvg ch c) m = sensor c m.
Proof.
  intros Hm. unfold updateAvg. destruct (sensor c ch); [|reflexivity].
  split_ifs; try reflexivity. apply sensor_update_sensor_ne. exact Hm.
Qed.

Lemma notifications_updateAvg (ch : Z) (c : TLSensors) :
  notifications (updateAvg ch c) = notifications c.
Proof.
  unfold updateAvg. destruct (sensor c ch); [|reflexivity].
  split_ifs; try reflexivity. apply notifications_update_sensor.
Qed.

(** With the touch state machine off, the [switch] of [processSample] does
    nothing for a sensor past the calibration but to update the average of a
    released one. *)
Lemma processSample_switch_disabled (c : TLSensors) (ch : Z) (d : TLStruct) :
  sensor c ch = Some d -> enableTouchStateMachine d = false ->
  touch_state (buttonState d) ->
  processSample_switch (buttonState d) ch c
  = if ButtonState_eqb (buttonState d) buttonStateReleased
    then updateAvg ch c else c.
Proof.
  intros Hd Hoff [Hlo Hhi].
  destruct (buttonState d); cbn in Hlo, Hhi; try lia;
    cbn [processSample_switch ButtonState_eqb ButtonState_value Z.eqb Pos.eqb];
    unfold processStateReleased, processStateReleasedToApproached,
      processStateApproached, processStateApproachedToPressed,
      processStateApproachedToReleased, processStatePressed,
      processStatePressedToApproached;
    rewrite Hd, Hoff; reflexivity.
Qed.

(** X20.  With [enableTouchStateMachine] off, a sensor that has reached
    [buttonStateReleased] or any later state of the touch state machine
    stays in its state whatever it measures: [processSample] calls no
    callback and touches no other sensor, and in every state but
    [buttonStateReleased] all it does to the sensor is to update [delta],
    [maxDelta] and the label. *)
Theorem touch_machine_disabled (c : TLSensors) (ch : Z) (d : TLStruct) :
  sensor c ch = Some d -> enableTouchStateMachine d = false ->
  touch_state (buttonState d) ->
  let c' := processSample ch c in
  state_of c' ch = Some (buttonState d)
  /\ (forall m, m <> ch -> sensor c' m = sensor c m)
  /\ notifications c' = notifications c
  /\ (buttonState d <> buttonStateReleased ->
      sensor c' ch
      = Some (set_buttonStateLabel (buttonStateLabels (buttonState d))
                (processSample_delta d))).
Proof.
  intros Hd Hoff Hts c'. subst c'. unfold processSample. cbv zeta.
  set (c1 := update_sensor ch processSample_delta c).
  assert (H1 : sensor c1 ch = Some (processSample_delta d)).
  { unfold c1. rewrite sensor_update_sensor_eq, Hd. reflexivity. }
  rewrite H1.
  assert (Hsw := processSample_switch_disabled c1 ch (processSample_delta d) H1).
  rewrite enableTouchStateMachine_delta, processSample_delta_buttonState in Hsw.
  rewrite processSample_delta_buttonState.
  rewrite (Hsw Hoff Hts). clear Hsw.
  set (c2 := if ButtonState_eqb (buttonState d) buttonStateReleased
             then updateAvg ch c1 else c1).
  assert (Hstate : forall m, state_of c2 m = state_of c m).
  { intros m. unfold c2.
    destruct (ButtonState_eqb (buttonState d) buttonStateReleased);
      [rewrite state_of_updateAvg|];
      apply state_of_update_sensor, processSample_delta_buttonState. }
  split; [|split; [|split]].
  - rewrite state_of_update_sensor by reflexivity.
    rewrite Hstate. unfold state_of. rewrite Hd. reflexivity.
  - intros m Hm. rewrite sensor_update_sensor_ne by exact Hm.
    unfold c2.
    destruct (ButtonState_eqb (buttonState d) buttonStateReleased);
      [rewrite sensor_updateAvg_ne by exact Hm|];
      apply sensor_update_sensor_ne; exact Hm.
  - rewrite notifications_update_sensor. unfold c2.
    destruct (ButtonState_eqb (buttonState d) buttonStateReleased);
      [rewrite notifications_updateAvg|];
      apply notifications_update_sensor.
  - intros Hne. apply ButtonState_eqb_neq in Hne.
    unfold c2. rewrite Hne.
    rewrite sensor_update_sensor_eq, H1. cbn [fmap option_fmap option_map].
    rewrite processSample_delta_buttonState. reflexivity.
Qed.

Lemma touch_machine_disabled_witness :
  state_of (processSample 0 tuning_controller) 0 = Some buttonStateApproached
  /\ notifications (processSample 0 tuning_controller) = [].
Proof.
  destruct (touch_machine_disabled tuning_controller 0 tuning_sensor)
    as (H1 & _ & H3 & _).
  - reflexivity.
  - reflexivity.
  - unfold touch_state. cbn. lia.
  - split; [exact H1|exact H3].
Defined.

(** The time a sensor has spent in its state is right across a wrap-around
    of the millisecond clock. *)
Lemma elapsed_wraps (d : TLStruct) (k : Z) :
  uint32_range (stateChangedAtTime d) -> uint32_range k ->
  lastSampledAtTime d = to_u32 (stateChangedAtTime d + k) ->
  elapsed d = k.
Proof.
  unfold uint32_range, elapsed, to_u32. intros Ht Hk ->.
  rewrite Zminus_mod_idemp_l.
  replace (stateChangedAtTime d + k - stateChangedAtTime d) with k by lia.
  apply Z.mod_small. exact Hk.
Qed.

Lemma elapsed_delta (d : TLStruct) : elapsed (processSample_delta d) = elapsed d.
Proof.
  unfold elapsed, processSample_delta. cbv zeta.
  repeat match goal with
         | |- context [if ?b then _ else _] => destruct b
         | |- context [match ?x with directionNegative => _ | _ => _ end] =>
             destruct x
         end; reflexivity.
Qed.

Lemma preCalibrationTime_delta (d : TLStruct) :
  preCalibrationTime (processSample_delta d) = preCalibrationTime d.
Proof.
  unfold processSample_delta. cbv zeta.
  repeat match goal with
         | |- context [if ?b then _ else _] => destruct b
         | |- context [match ?x with directionNegative => _ | _ => _ end] =>
             destruct x
         end; reflexivity.
Qed.

Lemma stateIsBeingChanged_delta (d : TLStruct) :
  stateIsBeingChanged (processSample_delta d) = stateIsBeingChanged d.
Proof.
  unfold processSample_delta. cbv zeta.
  repeat match goal with
         | |- context [if ?b then _ else _] => destruct b
         | |- context [match ?x with directionNegative => _ | _ => _ end] =>
             destruct x
         end; reflexivity.
Qed.

Lemma lastSampledAtTime_delta (d : TLStruct) :
  lastSampledAtTime (processSample_delta d) = lastSampledAtTime d.
Proof.
  unfold processSample_delta. cbv zeta.
  repeat match goal with
         | |- context [if ?b then _ else _] => destruct b
         | |- context [match ?x with directionNegative => _ | _ => _ end] =>
             destruct x
         end; reflexivity.
Qed.

Lemma stateChangedAtTime_delta (d : TLStruct) :
  stateChangedAtTime (processSample_delta d) = stateChangedAtTime d.
Proof.
  unfold processSample_delta. cbv zeta.
  repeat match goal with
         | |- context [if ?b then _ else _] => destruct b
         | |- context [match ?x with directionNegative => _ | _ => _ end] =>
             destruct x
         end; reflexivity.
Qed.

(** X21.  The pre-calibration time is measured across a wrap-around of the
    millisecond clock: a sensor that entered [buttonStatePreCalibrating] at
    the time [t0] and is sampled [k] ms later, at the time [t0 + k] modulo
    [2^32], goes on to [buttonStateCalibrating] exactly when [k] has reached
    [preCalibrationTime], and the new state then counts from the time of
    this sample. *)
Theorem preCalibration_across_wrap (c : TLSensors) (ch k : Z) (d : TLStruct) :
  sensor c ch = Some d -> buttonState d = buttonStatePreCalibrating ->
  stateIsBeingChanged d = false ->
  uint32_range (stateChangedAtTime d) -> uint32_range k ->
  lastSampledAtTime d = to_u32 (stateChangedAtTime d + k) ->
  exists d',
    sensor (processSample ch c) ch = Some d'
    /\ buttonState d'
       = (if k >=? preCalibrationTime d then buttonStateCalibrating
          else buttonStatePreCalibrating)
    /\ stateChangedAtTime d'
       = (if k >=? preCalibrationTime d then lastSampledAtTime d
          else stateChangedAtTime d).
Proof.
  intros Hd Hs Hg Ht Hk Hlast.
  pose proof (elapsed_wraps d k Ht Hk Hlast) as Hel.
  unfold processSample. cbv zeta.
  set (c1 := update_sensor ch processSample_delta c).
  assert (H1 : sensor c1 ch = Some (processSample_delta d)).
  { unfold c1. rewrite sensor_update_sensor_eq, Hd. reflexivity. }
  rewrite H1, processSample_delta_buttonState, Hs.
  cbn [processSample_switch]. unfold processStatePreCalibrating.
  rewrite H1, elapsed_delta, preCalibrationTime_delta, Hel.
  destruct (k >=? preCalibrationTime d).
  - assert (Hg1 : stateIsBeingChanged (processSample_delta d) = false)
      by (rewrite stateIsBeingChanged_delta; exact Hg).
    assert (Hs1 : buttonState (processSample_delta d) <> buttonStateCalibrating)
      by (rewrite processSample_delta_buttonState, Hs; discriminate).
    destruct (setState_without_fan_out ch _ _ c1 (processSample_delta d) _ _
                H1 Hg1 Hs1 (switch_Calibrating (processSample_delta d))
                (switch_Calibrating
                   (set_stateIsBeingChanged true (processSample_delta d))))
      as (Hown & _).
    rewrite sensor_update_sensor_eq, Hown.
    eexists. split; [reflexivity|].
    rewrite processSample_delta_buttonState, Hs.
    cbn [bounce_back ButtonState_eqb ButtonState_value Z.eqb andb orb negb
           finish_transition].
    split; [reflexivity|].
    unfold finish_transition.
    cbn [stateChangedAtTime set_buttonStateLabel set_stateIsBeingChanged
           set_buttonState set_stateChangedAtTime].
    rewrite enter_Calibrating_lastSampledAtTime, lastSampledAtTime_guard.
    apply lastSampledAtTime_delta.
  - rewrite sensor_update_sensor_eq, H1.
    eexists. split; [reflexivity|].
    cbn [set_buttonStateLabel buttonState stateChangedAtTime].
    split.
    + rewrite processSample_delta_buttonState. exact Hs.
    + apply stateChangedAtTime_delta.
Qed.

Lemma preCalibration_across_wrap_witness :
  exists d',
    sensor (processSample 0 wrapping_controller) 0 = Some d'
    /\ buttonState d' = buttonStateCalibrating
    /\ stateChangedAtTime d' = 60.
Proof.
  apply (preCalibration_across_wrap wrapping_controller 0 100 wrapping_sensor).
  - reflexivity.
  - reflexivity.
  - reflexivity.
  - unfold uint32_range. cbn. lia.
  - unfold uint32_range. lia.
  - reflexivity.
Defined.
(** ** The constructor *)

Lemma for_loop_nonpositive {S : Type} (n : Z) (body : Z -> S -> S) (s : S) :
  n <= 0 -> for_loop n body s = s.
Proof.
  intros Hn. unfold for_loop.
  replace (Z.to_nat n) with O by lia. reflexivity.
Qed.

(** X22.  The constructor refuses template arguments below 1: it sets the
    error code to -1 and does nothing else.  It draws no random number,
    builds no schedule, sets no default, touches no sensor record and does
    not read the EEPROM; and with no sensor at all it leaves even [nSensors]
    unassigned. *)
Theorem TLSensors_construct_refuses {RG : Random} {SM : SampleMethods}
  (M now : Z) (e : EEPROM) (g : generator) (memory : TLSensors) :
  N_SENSORS memory < 1 \/ M < 1 ->
  TLSensors_construct M now e (g, memory)
  = (g, set_error (-1)
          (if N_SENSORS memory <? 1 then memory
           else set_nSensors (N_SENSORS memory) memory)).
Proof.
  intros Hbad. unfold TLSensors_construct.
  change (N_SENSORS (set_error 0 memory)) with (N_SENSORS memory).
  destruct (Z.ltb_spec (N_SENSORS memory) 1) as [HN|HN].
  - reflexivity.
  - assert (HM : (M >=? 1) = false) by lia.
    cbn [error set_error set_nSensors]. rewrite HM. reflexivity.
Qed.

Lemma TLSensors_construct_refuses_witness :
  TLSensors_construct (H := lcg_random) (H0 := plain_method) 0 0 erased_eeprom
    (1, example_controller [example_sensor])
  = (1, set_error (-1) (example_controller [example_sensor])).
Proof.
  apply (TLSensors_construct_refuses (RG := lcg_random) (SM := plain_method)
           0 0 erased_eeprom 1 (example_controller [example_sensor])).
  right. lia.
Defined.

(** *** What the initialisation keeps of the two dimensions *)

Lemma dimensions_settings (c c' : TLSensors) :
  settings c' = settings c -> dimensions c' = dimensions c.
Proof. unfold settings, dimensions. intros H. injection H. congruence. Qed.

Lemma addChannel_dimensions {RG : Random} (ch : Z) (st : generator * TLSensors) :
  dimensions (snd (addChannel ch st)) = dimensions (snd st).
Proof.
  destruct st as [g c]. unfold addChannel.
  destruct (random _ _ g) as [r g'].
  destruct (addChannel_probe _ _ _ _ _ _) as [so err]. reflexivity.
Qed.

Lemma initScanOrder_dimensions {RG : Random} (st : generator * TLSensors) :
  dimensions (snd (initScanOrder st)) = dimensions (snd st).
Proof.
  destruct st as [g c]. unfold initScanOrder. cbn [snd].
  apply (for_loop_invariant (fun st => dimensions (snd st) = dimensions c)).
  - cbn [snd].
    apply (for_loop_invariant (fun s => dimensions s = dimensions c));
      [reflexivity|].
    intros i s _ Hs. exact Hs.
  - intros _ st _ Hst.
    apply (for_loop_invariant (fun st => dimensions (snd st) = dimensions c));
      [exact Hst|].
    intros n st' _ Hst'. rewrite addChannel_dimensions. exact Hst'.
Qed.

Lemma initialize_dimensions {SM : SampleMethods} (n : Z) (c : TLSensors) :
  dimensions (snd (initialize n c)) = dimensions c.
Proof.
  unfold initialize.
  destruct (sampleMethod (data c) (nSensors c) n) as [ret ds].
  destruct (nonzero ret); cbn [snd];
    change (dimensions (set_error (-1) ?x)) with (dimensions x);
    rewrite (dimensions_settings _ _ (setState_settings n _ (set_data ds c)));
    reflexivity.
Qed.

Lemma setDefaults_dimensions {RG : Random} {SM : SampleMethods}
  (st : generator * TLSensors) :
  dimensions (snd (snd (setDefaults st))) = dimensions (snd st).
Proof.
  destruct st as [g c]. unfold setDefaults. cbn [snd].
  set (c1 := if nSensors (set_error 0 c) <? 1 then _ else _).
  assert (H1 : dimensions c1 = dimensions c).
  { unfold c1. destruct (_ <? 1); reflexivity. }
  set (c2 := if error c1 =? 0 then _ else c1).
  assert (H2 : dimensions c2 = dimensions c).
  { unfold c2. destruct (error c1 =? 0); exact H1. }
  clearbody c2.
  match goal with
  | |- context [let '(_, _) := ?X in _] =>
      assert (H3 : dimensions (snd X) = dimensions c);
      [|destruct X as [g3 c3]]
  end.
  { destruct (error c2 =? 0); [|exact H2].
    change (negb (useCustomScanOrder
                    (set_useCustomScanOrder TL_USE_CUSTOM_SCAN_ORDER_DEFAULT c2)))
      with true. cbv iota.
    rewrite initScanOrder_dimensions. exact H2. }
  cbn [snd] in *.
  set (c4 := if error c3 =? 0 then _ else c3).
  assert (H4 : dimensions c4 = dimensions c).
  { unfold c4. destruct (error c3 =? 0); exact H3. }
  clearbody c4.
  destruct (error c4 =? 0); [|exact H4].
  apply for_loop_invariant; [exact H4|].
  intros n s _ Hs.
  rewrite (dimensions_settings _ _ (settings_update_sensor n _ _)).
  rewrite initialize_dimensions. exact Hs.
Qed.

Lemma readSettingsFromEeprom_without_data (e : EEPROM) (c : TLSensors) :
  set_error 0 (without_data (readSettingsFromEeprom e c))
  = set_error 0 (without_data c).
Proof.
  destruct (readSettingsFromEeprom_spec e c) as (H1 & H2 & H3 & H4).
  destruct (capacity_ok_dec e c) as [Hcap|Hcap]; [|rewrite (H1 Hcap); reflexivity].
  destruct (Z.eq_dec (error c) 0) as [Herr|Herr];
    [|rewrite (H2 Hcap Herr); reflexivity].
  destruct (record_rejected_dec e c) as [Hrej|Hrej];
    [rewrite (H3 Hcap Herr Hrej); reflexivity|].
  rewrite (H4 Hcap Herr Hrej).
  destruct (apply_pass_sensor e c) as [Hw _]. rewrite Hw. reflexivity.
Qed.

Lemma readSettingsFromEeprom_dimensions (e : EEPROM) (c : TLSensors) :
  dimensions (readSettingsFromEeprom e c) = dimensions c.
Proof.
  change (dimensions (set_error 0 (without_data (readSettingsFromEeprom e c)))
          = dimensions (set_error 0 (without_data c))).
  rewrite readSettingsFromEeprom_without_data. reflexivity.
Qed.

Lemma readSettingsFromEeprom_error (e : EEPROM) (c : TLSensors) :
  error c = 0 -> error (readSettingsFromEeprom e c) <> -1.
Proof.
  intros Herr.
  destruct (readSettingsFromEeprom_spec e c) as (H1 & H2 & H3 & H4).
  destruct (capacity_ok_dec e c) as [Hcap|Hcap];
    [|rewrite (H1 Hcap); discriminate].
  destruct (record_rejected_dec e c) as [Hrej|Hrej];
    [rewrite (H3 Hcap Herr Hrej); discriminate|].
  rewrite (H4 Hcap Herr Hrej).
  destruct (apply_pass_sensor e c) as [Hw _].
  change (error (without_data (apply_pass e c)) <> -1).
  rewrite Hw. cbn [without_data error set_data]. rewrite Herr. discriminate.
Qed.

(** *** The sensor records after the constructor *)

Lemma freshly_constructed_construct_sensor (now M : Z) (d : TLStruct) :
  buttonIsCalibrating d = false -> buttonIsReleased d = false ->
  buttonIsApproached d = false -> buttonIsPressed d = false ->
  freshly_constructed now M (construct_sensor now M (forced_PreCalibrating d)).
Proof.
  intros H1 H2 H3 H4. unfold freshly_constructed, construct_sensor. cbv zeta.
  assert (Hs : stateIsBeingChanged (forced_PreCalibrating d) = true
               \/ buttonState (forced_PreCalibrating d)
                  = buttonStatePreCalibrating).
  { unfold forced_PreCalibrating.
    destruct (stateIsBeingChanged d) eqn:Hg; [left; exact Hg|].
    destruct (ButtonState_eqb (buttonState d) buttonStatePreCalibrating) eqn:Hb.
    - right. apply ButtonState_eqb_eq. exact Hb.
    - right. reflexivity. }
  assert (Hf : buttonIsCalibrating (forced_PreCalibrating d) = false
               /\ buttonIsReleased (forced_PreCalibrating d) = false
               /\ buttonIsApproached (forced_PreCalibrating d) = false
               /\ buttonIsPressed (forced_PreCalibrating d) = false).
  { unfold forced_PreCalibrating. destruct (_ || _); cbn; auto. }
  generalize dependent (forced_PreCalibrating d). intros d1 Hs Hf.
  cbn. repeat split; try reflexivity; tauto.
Qed.

Lemma construct_loop_fresh (now : Z) (c : TLSensors) (rounds : nat) :
  let c' :=
    for_upto rounds
      (fun n c =>
         let c := resetButtonStateSummaries n c in
         let c := setState n buttonStatePreCalibrating c in
         update_sensor n (construct_sensor now (nMeasurementsPerSensor c)) c) c in
  settings c' = settings c
  /\ forall n d, 0 <= n < Z.of_nat rounds -> sensor c' n = Some d ->
                 freshly_constructed now (nMeasurementsPerSensor c) d.
Proof.
  apply (for_upto_invariant
           (fun k c' =>
              settings c' = settings c
              /\ forall n d, 0 <= n < Z.of_nat k -> sensor c' n = Some d ->
                   freshly_constructed now (nMeasurementsPerSensor c) d)).
  - split; [reflexivity|]. intros n d Hn. lia.
  - intros k s Hk [Hset IH]. cbv zeta.
    set (s1 := resetButtonStateSummaries (Z.of_nat k) s).
    assert (Hset1 : settings s1 = settings s)
      by (unfold s1, resetButtonStateSummaries; apply settings_update_sensor).
    destruct (setState_nested_spec (Z.of_nat k) s1) as (Hsen & _ & Hset2).
    cbv zeta in Hsen, Hset2.
    rewrite <- (setState_with_PreCalibrating setState_nested) in Hsen, Hset2.
    fold setState in Hsen, Hset2.
    split.
    + rewrite settings_update_sensor, Hset2, Hset1. exact Hset.
    + intros n d Hn Hd.
      rewrite sensor_update_sensor, Hsen in Hd.
      destruct (Z.eqb_spec n (Z.of_nat k)) as [->|Hne].
      * rewrite (settings_nMeasurementsPerSensor _ _ Hset2) in Hd.
        unfold s1, resetButtonStateSummaries in Hd.
        rewrite sensor_update_sensor_eq in Hd.
        destruct (sensor s (Z.of_nat k)) as [d0|]; [|discriminate Hd].
        cbn [fmap option_fmap option_map] in Hd. injection Hd as <-.
        fold (resetButtonStateSummaries (Z.of_nat k) s). fold s1.
        rewrite (settings_nMeasurementsPerSensor _ _ Hset1).
        rewrite (settings_nMeasurementsPerSensor _ _ Hset).
        apply freshly_constructed_construct_sensor; reflexivity.
      * unfold s1, resetButtonStateSummaries in Hd.
        rewrite sensor_update_sensor_ne in Hd by exact Hne.
        apply (IH n); [lia|exact Hd].
Qed.

Lemma readSettingsFromEeprom_keeps_fresh (now M : Z) (e : EEPROM)
  (c : TLSensors) :
  kept (freshly_constructed now M) (data c) (data (readSettingsFromEeprom e c)).
Proof.
  apply readSettingsFromEeprom_related; [tauto|apply kept_trans|..];
    intros; unfold freshly_constructed in *; cbn; tauto.
Qed.

(** X23.  When the constructor has not given up with the error -1, the
    controller has the two template arguments as its dimensions, both at
    least 1, and each of its sensors is freshly constructed (see
    [freshly_constructed]), whatever the EEPROM held and whatever the sample
    method did to the records when it was initialised. *)
Theorem TLSensors_construct_fresh {RG : Random} {SM : SampleMethods}
  (M now : Z) (e : EEPROM) (g : generator) (memory : TLSensors) :
  let c := snd (TLSensors_construct M now e (g, memory)) in
  error c <> -1 ->
  (1 <= N_SENSORS memory /\ 1 <= M /\ dimensions c = (N_SENSORS memory, M))
  /\ forall n d, 0 <= n < nSensors c -> sensor c n = Some d ->
                 freshly_constructed now M d.
Proof.
  unfold TLSensors_construct. cbv zeta.
  change (N_SENSORS (set_error 0 memory)) with (N_SENSORS memory).
  destruct (Z.ltb_spec (N_SENSORS memory) 1) as [HN|HN].
  { cbn. intros H. contradiction H. reflexivity. }
  cbn [error set_error set_nSensors Z.eqb andb].
  destruct (Z.geb_spec M 1) as [HM|HM].
  2:{ cbn. intros H. contradiction H. reflexivity. }
  set (c2 := set_nMeasurementsPerSensor M _).
  assert (D2 : dimensions c2 = (N_SENSORS memory, M)) by reflexivity.
  assert (E2 : error_0_or_minus_1 c2) by (left; reflexivity).
  clearbody c2.
  set (X3 := if error c2 =? 0 then initScanOrder (g, c2) else (g, c2)).
  assert (H3 : error_0_or_minus_1 (snd X3)
               /\ dimensions (snd X3) = (N_SENSORS memory, M)).
  { unfold X3. destruct (error c2 =? 0); [|split; assumption].
    split; [apply initScanOrder_error; exact E2|].
    rewrite initScanOrder_dimensions. exact D2. }
  clearbody X3. destruct X3 as [g3 c3]. cbn [snd] in H3.
  destruct H3 as [E3 D3].
  set (X4 := if error c3 =? 0 then snd (setDefaults (g3, c3)) else (g3, c3)).
  assert (H4 : error_0_or_minus_1 (snd X4)
               /\ dimensions (snd X4) = (N_SENSORS memory, M)).
  { unfold X4. destruct (error c3 =? 0); [|split; assumption].
    split; [apply setDefaults_error|].
    rewrite setDefaults_dimensions. exact D3. }
  clearbody X4. destruct X4 as [g4 c4]. cbn [snd] in *.
  destruct H4 as [E4 D4].
  destruct (Z.eqb_spec (error c4) 0) as [Herr|Herr].
  2:{ rewrite (proj2 (Z.eqb_neq _ _) Herr). cbn [andb].
      intros Hne. destruct E4; contradiction. }
  intros _.
  assert (HnS : nSensors c4 = N_SENSORS memory)
    by (unfold dimensions in D4; congruence).
  assert (HnM : nMeasurementsPerSensor c4 = M)
    by (unfold dimensions in D4; congruence).
  set (c5 := for_loop (nSensors c4) _ c4).
  assert (H5 : settings c5 = settings c4
               /\ forall n d, 0 <= n < Z.of_nat (Z.to_nat (nSensors c4)) ->
                    sensor c5 n = Some d ->
                    freshly_constructed now (nMeasurementsPerSensor c4) d)
    by exact (construct_loop_fresh now c4 (Z.to_nat (nSensors c4))).
  destruct H5 as [Hset Hfresh]. rewrite HnS, HnM in Hfresh.
  clearbody c5.
  assert (D5 : dimensions c5 = (N_SENSORS memory, M))
    by (rewrite (dimensions_settings _ _ Hset); exact D4).
  assert (HnS5 : nSensors c5 = N_SENSORS memory)
    by (unfold dimensions in D5; congruence).
  destruct (_ && _).
  - split.
    + rewrite readSettingsFromEeprom_dimensions. auto with zarith.
    + intros n d Hn Hd.
      rewrite readSettingsFromEeprom_nSensors, HnS5 in Hn.
      destruct (related_lookup_r _ _ _ _ _
                  (readSettingsFromEeprom_keeps_fresh now M e c5) Hd)
        as (d5 & Hd5 & Hkeep).
      apply Hkeep. apply (Hfresh n); [lia|exact Hd5].
  - split; [auto with zarith|].
    intros n d Hn Hd. rewrite HnS5 in Hn.
    apply (Hfresh n); [lia|exact Hd].
Qed.

Lemma TLSensors_construct_fresh_witness :
  let c :=
    snd (TLSensors_construct (H := lcg_random) (H0 := plain_method) 2 77
           erased_eeprom
           (1, example_controller [pressed_sensor; released_sensor])) in
  dimensions c = (2, 2)
  /\ forall d, sensor c 1 = Some d -> freshly_constructed 77 2 d.
Proof.
  destruct (TLSensors_construct_fresh (RG := lcg_random) (SM := plain_method)
              2 77 erased_eeprom 1
              (example_controller [pressed_sensor; released_sensor]))
    as ((_ & _ & Hdim) & Hfresh).
  - vm_compute. discriminate.
  - split; [exact Hdim|].
    intros d Hd. apply (Hfresh 1); [|exact Hd].
    vm_compute. split; [discriminate|reflexivity].
Defined.
(** ** [findSensorPair] and [printBar] *)

Lemma first_with_pin_nil (pins : list Z) (pin : Z) :
  first_with_pin pins pin [] = -1.
Proof. reflexivity. Qed.

Lemma first_with_pin_cons (pins : list Z) (pin k : Z) (ks : list Z) :
  first_with_pin pins pin (k :: ks)
  = if pin =? pin_of pins k then k else first_with_pin pins pin ks.
Proof.
  unfold first_with_pin. cbn [find].
  destruct (pin =? pin_of pins k); reflexivity.
Qed.

Lemma first_with_pin_cases (pins : list Z) (pin : Z) (ks : list Z) :
  (first_with_pin pins pin ks = -1
   /\ forall k, k ∈ ks -> pin_of pins k <> pin)
  \/ (first_with_pin pins pin ks ∈ ks
      /\ pin_of pins (first_with_pin pins pin ks) = pin).
Proof.
  induction ks as [|k ks IH].
  - left. split; [reflexivity|]. intros k Hk. inversion Hk.
  - rewrite first_with_pin_cons.
    destruct (Z.eqb_spec pin (pin_of pins k)) as [Heq|Hne].
    + right. split; [left|congruence].
    + destruct IH as [[Hnone Hall]|[Hin Hpin]].
      * left. split; [exact Hnone|].
        intros k' Hk'. apply elem_of_cons in Hk' as [->|Hk'];
          [congruence|apply Hall; exact Hk'].
      * right. split; [right; exact Hin|exact Hpin].
Qed.

Section FindSensorPair.

Variables (pins : list Z) (pin ch : Z).
Hypothesis ch_range : 0 <= ch < Z.of_nat (length pins).

(** The loop below [ch]: the sensors from [k] up to [ch]. *)
Lemma findSensorPair_loop_below (n rounds : nat) (k : Z) :
  0 <= k -> k + Z.of_nat n = ch -> (n < rounds)%nat ->
  findSensorPair_loop rounds pins pin ch k
  = Some (first_with_pin pins pin (seqZ k (Z.of_nat n))).
Proof.
  revert rounds k. induction n as [|n IH]; intros rounds k Hk Hsum Hr;
    (destruct rounds as [|rounds]; [lia|]); cbn [findSensorPair_loop].
  - replace k with ch by lia. rewrite Z.eqb_refl. reflexivity.
  - destruct (Z.eqb_spec k ch) as [|_]; [lia|].
    destruct (Z.geb_spec k (Z.of_nat (length pins))) as [|_]; [lia|].
    rewrite seqZ_cons by lia. rewrite first_with_pin_cons.
    fold (pin_of pins k).
    destruct (pin =? pin_of pins k); [reflexivity|].
    replace (Z.pred (Z.of_nat (Datatypes.S n))) with (Z.of_nat n) by lia.
    apply IH; lia.
Qed.

(** The loop at or past the end of the array: it goes on from sensor 0. *)
Lemma findSensorPair_loop_wrap (rounds : nat) (k : Z) :
  Z.of_nat (length pins) <= k -> (Z.to_nat ch + 1 < rounds)%nat ->
  findSensorPair_loop rounds pins pin ch k
  = Some (first_with_pin pins pin (seqZ 0 ch)).
Proof.
  intros Hk Hr. destruct rounds as [|rounds]; [lia|].
  cbn [findSensorPair_loop].
  destruct (Z.eqb_spec k ch) as [|_]; [lia|].
  destruct (Z.geb_spec k (Z.of_nat (length pins))) as [_|]; [|lia].
  destruct (Z.eqb_spec 0 ch) as [<-|Hne]; [reflexivity|].
  rewrite seqZ_cons by lia. rewrite first_with_pin_cons.
  fold (pin_of pins 0).
  destruct (pin =? pin_of pins 0); [reflexivity|].
  rewrite (findSensorPair_loop_below (Z.to_nat (ch - 1))) by lia.
  do 3 f_equal. lia.
Qed.

(** The loop above [ch]: the sensors from [k] to the end of the array, then
    those from 0 up to [ch]. *)
Lemma findSensorPair_loop_above (n rounds : nat) (k : Z) :
  ch < k -> k + Z.of_nat n = Z.of_nat (length pins) ->
  (n + Z.to_nat ch + 1 < rounds)%nat ->
  findSensorPair_loop rounds pins pin ch k
  = Some (first_with_pin pins pin (seqZ k (Z.of_nat n) ++ seqZ 0 ch)).
Proof.
  revert rounds k. induction n as [|n IH]; intros rounds k Hk Hsum Hr.
  - rewrite findSensorPair_loop_wrap by lia. reflexivity.
  - destruct rounds as [|rounds]; [lia|]. cbn [findSensorPair_loop].
    destruct (Z.eqb_spec k ch) as [|_]; [lia|].
    destruct (Z.geb_spec k (Z.of_nat (length pins))) as [|_]; [lia|].
    rewrite seqZ_cons by lia. cbn [app]. rewrite first_with_pin_cons.
    fold (pin_of pins k).
    destruct (pin =? pin_of pins k); [reflexivity|].
    replace (Z.pred (Z.of_nat (Datatypes.S n))) with (Z.of_nat n) by lia.
    apply IH; lia.
Qed.

Lemma findSensorPair_loop_candidates (chStart : Z) :
  0 <= chStart ->
  findSensorPair_loop (Datatypes.S (Datatypes.S (length pins))) pins pin ch
    chStart
  = Some (first_with_pin pins pin
            (candidates (Z.of_nat (length pins)) ch chStart)).
Proof.
  intros Hs. unfold candidates.
  destruct (Z.eqb_spec chStart ch) as [->|Hne].
  { cbn [findSensorPair_loop]. rewrite Z.eqb_refl. reflexivity. }
  destruct (Z.geb_spec chStart (Z.of_nat (length pins))) as [Hge|Hlt].
  { apply findSensorPair_loop_wrap; lia. }
  destruct (Z.ltb_spec chStart ch) as [Hbelow|Habove].
  - rewrite (findSensorPair_loop_below (Z.to_nat (ch - chStart))) by lia.
    do 3 f_equal. lia.
  - rewrite (findSensorPair_loop_above
               (Z.to_nat (Z.of_nat (length pins) - chStart))) by lia.
    do 4 f_equal. lia.
Qed.

Lemma candidates_range (chStart k : Z) :
  0 <= chStart -> k ∈ candidates (Z.of_nat (length pins)) ch chStart ->
  0 <= k < Z.of_nat (length pins) /\ k <> ch.
Proof.
  intros Hs. unfold candidates.
  destruct (Z.eqb_spec chStart ch); [intros H; inversion H|].
  destruct (Z.geb_spec chStart (Z.of_nat (length pins)));
    [rewrite elem_of_seqZ; lia|].
  destruct (Z.ltb_spec chStart ch);
    [rewrite elem_of_seqZ; lia|].
  rewrite elem_of_app, !elem_of_seqZ. lia.
Qed.

Lemma candidates_next (k : Z) :
  0 <= k < Z.of_nat (length pins) -> k <> ch ->
  k ∈ candidates (Z.of_nat (length pins)) ch
        ((ch + 1) mod Z.of_nat (length pins)).
Proof.
  intros Hk Hne. unfold candidates.
  set (N := Z.of_nat (length pins)) in *.
  assert (Hmod : 0 <= (ch + 1) mod N < N) by (apply Z.mod_pos_bound; lia).
  destruct (Z.eq_dec (ch + 1) N) as [Hlast|Hno].
  - rewrite Hlast, Z_mod_same_full.
    destruct (Z.eqb_spec 0 ch); [lia|].
    destruct (Z.geb_spec 0 N); [lia|].
    destruct (Z.ltb_spec 0 ch); [|lia].
    rewrite elem_of_seqZ. lia.
  - rewrite Z.mod_small by lia.
    destruct (Z.eqb_spec (ch + 1) ch); [lia|].
    destruct (Z.geb_spec (ch + 1) N); [lia|].
    destruct (Z.ltb_spec (ch + 1) ch); [lia|].
    rewrite elem_of_app, !elem_of_seqZ. lia.
Qed.

End FindSensorPair.

(** X24.  [findSensorPair(ch, chStart)] comes to an end for every sensor [ch]
    of the array and returns the first sensor on the pin of [ch] among the
    sensors from [chStart] upwards, round the end of the array, up to [ch]
    (see [candidates]), or -1 when there is none: never [ch] itself.  Started
    behind [ch], as [printBar] does, it returns -1 exactly when no other
    sensor is on the pin of [ch]. *)
Theorem findSensorPair_nearest (pins : list Z) (ch chStart : Z) :
  0 <= ch < Z.of_nat (length pins) -> 0 <= chStart ->
  let N := Z.of_nat (length pins) in
  let r := first_with_pin pins (pin_of pins ch) (candidates N ch chStart) in
  findSensorPair pins ch chStart = Some r
  /\ r <> ch
  /\ (r = -1 \/ (0 <= r < N /\ pin_of pins r = pin_of pins ch))
  /\ (chStart = (ch + 1) mod N ->
      (r = -1 <->
       forall k, 0 <= k < N -> k <> ch -> pin_of pins k <> pin_of pins ch)).
Proof.
  intros Hch Hs N r.
  assert (Hpin : pins !! Z.to_nat ch = Some (pin_of pins ch)).
  { unfold pin_of. destruct (pins !! Z.to_nat ch) eqn:E; [reflexivity|].
    apply lookup_ge_None in E. lia. }
  pose proof (first_with_pin_cases pins (pin_of pins ch)
                (candidates N ch chStart)) as Hcases.
  fold r in Hcases.
  split; [|split; [|split]].
  - unfold findSensorPair.
    destruct (Z.ltb_spec ch 0); [lia|]. rewrite Hpin.
    apply findSensorPair_loop_candidates; assumption.
  - destruct Hcases as [[-> _]|[Hin _]]; [lia|].
    apply (candidates_range pins ch Hch chStart r Hs Hin).
  - destruct Hcases as [[-> _]|[Hin Hp]]; [left; reflexivity|].
    right. split; [|exact Hp].
    apply (candidates_range pins ch Hch chStart r Hs Hin).
  - intros ->. split.
    + intros Hr k Hk Hne.
      destruct Hcases as [[_ Hall]|[Hin _]].
      * apply Hall. apply candidates_next; assumption.
      * apply (candidates_range pins ch Hch) in Hin; [lia|].
        apply Z.mod_pos_bound. lia.
    + intros Hall. destruct Hcases as [[Hr _]|[Hin Hp]]; [exact Hr|].
      apply (candidates_range pins ch Hch) in Hin;
        [|apply Z.mod_pos_bound; lia].
      exfalso. apply (Hall r); tauto.
Qed.

Lemma findSensorPair_nearest_witness :
  findSensorPair [5; 7; 9; 7; 5] 3 4 = Some 1.
Proof.
  apply (findSensorPair_nearest [5; 7; 9; 7; 5] 3 4).
  - cbn. lia.
  - lia.
Defined.

(** *** The bar of [printBar] *)

Lemma length_printBar_fill (bound : Z) (c : ascii) (s : list ascii) :
  Z.of_nat (length (printBar_fill bound c s))
  = Z.of_nat (length s) + Z.max 0 (bound - (Z.of_nat (length s) - 1)).
Proof.
  unfold printBar_fill. cbv zeta.
  rewrite length_app, length_replicate. lia.
Qed.

(** X25.  For a [length] that [printBar] accepts, from 2 to 200, and bars no
    longer than the [length - 2] that it asks the sample methods for,
    [printBar] stores [length + 2] characters in [s], the first and the last
    of them ['|'], ahead of the final ['\0']: two more than [length].  The
    ['\0'] falls inside the 201 cells of [s] exactly when [length] is at
    most 198. *)
Theorem printBar_width (length nHashes nDashes : Z) :
  printBar_refuses length = false ->
  nHashes <= length - 2 -> nDashes <= length - 2 ->
  let s := printBar_draw length nHashes nDashes in
  Z.of_nat (Datatypes.length s) = length + 2
  /\ head s = Some "|"%char /\ last s = Some "|"%char
  /\ (Z.of_nat (Datatypes.length s) < 201 <-> length <= 198).
Proof.
  intros Hok HH HD s. unfold printBar_refuses in Hok.
  apply orb_false_elim in Hok as [H200 H2].
  assert (Hlen : 2 <= length <= 200) by lia. clear H200 H2.
  assert (Hw : Z.of_nat (Datatypes.length s) = length + 2
               /\ head s = Some "|"%char).
  { subst s. unfold printBar_draw. cbv zeta.
    set (s0 := ["|"%char]).
    assert (H0 : Z.of_nat (Datatypes.length s0) = 1 /\ head s0 = Some "|"%char)
      by (split; reflexivity).
    clearbody s0.
    set (s1 := if nHashes >? _ then _ else s0).
    assert (H1 : 1 <= Z.of_nat (Datatypes.length s1) <= length - 1
                 /\ head s1 = Some "|"%char).
    { unfold s1. destruct H0 as [L0 F0].
      destruct (Z.gtb_spec nHashes (Z.of_nat (Datatypes.length s0) - 1)).
      - rewrite length_app, Nat2Z.inj_add, length_printBar_fill.
        cbn [Datatypes.length]. split; [lia|].
        unfold printBar_fill. destruct s0; [discriminate F0|exact F0].
      - split; [lia|exact F0]. }
    clearbody s1.
    set (s2 := if nDashes >? _ then _ else s1).
    assert (H2 : 1 <= Z.of_nat (Datatypes.length s2) <= length - 1
                 /\ head s2 = Some "|"%char).
    { unfold s2. destruct H1 as [L1 F1].
      destruct (Z.gtb_spec nDashes (Z.of_nat (Datatypes.length s1) - 1)).
      - rewrite length_app, Nat2Z.inj_add, length_printBar_fill.
        cbn [Datatypes.length]. split; [lia|].
        unfold printBar_fill. destruct s1; [discriminate F1|exact F1].
      - split; [lia|exact F1]. }
    clearbody s2. destruct H2 as [L2 F2].
    destruct (Z.gtb_spec (length - 1) (Z.of_nat (Datatypes.length s2) - 1));
      [|lia].
    rewrite length_app, Nat2Z.inj_add, length_printBar_fill.
    cbn [Datatypes.length]. split; [lia|].
    unfold printBar_fill. destruct s2; [discriminate F2|exact F2]. }
  destruct Hw as [Hw Hfirst].
  split; [exact Hw|]. split; [exact Hfirst|]. split; [|lia].
  subst s. unfold printBar_draw. cbv zeta. apply last_snoc.
Qed.

Lemma printBar_width_witness :
  Z.of_nat (Datatypes.length (printBar_draw 200 3 6)) = 202
  /\ printBar_draw 10 3 6
     = ["|"; "="; "="; "#"; "-"; "-"; "*"; " "; " "; " "; " "; "|"]%char.
Proof.
  split; [|reflexivity].
  apply (printBar_width 200 3 6); [reflexivity|lia|lia].
Defined.
(** ** A schedule without a free slot *)

Lemma occurrences_none (x : Z) (l : list Z) (i : nat) :
  occurrences x l = O -> l !! i <> Some x.
Proof.
  intros H Hi. apply (count_occ_not_In Z.eq_dec) in H. apply H.
  apply list_elem_of_In. apply list_elem_of_lookup. exists i. exact Hi.
Qed.

(** X26.  On a schedule without a free slot, [addChannel] draws its random
    number, looks at every slot, stores nothing and ends with the error
    code -1, which it also returns: no slot of [scanOrder] and nothing else
    of the controller changes. *)
Theorem addChannel_full {RG : Random} (ch : Z) (g : generator) (c : TLSensors) :
  random_in_range RG ->
  0 < nSensors c * nMeasurementsPerSensor c <= 65535 ->
  occurrences 255 (schedule c) = O ->
  addChannel ch (g, c)
  = (snd (random 0 (nSensors c * nMeasurementsPerSensor c) g),
     set_error (-1) c).
Proof.
  intros Hrand HL Hfull. unfold addChannel.
  assert (Hu : to_u16 (nSensors c * nMeasurementsPerSensor c)
               = nSensors c * nMeasurementsPerSensor c)
    by (unfold to_u16; apply Z.mod_small; lia).
  unfold schedule in Hfull. rewrite Hu in *.
  set (L := nSensors c * nMeasurementsPerSensor c) in *.
  pose proof (Hrand 0 L g ltac:(lia)) as Hr.
  destruct (random 0 L g) as [r g']. cbn [fst snd] in *.
  assert (Hr0 : 0 <= r) by lia.
  assert (Hsum : 0 + Z.of_nat (Z.to_nat L) = L) by lia.
  destruct (addChannel_probe_spec r L ch (scanOrder c) Hr0 HL
              (Z.to_nat L) 0 (Z.le_refl 0) Hsum)
    as [(pos & Hpos & Hslot & _)|[_ ->]].
  { intros m Hm. lia. }
  - exfalso. apply (occurrences_none 255 _ pos Hfull).
    rewrite lookup_take_lt by exact Hpos. exact Hslot.
  - destruct c. reflexivity.
Qed.

Lemma addChannel_full_witness :
  snd (addChannel (H := lcg_random) 1 (7, scheduled_controller))
  = set_error (-1) scheduled_controller.
Proof.
  apply (f_equal snd
           (addChannel_full (RG := lcg_random) 1 7 scheduled_controller
              lcg_random_in_range ltac:(cbn; lia) eq_refl)).
Defined.
(** ** What [updateAvg] changes *)

Lemma without_filter_updateAvg_assign (d : TLStruct) :
  without_filter (updateAvg_assign d) = without_filter d.
Proof.
  unfold updateAvg_assign. cbv zeta.
  repeat match goal with
         | |- context [if ?b then _ else _] => destruct b
         end; reflexivity.
Qed.

Lemma counter_step (x : TLStruct) :
  uint32_range (counter x) ->
  let x' :=
    if counter x <? to_u32 (filterCoeff x - 1)
    then set_counter (to_u32 (counter x + 1)) x else x in
  counter x' = counter x
  \/ (counter x' = counter x + 1
      /\ counter x + 1 <= to_u32 (filterCoeff x - 1)).
Proof.
  unfold uint32_range. intros Hc. cbv zeta.
  destruct (Z.ltb_spec (counter x) (to_u32 (filterCoeff x - 1))) as [Hlt|Hge];
    [right|left; reflexivity].
  cbn [counter set_counter].
  assert (Hu : to_u32 (filterCoeff x - 1) < 4294967296)
    by (unfold to_u32; apply Z.mod_pos_bound; lia).
  split; [|lia].
  unfold to_u32 at 1. apply Z.mod_small. lia.
Qed.

Lemma counter_updateAvg_assign (d : TLStruct) :
  uint32_range (counter d) ->
  counter (updateAvg_assign d) = counter d
  \/ (counter (updateAvg_assign d) = counter d + 1
      /\ counter d + 1 <= to_u32 (filterCoeff d - 1)).
Proof.
  intros Hc. unfold updateAvg_assign. cbv zeta.
  match goal with
  | |- context [set_counter _ ?X] =>
      assert (HX : counter X = counter d /\ filterCoeff X = filterCoeff d)
        by (destruct (_ && _); [destruct (_ <? _)|]; split; reflexivity);
      pose proof (counter_step X) as Hstep;
      destruct HX as [HX1 HX2]
  end.
  cbv zeta in Hstep. rewrite HX1, HX2 in Hstep.
  rewrite HX1, HX2. apply Hstep. exact Hc.
Qed.

Lemma noise_updateAvg_assign (d : TLStruct) :
  enableNoisePowerMeasurement d = false
  \/ ButtonState_value (buttonState d) <= ButtonState_value buttonStateCalibrating ->
  noisePower (updateAvg_assign d) = noisePower d
  /\ noiseCounter (updateAvg_assign d) = noiseCounter d.
Proof.
  intros H. unfold updateAvg_assign. cbv zeta.
  assert (Hoff : enableNoisePowerMeasurement
                   (set_avg
                      (F32.div
                         (F32.add (F32.mul (F32.of_uint (counter d)) (avg d))
                            (value d))
                         (F32.of_uint (to_u32 (counter d + 1)))) d)
                 && (ButtonState_value
                       (buttonState
                          (set_avg
                             (F32.div
                                (F32.add
                                   (F32.mul (F32.of_uint (counter d)) (avg d))
                                   (value d))
                                (F32.of_uint (to_u32 (counter d + 1)))) d))
                     >? ButtonState_value buttonStateCalibrating) = false).
  { cbn [enableNoisePowerMeasurement buttonState set_avg].
    destruct H as [->|H]; [reflexivity|].
    destruct (Z.gtb_spec (ButtonState_value (buttonState d))
                (ButtonState_value buttonStateCalibrating)); [lia|].
    apply andb_false_r. }
  rewrite Hoff. destruct (_ <? _); split; reflexivity.
Qed.

(** X27.  [updateAvg] changes nothing but the four members of the filter of
    sensor [ch]: its average, noise power and two counters.  It changes
    nothing at all while the average is held (see [average_held]); it leaves
    the noise power and its counter alone unless the noise measurement is on
    and the sensor is past [buttonStateCalibrating]; and [counter] stays or
    goes up by one, never beyond [filterCoeff - 1]. *)
Theorem updateAvg_frame (c : TLSensors) (ch : Z) (d : TLStruct) :
  sensor c ch = Some d -> uint32_range (counter d) ->
  let c' := updateAvg ch c in
  (exists d',
      sensor c' ch = Some d'
      /\ without_filter d' = without_filter d
      /\ (average_held c d -> d' = d)
      /\ (enableNoisePowerMeasurement d = false
          \/ ButtonState_value (buttonState d)
             <= ButtonState_value buttonStateCalibrating ->
          noisePower d' = noisePower d /\ noiseCounter d' = noiseCounter d)
      /\ (counter d' = counter d
          \/ (counter d' = counter d + 1
              /\ counter d + 1 <= to_u32 (filterCoeff d - 1))))
  /\ (forall m, m <> ch -> sensor c' m = sensor c m)
  /\ without_data c' = without_data c.
Proof.
  intros Hd Hc c'. subst c'. split; [|split].
  - unfold updateAvg. rewrite Hd.
    set (past := ButtonState_value (buttonState d)
                 >=? ButtonState_value buttonStateReleased).
    assert (Hkeep : exists d',
               sensor c ch = Some d'
               /\ without_filter d' = without_filter d
               /\ (average_held c d -> d' = d)
               /\ (enableNoisePowerMeasurement d = false
                   \/ ButtonState_value (buttonState d)
                      <= ButtonState_value buttonStateCalibrating ->
                   noisePower d' = noisePower d
                   /\ noiseCounter d' = noiseCounter d)
               /\ (counter d' = counter d
                   \/ (counter d' = counter d + 1
                       /\ counter d + 1 <= to_u32 (filterCoeff d - 1)))).
    { exists d. split; [exact Hd|]. split; [reflexivity|].
      split; [reflexivity|]. split; [split; reflexivity|left; reflexivity]. }
    destruct (negb (forcedCal d) && past
              && (disableUpdateIfAnyButtonIsApproached d
                  && anyButtonIsApproached c)) eqn:HA; [exact Hkeep|].
    destruct (negb (forcedCal d) && past
              && (disableUpdateIfAnyButtonIsPressed d
                  && anyButtonIsPressed c)) eqn:HP; [exact Hkeep|].
    exists (updateAvg_assign d).
    split; [rewrite sensor_update_sensor_eq, Hd; reflexivity|].
    split; [apply without_filter_updateAvg_assign|].
    split; [|split;
             [apply noise_updateAvg_assign
             |apply counter_updateAvg_assign; exact Hc]].
    intros (Hf & Hpast & Hheld). exfalso.
    assert (Hp : past = true) by (unfold past; lia).
    rewrite Hf, Hp in HA, HP. cbn [negb andb] in HA, HP.
    destruct Hheld as [[H1 H2]|[H1 H2]].
    + rewrite H1, H2 in HA. discriminate HA.
    + rewrite H1, H2 in HP. discriminate HP.
  - intros m Hm. apply sensor_updateAvg_ne. exact Hm.
  - unfold updateAvg. destruct (sensor c ch); [|reflexivity].
    split_ifs; try reflexivity.
    unfold update_sensor. destruct (ch <? 0); reflexivity.
Qed.

Lemma updateAvg_frame_witness :
  updateAvg 0 holding_controller = holding_controller.
Proof.
  destruct (updateAvg_frame holding_controller 0 holding_sensor)
    as ((d' & Hd' & _ & Hheld & _) & _ & _).
  - reflexivity.
  - unfold uint32_range. cbn. lia.
  - reflexivity.
Defined.
(** ** The labels of the states *)

Lemma label_left_refl (d : TLStruct) : label_left d d.
Proof. split; [reflexivity|left; reflexivity]. Qed.

Lemma label_left_trans (d1 d2 d3 : TLStruct) :
  label_left d1 d2 -> label_left d2 d3 -> label_left d1 d3.
Proof.
  intros [L12 S12] [L23 S23]. split; [congruence|].
  destruct S23 as [S23|S23]; [|right; exact S23].
  destruct S12 as [S12|S12]; [left|right]; congruence.
Qed.

Lemma others_same (ch : Z) (R : TLStruct -> TLStruct -> Prop) (c c' : TLSensors) :
  (forall d, R d d) -> (forall m, m <> ch -> sensor c' m = sensor c m) ->
  others ch R c c'.
Proof.
  intros HR H m Hm. rewrite (H m Hm).
  destruct (sensor c m); constructor. apply HR.
Qed.

Lemma others_trans (ch : Z) (R : TLStruct -> TLStruct -> Prop)
  (c1 c2 c3 : TLSensors) :
  (forall d1 d2 d3, R d1 d2 -> R d2 d3 -> R d1 d3) ->
  others ch R c1 c2 -> others ch R c2 c3 -> others ch R c1 c3.
Proof.
  intros HR H12 H23 m Hm. specialize (H12 m Hm). specialize (H23 m Hm).
  destruct H12 as [d1 d2 R12|]; inversion H23; subst; constructor.
  eapply HR; eassumption.
Qed.

Lemma label_left_fan_out_record (ch mask m : Z) (d : TLStruct) :
  label_left d (fan_out_record ch mask m d).
Proof.
  unfold fan_out_record, forced_PreCalibrating.
  destruct (mask_selects mask m); [|apply label_left_refl].
  destruct (m =? ch); [split; [reflexivity|left; reflexivity]|].
  destruct (_ || _); [split; [reflexivity|left; reflexivity]|].
  split; [reflexivity|right; reflexivity].
Qed.

Lemma others_setState (ch : Z) (s : ButtonState) (c : TLSensors) :
  others ch label_left c (setState ch s c).
Proof.
  destruct (setState_cases ch s c) as [->|(d & Hd & Hg & Hs)].
  { apply others_same; [exact label_left_refl|reflexivity]. }
  destruct (setState_performed ch s c d Hd Hg Hs) as (_ & Hother & _).
  intros m Hm. cbv zeta in Hother. rewrite (Hother m Hm).
  destruct (nonzero _); [|destruct (sensor c m); constructor;
                           apply label_left_refl].
  destruct (sensor c m); constructor. apply label_left_fan_out_record.
Qed.

Lemma others_updateAvg (ch : Z) (c : TLSensors) :
  others ch label_left c (updateAvg ch c).
Proof.
  apply others_same; [exact label_left_refl|].
  intros m Hm. apply sensor_updateAvg_ne. exact Hm.
Qed.

Lemma others_update_sensor (ch : Z) (f : TLStruct -> TLStruct) (c : TLSensors) :
  others ch label_left c (update_sensor ch f c).
Proof.
  apply others_same; [exact label_left_refl|].
  intros m Hm. apply sensor_update_sensor_ne. exact Hm.
Qed.

Lemma others_processSample_switch (s : ButtonState) (ch : Z) (c : TLSensors) :
  others ch label_left c (processSample_switch s ch c).
Proof.
  assert (Hsame : others ch label_left c c)
    by (apply others_same; [exact label_left_refl|reflexivity]).
  assert (Hcal : others ch label_left c (processStateCalibrating ch c)).
  { unfold processStateCalibrating. destruct (sensor c ch); [|exact Hsame].
    destruct (_ || _); [apply others_updateAvg|].
    eapply others_trans;
      [exact label_left_trans|apply others_setState
      |apply others_update_sensor]. }
  destruct s; cbn [processSample_switch]; try exact Hcal;
    unfold processStatePreCalibrating, processStateNoisePowerMeasurement,
      processStateReleased, processStateReleasedToApproached,
      processStateApproached, processStateApproachedToPressed,
      processStateApproachedToReleased, processStatePressed,
      processStatePressedToApproached;
    (destruct (sensor c ch); [|exact Hsame]);
    repeat match goal with
           | |- others _ _ _ (if ?b then _ else _) => destruct b
           end;
    first [exact Hsame|apply others_setState|apply others_updateAvg].
Qed.

Lemma others_processSample (ch : Z) (c : TLSensors) :
  others ch label_left c (processSample ch c).
Proof.
  unfold processSample. cbv zeta.
  set (c1 := update_sensor ch processSample_delta c).
  assert (H1 : others ch label_left c c1) by apply others_update_sensor.
  destruct (sensor c1 ch); [|exact H1].
  eapply others_trans; [exact label_left_trans|exact H1|].
  eapply others_trans;
    [exact label_left_trans|apply others_processSample_switch
    |apply others_update_sensor].
Qed.

Lemma processSample_label_current (ch : Z) (c : TLSensors) (d' : TLStruct) :
  sensor (processSample ch c) ch = Some d' -> label_current d'.
Proof.
  unfold processSample. cbv zeta.
  set (c1 := update_sensor ch processSample_delta c).
  destruct (sensor c1 ch) as [d1|] eqn:H1.
  - rewrite sensor_update_sensor_eq.
    destruct (sensor (processSample_switch _ ch c1) ch) as [d2|];
      [|discriminate].
    intros [= <-]. reflexivity.
  - rewrite H1. discriminate.
Qed.

Lemma label_left_keeps (d d' : TLStruct) :
  label_left d d' ->
  label_current d \/ buttonState d = buttonStatePreCalibrating ->
  label_current d' \/ buttonState d' = buttonStatePreCalibrating.
Proof.
  unfold label_current. intros [HL [HS|HS]] H; [|right; exact HS].
  rewrite HL, HS. exact H.
Qed.

Lemma same_label_refl (d : TLStruct) : same_label d d.
Proof. split; reflexivity. Qed.

Lemma same_label_trans (d1 d2 d3 : TLStruct) :
  same_label d1 d2 -> same_label d2 d3 -> same_label d1 d3.
Proof. unfold same_label. intros [] []. split; congruence. Qed.

Lemma same_label_keeps (d d' : TLStruct) :
  same_label d d' ->
  label_current d \/ buttonState d = buttonStatePreCalibrating ->
  label_current d' \/ buttonState d' = buttonStatePreCalibrating.
Proof.
  unfold label_current. intros [HS HL]. rewrite HL, HS. tauto.
Qed.

Section Labels.

Context {SM : SampleMethods}.
Hypothesis hooks_same_label : hooks_related same_label.

(** The loop of [sample] over the sensors: the sensors it has been through
    have the label of their state, or have been sent to
    [buttonStatePreCalibrating] since. *)
Lemma labels_process_loop (now : Z) (c : TLSensors) (k : nat) :
  forall m d', 0 <= m < Z.of_nat k ->
    sensor
      (for_upto k
         (fun ch c =>
            let c := call_hook (sampleMethodPostSample ch) c in
            let c := update_sensor ch (set_lastSampledAtTime now) c in
            processSample ch c) c) m = Some d' ->
    label_current d' \/ buttonState d' = buttonStatePreCalibrating.
Proof.
  induction k as [|k IH]; intros m d' Hm; [lia|].
  cbn [for_upto]. cbv zeta.
  set (ck := for_upto k _ c) in *.
  set (c1 := call_hook (sampleMethodPostSample (Z.of_nat k)) ck).
  set (c2 := update_sensor (Z.of_nat k) (set_lastSampledAtTime now) c1).
  intros Hd'.
  destruct (Z.eq_dec m (Z.of_nat k)) as [->|Hne].
  { left. apply (processSample_label_current _ _ _ Hd'). }
  pose proof (others_processSample (Z.of_nat k) c2 m Hne) as H2.
  rewrite Hd' in H2. inversion H2 as [d2 ? Hleft Hd2|]; subst.
  symmetry in Hd2. unfold c2 in Hd2.
  rewrite sensor_update_sensor_ne in Hd2 by exact Hne.
  assert (HR : sensors_related same_label (data ck) (data c1)).
  { apply call_hook_related; [exact same_label_refl|].
    intros f ds n Hf. destruct hooks_same_label as (_ & _ & Hpost).
    apply (Hpost (Z.of_nat k)). exact Hf. }
  destruct (related_lookup_r _ _ _ _ _ HR Hd2) as (dk & Hdk & Hsame).
  apply (label_left_keeps d2 d' Hleft).
  apply (same_label_keeps dk d2 Hsame).
  apply (IH m dk); [lia|exact Hdk].
Qed.

Lemma labels_sample (now : Z) (c : TLSensors) (m : Z) (d' : TLStruct) :
  0 <= m < nSensors c -> sensor (snd (sample now c)) m = Some d' ->
  label_current d' \/ buttonState d' = buttonStatePreCalibrating.
Proof.
  unfold sample. cbv zeta. cbn [snd].
  set (c1 := for_loop (nSensors c) _ c).
  assert (H1 : settings c1 = settings c).
  { unfold c1. apply for_loop_invariant; [reflexivity|].
    intros i s _ Hs. rewrite settings_update_sensor. exact Hs. }
  set (c2 := for_loop (nSensors c1) _ c1).
  assert (H2 : settings c2 = settings c).
  { unfold c2. apply for_loop_invariant; [exact H1|].
    intros i s _ Hs. rewrite <- Hs. unfold call_hook.
    destruct (sampleMethodPreSample i); reflexivity. }
  set (c3 := for_loop (to_u16 _) _ c2).
  assert (H3 : settings c3 = settings c).
  { unfold c3. apply for_loop_invariant; [exact H2|].
    intros i s _ Hs. destruct (scanOrder s !! Z.to_nat i); [|exact Hs].
    rewrite <- Hs.
    apply (Inv_sample_slot (fun c' => settings c' = settings s)
             (fun _ _ => True)); try (intros; exact I); try reflexivity.
    - intros n f c0 _ H. rewrite settings_update_sensor. exact H.
    - intros ch f inv c0 _ H. exact H. }
  rewrite (settings_nSensors _ _ H3).
  set (c4 := for_loop (nSensors c) _ c3).
  intros Hm.
  set (c5 := set_anyButtonIsPressed false (set_anyButtonIsApproached false c4)).
  assert (HR : sensors_related same_label (data c4)
                 (data (for_loop (nSensors c5) sample_summaries c5))).
  { apply (for_loop_invariant
             (fun s => sensors_related same_label (data c4) (data s))).
    - apply related_refl. exact same_label_refl.
    - intros i s _ Hs.
      eapply related_trans; [exact same_label_trans|exact Hs|].
      apply sample_summaries_related;
        [exact same_label_refl|exact same_label_trans|..];
        intros; split; reflexivity. }
  intros Hd'.
  destruct (related_lookup_r _ _ _ _ _ HR Hd') as (d4 & Hd4 & Hsame).
  apply (same_label_keeps d4 d' Hsame).
  apply (labels_process_loop now c3 (Z.to_nat (nSensors c)) m d4);
    [lia|exact Hd4].
Qed.

End Labels.

Lemma plain_method_same_label : hooks_related (H := plain_method) same_label.
Proof.
  unfold hooks_related. cbn. split; [|split].
  - intros ch f ds n H. discriminate H.
  - intros ch f ds n inv [= <-]. cbn.
    apply Forall2_same_length_lookup_2; [reflexivity|].
    intros i x y Hx Hy. rewrite Hx in Hy. injection Hy as <-.
    split; reflexivity.
  - intros ch f ds n [= <-].
    apply Forall2_alter_r.
    + apply Forall2_same_length_lookup_2; [reflexivity|].
      intros i x y Hx Hy. rewrite Hx in Hy. injection Hy as <-.
      split; reflexivity.
    + intros x y _ _ H. exact H.
Qed.

(** X28.  After a measurement cycle whose sample method leaves the states and
    the labels alone, each of the first [nSensors] sensors carries the label
    of its state, unless it is in [buttonStatePreCalibrating]: a sensor that
    a later sensor of the same cycle sends to recalibrate keeps the label
    that it had.  [processSample] itself leaves its sensor under the label
    of its state, and every other sensor under the label that it had. *)
Theorem sample_labels {SM : SampleMethods} (now : Z) (c : TLSensors) :
  hooks_related same_label ->
  (forall m d', 0 <= m < nSensors c -> sensor (snd (sample now c)) m = Some d' ->
                label_current d' \/ buttonState d' = buttonStatePreCalibrating)
  /\ (forall ch c0 d', sensor (processSample ch c0) ch = Some d' ->
                       label_current d')
  /\ (forall ch c0 m d, m <> ch -> sensor c0 m = Some d ->
        exists d', sensor (processSample ch c0) m = Some d'
                   /\ buttonStateLabel d' = buttonStateLabel d).
Proof.
  intros Hhooks. split; [|split].
  - intros m d'. apply labels_sample. exact Hhooks.
  - apply processSample_label_current.
  - intros ch c0 m d Hm Hd.
    pose proof (others_processSample ch c0 m Hm) as H.
    rewrite Hd in H. inversion H as [d0 d' Hleft Hd0 Hd'|]; subst.
    exists d'. split; [reflexivity|exact (proj1 Hleft)].
Qed.

Lemma sample_labels_witness :
  exists d',
    sensor (snd (sample (H := plain_method) 100 neighbour_controller)) 0
    = Some d'
    /\ buttonState d' = buttonStatePreCalibrating
    /\ buttonStateLabel d' = "Released"%string
    /\ (label_current d' \/ buttonState d' = buttonStatePreCalibrating).
Proof.
  destruct (sample_labels (SM := plain_method) 100 neighbour_controller
              plain_method_same_label) as (H & _ & _).
  eexists. split; [vm_compute; reflexivity|].
  split; [reflexivity|]. split; [reflexivity|].
  apply (H 0); [cbn; lia|vm_compute; reflexivity].
Defined.
(** ** A sample method that cannot be initialised *)

Lemma initialize_failure {SM : SampleMethods} (n : Z) (c : TLSensors) :
  (fst (sampleMethod (data c) (nSensors c) n) <> 0 \/ error c = -1) ->
  error (snd (initialize n c)) = -1.
Proof.
  unfold initialize.
  destruct (sampleMethod (data c) (nSensors c) n) as [ret ds]. cbn [fst].
  unfold nonzero. destruct (Z.eqb_spec ret 0) as [->|Hne]; cbn [negb snd].
  - intros [H|H]; [contradiction|].
    rewrite (settings_error _ _ (setState_settings n _ (set_data ds c))).
    exact H.
  - intros _. reflexivity.
Qed.

Lemma setDefaults_failure {RG : Random} {SM : SampleMethods} (ch0 : Z)
  (g : generator) (c : TLSensors) :
  (forall ds n, fst (sampleMethod ds n ch0) <> 0) ->
  0 <= ch0 < nSensors c ->
  error (snd (snd (setDefaults (g, c)))) = -1.
Proof.
  intros Hfail Hch. unfold setDefaults.
  change (nSensors (set_error 0 c)) with (nSensors c).
  destruct (Z.ltb_spec (nSensors c) 1) as [|_]; [lia|].
  cbn [error set_error set_anyButtonIsPressed set_anyButtonIsApproached Z.eqb].
  change (negb (useCustomScanOrder
                  (set_useCustomScanOrder TL_USE_CUSTOM_SCAN_ORDER_DEFAULT
                     (set_anyButtonIsPressed false
                        (set_anyButtonIsApproached false (set_error 0 c))))))
    with true. cbv iota.
  set (c2 := set_useCustomScanOrder _ _).
  assert (D2 : dimensions c2 = dimensions c) by reflexivity.
  assert (E2 : error_0_or_minus_1 c2) by (left; reflexivity).
  pose proof (initScanOrder_error (g, c2) E2) as E3.
  pose proof (initScanOrder_dimensions (g, c2)) as D3.
  destruct (initScanOrder (g, c2)) as [g3 c3]. cbn [snd] in *.
  destruct (Z.eqb_spec (error c3) 0) as [Herr|Herr].
  2:{ rewrite (proj2 (Z.eqb_neq _ _) Herr). cbn [snd].
      destruct E3; [contradiction|assumption]. }
  set (c4 := set_buttonStateChangeCallback false _).
  assert (E4 : error c4 = 0) by exact Herr.
  assert (N4 : nSensors c4 = nSensors c).
  { change (nSensors c4) with (nSensors c3).
    unfold dimensions in D3, D2. congruence. }
  rewrite E4. cbn [Z.eqb snd]. rewrite N4. unfold for_loop.
  clearbody c4.
  assert (Hloop : forall k,
             (Z.of_nat k <= ch0 \/
              error
                (for_upto k
                   (fun n c =>
                      update_sensor n setDefaults_sensor (snd (initialize n c)))
                   c4) = -1)).
  { induction k as [|k IH]; [left; lia|].
    destruct (Z.le_gt_cases (Z.of_nat (Datatypes.S k)) ch0) as [Hle|Hgt];
      [left; exact Hle|right].
    cbn [for_upto].
    rewrite (settings_error _ _ (settings_update_sensor _ _ _)).
    apply initialize_failure.
    destruct IH as [Hk|Hk]; [left|right; exact Hk].
    replace (Z.of_nat k) with ch0 by lia. apply Hfail. }
  destruct (Hloop (Z.to_nat (nSensors c))) as [H|H]; [lia|exact H].
Qed.

(** X29.  When the initialisation of the sample method fails for one of the
    sensors, whatever the array holds, the constructor ends with the error
    code -1, and what it leaves depends neither on the clock nor on the
    EEPROM: the stored settings are not read. *)
Theorem TLSensors_construct_method_failure {RG : Random} {SM : SampleMethods}
  (ch0 M now : Z) (e : EEPROM) (g : generator) (memory : TLSensors) :
  (forall ds n, fst (sampleMethod ds n ch0) <> 0) ->
  0 <= ch0 < N_SENSORS memory ->
  error (snd (TLSensors_construct M now e (g, memory))) = -1
  /\ forall now' e',
       TLSensors_construct M now' e' (g, memory)
       = TLSensors_construct M now e (g, memory).
Proof.
  intros Hfail Hch.
  assert (H : exists st,
             error (snd st) = -1
             /\ forall now1 e1, TLSensors_construct M now1 e1 (g, memory) = st).
  2:{ destruct H as (st & Herr & Hall). split.
      - rewrite Hall. exact Herr.
      - intros now' e'. rewrite !Hall. reflexivity. }
  unfold TLSensors_construct.
  change (N_SENSORS (set_error 0 memory)) with (N_SENSORS memory).
  destruct (Z.ltb_spec (N_SENSORS memory) 1) as [|_]; [lia|].
  cbn [error set_error set_nSensors Z.eqb andb].
  destruct (M >=? 1).
  2:{ exists (g, set_error (-1)
                   (set_nSensors (N_SENSORS memory) (set_error 0 memory))).
      split; [reflexivity|intros now1 e1; reflexivity]. }
  set (c2 := set_nMeasurementsPerSensor M _).
  assert (D2 : dimensions c2 = (N_SENSORS memory, M)) by reflexivity.
  assert (E2 : error_0_or_minus_1 c2) by (left; reflexivity).
  change (error c2 =? 0) with true. cbv iota.
  pose proof (initScanOrder_error (g, c2) E2) as E3.
  pose proof (initScanOrder_dimensions (g, c2)) as D3.
  destruct (initScanOrder (g, c2)) as [g3 c3]. cbn [snd] in *.
  destruct (Z.eqb_spec (error c3) 0) as [Herr|Herr].
  - assert (N3 : 0 <= ch0 < nSensors c3).
    { unfold dimensions in D3, D2. replace (nSensors c3) with (N_SENSORS memory)
        by congruence. exact Hch. }
    pose proof (setDefaults_failure ch0 g3 c3 Hfail N3) as E4.
    destruct (setDefaults (g3, c3)) as [r4 [g4 c4]]. cbn [snd] in *.
    exists (g4, c4). split; [exact E4|].
    intros now1 e1. rewrite E4. change (-1 =? 0) with false. cbv iota.
    rewrite E4. reflexivity.
  - exists (g3, c3). split; [destruct E3; [contradiction|assumption]|].
    intros now1 e1. rewrite !(proj2 (Z.eqb_neq _ _) Herr). reflexivity.
Qed.

Lemma TLSensors_construct_method_failure_witness :
  error
    (snd (TLSensors_construct (H := lcg_random) (H0 := failing_method) 2 0
            erased_eeprom
            (1, example_controller [example_sensor; example_sensor])))
  = -1.
Proof.
  apply (TLSensors_construct_method_failure (RG := lcg_random)
           (SM := failing_method) 1 2 0 erased_eeprom 1
           (example_controller [example_sensor; example_sensor])).
  - intros ds n. cbn. discriminate.
  - vm_compute. split; [discriminate|reflexivity].
Defined.
